(** * The virtio-mem hot(un)plug state machine of drivers/virtio/virtio_mem.c

    A shallow embedding of the driver's block-state table, subblock bitmap,
    plug/unplug engine, memory notifier and retry worker, followed by the
    properties of the specification that are stated about them.

    Conventions of the embedding.
    - [uint64_t] and [unsigned long] values are integers in [Z]; every
      arithmetic operation of the source on them is followed by [u64],
      the reduction modulo [2^64].  [unsigned int] uses [u32], and a cast
      to [int] uses [to_int].  [int] locals that range over subblock
      indexes and counts are plain integers.
    - The driver's calls into the rest of the kernel (mem-buf, memory
      hotplug, page allocator, ...) are [call]s.  Every call is appended to
      the [trace] of the [world] and answered by the world's environment
      [env], a function of the calls made so far and of the call.
    - The kernel calls the driver back before add_memory_driver_managed()
      and offline_and_remove_memory() return: the memory notifier and the
      online_page callback of the driver run inside these two calls, for
      the actions and ranges that the environment names.
    - A function of the source becomes a computation in the monad [M]:
      it returns a value and a new world, stops in [Bug] where the source
      runs into [BUG_ON]/[BUG], and yields [Fuel] when the iteration bound
      handed to a loop of the model is used up. *)

From Stdlib Require Import ZArith List Bool Lia Morphisms.
From stdpp Require Import base list gmap sorting.
Import ListNotations.
Local Open Scope Z_scope.

(** ** Machine integers *)

Definition U64 : Z := 2 ^ 64.
Definition u64 (x : Z) : Z := x mod U64.
Definition u32 (x : Z) : Z := x mod 2 ^ 32.
(** A cast to [int]: the low 32 bits, read in two's complement. *)
Definition to_int (x : Z) : Z := (x + 2 ^ 31) mod 2 ^ 32 - 2 ^ 31.
(** [IS_ALIGNED(x, a)] of include/linux/align.h, for a power of two [a]. *)
Definition IS_ALIGNED (x a : Z) : bool := Z.land x (a - 1) =? 0.

(** ** Error numbers and notifier results

    The values of include/uapi/asm-generic/errno-base.h, errno.h and
    include/linux/notifier.h. *)

Definition EAGAIN : Z := 11.
Definition ENOMEM : Z := 12.
Definition EBUSY : Z := 16.
Definition EINVAL : Z := 22.
Definition ETXTBSY : Z := 26.
Definition ENOSPC : Z := 28.
Definition MAX_ERRNO : Z := 4095.

Definition NOTIFY_DONE : Z := 0.
Definition NOTIFY_OK : Z := 1.
Definition NOTIFY_STOP_MASK : Z := 32768.
Definition NOTIFY_BAD : Z := Z.lor NOTIFY_STOP_MASK 2.

Definition notifier_from_errno (err : Z) : Z :=
  if err =? 0 then NOTIFY_OK else Z.lor NOTIFY_STOP_MASK (NOTIFY_OK - err).

(** [IS_ERR(ptr)]: the pointer lies in the last [MAX_ERRNO] addresses; as a
    signed integer, in [-MAX_ERRNO, -1]. *)
Definition IS_ERR (p : Z) : bool := (- MAX_ERRNO <=? p) && (p <? 0).

(** [xa_is_err(entry)] of include/linux/xarray.h: the entry is an internal
    one, its two low bits are [10], and it lies in the last addresses, from
    [xa_mk_internal(-MAX_ERRNO)] on, which is [(-MAX_ERRNO << 2) | 2]. *)
Definition xa_is_err (entry : Z) : bool :=
  (Z.land entry 3 =? 2)
  && (Z.lor (Z.shiftl (- MAX_ERRNO) 2) 2 <=? entry) && (entry <? 0).

(** ** Platform constants and module parameters

    Values that the source takes from the kernel configuration, from the
    absent header qti_virtio_mem.h and from its module parameters.  They
    are parameters of the model: the theorems hold for every platform. *)

Record platform : Type := Platform {
  PAGE_SHIFT : Z;
  memory_block_size_bytes : Z;
  PAGES_PER_SECTION : Z;
  MAX_ORDER : Z;
  pageblock_nr_pages : Z;
  sizeof_struct_page : Z;
  VIRTIO_MEM_RETRY_TIMER_MIN_MS : Z;
  VIRTIO_MEM_RETRY_TIMER_MAX_MS : Z;
  unplug_online : bool          (* module_param(unplug_online, bool, 0644) *)
}.

Definition PAGE_SIZE (pf : platform) : Z := 2 ^ PAGE_SHIFT pf.
Definition PFN_UP (pf : platform) (x : Z) : Z :=
  Z.shiftr (u64 (x + PAGE_SIZE pf - 1)) (PAGE_SHIFT pf).
Definition PFN_DOWN (pf : platform) (x : Z) : Z := Z.shiftr x (PAGE_SHIFT pf).
Definition PFN_PHYS (pf : platform) (x : Z) : Z := u64 (Z.shiftl x (PAGE_SHIFT pf)).

(** ** Block states

    Modelled from the spec: the two state enumerations are declared in the
    absent header qti_virtio_mem.h.  The constructors are the states of
    section 4.2 of the specification under the names the source uses; their
    numbering is the one the source relies on: [UNUSED] is the value of
    zero-filled memory, and every [_PARTIAL] state directly follows its
    fully plugged state ([old_state - 1] in virtio_mem_sbm_plug_any_sb). *)

Inductive sbm_mb_state : Type :=
| VIRTIO_MEM_SBM_MB_UNUSED
| VIRTIO_MEM_SBM_MB_PLUGGED
| VIRTIO_MEM_SBM_MB_OFFLINE
| VIRTIO_MEM_SBM_MB_OFFLINE_PARTIAL
| VIRTIO_MEM_SBM_MB_KERNEL
| VIRTIO_MEM_SBM_MB_KERNEL_PARTIAL
| VIRTIO_MEM_SBM_MB_MOVABLE
| VIRTIO_MEM_SBM_MB_MOVABLE_PARTIAL.

Inductive bbm_bb_state : Type :=
| VIRTIO_MEM_BBM_BB_UNUSED
| VIRTIO_MEM_BBM_BB_PLUGGED
| VIRTIO_MEM_BBM_BB_ADDED
| VIRTIO_MEM_BBM_BB_FAKE_OFFLINE.

#[global] Instance sbm_mb_state_eq_dec : EqDecision sbm_mb_state.
Proof. solve_decision. Defined.
#[global] Instance bbm_bb_state_eq_dec : EqDecision bbm_bb_state.
Proof. solve_decision. Defined.

Definition sbm_all_states : list sbm_mb_state :=
  [ VIRTIO_MEM_SBM_MB_UNUSED; VIRTIO_MEM_SBM_MB_PLUGGED;
    VIRTIO_MEM_SBM_MB_OFFLINE; VIRTIO_MEM_SBM_MB_OFFLINE_PARTIAL;
    VIRTIO_MEM_SBM_MB_KERNEL; VIRTIO_MEM_SBM_MB_KERNEL_PARTIAL;
    VIRTIO_MEM_SBM_MB_MOVABLE; VIRTIO_MEM_SBM_MB_MOVABLE_PARTIAL ].

Definition bbm_all_states : list bbm_bb_state :=
  [ VIRTIO_MEM_BBM_BB_UNUSED; VIRTIO_MEM_BBM_BB_PLUGGED;
    VIRTIO_MEM_BBM_BB_ADDED; VIRTIO_MEM_BBM_BB_FAKE_OFFLINE ].

(** [old_state - 1]: the state numbered one below. *)
Definition sbm_state_pred (s : sbm_mb_state) : option sbm_mb_state :=
  match s with
  | VIRTIO_MEM_SBM_MB_UNUSED => None
  | VIRTIO_MEM_SBM_MB_PLUGGED => Some VIRTIO_MEM_SBM_MB_UNUSED
  | VIRTIO_MEM_SBM_MB_OFFLINE => Some VIRTIO_MEM_SBM_MB_PLUGGED
  | VIRTIO_MEM_SBM_MB_OFFLINE_PARTIAL => Some VIRTIO_MEM_SBM_MB_OFFLINE
  | VIRTIO_MEM_SBM_MB_KERNEL => Some VIRTIO_MEM_SBM_MB_OFFLINE_PARTIAL
  | VIRTIO_MEM_SBM_MB_KERNEL_PARTIAL => Some VIRTIO_MEM_SBM_MB_KERNEL
  | VIRTIO_MEM_SBM_MB_MOVABLE => Some VIRTIO_MEM_SBM_MB_KERNEL_PARTIAL
  | VIRTIO_MEM_SBM_MB_MOVABLE_PARTIAL => Some VIRTIO_MEM_SBM_MB_MOVABLE
  end.

(** ** The device

    Modelled from the spec: [struct virtio_mem] is declared in the absent
    header qti_virtio_mem.h.  The records hold the attributes of the Device
    of section 3 of the specification, under the names by which the source
    reads and writes them.  A pointer to an array is the list of the
    array's elements, and the empty list is the [NULL] pointer. *)

Record sbm_t : Type := Sbm {
  first_mb_id : Z;
  next_mb_id : Z;
  last_usable_mb_id : Z;
  sb_size : Z;
  sbs_per_mb : Z;
  have_unplugged_mb : bool;
  mb_count : sbm_mb_state -> Z;
  mb_states : list sbm_mb_state;      (* uint8_t *mb_states *)
  sb_states : list bool               (* unsigned long *sb_states, bit by bit *)
}.

Record bbm_t : Type := Bbm {
  first_bb_id : Z;
  next_bb_id : Z;
  last_usable_bb_id : Z;
  bb_size : Z;
  bb_count : bbm_bb_state -> Z;
  bb_states : list bbm_bb_state
}.

Record virtio_mem : Type := VirtioMem {
  addr : Z;
  region_size : Z;
  device_block_size : Z;
  in_sbm : bool;
  memmap_on_memory : bool;
  requested_size : Z;
  plugged_size : Z;
  offline_size : Z;                   (* atomic64_t *)
  offline_threshold : Z;
  hotplug_active : bool;
  removing : bool;
  unplug_all_required : bool;
  broken : bool;
  in_kdump : bool;
  config_changed : bool;              (* atomic_t, 0 or 1 *)
  wq_active : bool;                   (* atomic_t, 0 or 1 *)
  wq_pending : bool;                  (* vm->wq is queued on the workqueue *)
  retry_timer : option Z;             (* vm->retry_timer is armed, for ms *)
  retry_timer_ms : Z;
  resource_name : bool;               (* the pointer is not NULL *)
  sbm : sbm_t;
  bbm : bbm_t
}.

(** Field updates. *)

Definition sbm_with_next_mb_id (x : Z) (s : sbm_t) : sbm_t :=
  Sbm (first_mb_id s) x (last_usable_mb_id s) (sb_size s) (sbs_per_mb s)
      (have_unplugged_mb s) (mb_count s) (mb_states s) (sb_states s).
Definition sbm_with_last_usable_mb_id (x : Z) (s : sbm_t) : sbm_t :=
  Sbm (first_mb_id s) (next_mb_id s) x (sb_size s) (sbs_per_mb s)
      (have_unplugged_mb s) (mb_count s) (mb_states s) (sb_states s).
Definition sbm_with_have_unplugged_mb (x : bool) (s : sbm_t) : sbm_t :=
  Sbm (first_mb_id s) (next_mb_id s) (last_usable_mb_id s) (sb_size s)
      (sbs_per_mb s) x (mb_count s) (mb_states s) (sb_states s).
Definition sbm_with_mb_count (x : sbm_mb_state -> Z) (s : sbm_t) : sbm_t :=
  Sbm (first_mb_id s) (next_mb_id s) (last_usable_mb_id s) (sb_size s)
      (sbs_per_mb s) (have_unplugged_mb s) x (mb_states s) (sb_states s).
Definition sbm_with_mb_states (x : list sbm_mb_state) (s : sbm_t) : sbm_t :=
  Sbm (first_mb_id s) (next_mb_id s) (last_usable_mb_id s) (sb_size s)
      (sbs_per_mb s) (have_unplugged_mb s) (mb_count s) x (sb_states s).
Definition sbm_with_sb_states (x : list bool) (s : sbm_t) : sbm_t :=
  Sbm (first_mb_id s) (next_mb_id s) (last_usable_mb_id s) (sb_size s)
      (sbs_per_mb s) (have_unplugged_mb s) (mb_count s) (mb_states s) x.

Definition bbm_with_next_bb_id (x : Z) (b : bbm_t) : bbm_t :=
  Bbm (first_bb_id b) x (last_usable_bb_id b) (bb_size b) (bb_count b)
      (bb_states b).
Definition bbm_with_last_usable_bb_id (x : Z) (b : bbm_t) : bbm_t :=
  Bbm (first_bb_id b) (next_bb_id b) x (bb_size b) (bb_count b) (bb_states b).
Definition bbm_with_bb_count (x : bbm_bb_state -> Z) (b : bbm_t) : bbm_t :=
  Bbm (first_bb_id b) (next_bb_id b) (last_usable_bb_id b) (bb_size b) x
      (bb_states b).
Definition bbm_with_bb_states (x : list bbm_bb_state) (b : bbm_t) : bbm_t :=
  Bbm (first_bb_id b) (next_bb_id b) (last_usable_bb_id b) (bb_size b)
      (bb_count b) x.

Definition with_plugged_size (x : Z) (v : virtio_mem) : virtio_mem :=
  VirtioMem (addr v) (region_size v) (device_block_size v) (in_sbm v)
    (memmap_on_memory v) (requested_size v) x (offline_size v)
    (offline_threshold v) (hotplug_active v) (removing v)
    (unplug_all_required v) (broken v) (in_kdump v) (config_changed v)
    (wq_active v) (wq_pending v) (retry_timer v) (retry_timer_ms v)
    (resource_name v) (sbm v) (bbm v).
Definition with_offline_size (x : Z) (v : virtio_mem) : virtio_mem :=
  VirtioMem (addr v) (region_size v) (device_block_size v) (in_sbm v)
    (memmap_on_memory v) (requested_size v) (plugged_size v) x
    (offline_threshold v) (hotplug_active v) (removing v)
    (unplug_all_required v) (broken v) (in_kdump v) (config_changed v)
    (wq_active v) (wq_pending v) (retry_timer v) (retry_timer_ms v)
    (resource_name v) (sbm v) (bbm v).
Definition with_hotplug_active (x : bool) (v : virtio_mem) : virtio_mem :=
  VirtioMem (addr v) (region_size v) (device_block_size v) (in_sbm v)
    (memmap_on_memory v) (requested_size v) (plugged_size v) (offline_size v)
    (offline_threshold v) x (removing v)
    (unplug_all_required v) (broken v) (in_kdump v) (config_changed v)
    (wq_active v) (wq_pending v) (retry_timer v) (retry_timer_ms v)
    (resource_name v) (sbm v) (bbm v).
Definition with_broken (x : bool) (v : virtio_mem) : virtio_mem :=
  VirtioMem (addr v) (region_size v) (device_block_size v) (in_sbm v)
    (memmap_on_memory v) (requested_size v) (plugged_size v) (offline_size v)
    (offline_threshold v) (hotplug_active v) (removing v)
    (unplug_all_required v) x (in_kdump v) (config_changed v)
    (wq_active v) (wq_pending v) (retry_timer v) (retry_timer_ms v)
    (resource_name v) (sbm v) (bbm v).
Definition with_config_changed (x : bool) (v : virtio_mem) : virtio_mem :=
  VirtioMem (addr v) (region_size v) (device_block_size v) (in_sbm v)
    (memmap_on_memory v) (requested_size v) (plugged_size v) (offline_size v)
    (offline_threshold v) (hotplug_active v) (removing v)
    (unplug_all_required v) (broken v) (in_kdump v) x
    (wq_active v) (wq_pending v) (retry_timer v) (retry_timer_ms v)
    (resource_name v) (sbm v) (bbm v).
Definition with_wq_active (x : bool) (v : virtio_mem) : virtio_mem :=
  VirtioMem (addr v) (region_size v) (device_block_size v) (in_sbm v)
    (memmap_on_memory v) (requested_size v) (plugged_size v) (offline_size v)
    (offline_threshold v) (hotplug_active v) (removing v)
    (unplug_all_required v) (broken v) (in_kdump v) (config_changed v)
    x (wq_pending v) (retry_timer v) (retry_timer_ms v)
    (resource_name v) (sbm v) (bbm v).
Definition with_wq_pending (x : bool) (v : virtio_mem) : virtio_mem :=
  VirtioMem (addr v) (region_size v) (device_block_size v) (in_sbm v)
    (memmap_on_memory v) (requested_size v) (plugged_size v) (offline_size v)
    (offline_threshold v) (hotplug_active v) (removing v)
    (unplug_all_required v) (broken v) (in_kdump v) (config_changed v)
    (wq_active v) x (retry_timer v) (retry_timer_ms v)
    (resource_name v) (sbm v) (bbm v).
Definition with_retry_timer (x : option Z) (v : virtio_mem) : virtio_mem :=
  VirtioMem (addr v) (region_size v) (device_block_size v) (in_sbm v)
    (memmap_on_memory v) (requested_size v) (plugged_size v) (offline_size v)
    (offline_threshold v) (hotplug_active v) (removing v)
    (unplug_all_required v) (broken v) (in_kdump v) (config_changed v)
    (wq_active v) (wq_pending v) x (retry_timer_ms v)
    (resource_name v) (sbm v) (bbm v).
Definition with_retry_timer_ms (x : Z) (v : virtio_mem) : virtio_mem :=
  VirtioMem (addr v) (region_size v) (device_block_size v) (in_sbm v)
    (memmap_on_memory v) (requested_size v) (plugged_size v) (offline_size v)
    (offline_threshold v) (hotplug_active v) (removing v)
    (unplug_all_required v) (broken v) (in_kdump v) (config_changed v)
    (wq_active v) (wq_pending v) (retry_timer v) x
    (resource_name v) (sbm v) (bbm v).
Definition with_resource_name (x : bool) (v : virtio_mem) : virtio_mem :=
  VirtioMem (addr v) (region_size v) (device_block_size v) (in_sbm v)
    (memmap_on_memory v) (requested_size v) (plugged_size v) (offline_size v)
    (offline_threshold v) (hotplug_active v) (removing v)
    (unplug_all_required v) (broken v) (in_kdump v) (config_changed v)
    (wq_active v) (wq_pending v) (retry_timer v) (retry_timer_ms v)
    x (sbm v) (bbm v).
Definition with_requested_size (x : Z) (v : virtio_mem) : virtio_mem :=
  VirtioMem (addr v) (region_size v) (device_block_size v) (in_sbm v)
    (memmap_on_memory v) x (plugged_size v) (offline_size v)
    (offline_threshold v) (hotplug_active v) (removing v)
    (unplug_all_required v) (broken v) (in_kdump v) (config_changed v)
    (wq_active v) (wq_pending v) (retry_timer v) (retry_timer_ms v)
    (resource_name v) (sbm v) (bbm v).
Definition with_sbm (x : sbm_t) (v : virtio_mem) : virtio_mem :=
  VirtioMem (addr v) (region_size v) (device_block_size v) (in_sbm v)
    (memmap_on_memory v) (requested_size v) (plugged_size v) (offline_size v)
    (offline_threshold v) (hotplug_active v) (removing v)
    (unplug_all_required v) (broken v) (in_kdump v) (config_changed v)
    (wq_active v) (wq_pending v) (retry_timer v) (retry_timer_ms v)
    (resource_name v) x (bbm v).
Definition with_bbm (x : bbm_t) (v : virtio_mem) : virtio_mem :=
  VirtioMem (addr v) (region_size v) (device_block_size v) (in_sbm v)
    (memmap_on_memory v) (requested_size v) (plugged_size v) (offline_size v)
    (offline_threshold v) (hotplug_active v) (removing v)
    (unplug_all_required v) (broken v) (in_kdump v) (config_changed v)
    (wq_active v) (wq_pending v) (retry_timer v) (retry_timer_ms v)
    (resource_name v) (sbm v) x.

(** ** The rest of the kernel

    The functions that the driver calls and does not define.  The answer
    of the environment to a call is the value the function returns (a
    pointer is an integer, [0] for [NULL]; a predicate answers [0] for
    false).  [irq_config_changed] is not a function of the kernel: it is
    the point, right before the driver reads [vm->config_changed], at which
    the environment may have run virtio_mem_config_changed().  Nor are the
    three [hotplug_callback]s: they are the point inside
    add_memory_driver_managed() and offline_and_remove_memory() at which
    the kernel calls the driver back, see [kernel_callbacks]. *)

Inductive call : Type :=
| mem_buf_alloc (ipa_base size : Z)
| mem_buf_free (membuf : Z)
| kzalloc_gh_sgl
| xa_store (index entry : Z)
| vzalloc (size : Z)
| kstrdup_const
| add_memory_driver_managed (start size : Z) (memmap_on_mem : bool)
| remove_memory (start size : Z)
| offline_and_remove_memory (start size : Z)
| alloc_contig_range (start_pfn end_pfn : Z)
| free_contig_range (pfn nr_pages : Z)
| generic_online_page (pfn order : Z)
| adjust_managed_page_count (pfn count : Z)
| pfn_to_online_page (pfn : Z)
| is_zone_movable_page (pfn : Z)
| page_ref_dec_and_test (pfn : Z)
| page_ref_inc (pfn : Z)
| ClearPageReserved (pfn nr_pages : Z)
| mhp_get_pluggable_range_end
| cond_resched
| irq_config_changed
| hotplug_callback (rc : Z)
| hotplug_callback_pfn
| hotplug_callback_arg.

(** A page flag over all pfns: the updates of ranges [(value, pfn,
    nr_pages)], the latest first; a page no update has touched has the flag
    clear. *)
Definition page_flag := list (bool * Z * Z).

Definition in_range (lo n p : Z) : bool := (lo <=? p) && (p <? lo + n).

Fixpoint page_flag_get (f : page_flag) (pfn : Z) : bool :=
  match f with
  | [] => false
  | (v, lo, n) :: f' => if in_range lo n pfn then v else page_flag_get f' pfn
  end.

Record world : Type := World {
  vm : virtio_mem;
  xa_membuf : gmap Z Z;               (* static DEFINE_XARRAY(xa_membuf) *)
  PageOffline : page_flag;            (* PG_offline of the page of a pfn *)
  PageDirty : page_flag;              (* PG_dirty of the page of a pfn *)
  trace : list call;                  (* the calls made, the latest first *)
  env : list call -> call -> Z;
  plat : platform
}.

Definition with_vm (x : virtio_mem) (w : world) : world :=
  World x (xa_membuf w) (PageOffline w) (PageDirty w) (trace w) (env w) (plat w).
Definition with_xa_membuf (x : gmap Z Z) (w : world) : world :=
  World (vm w) x (PageOffline w) (PageDirty w) (trace w) (env w) (plat w).
Definition with_PageOffline (x : page_flag) (w : world) : world :=
  World (vm w) (xa_membuf w) x (PageDirty w) (trace w) (env w) (plat w).
Definition with_PageDirty (x : page_flag) (w : world) : world :=
  World (vm w) (xa_membuf w) (PageOffline w) x (trace w) (env w) (plat w).
Definition with_trace (x : list call) (w : world) : world :=
  World (vm w) (xa_membuf w) (PageOffline w) (PageDirty w) x (env w) (plat w).

(** ** The monad of driver code *)

Inductive result (A : Type) : Type :=
| Ok (a : A) (w : world)
| Bug                                 (* BUG_ON() or BUG() fired *)
| Fault                               (* an access outside of an array *)
| Fuel.                               (* the iteration bound is used up *)
Arguments Ok {A} a w.
Arguments Bug {A}.
Arguments Fault {A}.
Arguments Fuel {A}.

Definition M (A : Type) : Type := world -> result A.

Definition ret {A} (a : A) : M A := fun w => Ok a w.
Definition bind {A B} (m : M A) (k : A -> M B) : M B :=
  fun w => match m w with
           | Ok a w' => k a w'
           | Bug => Bug
           | Fault => Fault
           | Fuel => Fuel
           end.
Definition bug {A} : M A := fun _ => Bug.
Definition fault {A} : M A := fun _ => Fault.
Definition out_of_fuel {A} : M A := fun _ => Fuel.

Declare Scope drv_scope.
Delimit Scope drv_scope with drv.
Notation "x <- m ;; k" := (bind m (fun x => k))
  (at level 100, m at next level, k at level 200, right associativity)
  : drv_scope.
Notation "m ;; k" := (bind m (fun _ => k))
  (at level 100, k at level 200, right associativity) : drv_scope.
Local Open Scope drv_scope.

Definition get_world : M world := fun w => Ok w w.
Definition get_vm : M virtio_mem := fun w => Ok (vm w) w.
Definition modify_vm (f : virtio_mem -> virtio_mem) : M unit :=
  fun w => Ok tt (with_vm (f (vm w)) w).
Definition modify_sbm (f : sbm_t -> sbm_t) : M unit :=
  modify_vm (fun v => with_sbm (f (sbm v)) v).
Definition modify_bbm (f : bbm_t -> bbm_t) : M unit :=
  modify_vm (fun v => with_bbm (f (bbm v)) v).
Definition get_plat : M platform := fun w => Ok (plat w) w.
Definition modify_xa_membuf (f : gmap Z Z -> gmap Z Z) : M unit :=
  fun w => Ok tt (with_xa_membuf (f (xa_membuf w)) w).
Definition modify_PageOffline (f : page_flag -> page_flag) : M unit :=
  fun w => Ok tt (with_PageOffline (f (PageOffline w)) w).
Definition modify_PageDirty (f : page_flag -> page_flag) : M unit :=
  fun w => Ok tt (with_PageDirty (f (PageDirty w)) w).

(** A call into the kernel: recorded, and answered by the environment. *)
Definition extcall (c : call) : M Z :=
  fun w => Ok (env w (trace w) c) (with_trace (c :: trace w) w).

(** Loops.  The body of a loop maps the loop's variables either to their
    values for the next iteration or to the result with which the loop is
    left. *)
Inductive step (A R : Type) : Type :=
| Next (a : A)
| Stop (r : R).
Arguments Next {A R} a.
Arguments Stop {A R} r.

Fixpoint iterate {A R} (fuel : nat) (body : A -> M (step A R)) (a : A) : M R :=
  match fuel with
  | O => out_of_fuel
  | S fuel' =>
      s <- body a ;;
      match s with
      | Next a' => iterate fuel' body a'
      | Stop r => ret r
      end
  end.

(** [when c m]: [if (c) m;]. *)
Definition when (c : bool) (m : M unit) : M unit := if c then m else ret tt.

(** [if (rc)] on an integer. *)
Definition nz (rc : Z) : bool := negb (rc =? 0).

(** A pure partial operation, undefined where the source would leave its
    arrays. *)
Definition lift_access {A} (o : option A) : M A :=
  match o with
  | Some a => ret a
  | None => fault
  end.

(** ** Bitmaps (include/linux/bitmap.h, find.h, bitops.h) over a list of bits *)

Definition bitmap_fill (v : bool) (map : list bool) (start len : Z)
  : option (list bool) :=
  if len <=? 0 then Some map
  else if (0 <=? start) && (start + len <=? Z.of_nat (length map)) then
    Some (take (Z.to_nat start) map ++ replicate (Z.to_nat len) v
            ++ drop (Z.to_nat (start + len)) map)
  else None.

Definition test_bit (nr : Z) (map : list bool) : option bool :=
  if nr <? 0 then None else map !! Z.to_nat nr.

Fixpoint find_next_from (v : bool) (map : list bool) (n : nat) (i size : Z)
  : option Z :=
  match n with
  | O => Some size
  | S n' =>
      match map !! Z.to_nat i with
      | None => None
      | Some b => if Bool.eqb b v then Some i
                  else find_next_from v map n' (i + 1) size
      end
  end.

Definition find_next (v : bool) (map : list bool) (size offset : Z) : option Z :=
  if (offset <? 0) || (size <? 0) then None
  else if size <=? offset then Some size
  else find_next_from v map (Z.to_nat (size - offset)) offset size.

Definition find_next_zero_bit := find_next false.
Definition find_next_bit := find_next true.

(** ** Unit translator *)

Definition virtio_mem_phys_to_mb_id (pf : platform) (addr : Z) : Z :=
  addr / memory_block_size_bytes pf.

Definition virtio_mem_mb_id_to_phys (pf : platform) (mb_id : Z) : Z :=
  u64 (mb_id * memory_block_size_bytes pf).

Definition virtio_mem_sb_id_to_phys (pf : platform) (v : virtio_mem)
    (mb_id sb_id : Z) : Z :=
  let sb_id := if memmap_on_memory v then sb_id + 1 else sb_id in
  u64 (mb_id * memory_block_size_bytes pf + sb_id * sb_size (sbm v)).

(** The division by [bb_size] is a trap when [bb_size] is zero: the
    functions that call virtio_mem_phys_to_bb_id fault there. *)
Definition virtio_mem_phys_to_bb_id (v : virtio_mem) (addr : Z) : Z :=
  addr / bb_size (bbm v).

Definition virtio_mem_bb_id_to_phys (v : virtio_mem) (bb_id : Z) : Z :=
  u64 (bb_id * bb_size (bbm v)).

Definition virtio_mem_phys_to_sb_id (pf : platform) (v : virtio_mem)
    (addr : Z) : Z :=
  let mb_id := virtio_mem_phys_to_mb_id pf addr in
  let mb_addr := virtio_mem_mb_id_to_phys pf mb_id in
  let sb_id := u64 (addr - mb_addr) / sb_size (sbm v) in
  if memmap_on_memory v then u64 (sb_id - 1) else sb_id.

(** ** Block-state table *)

(** [count[s]--] and [count[s]++] on an array of [unsigned long]. *)
Definition count_dec {S} `{EqDecision S} (s : S) (c : S -> Z) : S -> Z :=
  fun t => if decide (t = s) then u64 (c t - 1) else c t.
Definition count_inc {S} `{EqDecision S} (s : S) (c : S -> Z) : S -> Z :=
  fun t => if decide (t = s) then u64 (c t + 1) else c t.

(** The arrays of counters, one counter to the state: a function of the
    state that is given by its values. *)
Definition sbm_table (f : sbm_mb_state -> Z) : sbm_mb_state -> Z :=
  let c0 := f VIRTIO_MEM_SBM_MB_UNUSED in
  let c1 := f VIRTIO_MEM_SBM_MB_PLUGGED in
  let c2 := f VIRTIO_MEM_SBM_MB_OFFLINE in
  let c3 := f VIRTIO_MEM_SBM_MB_OFFLINE_PARTIAL in
  let c4 := f VIRTIO_MEM_SBM_MB_KERNEL in
  let c5 := f VIRTIO_MEM_SBM_MB_KERNEL_PARTIAL in
  let c6 := f VIRTIO_MEM_SBM_MB_MOVABLE in
  let c7 := f VIRTIO_MEM_SBM_MB_MOVABLE_PARTIAL in
  fun s =>
    match s with
    | VIRTIO_MEM_SBM_MB_UNUSED => c0
    | VIRTIO_MEM_SBM_MB_PLUGGED => c1
    | VIRTIO_MEM_SBM_MB_OFFLINE => c2
    | VIRTIO_MEM_SBM_MB_OFFLINE_PARTIAL => c3
    | VIRTIO_MEM_SBM_MB_KERNEL => c4
    | VIRTIO_MEM_SBM_MB_KERNEL_PARTIAL => c5
    | VIRTIO_MEM_SBM_MB_MOVABLE => c6
    | VIRTIO_MEM_SBM_MB_MOVABLE_PARTIAL => c7
    end.

Definition bbm_table (f : bbm_bb_state -> Z) : bbm_bb_state -> Z :=
  let c0 := f VIRTIO_MEM_BBM_BB_UNUSED in
  let c1 := f VIRTIO_MEM_BBM_BB_PLUGGED in
  let c2 := f VIRTIO_MEM_BBM_BB_ADDED in
  let c3 := f VIRTIO_MEM_BBM_BB_FAKE_OFFLINE in
  fun s =>
    match s with
    | VIRTIO_MEM_BBM_BB_UNUSED => c0
    | VIRTIO_MEM_BBM_BB_PLUGGED => c1
    | VIRTIO_MEM_BBM_BB_ADDED => c2
    | VIRTIO_MEM_BBM_BB_FAKE_OFFLINE => c3
    end.

Definition virtio_mem_bbm_set_bb_state (bb_id : Z) (state : bbm_bb_state)
  : M unit :=
  v <- get_vm ;;
  let idx := Z.to_nat (u64 (bb_id - first_bb_id (bbm v))) in
  old_state <- lift_access (bb_states (bbm v) !! idx) ;;
  modify_bbm (fun b => bbm_with_bb_states (<[idx := state]> (bb_states b)) b) ;;
  if bb_count (bbm v) old_state =? 0 then bug
  else
    modify_bbm (fun b => bbm_with_bb_count
                           (bbm_table (count_dec old_state (bb_count b))) b) ;;
    modify_bbm (fun b => bbm_with_bb_count
                           (bbm_table (count_inc state (bb_count b))) b).

Definition virtio_mem_bbm_get_bb_state (bb_id : Z) : M bbm_bb_state :=
  v <- get_vm ;;
  lift_access
    (bb_states (bbm v) !! Z.to_nat (u64 (bb_id - first_bb_id (bbm v)))).

(** The state arrays grow by whole pages: [vzalloc] of the new size, a
    [memcpy] of the old pages when there is an old array. *)
Definition grow_array {A} (zero : A) (old : list A) (old_len new_len : Z)
  : option (list A) :=
  match old with
  | [] => Some (replicate (Z.to_nat new_len) zero)
  | _ =>
      if Z.of_nat (length old) <? old_len then None
      else Some (take (Z.to_nat old_len) old
                   ++ replicate (Z.to_nat (new_len - old_len)) zero)
  end.

Definition is_null {A} (p : list A) : bool :=
  match p with [] => true | _ => false end.

Definition virtio_mem_bbm_bb_states_prepare_next_bb : M Z :=
  v <- get_vm ;;
  pf <- get_plat ;;
  let old_bytes := u64 (next_bb_id (bbm v) - first_bb_id (bbm v)) in
  let new_bytes := u64 (old_bytes + 1) in
  let old_pages := to_int (PFN_UP pf old_bytes) in
  let new_pages := to_int (PFN_UP pf new_bytes) in
  if negb (is_null (bb_states (bbm v))) && (old_pages =? new_pages) then ret 0
  else
    new_array <- extcall (vzalloc (u64 (new_pages * PAGE_SIZE pf))) ;;
    if new_array =? 0 then ret (- ENOMEM)
    else
      arr <- lift_access
               (grow_array VIRTIO_MEM_BBM_BB_UNUSED (bb_states (bbm v))
                  (old_pages * PAGE_SIZE pf) (new_pages * PAGE_SIZE pf)) ;;
      modify_bbm (bbm_with_bb_states arr) ;;
      ret 0.

Definition virtio_mem_sbm_set_mb_state (mb_id : Z) (state : sbm_mb_state)
  : M unit :=
  v <- get_vm ;;
  let idx := Z.to_nat (u64 (mb_id - first_mb_id (sbm v))) in
  old_state <- lift_access (mb_states (sbm v) !! idx) ;;
  modify_sbm (fun s => sbm_with_mb_states (<[idx := state]> (mb_states s)) s) ;;
  if mb_count (sbm v) old_state =? 0 then bug
  else
    modify_sbm (fun s => sbm_with_mb_count
                           (sbm_table (count_dec old_state (mb_count s))) s) ;;
    modify_sbm (fun s => sbm_with_mb_count
                           (sbm_table (count_inc state (mb_count s))) s).

Definition virtio_mem_sbm_get_mb_state (mb_id : Z) : M sbm_mb_state :=
  v <- get_vm ;;
  lift_access
    (mb_states (sbm v) !! Z.to_nat (u64 (mb_id - first_mb_id (sbm v)))).

Definition virtio_mem_sbm_mb_states_prepare_next_mb : M Z :=
  v <- get_vm ;;
  pf <- get_plat ;;
  let nb := u64 (next_mb_id (sbm v) - first_mb_id (sbm v)) in
  let old_pages := to_int (PFN_UP pf nb) in
  let new_pages := to_int (PFN_UP pf (u64 (nb + 1))) in
  if negb (is_null (mb_states (sbm v))) && (old_pages =? new_pages) then ret 0
  else
    new_array <- extcall (vzalloc (u64 (new_pages * PAGE_SIZE pf))) ;;
    if new_array =? 0 then ret (- ENOMEM)
    else
      arr <- lift_access
               (grow_array VIRTIO_MEM_SBM_MB_UNUSED (mb_states (sbm v))
                  (old_pages * PAGE_SIZE pf) (new_pages * PAGE_SIZE pf)) ;;
      modify_sbm (sbm_with_mb_states arr) ;;
      ret 0.

(** The two iteration macros.  [body] is the statement under the macro; it
    maps the variables it assigns to their new values ([Next]) or leaves
    the enclosing function ([Stop]).  The macro itself ends in [Next] when
    its condition fails. *)
Definition virtio_mem_sbm_for_each_mb {A R} (fuel : nat)
    (state : sbm_mb_state) (body : Z -> A -> M (step A R)) (a : A)
  : M (step A R) :=
  v <- get_vm ;;
  iterate fuel
    (fun '(mb_id, a) =>
       v <- get_vm ;;
       if (mb_id <? next_mb_id (sbm v)) && nz (mb_count (sbm v) state) then
         st <- virtio_mem_sbm_get_mb_state mb_id ;;
         if decide (st = state) then
           s <- body mb_id a ;;
           match s with
           | Next a' => ret (Next (u64 (mb_id + 1), a'))
           | Stop r => ret (Stop (Stop r))
           end
         else ret (Next (u64 (mb_id + 1), a))
       else ret (Stop (Next a)))
    (first_mb_id (sbm v), a).

Definition virtio_mem_sbm_for_each_mb_rev {A R} (fuel : nat)
    (state : sbm_mb_state) (body : Z -> A -> M (step A R)) (a : A)
  : M (step A R) :=
  v <- get_vm ;;
  iterate fuel
    (fun '(mb_id, a) =>
       v <- get_vm ;;
       if (first_mb_id (sbm v) <=? mb_id) && nz (mb_count (sbm v) state) then
         st <- virtio_mem_sbm_get_mb_state mb_id ;;
         if decide (st = state) then
           s <- body mb_id a ;;
           match s with
           | Next a' => ret (Next (u64 (mb_id - 1), a'))
           | Stop r => ret (Stop (Stop r))
           end
         else ret (Next (u64 (mb_id - 1), a))
       else ret (Stop (Next a)))
    (u64 (next_mb_id (sbm v) - 1), a).

Definition virtio_mem_bbm_for_each_bb {A R} (fuel : nat)
    (state : bbm_bb_state) (body : Z -> A -> M (step A R)) (a : A)
  : M (step A R) :=
  v <- get_vm ;;
  iterate fuel
    (fun '(bb_id, a) =>
       v <- get_vm ;;
       if (bb_id <? next_bb_id (bbm v)) && nz (bb_count (bbm v) state) then
         st <- virtio_mem_bbm_get_bb_state bb_id ;;
         if decide (st = state) then
           s <- body bb_id a ;;
           match s with
           | Next a' => ret (Next (u64 (bb_id + 1), a'))
           | Stop r => ret (Stop (Stop r))
           end
         else ret (Next (u64 (bb_id + 1), a))
       else ret (Stop (Next a)))
    (first_bb_id (bbm v), a).

Definition virtio_mem_bbm_for_each_bb_rev {A R} (fuel : nat)
    (state : bbm_bb_state) (body : Z -> A -> M (step A R)) (a : A)
  : M (step A R) :=
  v <- get_vm ;;
  iterate fuel
    (fun '(bb_id, a) =>
       v <- get_vm ;;
       if (first_bb_id (bbm v) <=? bb_id) && nz (bb_count (bbm v) state) then
         st <- virtio_mem_bbm_get_bb_state bb_id ;;
         if decide (st = state) then
           s <- body bb_id a ;;
           match s with
           | Next a' => ret (Next (u64 (bb_id - 1), a'))
           | Stop r => ret (Stop (Stop r))
           end
         else ret (Next (u64 (bb_id - 1), a))
       else ret (Stop (Next a)))
    (u64 (next_bb_id (bbm v) - 1), a).

(** ** Subblock bitmap *)

Definition virtio_mem_sbm_sb_state_bit_nr (v : virtio_mem) (mb_id sb_id : Z)
  : Z :=
  to_int (u64 (u64 (mb_id - first_mb_id (sbm v)) * sbs_per_mb (sbm v) + sb_id)).

Definition virtio_mem_sbm_set_sb_plugged (mb_id sb_id count : Z) : M unit :=
  v <- get_vm ;;
  let bit := virtio_mem_sbm_sb_state_bit_nr v mb_id sb_id in
  map <- lift_access (bitmap_fill true (sb_states (sbm v)) bit count) ;;
  modify_sbm (sbm_with_sb_states map).

Definition virtio_mem_sbm_set_sb_unplugged (mb_id sb_id count : Z) : M unit :=
  v <- get_vm ;;
  let bit := virtio_mem_sbm_sb_state_bit_nr v mb_id sb_id in
  map <- lift_access (bitmap_fill false (sb_states (sbm v)) bit count) ;;
  modify_sbm (sbm_with_sb_states map).

Definition virtio_mem_sbm_test_sb_plugged (mb_id sb_id count : Z) : M bool :=
  v <- get_vm ;;
  let bit := virtio_mem_sbm_sb_state_bit_nr v mb_id sb_id in
  if count =? 1 then lift_access (test_bit bit (sb_states (sbm v)))
  else
    z <- lift_access (find_next_zero_bit (sb_states (sbm v)) (bit + count) bit) ;;
    ret (bit + count <=? z).

Definition virtio_mem_sbm_test_sb_unplugged (mb_id sb_id count : Z) : M bool :=
  v <- get_vm ;;
  let bit := virtio_mem_sbm_sb_state_bit_nr v mb_id sb_id in
  z <- lift_access (find_next_bit (sb_states (sbm v)) (bit + count) bit) ;;
  ret (bit + count <=? z).

Definition virtio_mem_sbm_first_unplugged_sb (mb_id : Z) : M Z :=
  v <- get_vm ;;
  let bit := virtio_mem_sbm_sb_state_bit_nr v mb_id 0 in
  z <- lift_access
         (find_next_zero_bit (sb_states (sbm v)) (bit + sbs_per_mb (sbm v)) bit) ;;
  ret (z - bit).

(** [BITS_TO_LONGS(nr) * sizeof(long)]. *)
Definition BITS_TO_LONGS (nr : Z) : Z := u64 (nr + 64 - 1) / 64.

Definition virtio_mem_sbm_sb_states_prepare_next_mb : M Z :=
  v <- get_vm ;;
  pf <- get_plat ;;
  let old_nb_mb := u64 (next_mb_id (sbm v) - first_mb_id (sbm v)) in
  let old_nb_bits := u64 (old_nb_mb * sbs_per_mb (sbm v)) in
  let new_nb_bits := u64 (u64 (old_nb_mb + 1) * sbs_per_mb (sbm v)) in
  let old_pages := to_int (PFN_UP pf (u64 (BITS_TO_LONGS old_nb_bits * 8))) in
  let new_pages := to_int (PFN_UP pf (u64 (BITS_TO_LONGS new_nb_bits * 8))) in
  if negb (is_null (sb_states (sbm v))) && (old_pages =? new_pages) then ret 0
  else
    new_bitmap <- extcall (vzalloc (u64 (new_pages * PAGE_SIZE pf))) ;;
    if new_bitmap =? 0 then ret (- ENOMEM)
    else
      map <- lift_access
               (grow_array false (sb_states (sbm v))
                  (old_pages * PAGE_SIZE pf * 8) (new_pages * PAGE_SIZE pf * 8)) ;;
      modify_sbm (sbm_with_sb_states map) ;;
      ret 0.

(** ** Host requests (mem-buf) *)

(** [ALIGN(x, a)] for a power of two [a]. *)
Definition ALIGN (x a : Z) : Z := Z.land (u64 (x + a - 1)) (Z.lnot (a - 1)).

Definition virtio_mem_memory_block_vmemmap_size (pf : platform) : Z :=
  let vmemmap_size := u64 (PAGES_PER_SECTION pf * sizeof_struct_page pf) in
  let nr_pages := PFN_UP pf vmemmap_size in
  u64 (ALIGN nr_pages (pageblock_nr_pages pf) * PAGE_SIZE pf).

Definition virtio_mem_convert_error_code (rc : Z) : Z :=
  if (rc =? - ENOSPC) || (rc =? - ETXTBSY) || (rc =? - EBUSY) || (rc =? - EAGAIN)
  then rc
  else - ENOMEM.

(** [xa_store(&xa_membuf, index, entry, GFP_KERNEL)] returns the entry that
    was at the index, [NULL] when there was none, and stores the new one;
    when it has no memory for the store it returns an error entry and
    stores nothing.  The source does not look at what it returns, and it
    never erases an entry: a handle stays in [xa_membuf] until another one
    is stored at its address.  Storing [NULL] erases the entry. *)
Definition xa_store_membuf (index entry : Z) : M unit :=
  r <- extcall (xa_store index entry) ;;
  if xa_is_err r then ret tt
  else
    modify_xa_membuf
      (fun xa => if entry =? 0 then delete index xa else <[index := entry]> xa).

Definition xa_load_membuf (index : Z) : M Z :=
  fun w => Ok (default 0 (xa_membuf w !! index)) w.

Definition virtio_mem_send_unplug_request (fuel : nat) (addr size : Z)
    (memmap : bool) : M Z :=
  v <- get_vm ;;
  let block_size := device_block_size v in
  let saved_size := size in
  found <- iterate fuel
    (fun '(addr, size) =>
       if size =? 0 then ret (Stop true)
       else
         membuf <- xa_load_membuf addr ;;
         if membuf =? 0 then ret (Stop false)
         else
           extcall (mem_buf_free membuf) ;;
           ret (Next (u64 (addr + block_size), u64 (size - block_size))))
    (addr, size) ;;
  if found then
    when (negb memmap)
      (modify_vm (fun v => with_plugged_size (u64 (plugged_size v - saved_size)) v)) ;;
    ret 0
  else ret (- EINVAL).

Definition virtio_mem_send_plug_request (fuel : nat) (addr size : Z)
    (memmap : bool) : M Z :=
  v <- get_vm ;;
  let orig_addr := addr in
  let block_size := device_block_size v in
  gh_sgl <- extcall kzalloc_gh_sgl ;;
  if gh_sgl =? 0 then ret (- ENOMEM)
  else
    r <- iterate fuel
      (fun '(addr, size) =>
         if size =? 0 then ret (Stop (addr, None))
         else
           membuf <- extcall (mem_buf_alloc addr block_size) ;;
           if IS_ERR membuf then
             ret (Stop (addr, Some (virtio_mem_convert_error_code membuf)))
           else
             xa_store_membuf addr membuf ;;
             when (negb memmap)
               (modify_vm
                  (fun v => with_plugged_size (u64 (plugged_size v + block_size)) v)) ;;
             ret (Next (u64 (addr + block_size), u64 (size - block_size))))
      (addr, size) ;;
    match r with
    | (_, None) => ret 0
    | (addr, Some err) =>
        (if orig_addr <? addr then
           virtio_mem_send_unplug_request fuel orig_addr (u64 (addr - orig_addr))
             memmap
         else ret 0) ;;
        ret err
    end.

Definition virtio_mem_send_unplug_all_request : M Z := ret (- EINVAL).

Definition virtio_mem_plug_memmap (fuel : nat) (addr : Z) : M Z :=
  v <- get_vm ;;
  pf <- get_plat ;;
  if negb (memmap_on_memory v) then ret 0
  else virtio_mem_send_plug_request fuel addr
         (virtio_mem_memory_block_vmemmap_size pf) true.

Definition virtio_mem_unplug_memmap (fuel : nat) (addr : Z) : M unit :=
  v <- get_vm ;;
  pf <- get_plat ;;
  if negb (memmap_on_memory v) then ret tt
  else
    virtio_mem_send_unplug_request fuel addr
      (virtio_mem_memory_block_vmemmap_size pf) true ;;
    ret tt.

(** ** Offline memory and the retry *)

Definition virtio_mem_could_add_memory (v : virtio_mem) (size : Z) : bool :=
  if offline_threshold v <? size then false
  else u64 (offline_size v + size) <=? offline_threshold v.

(** [virtio_mem_retry]: [queue_work] unless the device is being removed. *)
Definition virtio_mem_retry : M unit :=
  v <- get_vm ;;
  when (negb (removing v)) (modify_vm (with_wq_pending true)).

Definition atomic64_add_offline_size (d : Z) : M unit :=
  modify_vm (fun v => with_offline_size (u64 (offline_size v + d)) v).

(** ** Fake-offline pages *)

(** The loops of virtio_mem_set_fake_offline and
    virtio_mem_clear_fake_offline over the pages of a range are one update
    of the flags of the range. *)
Definition virtio_mem_set_fake_offline (pfn nr_pages : Z) (onlined : bool)
  : M unit :=
  modify_PageOffline (cons (true, pfn, nr_pages)) ;;
  if negb onlined then
    modify_PageDirty (cons (true, pfn, nr_pages)) ;;
    extcall (ClearPageReserved pfn nr_pages) ;;
    ret tt
  else ret tt.

Definition virtio_mem_clear_fake_offline (pfn nr_pages : Z) (onlined : bool)
  : M unit :=
  modify_PageOffline (cons (false, pfn, nr_pages)) ;;
  if negb onlined then
    modify_PageDirty (cons (false, pfn, nr_pages))
  else ret tt.

Definition virtio_mem_fake_online (fuel : nat) (pfn nr_pages : Z) : M unit :=
  pf <- get_plat ;;
  order <- iterate fuel
    (fun order =>
       if negb (IS_ALIGNED (Z.lor pfn nr_pages) (Z.shiftl 1 order))
       then ret (Next (order - 1))
       else ret (Stop order))
    (MAX_ORDER pf) ;;
  iterate fuel
    (fun i =>
       if i <? nr_pages then
         w <- get_world ;;
         (if page_flag_get (PageDirty w) (u64 (pfn + i)) then
            virtio_mem_clear_fake_offline (u64 (pfn + i)) (Z.shiftl 1 order) false ;;
            extcall (generic_online_page (u64 (pfn + i)) order) ;;
            ret tt
          else
            virtio_mem_clear_fake_offline (u64 (pfn + i)) (Z.shiftl 1 order) true ;;
            extcall (free_contig_range (u64 (pfn + i)) (Z.shiftl 1 order)) ;;
            extcall (adjust_managed_page_count (u64 (pfn + i)) (Z.shiftl 1 order)) ;;
            ret tt) ;;
         ret (Next (u64 (i + Z.shiftl 1 order)))
       else ret (Stop tt))
    0.

(** virtio_mem_config_changed(): what the configuration interrupt does. *)
Definition virtio_mem_config_changed : M unit :=
  v <- get_vm ;;
  if in_kdump v then ret tt
  else
    modify_vm (with_config_changed true) ;;
    virtio_mem_retry.

(** [atomic_read(&vm->config_changed)]; the interrupt may have come. *)
Definition atomic_read_config_changed : M bool :=
  irq <- extcall irq_config_changed ;;
  when (nz irq) virtio_mem_config_changed ;;
  v <- get_vm ;;
  ret (config_changed v).

Definition virtio_mem_fake_offline (pfn nr_pages : Z) : M Z :=
  is_movable <- extcall (is_zone_movable_page pfn) ;;
  iterate 6
    (fun retry_count =>
       if retry_count <? 5 then
         changed <- atomic_read_config_changed ;;
         if changed then ret (Stop (- EAGAIN))
         else
           rc <- extcall (alloc_contig_range pfn (u64 (pfn + nr_pages))) ;;
           if rc =? - ENOMEM then ret (Stop rc)
           else if nz rc && negb (nz is_movable) then ret (Stop (- EBUSY))
           else if nz rc then ret (Next (retry_count + 1))
           else
             virtio_mem_set_fake_offline pfn nr_pages true ;;
             extcall (adjust_managed_page_count pfn (- nr_pages)) ;;
             ret (Stop 0)
       else ret (Stop (- EBUSY)))
    0.

Definition virtio_mem_fake_offline_going_offline (fuel : nat)
    (pfn nr_pages : Z) : M unit :=
  extcall (adjust_managed_page_count pfn nr_pages) ;;
  iterate fuel
    (fun i =>
       if i <? nr_pages then
         extcall (page_ref_dec_and_test (u64 (pfn + i))) ;;
         ret (Next (u64 (i + 1)))
       else ret (Stop tt))
    0.

Definition virtio_mem_fake_offline_cancel_offline (fuel : nat)
    (pfn nr_pages : Z) : M unit :=
  extcall (adjust_managed_page_count pfn (- nr_pages)) ;;
  iterate fuel
    (fun i =>
       if i <? nr_pages then
         extcall (page_ref_inc (u64 (pfn + i))) ;;
         ret (Next (u64 (i + 1)))
       else ret (Stop tt))
    0.

(** ** Memory notifier *)

Definition virtio_mem_overlaps_range (v : virtio_mem) (start size : Z) : bool :=
  (start <? u64 (addr v + region_size v)) && (addr v <? u64 (start + size)).

Definition virtio_mem_contains_range (v : virtio_mem) (start size : Z) : bool :=
  (addr v <=? start) && (u64 (start + size) <=? u64 (addr v + region_size v)).

Definition virtio_mem_sbm_notify_going_online (mb_id : Z) : M Z :=
  st <- virtio_mem_sbm_get_mb_state mb_id ;;
  match st with
  | VIRTIO_MEM_SBM_MB_OFFLINE_PARTIAL
  | VIRTIO_MEM_SBM_MB_OFFLINE => ret NOTIFY_OK
  | _ => ret NOTIFY_BAD
  end.

Definition virtio_mem_sbm_notify_offline (mb_id : Z) : M unit :=
  st <- virtio_mem_sbm_get_mb_state mb_id ;;
  match st with
  | VIRTIO_MEM_SBM_MB_KERNEL_PARTIAL
  | VIRTIO_MEM_SBM_MB_MOVABLE_PARTIAL =>
      virtio_mem_sbm_set_mb_state mb_id VIRTIO_MEM_SBM_MB_OFFLINE_PARTIAL
  | VIRTIO_MEM_SBM_MB_KERNEL
  | VIRTIO_MEM_SBM_MB_MOVABLE =>
      virtio_mem_sbm_set_mb_state mb_id VIRTIO_MEM_SBM_MB_OFFLINE
  | _ => bug
  end.

Definition virtio_mem_sbm_notify_online (mb_id start_pfn : Z) : M unit :=
  movable <- extcall (is_zone_movable_page start_pfn) ;;
  let is_movable := nz movable in
  st <- virtio_mem_sbm_get_mb_state mb_id ;;
  match st with
  | VIRTIO_MEM_SBM_MB_OFFLINE_PARTIAL =>
      virtio_mem_sbm_set_mb_state mb_id
        (if is_movable then VIRTIO_MEM_SBM_MB_MOVABLE_PARTIAL
         else VIRTIO_MEM_SBM_MB_KERNEL_PARTIAL)
  | VIRTIO_MEM_SBM_MB_OFFLINE =>
      virtio_mem_sbm_set_mb_state mb_id
        (if is_movable then VIRTIO_MEM_SBM_MB_MOVABLE
         else VIRTIO_MEM_SBM_MB_KERNEL)
  | _ => bug
  end.

Definition virtio_mem_sbm_notify_going_offline (fuel : nat) (mb_id : Z)
  : M unit :=
  v <- get_vm ;;
  pf <- get_plat ;;
  let nr_pages := PFN_DOWN pf (sb_size (sbm v)) in
  iterate fuel
    (fun sb_id =>
       if sb_id <? sbs_per_mb (sbm v) then
         plugged <- virtio_mem_sbm_test_sb_plugged mb_id sb_id 1 ;;
         (if plugged then ret tt
          else
            virtio_mem_fake_offline_going_offline fuel
              (PFN_DOWN pf (virtio_mem_sb_id_to_phys pf v mb_id sb_id)) nr_pages) ;;
         ret (Next (sb_id + 1))
       else ret (Stop tt))
    0.

Definition virtio_mem_sbm_notify_cancel_offline (fuel : nat) (mb_id : Z)
  : M unit :=
  v <- get_vm ;;
  pf <- get_plat ;;
  let nr_pages := PFN_DOWN pf (sb_size (sbm v)) in
  iterate fuel
    (fun sb_id =>
       if sb_id <? sbs_per_mb (sbm v) then
         plugged <- virtio_mem_sbm_test_sb_plugged mb_id sb_id 1 ;;
         (if plugged then ret tt
          else
            virtio_mem_fake_offline_cancel_offline fuel
              (PFN_DOWN pf (virtio_mem_sb_id_to_phys pf v mb_id sb_id)) nr_pages) ;;
         ret (Next (sb_id + 1))
       else ret (Stop tt))
    0.

Definition virtio_mem_bbm_notify_going_offline (fuel : nat)
    (bb_id pfn nr_pages : Z) : M unit :=
  st <- virtio_mem_bbm_get_bb_state bb_id ;;
  if decide (st = VIRTIO_MEM_BBM_BB_FAKE_OFFLINE) then
    virtio_mem_fake_offline_going_offline fuel pfn nr_pages
  else ret tt.

Definition virtio_mem_bbm_notify_cancel_offline (fuel : nat)
    (bb_id pfn nr_pages : Z) : M unit :=
  st <- virtio_mem_bbm_get_bb_state bb_id ;;
  if decide (st = VIRTIO_MEM_BBM_BB_FAKE_OFFLINE) then
    virtio_mem_fake_offline_cancel_offline fuel pfn nr_pages
  else ret tt.

(** The actions of include/linux/memory.h. *)
Inductive memory_action : Type :=
| MEM_ONLINE
| MEM_GOING_OFFLINE
| MEM_OFFLINE
| MEM_GOING_ONLINE
| MEM_CANCEL_ONLINE
| MEM_CANCEL_OFFLINE.

(** [struct memory_notify]: the range of the notification. *)
Record memory_notify : Type := MemoryNotify {
  start_pfn : Z;
  nr_pages : Z
}.

Definition virtio_mem_memory_notifier_cb (fuel : nat) (action : memory_action)
    (mhp : memory_notify) : M Z :=
  v <- get_vm ;;
  pf <- get_plat ;;
  let start := PFN_PHYS pf (start_pfn mhp) in
  let size := PFN_PHYS pf (nr_pages mhp) in
  if negb (virtio_mem_overlaps_range v start size) then ret NOTIFY_DONE
  else if negb (in_sbm v) && (bb_size (bbm v) =? 0) then fault
  else
    let expected_size :=
      if memmap_on_memory v then u64 (memory_block_size_bytes pf - sb_size (sbm v))
      else memory_block_size_bytes pf in
    let expected_offset := if memmap_on_memory v then sb_size (sbm v) else 0 in
    let id := if in_sbm v then virtio_mem_phys_to_mb_id pf start
              else virtio_mem_phys_to_bb_id v start in
    let bad :=
      if in_sbm v then
        negb (size =? expected_size)
        || negb (IS_ALIGNED (u64 (start - expected_offset))
                   (memory_block_size_bytes pf))
      else negb (id =? virtio_mem_phys_to_bb_id v (u64 (start + size - 1))) in
    if bad then ret NOTIFY_BAD
    else
      match action with
      | MEM_GOING_OFFLINE =>
          if removing v then ret (notifier_from_errno (- EBUSY))
          else
            modify_vm (with_hotplug_active true) ;;
            (if in_sbm v then virtio_mem_sbm_notify_going_offline fuel id
             else virtio_mem_bbm_notify_going_offline fuel id (start_pfn mhp)
                    (nr_pages mhp)) ;;
            ret NOTIFY_OK
      | MEM_GOING_ONLINE =>
          if removing v then ret (notifier_from_errno (- EBUSY))
          else
            modify_vm (with_hotplug_active true) ;;
            if in_sbm v then virtio_mem_sbm_notify_going_online id
            else ret NOTIFY_OK
      | MEM_OFFLINE =>
          when (in_sbm v) (virtio_mem_sbm_notify_offline id) ;;
          atomic64_add_offline_size size ;;
          (if negb (unplug_online pf) then virtio_mem_retry else ret tt) ;;
          modify_vm (with_hotplug_active false) ;;
          ret NOTIFY_OK
      | MEM_ONLINE =>
          when (in_sbm v) (virtio_mem_sbm_notify_online id (start_pfn mhp)) ;;
          atomic64_add_offline_size (- size) ;;
          v' <- get_vm ;;
          (if negb (wq_active v')
              && virtio_mem_could_add_memory v' (offline_threshold v' / 2)
           then virtio_mem_retry else ret tt) ;;
          modify_vm (with_hotplug_active false) ;;
          ret NOTIFY_OK
      | MEM_CANCEL_OFFLINE =>
          if negb (hotplug_active v) then ret NOTIFY_OK
          else
            (if in_sbm v then virtio_mem_sbm_notify_cancel_offline fuel id
             else virtio_mem_bbm_notify_cancel_offline fuel id (start_pfn mhp)
                    (nr_pages mhp)) ;;
            modify_vm (with_hotplug_active false) ;;
            ret NOTIFY_OK
      | MEM_CANCEL_ONLINE =>
          if negb (hotplug_active v) then ret NOTIFY_OK
          else
            modify_vm (with_hotplug_active false) ;;
            ret NOTIFY_OK
      end.

(** ** Onlining pages *)

(** virtio_mem_online_page(): the page is given by its frame number.  The
    loop's variables are [addr] and [order]; [ilog2] of a size that is not
    zero is [Z.log2], and the division by a subblock or big block size of
    zero in the unit translator is a trap. *)
Definition virtio_mem_online_page (fuel : nat) (pfn order : Z) : M unit :=
  v <- get_vm ;;
  pf <- get_plat ;;
  let start := PFN_PHYS pf pfn in
  let end_ := u64 (start + PFN_PHYS pf (Z.shiftl 1 order)) in
  iterate fuel
    (fun '(addr, order) =>
       if addr <? end_ then
         let next := u64 (addr + PFN_PHYS pf (Z.shiftl 1 order)) in
         let finish (do_online : bool) : M (step (Z * Z) unit) :=
           (if do_online then
              extcall (generic_online_page (PFN_DOWN pf addr) order) ;;
              ret tt
            else
              virtio_mem_set_fake_offline (PFN_DOWN pf addr)
                (Z.shiftl 1 order) false) ;;
           ret (Next (next, order)) in
         if in_sbm v then
           if sb_size (sbm v) =? 0 then fault
           else
             let id := virtio_mem_phys_to_mb_id pf addr in
             let sb_id := virtio_mem_phys_to_sb_id pf v addr in
             let count :=
               u64 (virtio_mem_phys_to_sb_id pf v (u64 (next - 1))
                    - sb_id + 1) in
             plugged <- virtio_mem_sbm_test_sb_plugged id (to_int sb_id)
                          (to_int count) ;;
             if plugged then finish true
             else
               unplugged <- (if count =? 1 then ret true
                             else virtio_mem_sbm_test_sb_unplugged id
                                    (to_int sb_id) (to_int count)) ;;
               if unplugged then finish false
               else
                 virtio_mem_sbm_test_sb_plugged id (to_int sb_id) 1 ;;
                 ret (Next (addr,
                            u32 (Z.log2 (sb_size (sbm v)) - PAGE_SHIFT pf)))
         else
           if bb_size (bbm v) =? 0 then fault
           else
             st <- virtio_mem_bbm_get_bb_state
                     (virtio_mem_phys_to_bb_id v addr) ;;
             finish (negb (bool_decide (st = VIRTIO_MEM_BBM_BB_FAKE_OFFLINE)))
       else ret (Stop tt))
    (start, order).

(** virtio_mem_online_page_cb(): the list of devices holds the one device
    of the model. *)
Definition virtio_mem_online_page_cb (fuel : nat) (pfn order : Z) : M unit :=
  v <- get_vm ;;
  pf <- get_plat ;;
  let addr := PFN_PHYS pf pfn in
  if virtio_mem_contains_range v addr (PFN_PHYS pf (Z.shiftl 1 order)) then
    virtio_mem_online_page fuel pfn order
  else
    extcall (generic_online_page pfn order) ;;
    ret tt.

(** ** The kernel calls back

    add_memory_driver_managed() onlines the memory that it has added before
    it returns when the kernel is set up to, and
    offline_and_remove_memory() offlines memory that is online (and puts
    it online again when it cannot go on).  While they do, the kernel calls
    the memory notifier of the driver, and for the pages that go online
    virtio_mem_online_page_cb().  Which callbacks come, in which order and
    for which ranges, is for the kernel to say: the environment is asked at
    [hotplug_callback], where it learns what the driver has answered to the
    callback before, until it answers 0.  Its answer is the action of
    include/linux/memory.h for a call of the memory notifier, and anything
    else for a call of virtio_mem_online_page_cb(); the frame number and the
    number of pages, or the order, follow. *)
Definition memory_action_of (val : Z) : option memory_action :=
  if val =? 1 then Some MEM_ONLINE
  else if val =? 2 then Some MEM_GOING_OFFLINE
  else if val =? 4 then Some MEM_OFFLINE
  else if val =? 8 then Some MEM_GOING_ONLINE
  else if val =? 16 then Some MEM_CANCEL_ONLINE
  else if val =? 32 then Some MEM_CANCEL_OFFLINE
  else None.

Definition kernel_callbacks (fuel : nat) : M unit :=
  iterate fuel
    (fun rc =>
       val <- extcall (hotplug_callback rc) ;;
       if val =? 0 then ret (Stop tt)
       else
         pfn <- extcall hotplug_callback_pfn ;;
         arg <- extcall hotplug_callback_arg ;;
         match memory_action_of val with
         | Some action =>
             rc <- virtio_mem_memory_notifier_cb fuel action
                     (MemoryNotify (u64 pfn) (u64 arg)) ;;
             ret (Next rc)
         | None =>
             virtio_mem_online_page_cb fuel (u64 pfn) (u32 arg) ;;
             ret (Next 0)
         end)
    0.

(** ** Memory added to and removed from Linux *)

(** virtio_mem_add_memory(): "Memory might get onlined immediately", which
    the kernel does, and calls the driver back, after all that can fail in
    add_memory_driver_managed(). *)
Definition virtio_mem_add_memory (fuel : nat) (addr size : Z) : M Z :=
  v <- get_vm ;;
  name <- (if resource_name v then ret true
           else
             p <- extcall kstrdup_const ;;
             if p =? 0 then ret false
             else modify_vm (with_resource_name true) ;; ret true) ;;
  if negb name then ret (- ENOMEM)
  else
    rc <- virtio_mem_plug_memmap fuel addr ;;
    if nz rc then ret rc
    else
      atomic64_add_offline_size size ;;
      rc <- extcall (add_memory_driver_managed addr size (memmap_on_memory v)) ;;
      when (negb (nz rc)) (kernel_callbacks fuel) ;;
      (if nz rc then
         atomic64_add_offline_size (- size) ;;
         virtio_mem_unplug_memmap fuel addr
       else ret tt) ;;
      ret rc.

Definition virtio_mem_sbm_add_mb (fuel : nat) (mb_id : Z) : M Z :=
  pf <- get_plat ;;
  virtio_mem_add_memory fuel (virtio_mem_mb_id_to_phys pf mb_id)
    (memory_block_size_bytes pf).

Definition virtio_mem_bbm_add_bb (fuel : nat) (bb_id : Z) : M Z :=
  v <- get_vm ;;
  virtio_mem_add_memory fuel (virtio_mem_bb_id_to_phys v bb_id) (bb_size (bbm v)).

Definition virtio_mem_remove_memory (fuel : nat) (addr size : Z) : M Z :=
  rc <- extcall (remove_memory addr size) ;;
  (if negb (nz rc) then
     atomic64_add_offline_size (- size) ;;
     virtio_mem_retry
   else ret tt) ;;
  (if negb (nz rc) then virtio_mem_unplug_memmap fuel addr else ret tt) ;;
  ret rc.

Definition virtio_mem_sbm_remove_mb (fuel : nat) (mb_id : Z) : M Z :=
  pf <- get_plat ;;
  virtio_mem_remove_memory fuel (virtio_mem_mb_id_to_phys pf mb_id)
    (memory_block_size_bytes pf).

(** virtio_mem_offline_and_remove_memory(): the kernel calls the driver
    back for memory that is online, whether offline_and_remove_memory()
    then succeeds or not. *)
Definition virtio_mem_offline_and_remove_memory (fuel : nat) (addr size : Z)
  : M Z :=
  rc <- extcall (offline_and_remove_memory addr size) ;;
  kernel_callbacks fuel ;;
  if negb (nz rc) then
    atomic64_add_offline_size (- size) ;;
    virtio_mem_unplug_memmap fuel addr ;;
    virtio_mem_retry ;;
    ret 0
  else ret (if rc =? - ENOMEM then - ENOMEM else - EBUSY).

Definition virtio_mem_sbm_offline_and_remove_mb (fuel : nat) (mb_id : Z) : M Z :=
  pf <- get_plat ;;
  virtio_mem_offline_and_remove_memory fuel (virtio_mem_mb_id_to_phys pf mb_id)
    (memory_block_size_bytes pf).

Definition virtio_mem_sbm_try_remove_unplugged_mb (fuel : nat) (mb_id : Z)
  : M Z :=
  v <- get_vm ;;
  unplugged <- virtio_mem_sbm_test_sb_unplugged mb_id 0 (sbs_per_mb (sbm v)) ;;
  if negb unplugged then ret 0
  else
    rc <- virtio_mem_sbm_offline_and_remove_mb fuel mb_id ;;
    when (negb (nz rc))
      (virtio_mem_sbm_set_mb_state mb_id VIRTIO_MEM_SBM_MB_UNUSED) ;;
    ret rc.

Definition virtio_mem_bbm_offline_and_remove_bb (fuel : nat) (bb_id : Z) : M Z :=
  v <- get_vm ;;
  virtio_mem_offline_and_remove_memory fuel (virtio_mem_bb_id_to_phys v bb_id)
    (bb_size (bbm v)).

(** ** Plug/unplug engine, Sub-Block Mode *)

(** Unsigned division; the division by zero is a trap. *)
Definition udiv (a b : Z) : M Z := if b =? 0 then fault else ret (a / b).

Definition virtio_mem_sbm_plug_sb (fuel : nat) (mb_id sb_id count : Z) : M Z :=
  v <- get_vm ;;
  pf <- get_plat ;;
  let addr := virtio_mem_sb_id_to_phys pf v mb_id sb_id in
  let size := u64 (count * sb_size (sbm v)) in
  rc <- virtio_mem_send_plug_request fuel addr size false ;;
  when (negb (nz rc)) (virtio_mem_sbm_set_sb_plugged mb_id sb_id count) ;;
  ret rc.

Definition virtio_mem_sbm_unplug_sb (fuel : nat) (mb_id sb_id count : Z) : M Z :=
  v <- get_vm ;;
  pf <- get_plat ;;
  let addr := virtio_mem_sb_id_to_phys pf v mb_id sb_id in
  let size := u64 (count * sb_size (sbm v)) in
  rc <- virtio_mem_send_unplug_request fuel addr size false ;;
  when (negb (nz rc)) (virtio_mem_sbm_set_sb_unplugged mb_id sb_id count) ;;
  ret rc.

Definition virtio_mem_bbm_unplug_bb (fuel : nat) (bb_id : Z) : M Z :=
  v <- get_vm ;;
  virtio_mem_send_unplug_request fuel (virtio_mem_bb_id_to_phys v bb_id)
    (bb_size (bbm v)) false.

Definition virtio_mem_bbm_plug_bb (fuel : nat) (bb_id : Z) : M Z :=
  v <- get_vm ;;
  virtio_mem_send_plug_request fuel (virtio_mem_bb_id_to_phys v bb_id)
    (bb_size (bbm v)) false.

(** The functions that take [uint64_t *nb_sb] return its new value next to
    their result. *)
Definition virtio_mem_sbm_unplug_any_sb_raw (fuel : nat) (mb_id nb_sb : Z)
  : M (Z * Z) :=
  v <- get_vm ;;
  iterate fuel
    (fun '(sb_id, nb_sb) =>
       if nb_sb =? 0 then ret (Stop (0, nb_sb))
       else
         (* Find the next candidate subblock *)
         sb_id <- iterate fuel
           (fun sb_id =>
              if 0 <=? sb_id then
                unplugged <- virtio_mem_sbm_test_sb_unplugged mb_id sb_id 1 ;;
                if unplugged then ret (Next (sb_id - 1)) else ret (Stop sb_id)
              else ret (Stop sb_id))
           sb_id ;;
         if sb_id <? 0 then ret (Stop (0, nb_sb))
         else
           (* Try to unplug multiple subblocks at a time *)
           cs <- iterate fuel
             (fun '(count, sb_id) =>
                if (count <? nb_sb) && (0 <? sb_id) then
                  plugged <- virtio_mem_sbm_test_sb_plugged mb_id (sb_id - 1) 1 ;;
                  if plugged then ret (Next (count + 1, sb_id - 1))
                  else ret (Stop (count, sb_id))
                else ret (Stop (count, sb_id)))
             (1, sb_id) ;;
           let '(count, sb_id) := cs in
           rc <- virtio_mem_sbm_unplug_sb fuel mb_id sb_id count ;;
           if nz rc then ret (Stop (rc, nb_sb))
           else ret (Next (sb_id - 1, u64 (nb_sb - count))))
    (to_int (sbs_per_mb (sbm v) - 1), nb_sb).

Definition virtio_mem_sbm_unplug_mb (fuel : nat) (mb_id : Z) : M Z :=
  v <- get_vm ;;
  r <- virtio_mem_sbm_unplug_any_sb_raw fuel mb_id (sbs_per_mb (sbm v)) ;;
  ret (fst r).

(** Returns the result and the new [*mb_id]. *)
Definition virtio_mem_sbm_prepare_next_mb : M (Z * Z) :=
  v <- get_vm ;;
  if last_usable_mb_id (sbm v) <? next_mb_id (sbm v) then ret (- ENOSPC, 0)
  else
    rc <- virtio_mem_sbm_mb_states_prepare_next_mb ;;
    if nz rc then ret (rc, 0)
    else
      rc <- virtio_mem_sbm_sb_states_prepare_next_mb ;;
      if nz rc then ret (rc, 0)
      else
        modify_sbm (fun s => sbm_with_mb_count
                               (sbm_table
                                  (count_inc VIRTIO_MEM_SBM_MB_UNUSED (mb_count s)))
                               s) ;;
        modify_sbm (fun s => sbm_with_next_mb_id (u64 (next_mb_id s + 1)) s) ;;
        ret (0, next_mb_id (sbm v)).

Definition virtio_mem_sbm_plug_and_add_mb (fuel : nat) (mb_id nb_sb : Z)
  : M (Z * Z) :=
  v <- get_vm ;;
  let count := Z.min (to_int nb_sb) (to_int (sbs_per_mb (sbm v))) in
  if count =? 0 then ret (- EINVAL, nb_sb)
  else
    rc <- virtio_mem_sbm_plug_sb fuel mb_id 0 count ;;
    if nz rc then ret (rc, nb_sb)
    else
      (if u32 count =? sbs_per_mb (sbm v) then
         virtio_mem_sbm_set_mb_state mb_id VIRTIO_MEM_SBM_MB_OFFLINE
       else
         virtio_mem_sbm_set_mb_state mb_id VIRTIO_MEM_SBM_MB_OFFLINE_PARTIAL) ;;
      rc <- virtio_mem_sbm_add_mb fuel mb_id ;;
      if nz rc then
        rc' <- virtio_mem_sbm_unplug_sb fuel mb_id 0 count ;;
        virtio_mem_sbm_set_mb_state mb_id
          (if nz rc' then VIRTIO_MEM_SBM_MB_PLUGGED
           else VIRTIO_MEM_SBM_MB_UNUSED) ;;
        ret (rc, nb_sb)
      else ret (0, u64 (nb_sb - count)).

Definition virtio_mem_sbm_plug_any_sb (fuel : nat) (mb_id nb_sb : Z)
  : M (Z * Z) :=
  old_state <- virtio_mem_sbm_get_mb_state mb_id ;;
  v <- get_vm ;;
  pf <- get_plat ;;
  if nb_sb =? 0 then ret (- EINVAL, nb_sb)
  else
    r <- iterate fuel
      (fun nb_sb =>
         if nb_sb =? 0 then ret (Stop (0, nb_sb))
         else
           sb_id <- virtio_mem_sbm_first_unplugged_sb mb_id ;;
           if sbs_per_mb (sbm v) <=? sb_id then ret (Stop (0, nb_sb))
           else
             count <- iterate fuel
               (fun count =>
                  if (count <? nb_sb) && (sb_id + count <? sbs_per_mb (sbm v)) then
                    plugged <- virtio_mem_sbm_test_sb_plugged mb_id (sb_id + count) 1 ;;
                    if negb plugged then ret (Next (count + 1))
                    else ret (Stop count)
                  else ret (Stop count))
               1 ;;
             rc <- virtio_mem_sbm_plug_sb fuel mb_id sb_id count ;;
             if nz rc then ret (Stop (rc, nb_sb))
             else
               let nb_sb := u64 (nb_sb - count) in
               if decide (old_state = VIRTIO_MEM_SBM_MB_OFFLINE_PARTIAL) then
                 ret (Next nb_sb)
               else
                 (* fake-online the pages if the memory block is online *)
                 virtio_mem_fake_online fuel
                   (PFN_DOWN pf (virtio_mem_sb_id_to_phys pf v mb_id sb_id))
                   (PFN_DOWN pf (u64 (count * sb_size (sbm v)))) ;;
                 ret (Next nb_sb))
      nb_sb ;;
    let '(rc, nb_sb) := r in
    if nz rc then ret (rc, nb_sb)
    else
      plugged <- virtio_mem_sbm_test_sb_plugged mb_id 0 (sbs_per_mb (sbm v)) ;;
      (if plugged then
         match sbm_state_pred old_state with
         | Some s => virtio_mem_sbm_set_mb_state mb_id s
         | None => fault
         end
       else ret tt) ;;
      ret (0, nb_sb).

Definition virtio_mem_sbm_plug_request (fuel : nat) (diff : Z) : M Z :=
  v <- get_vm ;;
  pf <- get_plat ;;
  nb_sb <- udiv diff (sb_size (sbm v)) ;;
  if nb_sb =? 0 then ret 0
  else
    let plug_partial state nb_sb :=
      virtio_mem_sbm_for_each_mb fuel state
        (fun mb_id nb_sb =>
           r <- virtio_mem_sbm_plug_any_sb fuel mb_id nb_sb ;;
           let '(rc, nb_sb) := r in
           if nz rc || (nb_sb =? 0) then ret (Stop rc)
           else extcall cond_resched ;; ret (Next nb_sb))
        nb_sb in
    s <- plug_partial VIRTIO_MEM_SBM_MB_KERNEL_PARTIAL nb_sb ;;
    match s with Stop rc => ret rc | Next nb_sb =>
    s <- plug_partial VIRTIO_MEM_SBM_MB_MOVABLE_PARTIAL nb_sb ;;
    match s with Stop rc => ret rc | Next nb_sb =>
    s <- plug_partial VIRTIO_MEM_SBM_MB_OFFLINE_PARTIAL nb_sb ;;
    match s with Stop rc => ret rc | Next nb_sb =>
    (* Try to plug and add unused blocks *)
    s <- virtio_mem_sbm_for_each_mb fuel VIRTIO_MEM_SBM_MB_UNUSED
           (fun mb_id nb_sb =>
              v <- get_vm ;;
              if negb (virtio_mem_could_add_memory v (memory_block_size_bytes pf))
              then ret (Stop (- ENOSPC))
              else
                r <- virtio_mem_sbm_plug_and_add_mb fuel mb_id nb_sb ;;
                let '(rc, nb_sb) := r in
                if nz rc || (nb_sb =? 0) then ret (Stop rc)
                else extcall cond_resched ;; ret (Next nb_sb))
           nb_sb ;;
    match s with Stop rc => ret rc | Next nb_sb =>
    (* Try to prepare, plug and add new blocks *)
    iterate fuel
      (fun nb_sb =>
         if nb_sb =? 0 then ret (Stop 0)
         else
           v <- get_vm ;;
           if negb (virtio_mem_could_add_memory v (memory_block_size_bytes pf))
           then ret (Stop (- ENOSPC))
           else
             p <- virtio_mem_sbm_prepare_next_mb ;;
             let '(rc, mb_id) := p in
             if nz rc then ret (Stop rc)
             else
               r <- virtio_mem_sbm_plug_and_add_mb fuel mb_id nb_sb ;;
               let '(rc, nb_sb) := r in
               if nz rc then ret (Stop rc)
               else extcall cond_resched ;; ret (Next nb_sb))
      nb_sb
    end end end end.

Definition virtio_mem_sbm_unplug_any_sb_offline (fuel : nat) (mb_id nb_sb : Z)
  : M (Z * Z) :=
  v <- get_vm ;;
  r <- virtio_mem_sbm_unplug_any_sb_raw fuel mb_id nb_sb ;;
  let '(rc, nb_sb) := r in
  (* some subblocks might have been unplugged even on failure *)
  plugged <- virtio_mem_sbm_test_sb_plugged mb_id 0 (sbs_per_mb (sbm v)) ;;
  when (negb plugged)
    (virtio_mem_sbm_set_mb_state mb_id VIRTIO_MEM_SBM_MB_OFFLINE_PARTIAL) ;;
  if nz rc then ret (rc, nb_sb)
  else
    unplugged <- virtio_mem_sbm_test_sb_unplugged mb_id 0 (sbs_per_mb (sbm v)) ;;
    (if unplugged then
       virtio_mem_sbm_set_mb_state mb_id VIRTIO_MEM_SBM_MB_UNUSED ;;
       rc <- virtio_mem_sbm_remove_mb fuel mb_id ;;
       if nz rc then bug else ret tt
     else ret tt) ;;
    ret (0, nb_sb).

Definition virtio_mem_sbm_unplug_sb_online (fuel : nat) (mb_id sb_id count : Z)
  : M Z :=
  v <- get_vm ;;
  pf <- get_plat ;;
  let nr_pages := u64 (PFN_DOWN pf (sb_size (sbm v)) * count) in
  old_state <- virtio_mem_sbm_get_mb_state mb_id ;;
  let start_pfn := PFN_DOWN pf (virtio_mem_sb_id_to_phys pf v mb_id sb_id) in
  rc <- virtio_mem_fake_offline start_pfn nr_pages ;;
  if nz rc then ret rc
  else
    (* Try to unplug the allocated memory *)
    rc <- virtio_mem_sbm_unplug_sb fuel mb_id sb_id count ;;
    if nz rc then
      (* Return the memory to the buddy. *)
      virtio_mem_fake_online fuel start_pfn nr_pages ;;
      ret rc
    else
      match old_state with
      | VIRTIO_MEM_SBM_MB_KERNEL =>
          virtio_mem_sbm_set_mb_state mb_id VIRTIO_MEM_SBM_MB_KERNEL_PARTIAL
      | VIRTIO_MEM_SBM_MB_MOVABLE =>
          virtio_mem_sbm_set_mb_state mb_id VIRTIO_MEM_SBM_MB_MOVABLE_PARTIAL
      | _ => ret tt
      end ;;
      ret 0.

Definition virtio_mem_sbm_unplug_any_sb_online (fuel : nat) (mb_id nb_sb : Z)
  : M (Z * Z) :=
  v <- get_vm ;;
  let unplugged nb_sb :=
    rc <- virtio_mem_sbm_try_remove_unplugged_mb fuel mb_id ;;
    when (nz rc) (modify_sbm (sbm_with_have_unplugged_mb true)) ;;
    (* Ignore errors, this is not critical. We'll retry later. *)
    ret (0, nb_sb) in
  (* If possible, try to unplug the complete block in one shot. *)
  one_shot <-
    (if sbs_per_mb (sbm v) <=? nb_sb then
       plugged <- virtio_mem_sbm_test_sb_plugged mb_id 0 (sbs_per_mb (sbm v)) ;;
       if plugged then
         rc <- virtio_mem_sbm_unplug_sb_online fuel mb_id 0 (sbs_per_mb (sbm v)) ;;
         if negb (nz rc) then
           ret (Stop (inl (u64 (nb_sb - sbs_per_mb (sbm v)))))
         else if negb (rc =? - EBUSY) && negb (rc =? - ENOMEM) then
           ret (Stop (inr rc))
         else ret (Next tt)
       else ret (Next tt)
     else ret (Next tt)) ;;
  match one_shot with
  | Stop (inl nb_sb) => unplugged nb_sb
  | Stop (inr rc) => ret (rc, nb_sb)
  | Next _ =>
      (* Fallback to single subblocks. *)
      r <- iterate fuel
        (fun '(sb_id, nb_sb) =>
           if (0 <=? sb_id) && nz nb_sb then
             (* Find the next candidate subblock *)
             sb_id <- iterate fuel
               (fun sb_id =>
                  if 0 <=? sb_id then
                    plugged <- virtio_mem_sbm_test_sb_plugged mb_id sb_id 1 ;;
                    if negb plugged then ret (Next (sb_id - 1))
                    else ret (Stop sb_id)
                  else ret (Stop sb_id))
               sb_id ;;
             if sb_id <? 0 then ret (Stop (0, nb_sb))
             else
               rc <- virtio_mem_sbm_unplug_sb_online fuel mb_id sb_id 1 ;;
               if rc =? - EBUSY then ret (Next (sb_id - 1, nb_sb))
               else if nz rc then ret (Stop (rc, nb_sb))
               else ret (Next (sb_id - 1, u64 (nb_sb - 1)))
           else ret (Stop (0, nb_sb)))
        (to_int (sbs_per_mb (sbm v) - 1), nb_sb) ;;
      let '(rc, nb_sb) := r in
      if nz rc then ret (rc, nb_sb) else unplugged nb_sb
  end.

Definition virtio_mem_sbm_unplug_any_sb (fuel : nat) (mb_id nb_sb : Z)
  : M (Z * Z) :=
  old_state <- virtio_mem_sbm_get_mb_state mb_id ;;
  match old_state with
  | VIRTIO_MEM_SBM_MB_KERNEL_PARTIAL
  | VIRTIO_MEM_SBM_MB_KERNEL
  | VIRTIO_MEM_SBM_MB_MOVABLE_PARTIAL
  | VIRTIO_MEM_SBM_MB_MOVABLE =>
      virtio_mem_sbm_unplug_any_sb_online fuel mb_id nb_sb
  | VIRTIO_MEM_SBM_MB_OFFLINE_PARTIAL
  | VIRTIO_MEM_SBM_MB_OFFLINE =>
      virtio_mem_sbm_unplug_any_sb_offline fuel mb_id nb_sb
  | _ => ret (- EINVAL, nb_sb)
  end.

(** The [mb_states[]] table of virtio_mem_sbm_unplug_request. *)
Definition sbm_unplug_mb_states : list sbm_mb_state :=
  [ VIRTIO_MEM_SBM_MB_OFFLINE_PARTIAL;
    VIRTIO_MEM_SBM_MB_OFFLINE;
    VIRTIO_MEM_SBM_MB_MOVABLE_PARTIAL;
    VIRTIO_MEM_SBM_MB_KERNEL_PARTIAL;
    VIRTIO_MEM_SBM_MB_MOVABLE;
    VIRTIO_MEM_SBM_MB_KERNEL ].

(** The walk of virtio_mem_sbm_unplug_request over the memory blocks, with
    the operation on a block as a parameter: the two loops of the source,
    the outer one over [mb_states[i]] from index [i]. *)
Fixpoint sbm_unplug_walk (fuel : nat)
    (unplug_any_sb : Z -> Z -> M (Z * Z))
    (i : Z) (states : list sbm_mb_state) (nb_sb : Z) : M Z :=
  match states with
  | [] => ret (if nz nb_sb then - EBUSY else 0)
  | state :: states' =>
      pf <- get_plat ;;
      s <- virtio_mem_sbm_for_each_mb_rev fuel state
             (fun mb_id nb_sb =>
                r <- unplug_any_sb mb_id nb_sb ;;
                let '(rc, nb_sb) := r in
                if nz rc || (nb_sb =? 0) then ret (Stop rc)
                else extcall cond_resched ;; ret (Next nb_sb))
             nb_sb ;;
      match s with
      | Stop rc => ret rc
      | Next nb_sb =>
          if negb (unplug_online pf) && (i =? 1) then ret 0
          else sbm_unplug_walk fuel unplug_any_sb (i + 1) states' nb_sb
      end
  end.

Definition virtio_mem_sbm_unplug_request (fuel : nat) (diff : Z) : M Z :=
  v <- get_vm ;;
  nb_sb <- udiv diff (sb_size (sbm v)) ;;
  if nb_sb =? 0 then ret 0
  else
    sbm_unplug_walk fuel (virtio_mem_sbm_unplug_any_sb fuel) 0
      sbm_unplug_mb_states nb_sb.

(** ** Plug/unplug engine, Big Block Mode *)

Definition virtio_mem_bbm_plug_and_add_bb (fuel : nat) (bb_id : Z) : M Z :=
  st <- virtio_mem_bbm_get_bb_state bb_id ;;
  if decide (st = VIRTIO_MEM_BBM_BB_UNUSED) then
    rc <- virtio_mem_bbm_plug_bb fuel bb_id ;;
    if nz rc then ret rc
    else
      virtio_mem_bbm_set_bb_state bb_id VIRTIO_MEM_BBM_BB_ADDED ;;
      rc <- virtio_mem_bbm_add_bb fuel bb_id ;;
      if nz rc then
        rc' <- virtio_mem_bbm_unplug_bb fuel bb_id ;;
        (if negb (nz rc') then
           virtio_mem_bbm_set_bb_state bb_id VIRTIO_MEM_BBM_BB_UNUSED
         else
           (* Retry from the main loop. *)
           virtio_mem_bbm_set_bb_state bb_id VIRTIO_MEM_BBM_BB_PLUGGED) ;;
        ret rc
      else ret 0
  else ret (- EINVAL).

(** Returns the result and the new [*bb_id]. *)
Definition virtio_mem_bbm_prepare_next_bb : M (Z * Z) :=
  v <- get_vm ;;
  if last_usable_bb_id (bbm v) <? next_bb_id (bbm v) then ret (- ENOSPC, 0)
  else
    rc <- virtio_mem_bbm_bb_states_prepare_next_bb ;;
    if nz rc then ret (rc, 0)
    else
      modify_bbm (fun b => bbm_with_bb_count
                             (bbm_table
                                (count_inc VIRTIO_MEM_BBM_BB_UNUSED (bb_count b)))
                             b) ;;
      modify_bbm (fun b => bbm_with_next_bb_id (u64 (next_bb_id b + 1)) b) ;;
      ret (0, next_bb_id (bbm v)).

Definition virtio_mem_bbm_plug_request (fuel : nat) (diff : Z) : M Z :=
  v <- get_vm ;;
  nb_bb <- udiv diff (bb_size (bbm v)) ;;
  if nb_bb =? 0 then ret 0
  else
    (* Try to plug and add unused big blocks *)
    s <- virtio_mem_bbm_for_each_bb fuel VIRTIO_MEM_BBM_BB_UNUSED
           (fun bb_id nb_bb =>
              v <- get_vm ;;
              if negb (virtio_mem_could_add_memory v (bb_size (bbm v)))
              then ret (Stop (- ENOSPC))
              else
                rc <- virtio_mem_bbm_plug_and_add_bb fuel bb_id ;;
                let nb_bb := if negb (nz rc) then u64 (nb_bb - 1) else nb_bb in
                if nz rc || (nb_bb =? 0) then ret (Stop rc)
                else extcall cond_resched ;; ret (Next nb_bb))
           nb_bb ;;
    match s with
    | Stop rc => ret rc
    | Next nb_bb =>
        (* Try to prepare, plug and add new big blocks *)
        iterate fuel
          (fun nb_bb =>
             if nb_bb =? 0 then ret (Stop 0)
             else
               v <- get_vm ;;
               if negb (virtio_mem_could_add_memory v (bb_size (bbm v)))
               then ret (Stop (- ENOSPC))
               else
                 p <- virtio_mem_bbm_prepare_next_bb ;;
                 let '(rc, bb_id) := p in
                 if nz rc then ret (Stop rc)
                 else
                   rc <- virtio_mem_bbm_plug_and_add_bb fuel bb_id ;;
                   if nz rc then ret (Stop rc)
                   else extcall cond_resched ;; ret (Next (u64 (nb_bb - 1))))
          nb_bb
    end.

Definition virtio_mem_plug_request (fuel : nat) (diff : Z) : M Z :=
  v <- get_vm ;;
  if in_sbm v then virtio_mem_sbm_plug_request fuel diff
  else virtio_mem_bbm_plug_request fuel diff.

(** The loop of the source over the sections of a big block that are
    online, [body] applied to each of them. *)
Definition bbm_for_each_online_section {R} (fuel : nat) (start_pfn end_pfn : Z)
    (body : Z -> M (step unit R)) : M (step unit R) :=
  pf <- get_plat ;;
  iterate fuel
    (fun pfn =>
       if pfn <? end_pfn then
         page <- extcall (pfn_to_online_page pfn) ;;
         if negb (nz page) then ret (Next (u64 (pfn + PAGES_PER_SECTION pf)))
         else
           s <- body pfn ;;
           match s with
           | Next _ => ret (Next (u64 (pfn + PAGES_PER_SECTION pf)))
           | Stop r => ret (Stop (Stop r))
           end
       else ret (Stop (Next tt)))
    start_pfn.

Definition virtio_mem_bbm_offline_remove_and_unplug_bb (fuel : nat) (bb_id : Z)
  : M Z :=
  v <- get_vm ;;
  pf <- get_plat ;;
  let start_pfn := PFN_DOWN pf (virtio_mem_bb_id_to_phys v bb_id) in
  let nr_pages := PFN_DOWN pf (bb_size (bbm v)) in
  let end_pfn := u64 (start_pfn + nr_pages) in
  let rollback end_pfn rc :=
    bbm_for_each_online_section (R := unit) fuel start_pfn end_pfn
      (fun pfn =>
         virtio_mem_fake_online fuel pfn (PAGES_PER_SECTION pf) ;;
         ret (Next tt)) ;;
    virtio_mem_bbm_set_bb_state bb_id VIRTIO_MEM_BBM_BB_ADDED ;;
    ret rc in
  st <- virtio_mem_bbm_get_bb_state bb_id ;;
  if decide (st = VIRTIO_MEM_BBM_BB_ADDED) then
    virtio_mem_bbm_set_bb_state bb_id VIRTIO_MEM_BBM_BB_FAKE_OFFLINE ;;
    s <- bbm_for_each_online_section fuel start_pfn end_pfn
           (fun pfn =>
              rc <- virtio_mem_fake_offline pfn (PAGES_PER_SECTION pf) ;;
              if nz rc then ret (Stop (pfn, rc)) else ret (Next tt)) ;;
    match s with
    | Stop (pfn, rc) => rollback pfn rc
    | Next _ =>
        rc <- virtio_mem_bbm_offline_and_remove_bb fuel bb_id ;;
        if nz rc then rollback end_pfn rc
        else
          rc <- virtio_mem_bbm_unplug_bb fuel bb_id ;;
          (if nz rc then
             virtio_mem_bbm_set_bb_state bb_id VIRTIO_MEM_BBM_BB_PLUGGED
           else
             virtio_mem_bbm_set_bb_state bb_id VIRTIO_MEM_BBM_BB_UNUSED) ;;
          ret rc
    end
  else ret (- EINVAL).

Definition virtio_mem_bbm_bb_is_offline (fuel : nat) (bb_id : Z) : M bool :=
  v <- get_vm ;;
  pf <- get_plat ;;
  let start_pfn := PFN_DOWN pf (virtio_mem_bb_id_to_phys v bb_id) in
  let nr_pages := PFN_DOWN pf (bb_size (bbm v)) in
  iterate fuel
    (fun pfn =>
       if pfn <? u64 (start_pfn + nr_pages) then
         page <- extcall (pfn_to_online_page pfn) ;;
         if nz page then ret (Stop false)
         else ret (Next (u64 (pfn + PAGES_PER_SECTION pf)))
       else ret (Stop true))
    start_pfn.

Definition virtio_mem_bbm_bb_is_movable (fuel : nat) (bb_id : Z) : M bool :=
  v <- get_vm ;;
  pf <- get_plat ;;
  let start_pfn := PFN_DOWN pf (virtio_mem_bb_id_to_phys v bb_id) in
  let nr_pages := PFN_DOWN pf (bb_size (bbm v)) in
  iterate fuel
    (fun pfn =>
       if pfn <? u64 (start_pfn + nr_pages) then
         page <- extcall (pfn_to_online_page pfn) ;;
         if negb (nz page) then ret (Next (u64 (pfn + PAGES_PER_SECTION pf)))
         else
           movable <- extcall (is_zone_movable_page pfn) ;;
           if negb (nz movable) then ret (Stop false)
           else ret (Next (u64 (pfn + PAGES_PER_SECTION pf)))
       else ret (Stop true))
    start_pfn.

(** The three passes of virtio_mem_bbm_unplug_request, from pass [i]. *)
Fixpoint bbm_unplug_walk (fuel : nat) (passes : nat) (i : Z) (nb_bb : Z) : M Z :=
  match passes with
  | O => ret (if nz nb_bb then - EBUSY else 0)
  | S passes' =>
      pf <- get_plat ;;
      s <- virtio_mem_bbm_for_each_bb_rev fuel VIRTIO_MEM_BBM_BB_ADDED
             (fun bb_id nb_bb =>
                extcall cond_resched ;;
                skip0 <- (if i =? 0 then
                            off <- virtio_mem_bbm_bb_is_offline fuel bb_id ;;
                            ret (negb off)
                          else ret false) ;;
                if skip0 then ret (Next nb_bb)
                else
                  skip1 <- (if i =? 1 then
                              mov <- virtio_mem_bbm_bb_is_movable fuel bb_id ;;
                              ret (negb mov)
                            else ret false) ;;
                  if skip1 then ret (Next nb_bb)
                  else
                    rc <- virtio_mem_bbm_offline_remove_and_unplug_bb fuel bb_id ;;
                    if rc =? - EBUSY then ret (Next nb_bb)
                    else
                      let nb_bb :=
                        if negb (nz rc) then u64 (nb_bb - 1) else nb_bb in
                      if nz rc || (nb_bb =? 0) then ret (Stop rc)
                      else ret (Next nb_bb))
             nb_bb ;;
      match s with
      | Stop rc => ret rc
      | Next nb_bb =>
          if (i =? 0) && negb (unplug_online pf) then ret 0
          else bbm_unplug_walk fuel passes' (i + 1) nb_bb
      end
  end.

Definition virtio_mem_bbm_unplug_request (fuel : nat) (diff : Z) : M Z :=
  v <- get_vm ;;
  nb_bb <- udiv diff (bb_size (bbm v)) ;;
  if nb_bb =? 0 then ret 0
  else bbm_unplug_walk fuel 3 0 nb_bb.

Definition virtio_mem_unplug_request (fuel : nat) (diff : Z) : M Z :=
  v <- get_vm ;;
  if in_sbm v then virtio_mem_sbm_unplug_request fuel diff
  else virtio_mem_bbm_unplug_request fuel diff.

(** ** Retry/reconciliation loop *)

Definition virtio_mem_cleanup_pending_mb (fuel : nat) : M Z :=
  v <- get_vm ;;
  if negb (in_sbm v) then
    s <- virtio_mem_bbm_for_each_bb fuel VIRTIO_MEM_BBM_BB_PLUGGED
           (fun id (_ : unit) =>
              rc <- virtio_mem_bbm_unplug_bb fuel id ;;
              if nz rc then ret (Stop rc)
              else
                virtio_mem_bbm_set_bb_state id VIRTIO_MEM_BBM_BB_UNUSED ;;
                ret (Next tt))
           tt ;;
    match s with
    | Stop rc => ret rc
    | Next _ => ret 0
    end
  else
    s <- virtio_mem_sbm_for_each_mb fuel VIRTIO_MEM_SBM_MB_PLUGGED
           (fun id (_ : unit) =>
              rc <- virtio_mem_sbm_unplug_mb fuel id ;;
              if nz rc then ret (Stop rc)
              else
                virtio_mem_sbm_set_mb_state id VIRTIO_MEM_SBM_MB_UNUSED ;;
                ret (Next tt))
           tt ;;
    match s with
    | Stop rc => ret rc
    | Next _ =>
        v <- get_vm ;;
        if negb (have_unplugged_mb (sbm v)) then ret 0
        else
          (* Let's retry (offlining and) removing completely unplugged
             Linux memory blocks. *)
          modify_sbm (sbm_with_have_unplugged_mb false) ;;
          let try_remove state rc :=
            s <- virtio_mem_sbm_for_each_mb (R := Empty_set) fuel state
                   (fun id rc =>
                      rc' <- virtio_mem_sbm_try_remove_unplugged_mb fuel id ;;
                      ret (Next (Z.lor rc rc')))
                   rc ;;
            match s with
            | Next rc => ret rc
            | Stop e => match e with end
            end in
          rc <- try_remove VIRTIO_MEM_SBM_MB_MOVABLE_PARTIAL 0 ;;
          rc <- try_remove VIRTIO_MEM_SBM_MB_KERNEL_PARTIAL rc ;;
          rc <- try_remove VIRTIO_MEM_SBM_MB_OFFLINE_PARTIAL rc ;;
          when (nz rc) (modify_sbm (sbm_with_have_unplugged_mb true)) ;;
          (* Ignore errors, this is not critical. We'll retry later. *)
          ret 0
    end.

Definition virtio_mem_refresh_config : M unit :=
  v <- get_vm ;;
  pf <- get_plat ;;
  pluggable_range_end <- extcall mhp_get_pluggable_range_end ;;
  let end_addr := Z.min (u64 (addr v + region_size v - 1)) pluggable_range_end in
  if in_sbm v then
    let last := virtio_mem_phys_to_mb_id pf end_addr in
    modify_sbm (sbm_with_last_usable_mb_id
                  (if negb (IS_ALIGNED (u64 (end_addr + 1))
                              (memory_block_size_bytes pf))
                   then u64 (last - 1) else last))
  else if bb_size (bbm v) =? 0 then fault
  else
    let last := virtio_mem_phys_to_bb_id v end_addr in
    modify_bbm (bbm_with_last_usable_bb_id
                  (if negb (IS_ALIGNED (u64 (end_addr + 1)) (bb_size (bbm v)))
                   then u64 (last - 1) else last)).

(** One pass of virtio_mem_run_wq, from the label [retry] to the [switch]:
    the result is the [rc] that the [switch] classifies. *)
Definition virtio_mem_run_wq_pass (fuel : nat) : M Z :=
  v <- get_vm ;;
  (* Make sure we start with a clean state if there are leftovers. *)
  rc <- (if unplug_all_required v then virtio_mem_send_unplug_all_request
         else ret 0) ;;
  changed <- atomic_read_config_changed ;;
  (if changed then
     modify_vm (with_config_changed false) ;;
     virtio_mem_refresh_config
   else ret tt) ;;
  (* Cleanup any leftovers from previous runs *)
  rc <- (if negb (nz rc) then virtio_mem_cleanup_pending_mb fuel else ret rc) ;;
  v <- get_vm ;;
  rc <- (if negb (nz rc) && negb (requested_size v =? plugged_size v) then
           if plugged_size v <? requested_size v then
             virtio_mem_plug_request fuel
               (u64 (requested_size v - plugged_size v))
           else
             virtio_mem_unplug_request fuel
               (u64 (plugged_size v - requested_size v))
         else ret rc) ;;
  (* Keep retrying to offline and remove completely unplugged Linux
     memory blocks. *)
  v <- get_vm ;;
  if negb (nz rc) && in_sbm v && have_unplugged_mb (sbm v) then ret (- EBUSY)
  else ret rc.

(** The [switch (rc)] of virtio_mem_run_wq with its [goto retry]: [None]
    stands for the [goto], [Some rc] for leaving the [switch]. *)
Definition virtio_mem_run_wq_switch (rc : Z) : M (option Z) :=
  pf <- get_plat ;;
  if rc =? 0 then
    modify_vm (with_retry_timer_ms (VIRTIO_MEM_RETRY_TIMER_MIN_MS pf)) ;;
    ret (Some rc)
  else if rc =? - ENOSPC then ret (Some rc)
  else if (rc =? - ETXTBSY) || (rc =? - EBUSY) || (rc =? - ENOMEM) then
    (* hrtimer_start(&vm->retry_timer, ms_to_ktime(vm->retry_timer_ms)) *)
    modify_vm (fun v => with_retry_timer (Some (retry_timer_ms v)) v) ;;
    ret (Some rc)
  else if rc =? - EAGAIN then ret None
  else
    (* Unknown error, mark as broken *)
    modify_vm (with_broken true) ;;
    ret (Some rc).

(** The worker.  The source returns nothing; the model returns the [rc]
    with which the last pass left the [switch], and [None] when the
    worker returned before its first pass. *)
Definition virtio_mem_run_wq (fuel : nat) : M (option Z) :=
  v <- get_vm ;;
  if in_kdump v then ret None
  else
    (* hrtimer_cancel(&vm->retry_timer) *)
    modify_vm (with_retry_timer None) ;;
    if broken v then ret None
    else
      modify_vm (with_wq_active true) ;;
      rc <- iterate fuel
        (fun _ : unit =>
           rc <- virtio_mem_run_wq_pass fuel ;;
           o <- virtio_mem_run_wq_switch rc ;;
           match o with
           | None => ret (Next tt)
           | Some rc => ret (Stop rc)
           end)
        tt ;;
      modify_vm (with_wq_active false) ;;
      ret (Some rc).

Definition virtio_mem_timer_expired : M unit :=
  pf <- get_plat ;;
  (* the timer fired: it is no longer armed (HRTIMER_NORESTART) *)
  modify_vm (with_retry_timer None) ;;
  virtio_mem_retry ;;
  modify_vm (fun v => with_retry_timer_ms
                        (Z.min (u32 (retry_timer_ms v * 2))
                           (u32 (VIRTIO_MEM_RETRY_TIMER_MAX_MS pf))) v).

(** * Reasoning about driver code *)

(** [wlp m Q w]: if [m] returns from the world [w], its value and the world
    it leaves satisfy [Q].  [keeps R m]: the world [m] leaves is related by
    [R] to the one it started in. *)
Definition wlp {A} (m : M A) (Q : A -> world -> Prop) (w : world) : Prop :=
  match m w with
  | Ok a w' => Q a w'
  | _ => True
  end.

Definition keeps (R : world -> world -> Prop) {A} (m : M A) : Prop :=
  forall w, wlp m (fun _ w' => R w w') w.

Lemma wlp_ok {A} (m : M A) Q w a w' :
  wlp m Q w -> m w = Ok a w' -> Q a w'.
Proof. unfold wlp. intros H E. rewrite E in H. exact H. Qed.

Lemma wlp_intro {A} (m : M A) (Q : A -> world -> Prop) w :
  (forall a w', m w = Ok a w' -> Q a w') -> wlp m Q w.
Proof. unfold wlp. intros H. destruct (m w); auto. Qed.

Lemma wlp_ret {A} (a : A) (Q : A -> world -> Prop) w : Q a w -> wlp (ret a) Q w.
Proof. exact (fun H => H). Qed.

Lemma wlp_bind {A B} (m : M A) (k : A -> M B) Q w :
  wlp m (fun a w' => wlp (k a) Q w') w -> wlp (bind m k) Q w.
Proof. unfold wlp, bind. destruct (m w); auto. Qed.

Lemma wlp_mono {A} (m : M A) (Q Q' : A -> world -> Prop) w :
  wlp m Q w -> (forall a w', Q a w' -> Q' a w') -> wlp m Q' w.
Proof. unfold wlp. destruct (m w); auto. Qed.

Lemma wlp_conj {A} (m : M A) (Q Q' : A -> world -> Prop) w :
  wlp m Q w -> wlp m Q' w -> wlp m (fun a w' => Q a w' /\ Q' a w') w.
Proof. unfold wlp. destruct (m w); auto. Qed.

Lemma wlp_iterate {A R} (I : A -> world -> Prop) (Q : R -> world -> Prop)
    (body : A -> M (step A R)) :
  (forall a w, I a w ->
     wlp (body a) (fun s w' => match s with
                               | Next a' => I a' w'
                               | Stop r => Q r w'
                               end) w) ->
  forall fuel a w, I a w -> wlp (iterate fuel body a) Q w.
Proof.
  intros Hbody fuel. induction fuel as [|fuel IH]; intros a w HI.
  - exact Logic.I.
  - cbn [iterate]. apply wlp_bind.
    eapply wlp_mono; [apply Hbody, HI|].
    intros [a'|r] w' H; [apply IH, H | exact H].
Qed.

Section Keeps.
Context (R : world -> world -> Prop) `{!PreOrder R}.

Lemma keeps_ret {A} (a : A) : keeps R (ret a).
Proof. intros w. cbn. reflexivity. Qed.

Lemma keeps_bind {A B} (m : M A) (k : A -> M B) :
  keeps R m -> (forall a, keeps R (k a)) -> keeps R (bind m k).
Proof.
  intros Hm Hk w. apply wlp_bind.
  eapply wlp_mono; [apply Hm|]. cbn. intros a w1 H1.
  eapply wlp_mono; [apply Hk|]. cbn. intros b w2 H2.
  etransitivity; eassumption.
Qed.

Lemma keeps_iterate {A B} (body : A -> M (step A B)) fuel a :
  (forall a, keeps R (body a)) -> keeps R (iterate fuel body a).
Proof.
  intros Hbody w0.
  apply (wlp_iterate (fun _ w => R w0 w)); [|reflexivity].
  intros a' w HI. eapply wlp_mono; [apply Hbody|].
  cbn. intros [?|?] w' H; etransitivity; eassumption.
Qed.

Lemma keeps_get_world : keeps R get_world.
Proof. intros w. cbn. reflexivity. Qed.
Lemma keeps_get_vm : keeps R get_vm.
Proof. intros w. cbn. reflexivity. Qed.
Lemma keeps_get_plat : keeps R get_plat.
Proof. intros w. cbn. reflexivity. Qed.
Lemma keeps_bug {A} : keeps R (@bug A).
Proof. intros w. exact Logic.I. Qed.
Lemma keeps_fault {A} : keeps R (@fault A).
Proof. intros w. exact Logic.I. Qed.
Lemma keeps_out_of_fuel {A} : keeps R (@out_of_fuel A).
Proof. intros w. exact Logic.I. Qed.
Lemma keeps_lift_access {A} (o : option A) : keeps R (lift_access o).
Proof. destruct o; [apply keeps_ret | apply keeps_fault]. Qed.
Lemma keeps_udiv a b : keeps R (udiv a b).
Proof. unfold udiv. destruct (b =? 0); [apply keeps_fault | apply keeps_ret]. Qed.
Lemma keeps_xa_load_membuf i : keeps R (xa_load_membuf i).
Proof. intros w. cbn. reflexivity. Qed.
Lemma keeps_when c (m : M unit) : keeps R m -> keeps R (when c m).
Proof. destruct c; [auto | intros _; apply keeps_ret]. Qed.

Lemma keeps_modify_vm f :
  (forall w, R w (with_vm (f (vm w)) w)) -> keeps R (modify_vm f).
Proof. intros H w. apply H. Qed.
Lemma keeps_modify_sbm f :
  (forall w, R w (with_vm (with_sbm (f (sbm (vm w))) (vm w)) w)) ->
  keeps R (modify_sbm f).
Proof. intros H w. apply H. Qed.
Lemma keeps_modify_bbm f :
  (forall w, R w (with_vm (with_bbm (f (bbm (vm w))) (vm w)) w)) ->
  keeps R (modify_bbm f).
Proof. intros H w. apply H. Qed.
Lemma keeps_modify_xa_membuf f :
  (forall w, R w (with_xa_membuf (f (xa_membuf w)) w)) ->
  keeps R (modify_xa_membuf f).
Proof. intros H w. apply H. Qed.
Lemma keeps_modify_PageOffline f :
  (forall w, R w (with_PageOffline (f (PageOffline w)) w)) ->
  keeps R (modify_PageOffline f).
Proof. intros H w. apply H. Qed.
Lemma keeps_modify_PageDirty f :
  (forall w, R w (with_PageDirty (f (PageDirty w)) w)) ->
  keeps R (modify_PageDirty f).
Proof. intros H w. apply H. Qed.
Lemma keeps_extcall c :
  (forall w, R w (with_trace (c :: trace w) w)) -> keeps R (extcall c).
Proof. intros H w. apply H. Qed.

Lemma keeps_virtio_mem_sbm_get_mb_state mb_id :
  keeps R (virtio_mem_sbm_get_mb_state mb_id).
Proof.
  apply keeps_bind; [apply keeps_get_vm | intro; apply keeps_lift_access].
Qed.
Lemma keeps_virtio_mem_bbm_get_bb_state bb_id :
  keeps R (virtio_mem_bbm_get_bb_state bb_id).
Proof.
  apply keeps_bind; [apply keeps_get_vm | intro; apply keeps_lift_access].
Qed.

(** The iteration macros keep what their bodies keep. *)
Ltac keeps_macro get_state :=
  intros Hbody; apply keeps_bind; [apply keeps_get_vm | intros v0];
  apply keeps_iterate; intros [id a'];
  apply keeps_bind; [apply keeps_get_vm | intros v];
  match goal with |- keeps _ (if ?c then _ else _) => destruct c end;
  [ | apply keeps_ret ];
  apply keeps_bind; [apply get_state | intros st];
  match goal with |- keeps _ (if ?c then _ else _) => destruct c end;
  [ | apply keeps_ret ];
  apply keeps_bind; [apply Hbody | intros [?|?]; apply keeps_ret ].

Lemma keeps_virtio_mem_sbm_for_each_mb {A B} fuel state
    (body : Z -> A -> M (step A B)) a :
  (forall mb_id a, keeps R (body mb_id a)) ->
  keeps R (virtio_mem_sbm_for_each_mb fuel state body a).
Proof. keeps_macro keeps_virtio_mem_sbm_get_mb_state. Qed.
Lemma keeps_virtio_mem_sbm_for_each_mb_rev {A B} fuel state
    (body : Z -> A -> M (step A B)) a :
  (forall mb_id a, keeps R (body mb_id a)) ->
  keeps R (virtio_mem_sbm_for_each_mb_rev fuel state body a).
Proof. keeps_macro keeps_virtio_mem_sbm_get_mb_state. Qed.
Lemma keeps_virtio_mem_bbm_for_each_bb {A B} fuel state
    (body : Z -> A -> M (step A B)) a :
  (forall bb_id a, keeps R (body bb_id a)) ->
  keeps R (virtio_mem_bbm_for_each_bb fuel state body a).
Proof. keeps_macro keeps_virtio_mem_bbm_get_bb_state. Qed.
Lemma keeps_virtio_mem_bbm_for_each_bb_rev {A B} fuel state
    (body : Z -> A -> M (step A B)) a :
  (forall bb_id a, keeps R (body bb_id a)) ->
  keeps R (virtio_mem_bbm_for_each_bb_rev fuel state body a).
Proof. keeps_macro keeps_virtio_mem_bbm_get_bb_state. Qed.

(** Relations that do not look at the trace. *)
Hypothesis R_trace : forall c w, R w (with_trace (c :: trace w) w).

Lemma keeps_bbm_for_each_online_section {B} fuel start_pfn end_pfn
    (body : Z -> M (step unit B)) :
  (forall pfn, keeps R (body pfn)) ->
  keeps R (bbm_for_each_online_section fuel start_pfn end_pfn body).
Proof.
  intros Hbody. apply keeps_bind; [apply keeps_get_plat | intros pf].
  apply keeps_iterate; intros pfn.
  destruct (pfn <? end_pfn); [ | apply keeps_ret ].
  apply keeps_bind; [apply keeps_extcall, R_trace | intros page].
  destruct (negb (nz page)); [ apply keeps_ret | ].
  apply keeps_bind; [apply Hbody | intros [?|?]; apply keeps_ret ].
Qed.

Lemma keeps_sbm_unplug_walk fuel op states :
  (forall mb_id nb_sb, keeps R (op mb_id nb_sb)) ->
  forall i nb_sb, keeps R (sbm_unplug_walk fuel op i states nb_sb).
Proof.
  intros Hop. induction states as [|state states IH]; intros i nb_sb.
  - apply keeps_ret.
  - cbn [sbm_unplug_walk].
    apply keeps_bind; [apply keeps_get_plat | intros pf].
    apply keeps_bind.
    + apply keeps_virtio_mem_sbm_for_each_mb_rev. intros mb_id nb.
      apply keeps_bind; [apply Hop | intros [rc nb']].
      destruct (nz rc || (nb' =? 0)); [ apply keeps_ret | ].
      apply keeps_bind; [apply keeps_extcall, R_trace | intro; apply keeps_ret].
    + intros [nb|rc]; [ | apply keeps_ret ].
      destruct (negb (unplug_online pf) && (i =? 1)); [ apply keeps_ret | apply IH ].
Qed.
End Keeps.

(** One step of a proof that a computation keeps a relation: along the
    syntax of the computation, with [side] for the updates of the world and
    the hint database [keeps] for the functions already done. *)
Ltac keeps_step side :=
  lazymatch goal with
  | |- keeps _ (bind _ _) => apply keeps_bind; [ typeclasses eauto | | intro ]
  | |- keeps _ (ret _) => apply keeps_ret; typeclasses eauto
  | |- keeps _ (iterate _ _ _) =>
      apply keeps_iterate; [ typeclasses eauto | intro ]
  | |- keeps _ (when _ _) => apply keeps_when; [ typeclasses eauto | ]
  | |- keeps _ get_vm => apply keeps_get_vm; typeclasses eauto
  | |- keeps _ get_plat => apply keeps_get_plat; typeclasses eauto
  | |- keeps _ get_world => apply keeps_get_world; typeclasses eauto
  | |- keeps _ bug => apply keeps_bug
  | |- keeps _ fault => apply keeps_fault
  | |- keeps _ out_of_fuel => apply keeps_out_of_fuel
  | |- keeps _ (lift_access _) => apply keeps_lift_access; typeclasses eauto
  | |- keeps _ (udiv _ _) => apply keeps_udiv; typeclasses eauto
  | |- keeps _ (xa_load_membuf _) => apply keeps_xa_load_membuf; typeclasses eauto
  | |- keeps _ (modify_vm _) => apply keeps_modify_vm; side
  | |- keeps _ (modify_sbm _) => apply keeps_modify_sbm; side
  | |- keeps _ (modify_bbm _) => apply keeps_modify_bbm; side
  | |- keeps _ (modify_xa_membuf _) => apply keeps_modify_xa_membuf; side
  | |- keeps _ (modify_PageOffline _) => apply keeps_modify_PageOffline; side
  | |- keeps _ (modify_PageDirty _) => apply keeps_modify_PageDirty; side
  | |- keeps _ (extcall _) => apply keeps_extcall; side
  | |- keeps _ (virtio_mem_sbm_get_mb_state _) =>
      apply keeps_virtio_mem_sbm_get_mb_state; typeclasses eauto
  | |- keeps _ (virtio_mem_bbm_get_bb_state _) =>
      apply keeps_virtio_mem_bbm_get_bb_state; typeclasses eauto
  | |- keeps _ (virtio_mem_sbm_for_each_mb _ _ _ _) =>
      apply keeps_virtio_mem_sbm_for_each_mb; [ typeclasses eauto | intros ? ? ]
  | |- keeps _ (virtio_mem_sbm_for_each_mb_rev _ _ _ _) =>
      apply keeps_virtio_mem_sbm_for_each_mb_rev; [ typeclasses eauto | intros ? ? ]
  | |- keeps _ (virtio_mem_bbm_for_each_bb _ _ _ _) =>
      apply keeps_virtio_mem_bbm_for_each_bb; [ typeclasses eauto | intros ? ? ]
  | |- keeps _ (virtio_mem_bbm_for_each_bb_rev _ _ _ _) =>
      apply keeps_virtio_mem_bbm_for_each_bb_rev; [ typeclasses eauto | intros ? ? ]
  | |- keeps _ (bbm_for_each_online_section _ _ _ _) =>
      apply keeps_bbm_for_each_online_section;
      [ typeclasses eauto | side | intros ? ]
  | |- keeps _ (sbm_unplug_walk _ _ _ _ _) =>
      apply keeps_sbm_unplug_walk; [ typeclasses eauto | side | intros ? ? ]
  | |- keeps _ (if ?b then _ else _) => destruct b
  | |- keeps _ (match ?x with _ => _ end) => destruct x
  | |- keeps _ _ => solve [ eauto with keeps ]
  end.
Ltac keeps_auto side := repeat (keeps_step side).

Create HintDb keeps.

(** * The configuration is constant

    What no function of the engine changes: the mode, the unit sizes, the
    requested size, the flags set at probe and removal time, the platform
    and the environment.  [plugged_size] stays an [uint64_t]. *)

Definition is_u64 (x : Z) : Prop := 0 <= x < U64.

Definition cfg_of (w : world) :=
  (in_sbm (vm w), sb_size (sbm (vm w)), bb_size (bbm (vm w)),
   requested_size (vm w), in_kdump (vm w), removing (vm w),
   device_block_size (vm w), plat w, env w,
   first_mb_id (sbm (vm w)), first_bb_id (bbm (vm w))).

Definition cfgR (w w' : world) : Prop :=
  cfg_of w' = cfg_of w /\
  (is_u64 (plugged_size (vm w)) -> is_u64 (plugged_size (vm w'))).

#[global] Instance cfgR_preorder : PreOrder cfgR.
Proof.
  split.
  - intros w. split; [reflexivity | auto].
  - intros w1 w2 w3 [E1 P1] [E2 P2]. split; [congruence | auto].
Qed.

Lemma u64_is_u64 x : is_u64 (u64 x).
Proof. unfold is_u64, u64, U64. apply Z.mod_pos_bound. reflexivity. Qed.

Ltac cfg_side :=
  intros; split; [ reflexivity | cbn; intros; first [ assumption | apply u64_is_u64 ] ].


Lemma cfgR_virtio_mem_bbm_set_bb_state bb_id state :
  keeps cfgR (virtio_mem_bbm_set_bb_state bb_id state).
Proof. unfold virtio_mem_bbm_set_bb_state. keeps_auto cfg_side. Qed.
#[global] Hint Resolve cfgR_virtio_mem_bbm_set_bb_state : keeps.

Lemma cfgR_virtio_mem_bbm_bb_states_prepare_next_bb  :
  keeps cfgR (virtio_mem_bbm_bb_states_prepare_next_bb ).
Proof. unfold virtio_mem_bbm_bb_states_prepare_next_bb. keeps_auto cfg_side. Qed.
#[global] Hint Resolve cfgR_virtio_mem_bbm_bb_states_prepare_next_bb : keeps.

Lemma cfgR_virtio_mem_sbm_set_mb_state mb_id state :
  keeps cfgR (virtio_mem_sbm_set_mb_state mb_id state).
Proof. unfold virtio_mem_sbm_set_mb_state. keeps_auto cfg_side. Qed.
#[global] Hint Resolve cfgR_virtio_mem_sbm_set_mb_state : keeps.

Lemma cfgR_virtio_mem_sbm_mb_states_prepare_next_mb  :
  keeps cfgR (virtio_mem_sbm_mb_states_prepare_next_mb ).
Proof. unfold virtio_mem_sbm_mb_states_prepare_next_mb. keeps_auto cfg_side. Qed.
#[global] Hint Resolve cfgR_virtio_mem_sbm_mb_states_prepare_next_mb : keeps.

Lemma cfgR_virtio_mem_sbm_set_sb_plugged mb_id sb_id count :
  keeps cfgR (virtio_mem_sbm_set_sb_plugged mb_id sb_id count).
Proof. unfold virtio_mem_sbm_set_sb_plugged. keeps_auto cfg_side. Qed.
#[global] Hint Resolve cfgR_virtio_mem_sbm_set_sb_plugged : keeps.

Lemma cfgR_virtio_mem_sbm_set_sb_unplugged mb_id sb_id count :
  keeps cfgR (virtio_mem_sbm_set_sb_unplugged mb_id sb_id count).
Proof. unfold virtio_mem_sbm_set_sb_unplugged. keeps_auto cfg_side. Qed.
#[global] Hint Resolve cfgR_virtio_mem_sbm_set_sb_unplugged : keeps.

Lemma cfgR_virtio_mem_sbm_test_sb_plugged mb_id sb_id count :
  keeps cfgR (virtio_mem_sbm_test_sb_plugged mb_id sb_id count).
Proof. unfold virtio_mem_sbm_test_sb_plugged. keeps_auto cfg_side. Qed.
#[global] Hint Resolve cfgR_virtio_mem_sbm_test_sb_plugged : keeps.

Lemma cfgR_virtio_mem_sbm_test_sb_unplugged mb_id sb_id count :
  keeps cfgR (virtio_mem_sbm_test_sb_unplugged mb_id sb_id count).
Proof. unfold virtio_mem_sbm_test_sb_unplugged. keeps_auto cfg_side. Qed.
#[global] Hint Resolve cfgR_virtio_mem_sbm_test_sb_unplugged : keeps.

Lemma cfgR_virtio_mem_sbm_first_unplugged_sb mb_id :
  keeps cfgR (virtio_mem_sbm_first_unplugged_sb mb_id).
Proof. unfold virtio_mem_sbm_first_unplugged_sb. keeps_auto cfg_side. Qed.
#[global] Hint Resolve cfgR_virtio_mem_sbm_first_unplugged_sb : keeps.

Lemma cfgR_virtio_mem_sbm_sb_states_prepare_next_mb  :
  keeps cfgR (virtio_mem_sbm_sb_states_prepare_next_mb ).
Proof. unfold virtio_mem_sbm_sb_states_prepare_next_mb. keeps_auto cfg_side. Qed.
#[global] Hint Resolve cfgR_virtio_mem_sbm_sb_states_prepare_next_mb : keeps.

Lemma cfgR_xa_store_membuf index entry :
  keeps cfgR (xa_store_membuf index entry).
Proof. unfold xa_store_membuf. keeps_auto cfg_side. Qed.
#[global] Hint Resolve cfgR_xa_store_membuf : keeps.

Lemma cfgR_virtio_mem_send_unplug_request fuel addr size memmap :
  keeps cfgR (virtio_mem_send_unplug_request fuel addr size memmap).
Proof. unfold virtio_mem_send_unplug_request. keeps_auto cfg_side. Qed.
#[global] Hint Resolve cfgR_virtio_mem_send_unplug_request : keeps.

Lemma cfgR_virtio_mem_send_plug_request fuel addr size memmap :
  keeps cfgR (virtio_mem_send_plug_request fuel addr size memmap).
Proof. unfold virtio_mem_send_plug_request. keeps_auto cfg_side. Qed.
#[global] Hint Resolve cfgR_virtio_mem_send_plug_request : keeps.

Lemma cfgR_virtio_mem_send_unplug_all_request  :
  keeps cfgR (virtio_mem_send_unplug_all_request ).
Proof. unfold virtio_mem_send_unplug_all_request. keeps_auto cfg_side. Qed.
#[global] Hint Resolve cfgR_virtio_mem_send_unplug_all_request : keeps.

Lemma cfgR_virtio_mem_plug_memmap fuel addr :
  keeps cfgR (virtio_mem_plug_memmap fuel addr).
Proof. unfold virtio_mem_plug_memmap. keeps_auto cfg_side. Qed.
#[global] Hint Resolve cfgR_virtio_mem_plug_memmap : keeps.

Lemma cfgR_virtio_mem_unplug_memmap fuel addr :
  keeps cfgR (virtio_mem_unplug_memmap fuel addr).
Proof. unfold virtio_mem_unplug_memmap. keeps_auto cfg_side. Qed.
#[global] Hint Resolve cfgR_virtio_mem_unplug_memmap : keeps.

Lemma cfgR_virtio_mem_retry  :
  keeps cfgR (virtio_mem_retry ).
Proof. unfold virtio_mem_retry. keeps_auto cfg_side. Qed.
#[global] Hint Resolve cfgR_virtio_mem_retry : keeps.

Lemma cfgR_atomic64_add_offline_size d :
  keeps cfgR (atomic64_add_offline_size d).
Proof. unfold atomic64_add_offline_size. keeps_auto cfg_side. Qed.
#[global] Hint Resolve cfgR_atomic64_add_offline_size : keeps.

Lemma cfgR_virtio_mem_set_fake_offline pfn nr_pages onlined :
  keeps cfgR (virtio_mem_set_fake_offline pfn nr_pages onlined).
Proof. unfold virtio_mem_set_fake_offline. keeps_auto cfg_side. Qed.
#[global] Hint Resolve cfgR_virtio_mem_set_fake_offline : keeps.

Lemma cfgR_virtio_mem_clear_fake_offline pfn nr_pages onlined :
  keeps cfgR (virtio_mem_clear_fake_offline pfn nr_pages onlined).
Proof. unfold virtio_mem_clear_fake_offline. keeps_auto cfg_side. Qed.
#[global] Hint Resolve cfgR_virtio_mem_clear_fake_offline : keeps.

Lemma cfgR_virtio_mem_fake_online fuel pfn nr_pages :
  keeps cfgR (virtio_mem_fake_online fuel pfn nr_pages).
Proof. unfold virtio_mem_fake_online. keeps_auto cfg_side. Qed.
#[global] Hint Resolve cfgR_virtio_mem_fake_online : keeps.

Lemma cfgR_virtio_mem_config_changed  :
  keeps cfgR (virtio_mem_config_changed ).
Proof. unfold virtio_mem_config_changed. keeps_auto cfg_side. Qed.
#[global] Hint Resolve cfgR_virtio_mem_config_changed : keeps.

Lemma cfgR_atomic_read_config_changed  :
  keeps cfgR (atomic_read_config_changed ).
Proof. unfold atomic_read_config_changed. keeps_auto cfg_side. Qed.
#[global] Hint Resolve cfgR_atomic_read_config_changed : keeps.

Lemma cfgR_virtio_mem_fake_offline pfn nr_pages :
  keeps cfgR (virtio_mem_fake_offline pfn nr_pages).
Proof. unfold virtio_mem_fake_offline. keeps_auto cfg_side. Qed.
#[global] Hint Resolve cfgR_virtio_mem_fake_offline : keeps.

Lemma cfgR_virtio_mem_fake_offline_going_offline fuel pfn nr_pages :
  keeps cfgR (virtio_mem_fake_offline_going_offline fuel pfn nr_pages).
Proof. unfold virtio_mem_fake_offline_going_offline. keeps_auto cfg_side. Qed.
#[global] Hint Resolve cfgR_virtio_mem_fake_offline_going_offline : keeps.

Lemma cfgR_virtio_mem_fake_offline_cancel_offline fuel pfn nr_pages :
  keeps cfgR (virtio_mem_fake_offline_cancel_offline fuel pfn nr_pages).
Proof. unfold virtio_mem_fake_offline_cancel_offline. keeps_auto cfg_side. Qed.
#[global] Hint Resolve cfgR_virtio_mem_fake_offline_cancel_offline : keeps.

Lemma cfgR_virtio_mem_sbm_notify_going_online mb_id :
  keeps cfgR (virtio_mem_sbm_notify_going_online mb_id).
Proof. unfold virtio_mem_sbm_notify_going_online. keeps_auto cfg_side. Qed.
#[global] Hint Resolve cfgR_virtio_mem_sbm_notify_going_online : keeps.

Lemma cfgR_virtio_mem_sbm_notify_offline mb_id :
  keeps cfgR (virtio_mem_sbm_notify_offline mb_id).
Proof. unfold virtio_mem_sbm_notify_offline. keeps_auto cfg_side. Qed.
#[global] Hint Resolve cfgR_virtio_mem_sbm_notify_offline : keeps.

Lemma cfgR_virtio_mem_sbm_notify_online mb_id start_pfn :
  keeps cfgR (virtio_mem_sbm_notify_online mb_id start_pfn).
Proof. unfold virtio_mem_sbm_notify_online. keeps_auto cfg_side. Qed.
#[global] Hint Resolve cfgR_virtio_mem_sbm_notify_online : keeps.

Lemma cfgR_virtio_mem_sbm_notify_going_offline fuel mb_id :
  keeps cfgR (virtio_mem_sbm_notify_going_offline fuel mb_id).
Proof. unfold virtio_mem_sbm_notify_going_offline. keeps_auto cfg_side. Qed.
#[global] Hint Resolve cfgR_virtio_mem_sbm_notify_going_offline : keeps.

Lemma cfgR_virtio_mem_sbm_notify_cancel_offline fuel mb_id :
  keeps cfgR (virtio_mem_sbm_notify_cancel_offline fuel mb_id).
Proof. unfold virtio_mem_sbm_notify_cancel_offline. keeps_auto cfg_side. Qed.
#[global] Hint Resolve cfgR_virtio_mem_sbm_notify_cancel_offline : keeps.

Lemma cfgR_virtio_mem_bbm_notify_going_offline fuel bb_id pfn nr_pages :
  keeps cfgR (virtio_mem_bbm_notify_going_offline fuel bb_id pfn nr_pages).
Proof. unfold virtio_mem_bbm_notify_going_offline. keeps_auto cfg_side. Qed.
#[global] Hint Resolve cfgR_virtio_mem_bbm_notify_going_offline : keeps.

Lemma cfgR_virtio_mem_bbm_notify_cancel_offline fuel bb_id pfn nr_pages :
  keeps cfgR (virtio_mem_bbm_notify_cancel_offline fuel bb_id pfn nr_pages).
Proof. unfold virtio_mem_bbm_notify_cancel_offline. keeps_auto cfg_side. Qed.
#[global] Hint Resolve cfgR_virtio_mem_bbm_notify_cancel_offline : keeps.

Lemma cfgR_virtio_mem_memory_notifier_cb fuel action mhp :
  keeps cfgR (virtio_mem_memory_notifier_cb fuel action mhp).
Proof. unfold virtio_mem_memory_notifier_cb. keeps_auto cfg_side. Qed.
#[global] Hint Resolve cfgR_virtio_mem_memory_notifier_cb : keeps.

Lemma cfgR_virtio_mem_online_page fuel pfn order :
  keeps cfgR (virtio_mem_online_page fuel pfn order).
Proof. unfold virtio_mem_online_page. cbv zeta. keeps_auto cfg_side. Qed.
#[global] Hint Resolve cfgR_virtio_mem_online_page : keeps.

Lemma cfgR_virtio_mem_online_page_cb fuel pfn order :
  keeps cfgR (virtio_mem_online_page_cb fuel pfn order).
Proof. unfold virtio_mem_online_page_cb. keeps_auto cfg_side. Qed.
#[global] Hint Resolve cfgR_virtio_mem_online_page_cb : keeps.

Lemma cfgR_kernel_callbacks fuel :
  keeps cfgR (kernel_callbacks fuel).
Proof. unfold kernel_callbacks. keeps_auto cfg_side. Qed.
#[global] Hint Resolve cfgR_kernel_callbacks : keeps.

Lemma cfgR_virtio_mem_add_memory fuel addr size :
  keeps cfgR (virtio_mem_add_memory fuel addr size).
Proof. unfold virtio_mem_add_memory. keeps_auto cfg_side. Qed.
#[global] Hint Resolve cfgR_virtio_mem_add_memory : keeps.

Lemma cfgR_virtio_mem_sbm_add_mb fuel mb_id :
  keeps cfgR (virtio_mem_sbm_add_mb fuel mb_id).
Proof. unfold virtio_mem_sbm_add_mb. keeps_auto cfg_side. Qed.
#[global] Hint Resolve cfgR_virtio_mem_sbm_add_mb : keeps.

Lemma cfgR_virtio_mem_bbm_add_bb fuel bb_id :
  keeps cfgR (virtio_mem_bbm_add_bb fuel bb_id).
Proof. unfold virtio_mem_bbm_add_bb. keeps_auto cfg_side. Qed.
#[global] Hint Resolve cfgR_virtio_mem_bbm_add_bb : keeps.

Lemma cfgR_virtio_mem_remove_memory fuel addr size :
  keeps cfgR (virtio_mem_remove_memory fuel addr size).
Proof. unfold virtio_mem_remove_memory. keeps_auto cfg_side. Qed.
#[global] Hint Resolve cfgR_virtio_mem_remove_memory : keeps.

Lemma cfgR_virtio_mem_sbm_remove_mb fuel mb_id :
  keeps cfgR (virtio_mem_sbm_remove_mb fuel mb_id).
Proof. unfold virtio_mem_sbm_remove_mb. keeps_auto cfg_side. Qed.
#[global] Hint Resolve cfgR_virtio_mem_sbm_remove_mb : keeps.

Lemma cfgR_virtio_mem_offline_and_remove_memory fuel addr size :
  keeps cfgR (virtio_mem_offline_and_remove_memory fuel addr size).
Proof. unfold virtio_mem_offline_and_remove_memory. keeps_auto cfg_side. Qed.
#[global] Hint Resolve cfgR_virtio_mem_offline_and_remove_memory : keeps.

Lemma cfgR_virtio_mem_sbm_offline_and_remove_mb fuel mb_id :
  keeps cfgR (virtio_mem_sbm_offline_and_remove_mb fuel mb_id).
Proof. unfold virtio_mem_sbm_offline_and_remove_mb. keeps_auto cfg_side. Qed.
#[global] Hint Resolve cfgR_virtio_mem_sbm_offline_and_remove_mb : keeps.

Lemma cfgR_virtio_mem_sbm_try_remove_unplugged_mb fuel mb_id :
  keeps cfgR (virtio_mem_sbm_try_remove_unplugged_mb fuel mb_id).
Proof. unfold virtio_mem_sbm_try_remove_unplugged_mb. keeps_auto cfg_side. Qed.
#[global] Hint Resolve cfgR_virtio_mem_sbm_try_remove_unplugged_mb : keeps.

Lemma cfgR_virtio_mem_bbm_offline_and_remove_bb fuel bb_id :
  keeps cfgR (virtio_mem_bbm_offline_and_remove_bb fuel bb_id).
Proof. unfold virtio_mem_bbm_offline_and_remove_bb. keeps_auto cfg_side. Qed.
#[global] Hint Resolve cfgR_virtio_mem_bbm_offline_and_remove_bb : keeps.

Lemma cfgR_virtio_mem_sbm_plug_sb fuel mb_id sb_id count :
  keeps cfgR (virtio_mem_sbm_plug_sb fuel mb_id sb_id count).
Proof. unfold virtio_mem_sbm_plug_sb. keeps_auto cfg_side. Qed.
#[global] Hint Resolve cfgR_virtio_mem_sbm_plug_sb : keeps.

Lemma cfgR_virtio_mem_sbm_unplug_sb fuel mb_id sb_id count :
  keeps cfgR (virtio_mem_sbm_unplug_sb fuel mb_id sb_id count).
Proof. unfold virtio_mem_sbm_unplug_sb. keeps_auto cfg_side. Qed.
#[global] Hint Resolve cfgR_virtio_mem_sbm_unplug_sb : keeps.

Lemma cfgR_virtio_mem_bbm_unplug_bb fuel bb_id :
  keeps cfgR (virtio_mem_bbm_unplug_bb fuel bb_id).
Proof. unfold virtio_mem_bbm_unplug_bb. keeps_auto cfg_side. Qed.
#[global] Hint Resolve cfgR_virtio_mem_bbm_unplug_bb : keeps.

Lemma cfgR_virtio_mem_bbm_plug_bb fuel bb_id :
  keeps cfgR (virtio_mem_bbm_plug_bb fuel bb_id).
Proof. unfold virtio_mem_bbm_plug_bb. keeps_auto cfg_side. Qed.
#[global] Hint Resolve cfgR_virtio_mem_bbm_plug_bb : keeps.

Lemma cfgR_virtio_mem_sbm_unplug_any_sb_raw fuel mb_id nb_sb :
  keeps cfgR (virtio_mem_sbm_unplug_any_sb_raw fuel mb_id nb_sb).
Proof. unfold virtio_mem_sbm_unplug_any_sb_raw. keeps_auto cfg_side. Qed.
#[global] Hint Resolve cfgR_virtio_mem_sbm_unplug_any_sb_raw : keeps.

Lemma cfgR_virtio_mem_sbm_unplug_mb fuel mb_id :
  keeps cfgR (virtio_mem_sbm_unplug_mb fuel mb_id).
Proof. unfold virtio_mem_sbm_unplug_mb. keeps_auto cfg_side. Qed.
#[global] Hint Resolve cfgR_virtio_mem_sbm_unplug_mb : keeps.

Lemma cfgR_virtio_mem_sbm_prepare_next_mb  :
  keeps cfgR (virtio_mem_sbm_prepare_next_mb ).
Proof. unfold virtio_mem_sbm_prepare_next_mb. keeps_auto cfg_side. Qed.
#[global] Hint Resolve cfgR_virtio_mem_sbm_prepare_next_mb : keeps.

Lemma cfgR_virtio_mem_sbm_plug_and_add_mb fuel mb_id nb_sb :
  keeps cfgR (virtio_mem_sbm_plug_and_add_mb fuel mb_id nb_sb).
Proof. unfold virtio_mem_sbm_plug_and_add_mb. keeps_auto cfg_side. Qed.
#[global] Hint Resolve cfgR_virtio_mem_sbm_plug_and_add_mb : keeps.

Lemma cfgR_virtio_mem_sbm_plug_any_sb fuel mb_id nb_sb :
  keeps cfgR (virtio_mem_sbm_plug_any_sb fuel mb_id nb_sb).
Proof. unfold virtio_mem_sbm_plug_any_sb. keeps_auto cfg_side. Qed.
#[global] Hint Resolve cfgR_virtio_mem_sbm_plug_any_sb : keeps.

Lemma cfgR_virtio_mem_sbm_plug_request fuel diff :
  keeps cfgR (virtio_mem_sbm_plug_request fuel diff).
Proof. unfold virtio_mem_sbm_plug_request. keeps_auto cfg_side. Qed.
#[global] Hint Resolve cfgR_virtio_mem_sbm_plug_request : keeps.

Lemma cfgR_virtio_mem_sbm_unplug_any_sb_offline fuel mb_id nb_sb :
  keeps cfgR (virtio_mem_sbm_unplug_any_sb_offline fuel mb_id nb_sb).
Proof. unfold virtio_mem_sbm_unplug_any_sb_offline. keeps_auto cfg_side. Qed.
#[global] Hint Resolve cfgR_virtio_mem_sbm_unplug_any_sb_offline : keeps.

Lemma cfgR_virtio_mem_sbm_unplug_sb_online fuel mb_id sb_id count :
  keeps cfgR (virtio_mem_sbm_unplug_sb_online fuel mb_id sb_id count).
Proof. unfold virtio_mem_sbm_unplug_sb_online. keeps_auto cfg_side. Qed.
#[global] Hint Resolve cfgR_virtio_mem_sbm_unplug_sb_online : keeps.

Lemma cfgR_virtio_mem_sbm_unplug_any_sb_online fuel mb_id nb_sb :
  keeps cfgR (virtio_mem_sbm_unplug_any_sb_online fuel mb_id nb_sb).
Proof. unfold virtio_mem_sbm_unplug_any_sb_online. keeps_auto cfg_side. Qed.
#[global] Hint Resolve cfgR_virtio_mem_sbm_unplug_any_sb_online : keeps.

Lemma cfgR_virtio_mem_sbm_unplug_any_sb fuel mb_id nb_sb :
  keeps cfgR (virtio_mem_sbm_unplug_any_sb fuel mb_id nb_sb).
Proof. unfold virtio_mem_sbm_unplug_any_sb. keeps_auto cfg_side. Qed.
#[global] Hint Resolve cfgR_virtio_mem_sbm_unplug_any_sb : keeps.

Lemma cfgR_virtio_mem_sbm_unplug_request fuel diff :
  keeps cfgR (virtio_mem_sbm_unplug_request fuel diff).
Proof. unfold virtio_mem_sbm_unplug_request. keeps_auto cfg_side. Qed.
#[global] Hint Resolve cfgR_virtio_mem_sbm_unplug_request : keeps.

Lemma cfgR_virtio_mem_bbm_plug_and_add_bb fuel bb_id :
  keeps cfgR (virtio_mem_bbm_plug_and_add_bb fuel bb_id).
Proof. unfold virtio_mem_bbm_plug_and_add_bb. keeps_auto cfg_side. Qed.
#[global] Hint Resolve cfgR_virtio_mem_bbm_plug_and_add_bb : keeps.

Lemma cfgR_virtio_mem_bbm_prepare_next_bb  :
  keeps cfgR (virtio_mem_bbm_prepare_next_bb ).
Proof. unfold virtio_mem_bbm_prepare_next_bb. keeps_auto cfg_side. Qed.
#[global] Hint Resolve cfgR_virtio_mem_bbm_prepare_next_bb : keeps.

Lemma cfgR_virtio_mem_bbm_plug_request fuel diff :
  keeps cfgR (virtio_mem_bbm_plug_request fuel diff).
Proof. unfold virtio_mem_bbm_plug_request. keeps_auto cfg_side. Qed.
#[global] Hint Resolve cfgR_virtio_mem_bbm_plug_request : keeps.

Lemma cfgR_virtio_mem_plug_request fuel diff :
  keeps cfgR (virtio_mem_plug_request fuel diff).
Proof. unfold virtio_mem_plug_request. keeps_auto cfg_side. Qed.
#[global] Hint Resolve cfgR_virtio_mem_plug_request : keeps.

Lemma cfgR_virtio_mem_bbm_offline_remove_and_unplug_bb fuel bb_id :
  keeps cfgR (virtio_mem_bbm_offline_remove_and_unplug_bb fuel bb_id).
Proof. unfold virtio_mem_bbm_offline_remove_and_unplug_bb. keeps_auto cfg_side. Qed.
#[global] Hint Resolve cfgR_virtio_mem_bbm_offline_remove_and_unplug_bb : keeps.

Lemma cfgR_virtio_mem_bbm_bb_is_offline fuel bb_id :
  keeps cfgR (virtio_mem_bbm_bb_is_offline fuel bb_id).
Proof. unfold virtio_mem_bbm_bb_is_offline. keeps_auto cfg_side. Qed.
#[global] Hint Resolve cfgR_virtio_mem_bbm_bb_is_offline : keeps.

Lemma cfgR_virtio_mem_bbm_bb_is_movable fuel bb_id :
  keeps cfgR (virtio_mem_bbm_bb_is_movable fuel bb_id).
Proof. unfold virtio_mem_bbm_bb_is_movable. keeps_auto cfg_side. Qed.
#[global] Hint Resolve cfgR_virtio_mem_bbm_bb_is_movable : keeps.

Lemma cfgR_bbm_unplug_walk fuel passes :
  forall i nb_bb, keeps cfgR (bbm_unplug_walk fuel passes i nb_bb).
Proof.
  induction passes as [|passes IH]; intros i nb_bb; cbn [bbm_unplug_walk];
    keeps_auto cfg_side.
Qed.
#[global] Hint Resolve cfgR_bbm_unplug_walk : keeps.

Lemma cfgR_virtio_mem_bbm_unplug_request fuel diff :
  keeps cfgR (virtio_mem_bbm_unplug_request fuel diff).
Proof. unfold virtio_mem_bbm_unplug_request. keeps_auto cfg_side. Qed.
#[global] Hint Resolve cfgR_virtio_mem_bbm_unplug_request : keeps.

Lemma cfgR_virtio_mem_unplug_request fuel diff :
  keeps cfgR (virtio_mem_unplug_request fuel diff).
Proof. unfold virtio_mem_unplug_request. keeps_auto cfg_side. Qed.
#[global] Hint Resolve cfgR_virtio_mem_unplug_request : keeps.

Lemma cfgR_virtio_mem_cleanup_pending_mb fuel :
  keeps cfgR (virtio_mem_cleanup_pending_mb fuel).
Proof. unfold virtio_mem_cleanup_pending_mb. keeps_auto cfg_side. Qed.
#[global] Hint Resolve cfgR_virtio_mem_cleanup_pending_mb : keeps.

Lemma cfgR_virtio_mem_refresh_config  :
  keeps cfgR (virtio_mem_refresh_config ).
Proof. unfold virtio_mem_refresh_config. keeps_auto cfg_side. Qed.
#[global] Hint Resolve cfgR_virtio_mem_refresh_config : keeps.

Lemma cfgR_virtio_mem_run_wq_pass fuel :
  keeps cfgR (virtio_mem_run_wq_pass fuel).
Proof. unfold virtio_mem_run_wq_pass. keeps_auto cfg_side. Qed.
#[global] Hint Resolve cfgR_virtio_mem_run_wq_pass : keeps.

Lemma cfgR_virtio_mem_run_wq_switch rc :
  keeps cfgR (virtio_mem_run_wq_switch rc).
Proof. unfold virtio_mem_run_wq_switch. keeps_auto cfg_side. Qed.
#[global] Hint Resolve cfgR_virtio_mem_run_wq_switch : keeps.

Lemma cfgR_virtio_mem_run_wq fuel :
  keeps cfgR (virtio_mem_run_wq fuel).
Proof. unfold virtio_mem_run_wq. keeps_auto cfg_side. Qed.
#[global] Hint Resolve cfgR_virtio_mem_run_wq : keeps.

Lemma cfgR_virtio_mem_timer_expired  :
  keeps cfgR (virtio_mem_timer_expired ).
Proof. unfold virtio_mem_timer_expired. keeps_auto cfg_side. Qed.
#[global] Hint Resolve cfgR_virtio_mem_timer_expired : keeps.


(** * Accounting of [plugged_size]

    [plugR]: the configuration and [plugged_size] are unchanged.
    [acct d]: [plugged_size] has moved by [d], modulo [2^64]. *)

Definition eq64 (a b : Z) : Prop := a mod U64 = b mod U64.

Definition plugR (w w' : world) : Prop :=
  cfgR w w' /\ plugged_size (vm w') = plugged_size (vm w).

Definition acct (d : Z) (w w' : world) : Prop :=
  cfgR w w' /\ eq64 (plugged_size (vm w')) (plugged_size (vm w) + d).

#[global] Instance eq64_equiv : Equivalence eq64.
Proof.
  unfold eq64. split.
  - intros x. reflexivity.
  - intros x y H. symmetry. exact H.
  - intros x y z H1 H2. congruence.
Qed.

#[global] Instance eq64_add : Proper (eq64 ==> eq64 ==> eq64) Z.add.
Proof.
  unfold eq64. intros a a' Ha b b' Hb.
  rewrite (Z.add_mod a), (Z.add_mod a') by discriminate. congruence.
Qed.
#[global] Instance eq64_sub : Proper (eq64 ==> eq64 ==> eq64) Z.sub.
Proof.
  unfold eq64. intros a a' Ha b b' Hb.
  rewrite (Zminus_mod a), (Zminus_mod a'). congruence.
Qed.
#[global] Instance eq64_mul : Proper (eq64 ==> eq64 ==> eq64) Z.mul.
Proof.
  unfold eq64. intros a a' Ha b b' Hb.
  rewrite (Z.mul_mod a), (Z.mul_mod a') by discriminate. congruence.
Qed.

Lemma u64_eq64 x : eq64 (u64 x) x.
Proof. unfold eq64, u64. apply Z.mod_mod. discriminate. Qed.

Lemma eq64_is_u64 a b : eq64 a b -> is_u64 a -> is_u64 b -> a = b.
Proof.
  unfold eq64, is_u64. intros H Ha Hb.
  rewrite (Z.mod_small a), (Z.mod_small b) in H by assumption. exact H.
Qed.

#[global] Instance plugR_preorder : PreOrder plugR.
Proof.
  split.
  - intros w. split; reflexivity.
  - intros w1 w2 w3 [C1 P1] [C2 P2]. split; [etransitivity; eassumption | congruence].
Qed.

Lemma acct_0 w w' : plugR w w' -> acct 0 w w'.
Proof. intros [C P]. split; [exact C|]. rewrite P, Z.add_0_r. reflexivity. Qed.

Lemma acct_trans d1 d2 w w1 w2 :
  acct d1 w w1 -> acct d2 w1 w2 -> acct (d1 + d2) w w2.
Proof.
  intros [C1 E1] [C2 E2]. split; [etransitivity; eassumption|].
  rewrite E2, E1. unfold eq64. f_equal. ring.
Qed.

Lemma acct_eq64 d d' w w' : eq64 d d' -> acct d w w' -> acct d' w w'.
Proof. intros E [C H]. split; [exact C|]. rewrite H, E. reflexivity. Qed.

Lemma plugR_acct d w w1 w2 : plugR w w1 -> acct d w1 w2 -> acct d w w2.
Proof. intros H1 H2. apply (acct_trans 0 d w w1 w2); [apply acct_0, H1 | exact H2]. Qed.

Lemma acct_plugR d w w1 w2 : acct d w w1 -> plugR w1 w2 -> acct d w w2.
Proof.
  intros H1 H2. replace d with (d + 0) by ring.
  apply (acct_trans d 0 w w1 w2); [exact H1 | apply acct_0, H2].
Qed.

Lemma plugR_cfgR w w' : plugR w w' -> cfgR w w'.
Proof. intros [C _]. exact C. Qed.
Lemma acct_cfgR d w w' : acct d w w' -> cfgR w w'.
Proof. intros [C _]. exact C. Qed.

Ltac plug_side := intros; split; [ cfg_side | reflexivity ].

(** Binding a computation whose effect is known. *)
Lemma wlp_bind_post {A B} (m : M A) (k : A -> M B) (P : A -> world -> Prop) Q w :
  wlp m P w -> (forall a w', P a w' -> wlp (k a) Q w') -> wlp (bind m k) Q w.
Proof. intros Hm Hk. apply wlp_bind. eapply wlp_mono; [exact Hm | exact Hk]. Qed.

Lemma wlp_bind_keeps {A B} R (m : M A) (k : A -> M B) Q w :
  keeps R m -> (forall a w', R w w' -> wlp (k a) Q w') -> wlp (bind m k) Q w.
Proof. intros Hm Hk. eapply wlp_bind_post; [apply Hm | exact Hk]. Qed.

Lemma wlp_lift_access {A B} (o : option A) (k : A -> M B) Q w :
  (forall a, o = Some a -> wlp (k a) Q w) -> wlp (bind (lift_access o) k) Q w.
Proof. intros H. destruct o as [a|]; [apply (H a eq_refl) | exact Logic.I]. Qed.

Lemma wlp_udiv {B} a b (k : Z -> M B) Q w :
  (b <> 0 -> wlp (k (a / b)) Q w) -> wlp (bind (udiv a b) k) Q w.
Proof.
  intros H. unfold udiv, bind. destruct (Z.eqb_spec b 0); [exact Logic.I|].
  apply H. assumption.
Qed.

Lemma wlp_bind_any {A B} (m : M A) (k : A -> M B) (Q : B -> world -> Prop) w :
  (forall a w', wlp (k a) Q w') -> wlp (bind m k) Q w.
Proof.
  intros H. apply wlp_bind. apply wlp_intro. intros a w' _. apply H.
Qed.

Lemma cfgR_fields w w' :
  cfgR w w' ->
  in_sbm (vm w') = in_sbm (vm w) /\
  sb_size (sbm (vm w')) = sb_size (sbm (vm w)) /\
  bb_size (bbm (vm w')) = bb_size (bbm (vm w)) /\
  requested_size (vm w') = requested_size (vm w) /\
  in_kdump (vm w') = in_kdump (vm w) /\
  removing (vm w') = removing (vm w) /\
  device_block_size (vm w') = device_block_size (vm w) /\
  plat w' = plat w /\ env w' = env w /\
  first_mb_id (sbm (vm w')) = first_mb_id (sbm (vm w)) /\
  first_bb_id (bbm (vm w')) = first_bb_id (bbm (vm w)).
Proof. intros [E _]. unfold cfg_of in E. injection E. intros. repeat split; assumption. Qed.
Lemma plugR_virtio_mem_bbm_set_bb_state bb_id state :
  keeps plugR (virtio_mem_bbm_set_bb_state bb_id state).
Proof. unfold virtio_mem_bbm_set_bb_state. keeps_auto plug_side. Qed.
#[global] Hint Resolve plugR_virtio_mem_bbm_set_bb_state : keeps.

Lemma plugR_virtio_mem_bbm_bb_states_prepare_next_bb  :
  keeps plugR (virtio_mem_bbm_bb_states_prepare_next_bb ).
Proof. unfold virtio_mem_bbm_bb_states_prepare_next_bb. keeps_auto plug_side. Qed.
#[global] Hint Resolve plugR_virtio_mem_bbm_bb_states_prepare_next_bb : keeps.

Lemma plugR_virtio_mem_sbm_set_mb_state mb_id state :
  keeps plugR (virtio_mem_sbm_set_mb_state mb_id state).
Proof. unfold virtio_mem_sbm_set_mb_state. keeps_auto plug_side. Qed.
#[global] Hint Resolve plugR_virtio_mem_sbm_set_mb_state : keeps.

Lemma plugR_virtio_mem_sbm_mb_states_prepare_next_mb  :
  keeps plugR (virtio_mem_sbm_mb_states_prepare_next_mb ).
Proof. unfold virtio_mem_sbm_mb_states_prepare_next_mb. keeps_auto plug_side. Qed.
#[global] Hint Resolve plugR_virtio_mem_sbm_mb_states_prepare_next_mb : keeps.

Lemma plugR_virtio_mem_sbm_set_sb_plugged mb_id sb_id count :
  keeps plugR (virtio_mem_sbm_set_sb_plugged mb_id sb_id count).
Proof. unfold virtio_mem_sbm_set_sb_plugged. keeps_auto plug_side. Qed.
#[global] Hint Resolve plugR_virtio_mem_sbm_set_sb_plugged : keeps.

Lemma plugR_virtio_mem_sbm_set_sb_unplugged mb_id sb_id count :
  keeps plugR (virtio_mem_sbm_set_sb_unplugged mb_id sb_id count).
Proof. unfold virtio_mem_sbm_set_sb_unplugged. keeps_auto plug_side. Qed.
#[global] Hint Resolve plugR_virtio_mem_sbm_set_sb_unplugged : keeps.

Lemma plugR_virtio_mem_sbm_test_sb_plugged mb_id sb_id count :
  keeps plugR (virtio_mem_sbm_test_sb_plugged mb_id sb_id count).
Proof. unfold virtio_mem_sbm_test_sb_plugged. keeps_auto plug_side. Qed.
#[global] Hint Resolve plugR_virtio_mem_sbm_test_sb_plugged : keeps.

Lemma plugR_virtio_mem_sbm_test_sb_unplugged mb_id sb_id count :
  keeps plugR (virtio_mem_sbm_test_sb_unplugged mb_id sb_id count).
Proof. unfold virtio_mem_sbm_test_sb_unplugged. keeps_auto plug_side. Qed.
#[global] Hint Resolve plugR_virtio_mem_sbm_test_sb_unplugged : keeps.

Lemma plugR_virtio_mem_sbm_first_unplugged_sb mb_id :
  keeps plugR (virtio_mem_sbm_first_unplugged_sb mb_id).
Proof. unfold virtio_mem_sbm_first_unplugged_sb. keeps_auto plug_side. Qed.
#[global] Hint Resolve plugR_virtio_mem_sbm_first_unplugged_sb : keeps.

Lemma plugR_virtio_mem_sbm_sb_states_prepare_next_mb  :
  keeps plugR (virtio_mem_sbm_sb_states_prepare_next_mb ).
Proof. unfold virtio_mem_sbm_sb_states_prepare_next_mb. keeps_auto plug_side. Qed.
#[global] Hint Resolve plugR_virtio_mem_sbm_sb_states_prepare_next_mb : keeps.

Lemma plugR_xa_store_membuf index entry :
  keeps plugR (xa_store_membuf index entry).
Proof. unfold xa_store_membuf. keeps_auto plug_side. Qed.
#[global] Hint Resolve plugR_xa_store_membuf : keeps.

Lemma plugR_virtio_mem_send_unplug_all_request  :
  keeps plugR (virtio_mem_send_unplug_all_request ).
Proof. unfold virtio_mem_send_unplug_all_request. keeps_auto plug_side. Qed.
#[global] Hint Resolve plugR_virtio_mem_send_unplug_all_request : keeps.


Lemma wlp_get_vm {B} (k : virtio_mem -> M B) Q w :
  wlp (k (vm w)) Q w -> wlp (bind get_vm k) Q w.
Proof. exact (fun H => H). Qed.
Lemma wlp_get_plat {B} (k : platform -> M B) Q w :
  wlp (k (plat w)) Q w -> wlp (bind get_plat k) Q w.
Proof. exact (fun H => H). Qed.
Lemma wlp_get_world {B} (k : world -> M B) Q w :
  wlp (k w) Q w -> wlp (bind get_world k) Q w.
Proof. exact (fun H => H). Qed.
Lemma wlp_modify_vm {B} f (k : unit -> M B) Q w :
  wlp (k tt) Q (with_vm (f (vm w)) w) -> wlp (bind (modify_vm f) k) Q w.
Proof. exact (fun H => H). Qed.
Lemma wlp_extcall {B} c (k : Z -> M B) Q w :
  wlp (k (env w (trace w) c)) Q (with_trace (c :: trace w) w) ->
  wlp (bind (extcall c) k) Q w.
Proof. exact (fun H => H). Qed.

Ltac eq64_ring :=
  unfold eq64; apply (f_equal (fun x => x mod U64)); ring.

Lemma plugR_extcall c w : plugR w (with_trace (c :: trace w) w).
Proof. plug_side. Qed.

(** [plugged_size] is set to a value that differs by [d] from the old one. *)
Lemma acct_set_plugged d x w :
  eq64 x (plugged_size (vm w) + d) -> is_u64 x ->
  acct d w (with_vm (with_plugged_size x (vm w)) w).
Proof.
  intros E Hx. split; [split; [reflexivity | intros _; exact Hx] | exact E].
Qed.

Lemma virtio_mem_send_unplug_request_spec fuel addr size memmap w :
  wlp (virtio_mem_send_unplug_request fuel addr size memmap)
      (fun rc w' => if (rc =? 0) && negb memmap then acct (- size) w w'
                    else plugR w w') w.
Proof.
  unfold virtio_mem_send_unplug_request. apply wlp_get_vm.
  eapply (wlp_bind_keeps plugR).
  { apply keeps_iterate; [typeclasses eauto|]. intros [a s]. keeps_auto plug_side. }
  intros found w1 H1. destruct found.
  - destruct memmap; cbn.
    + exact H1.
    + eapply plugR_acct; [exact H1|]. apply acct_set_plugged.
      * rewrite u64_eq64. eq64_ring.
      * apply u64_is_u64.
  - cbn. exact H1.
Qed.

Lemma virtio_mem_convert_error_code_nonzero rc :
  virtio_mem_convert_error_code rc <> 0.
Proof.
  unfold virtio_mem_convert_error_code.
  destruct (Z.eqb_spec rc (- ENOSPC)); [subst; discriminate|].
  destruct (Z.eqb_spec rc (- ETXTBSY)); [subst; discriminate|].
  destruct (Z.eqb_spec rc (- EBUSY)); [subst; discriminate|].
  destruct (Z.eqb_spec rc (- EAGAIN)); [subst; discriminate|].
  discriminate.
Qed.

Lemma virtio_mem_send_plug_request_spec fuel addr size memmap w :
  wlp (virtio_mem_send_plug_request fuel addr size memmap)
      (fun rc w' => cfgR w w' /\
                    (memmap = true -> plugR w w') /\
                    (memmap = false -> rc = 0 -> acct size w w')) w.
Proof.
  unfold virtio_mem_send_plug_request. apply wlp_get_vm. apply wlp_extcall.
  set (w0 := with_trace _ w).
  assert (H0 : plugR w w0) by apply plugR_extcall.
  destruct (_ =? 0).
  { apply wlp_ret. split; [apply H0|]. split; [intros _; exact H0|]. discriminate. }
  eapply wlp_bind_post.
  { apply (wlp_iterate
      (fun '(a, s) w' =>
         cfgR w w' /\ (memmap = true -> plugR w w') /\
         (memmap = false -> acct (size - s) w w'))
      (fun r w' =>
         (cfgR w w' /\ (memmap = true -> plugR w w') /\
          (memmap = false -> snd r = None -> acct size w w')) /\
         (forall e, snd r = Some e -> e <> 0))).
    - intros [a s] w1 (C1 & M1 & A1).
      destruct (Z.eqb_spec s 0) as [->|Hs].
      + apply wlp_ret. cbn. split; [|discriminate].
        split; [exact C1|]. split; [exact M1|].
        intros Hm _. specialize (A1 Hm). rewrite Z.sub_0_r in A1. exact A1.
      + apply wlp_extcall. set (w2 := with_trace _ w1).
        assert (H12 : plugR w1 w2) by apply plugR_extcall.
        destruct (IS_ERR _).
        * apply wlp_ret. cbn.
          split; [|intros e [= <-]; apply virtio_mem_convert_error_code_nonzero].
          split; [etransitivity; [exact C1 | apply H12]|].
          split; [intros Hm; etransitivity; [apply M1, Hm | exact H12]|].
          intros _ E. discriminate E.
        * eapply (wlp_bind_keeps plugR); [apply plugR_xa_store_membuf|].
          intros [] w3 H23. destruct memmap; cbn.
          -- split; [etransitivity; [exact C1|]; etransitivity; [apply H12 | apply H23]|].
             split; [|discriminate]. intros _.
             transitivity w1; [apply M1; reflexivity|]. transitivity w2; assumption.
          -- assert (A3 : acct (size - s) w w3).
             { eapply acct_plugR; [apply A1; reflexivity|]. transitivity w2; assumption. }
             assert (A4 : acct (size - u64 (s - device_block_size (vm w))) w
                            (with_vm (with_plugged_size
                               (u64 (plugged_size (vm w3) + device_block_size (vm w)))
                               (vm w3)) w3)).
             { eapply acct_eq64; [|eapply acct_trans; [exact A3|]].
               2:{ apply (acct_set_plugged (device_block_size (vm w)));
                   [apply u64_eq64 | apply u64_is_u64]. }
               rewrite u64_eq64. eq64_ring. }
             split; [apply A4|]. split; [discriminate|]. intros _. exact A4.
    - cbn. split; [apply H0|]. split; [intros _; exact H0|].
      intros _. rewrite Z.sub_diag. apply acct_0, H0. }
  cbn. intros [a [err|]] w1 [(C1 & M1 & A1) Herr].
  - eapply wlp_bind_post.
    { instantiate (1 := fun _ w' => cfgR w1 w' /\ (memmap = true -> plugR w1 w')).
      destruct (_ <? _).
      - eapply wlp_mono; [apply virtio_mem_send_unplug_request_spec|].
        cbn. intros rc w2 H. destruct memmap.
        + rewrite andb_false_r in H. split; [apply H | intros _; exact H].
        + split; [|discriminate]. destruct (_ && _); apply H.
      - apply wlp_ret. split; [reflexivity | intros _; reflexivity]. }
    cbn. intros _ w2 [C2 M2]. split; [etransitivity; eassumption|].
    split.
    + intros Hm. etransitivity; [apply M1, Hm | apply M2, Hm].
    + intros _ E. exfalso. exact (Herr err eq_refl E).
  - apply wlp_ret. split; [exact C1|]. split; [exact M1|].
    intros Hm _. apply A1; auto.
Qed.

Lemma plugR_virtio_mem_plug_memmap fuel addr :
  keeps plugR (virtio_mem_plug_memmap fuel addr).
Proof.
  intros w. unfold virtio_mem_plug_memmap. apply wlp_get_vm, wlp_get_plat.
  destruct (negb _); [apply wlp_ret; reflexivity|].
  eapply wlp_mono; [apply virtio_mem_send_plug_request_spec|].
  cbn. intros rc w' (_ & H & _). apply H. reflexivity.
Qed.
#[global] Hint Resolve plugR_virtio_mem_plug_memmap : keeps.

Lemma plugR_virtio_mem_unplug_memmap fuel addr :
  keeps plugR (virtio_mem_unplug_memmap fuel addr).
Proof.
  intros w. unfold virtio_mem_unplug_memmap. apply wlp_get_vm, wlp_get_plat.
  destruct (negb _); [apply wlp_ret; reflexivity|].
  eapply wlp_bind_post; [apply virtio_mem_send_unplug_request_spec|].
  cbn. intros rc w' H. rewrite andb_false_r in H. exact H.
Qed.
#[global] Hint Resolve plugR_virtio_mem_unplug_memmap : keeps.

Lemma plugR_virtio_mem_retry  :
  keeps plugR (virtio_mem_retry ).
Proof. unfold virtio_mem_retry. keeps_auto plug_side. Qed.
#[global] Hint Resolve plugR_virtio_mem_retry : keeps.

Lemma plugR_atomic64_add_offline_size d :
  keeps plugR (atomic64_add_offline_size d).
Proof. unfold atomic64_add_offline_size. keeps_auto plug_side. Qed.
#[global] Hint Resolve plugR_atomic64_add_offline_size : keeps.

Lemma plugR_virtio_mem_set_fake_offline pfn nr_pages onlined :
  keeps plugR (virtio_mem_set_fake_offline pfn nr_pages onlined).
Proof. unfold virtio_mem_set_fake_offline. keeps_auto plug_side. Qed.
#[global] Hint Resolve plugR_virtio_mem_set_fake_offline : keeps.

Lemma plugR_virtio_mem_clear_fake_offline pfn nr_pages onlined :
  keeps plugR (virtio_mem_clear_fake_offline pfn nr_pages onlined).
Proof. unfold virtio_mem_clear_fake_offline. keeps_auto plug_side. Qed.
#[global] Hint Resolve plugR_virtio_mem_clear_fake_offline : keeps.

Lemma plugR_virtio_mem_fake_online fuel pfn nr_pages :
  keeps plugR (virtio_mem_fake_online fuel pfn nr_pages).
Proof. unfold virtio_mem_fake_online. keeps_auto plug_side. Qed.
#[global] Hint Resolve plugR_virtio_mem_fake_online : keeps.

Lemma plugR_virtio_mem_config_changed  :
  keeps plugR (virtio_mem_config_changed ).
Proof. unfold virtio_mem_config_changed. keeps_auto plug_side. Qed.
#[global] Hint Resolve plugR_virtio_mem_config_changed : keeps.

Lemma plugR_atomic_read_config_changed  :
  keeps plugR (atomic_read_config_changed ).
Proof. unfold atomic_read_config_changed. keeps_auto plug_side. Qed.
#[global] Hint Resolve plugR_atomic_read_config_changed : keeps.

Lemma plugR_virtio_mem_fake_offline pfn nr_pages :
  keeps plugR (virtio_mem_fake_offline pfn nr_pages).
Proof. unfold virtio_mem_fake_offline. keeps_auto plug_side. Qed.
#[global] Hint Resolve plugR_virtio_mem_fake_offline : keeps.

Lemma plugR_virtio_mem_fake_offline_going_offline fuel pfn nr_pages :
  keeps plugR (virtio_mem_fake_offline_going_offline fuel pfn nr_pages).
Proof. unfold virtio_mem_fake_offline_going_offline. keeps_auto plug_side. Qed.
#[global] Hint Resolve plugR_virtio_mem_fake_offline_going_offline : keeps.

Lemma plugR_virtio_mem_fake_offline_cancel_offline fuel pfn nr_pages :
  keeps plugR (virtio_mem_fake_offline_cancel_offline fuel pfn nr_pages).
Proof. unfold virtio_mem_fake_offline_cancel_offline. keeps_auto plug_side. Qed.
#[global] Hint Resolve plugR_virtio_mem_fake_offline_cancel_offline : keeps.

Lemma plugR_virtio_mem_sbm_notify_going_online mb_id :
  keeps plugR (virtio_mem_sbm_notify_going_online mb_id).
Proof. unfold virtio_mem_sbm_notify_going_online. keeps_auto plug_side. Qed.
#[global] Hint Resolve plugR_virtio_mem_sbm_notify_going_online : keeps.

Lemma plugR_virtio_mem_sbm_notify_offline mb_id :
  keeps plugR (virtio_mem_sbm_notify_offline mb_id).
Proof. unfold virtio_mem_sbm_notify_offline. keeps_auto plug_side. Qed.
#[global] Hint Resolve plugR_virtio_mem_sbm_notify_offline : keeps.

Lemma plugR_virtio_mem_sbm_notify_online mb_id start_pfn :
  keeps plugR (virtio_mem_sbm_notify_online mb_id start_pfn).
Proof. unfold virtio_mem_sbm_notify_online. keeps_auto plug_side. Qed.
#[global] Hint Resolve plugR_virtio_mem_sbm_notify_online : keeps.

Lemma plugR_virtio_mem_sbm_notify_going_offline fuel mb_id :
  keeps plugR (virtio_mem_sbm_notify_going_offline fuel mb_id).
Proof. unfold virtio_mem_sbm_notify_going_offline. keeps_auto plug_side. Qed.
#[global] Hint Resolve plugR_virtio_mem_sbm_notify_going_offline : keeps.

Lemma plugR_virtio_mem_sbm_notify_cancel_offline fuel mb_id :
  keeps plugR (virtio_mem_sbm_notify_cancel_offline fuel mb_id).
Proof. unfold virtio_mem_sbm_notify_cancel_offline. keeps_auto plug_side. Qed.
#[global] Hint Resolve plugR_virtio_mem_sbm_notify_cancel_offline : keeps.

Lemma plugR_virtio_mem_bbm_notify_going_offline fuel bb_id pfn nr_pages :
  keeps plugR (virtio_mem_bbm_notify_going_offline fuel bb_id pfn nr_pages).
Proof. unfold virtio_mem_bbm_notify_going_offline. keeps_auto plug_side. Qed.
#[global] Hint Resolve plugR_virtio_mem_bbm_notify_going_offline : keeps.

Lemma plugR_virtio_mem_bbm_notify_cancel_offline fuel bb_id pfn nr_pages :
  keeps plugR (virtio_mem_bbm_notify_cancel_offline fuel bb_id pfn nr_pages).
Proof. unfold virtio_mem_bbm_notify_cancel_offline. keeps_auto plug_side. Qed.
#[global] Hint Resolve plugR_virtio_mem_bbm_notify_cancel_offline : keeps.

Lemma plugR_virtio_mem_memory_notifier_cb fuel action mhp :
  keeps plugR (virtio_mem_memory_notifier_cb fuel action mhp).
Proof. unfold virtio_mem_memory_notifier_cb. keeps_auto plug_side. Qed.
#[global] Hint Resolve plugR_virtio_mem_memory_notifier_cb : keeps.

Lemma plugR_virtio_mem_online_page fuel pfn order :
  keeps plugR (virtio_mem_online_page fuel pfn order).
Proof. unfold virtio_mem_online_page. cbv zeta. keeps_auto plug_side. Qed.
#[global] Hint Resolve plugR_virtio_mem_online_page : keeps.

Lemma plugR_virtio_mem_online_page_cb fuel pfn order :
  keeps plugR (virtio_mem_online_page_cb fuel pfn order).
Proof. unfold virtio_mem_online_page_cb. keeps_auto plug_side. Qed.
#[global] Hint Resolve plugR_virtio_mem_online_page_cb : keeps.

Lemma plugR_kernel_callbacks fuel :
  keeps plugR (kernel_callbacks fuel).
Proof. unfold kernel_callbacks. keeps_auto plug_side. Qed.
#[global] Hint Resolve plugR_kernel_callbacks : keeps.

Lemma plugR_virtio_mem_add_memory fuel addr size :
  keeps plugR (virtio_mem_add_memory fuel addr size).
Proof. unfold virtio_mem_add_memory. keeps_auto plug_side. Qed.
#[global] Hint Resolve plugR_virtio_mem_add_memory : keeps.

Lemma plugR_virtio_mem_sbm_add_mb fuel mb_id :
  keeps plugR (virtio_mem_sbm_add_mb fuel mb_id).
Proof. unfold virtio_mem_sbm_add_mb. keeps_auto plug_side. Qed.
#[global] Hint Resolve plugR_virtio_mem_sbm_add_mb : keeps.

Lemma plugR_virtio_mem_bbm_add_bb fuel bb_id :
  keeps plugR (virtio_mem_bbm_add_bb fuel bb_id).
Proof. unfold virtio_mem_bbm_add_bb. keeps_auto plug_side. Qed.
#[global] Hint Resolve plugR_virtio_mem_bbm_add_bb : keeps.

Lemma plugR_virtio_mem_remove_memory fuel addr size :
  keeps plugR (virtio_mem_remove_memory fuel addr size).
Proof. unfold virtio_mem_remove_memory. keeps_auto plug_side. Qed.
#[global] Hint Resolve plugR_virtio_mem_remove_memory : keeps.

Lemma plugR_virtio_mem_sbm_remove_mb fuel mb_id :
  keeps plugR (virtio_mem_sbm_remove_mb fuel mb_id).
Proof. unfold virtio_mem_sbm_remove_mb. keeps_auto plug_side. Qed.
#[global] Hint Resolve plugR_virtio_mem_sbm_remove_mb : keeps.

Lemma plugR_virtio_mem_offline_and_remove_memory fuel addr size :
  keeps plugR (virtio_mem_offline_and_remove_memory fuel addr size).
Proof. unfold virtio_mem_offline_and_remove_memory. keeps_auto plug_side. Qed.
#[global] Hint Resolve plugR_virtio_mem_offline_and_remove_memory : keeps.

Lemma plugR_virtio_mem_sbm_offline_and_remove_mb fuel mb_id :
  keeps plugR (virtio_mem_sbm_offline_and_remove_mb fuel mb_id).
Proof. unfold virtio_mem_sbm_offline_and_remove_mb. keeps_auto plug_side. Qed.
#[global] Hint Resolve plugR_virtio_mem_sbm_offline_and_remove_mb : keeps.

Lemma plugR_virtio_mem_sbm_try_remove_unplugged_mb fuel mb_id :
  keeps plugR (virtio_mem_sbm_try_remove_unplugged_mb fuel mb_id).
Proof. unfold virtio_mem_sbm_try_remove_unplugged_mb. keeps_auto plug_side. Qed.
#[global] Hint Resolve plugR_virtio_mem_sbm_try_remove_unplugged_mb : keeps.

Lemma plugR_virtio_mem_bbm_offline_and_remove_bb fuel bb_id :
  keeps plugR (virtio_mem_bbm_offline_and_remove_bb fuel bb_id).
Proof. unfold virtio_mem_bbm_offline_and_remove_bb. keeps_auto plug_side. Qed.
#[global] Hint Resolve plugR_virtio_mem_bbm_offline_and_remove_bb : keeps.

Lemma plugR_virtio_mem_sbm_prepare_next_mb  :
  keeps plugR (virtio_mem_sbm_prepare_next_mb ).
Proof. unfold virtio_mem_sbm_prepare_next_mb. keeps_auto plug_side. Qed.
#[global] Hint Resolve plugR_virtio_mem_sbm_prepare_next_mb : keeps.

Lemma plugR_virtio_mem_bbm_prepare_next_bb  :
  keeps plugR (virtio_mem_bbm_prepare_next_bb ).
Proof. unfold virtio_mem_bbm_prepare_next_bb. keeps_auto plug_side. Qed.
#[global] Hint Resolve plugR_virtio_mem_bbm_prepare_next_bb : keeps.

Lemma plugR_virtio_mem_bbm_bb_is_offline fuel bb_id :
  keeps plugR (virtio_mem_bbm_bb_is_offline fuel bb_id).
Proof. unfold virtio_mem_bbm_bb_is_offline. keeps_auto plug_side. Qed.
#[global] Hint Resolve plugR_virtio_mem_bbm_bb_is_offline : keeps.

Lemma plugR_virtio_mem_bbm_bb_is_movable fuel bb_id :
  keeps plugR (virtio_mem_bbm_bb_is_movable fuel bb_id).
Proof. unfold virtio_mem_bbm_bb_is_movable. keeps_auto plug_side. Qed.
#[global] Hint Resolve plugR_virtio_mem_bbm_bb_is_movable : keeps.

Lemma plugR_virtio_mem_refresh_config  :
  keeps plugR (virtio_mem_refresh_config ).
Proof. unfold virtio_mem_refresh_config. keeps_auto plug_side. Qed.
#[global] Hint Resolve plugR_virtio_mem_refresh_config : keeps.

Lemma plugR_virtio_mem_run_wq_switch rc :
  keeps plugR (virtio_mem_run_wq_switch rc).
Proof. unfold virtio_mem_run_wq_switch. keeps_auto plug_side. Qed.
#[global] Hint Resolve plugR_virtio_mem_run_wq_switch : keeps.

Lemma plugR_virtio_mem_timer_expired  :
  keeps plugR (virtio_mem_timer_expired ).
Proof. unfold virtio_mem_timer_expired. keeps_auto plug_side. Qed.
#[global] Hint Resolve plugR_virtio_mem_timer_expired : keeps.


(** Chaining what is known about successive worlds. *)
Lemma acct_step d1 d w w1 w2 :
  acct d1 w w1 -> acct (d - d1) w1 w2 -> acct d w w2.
Proof.
  intros H1 H2. eapply acct_eq64; [|eapply acct_trans; [exact H1 | exact H2]].
  eq64_ring.
Qed.

Ltac eq64_solve :=
  unfold eq64, u64; change U64 with 18446744073709551616;
  Z.div_mod_to_equations; lia.

Ltac acct_path :=
  lazymatch goal with
  | |- acct ?d ?w ?w => apply (acct_eq64 0 d); [ | apply acct_0; reflexivity ]
  | |- acct ?d ?w ?w' =>
      match goal with
      | H : acct ?d' w w' |- _ => apply (acct_eq64 d' d); [ | exact H ]
      | H : plugR w w' |- _ => apply (acct_eq64 0 d); [ | apply acct_0, H ]
      | H : acct ?d1 w ?w1 |- _ =>
          apply (acct_step d1 d w w1 w'); [ exact H | acct_path ]
      | H : plugR w ?w1 |- _ =>
          apply (plugR_acct d w w1 w'); [ exact H | acct_path ]
      end
  end.

Ltac cfg_path :=
  lazymatch goal with
  | |- cfgR ?w ?w => reflexivity
  | |- cfgR ?w ?w' =>
      match goal with
      | H : cfgR w w' |- _ => exact H
      | H : plugR w w' |- _ => exact (plugR_cfgR _ _ H)
      | H : acct _ w w' |- _ => exact (acct_cfgR _ _ _ H)
      | H : cfgR w ?w1 |- _ => transitivity w1; [ exact H | cfg_path ]
      | H : plugR w ?w1 |- _ =>
          transitivity w1; [ exact (plugR_cfgR _ _ H) | cfg_path ]
      | H : acct _ w ?w1 |- _ =>
          transitivity w1; [ exact (acct_cfgR _ _ _ H) | cfg_path ]
      end
  end.

Ltac plug_path :=
  lazymatch goal with
  | |- plugR ?w ?w => reflexivity
  | |- plugR ?w ?w' =>
      match goal with
      | H : plugR w w' |- _ => exact H
      | H : plugR w ?w1 |- _ => transitivity w1; [ exact H | plug_path ]
      end
  end.

(** The size of a subblock in a later world. *)
Ltac same_cfg H :=
  let E := fresh "E" in
  pose proof (cfgR_fields _ _ H) as E;
  destruct E as (? & ? & ? & ? & ? & ? & ? & ? & ? & ? & ?).

Ltac wlp_keeps :=
  eapply (wlp_bind_keeps plugR);
  [ solve [ eauto with keeps | keeps_auto plug_side ] | intros ? ? ? ].

(** The error number, a negative of a positive constant, is not zero. *)
Lemma nz_true rc : nz rc = true -> rc <> 0.
Proof. unfold nz. destruct (Z.eqb_spec rc 0); [discriminate | auto]. Qed.
Lemma nz_false rc : nz rc = false -> rc = 0.
Proof. unfold nz. destruct (Z.eqb_spec rc 0); [auto | discriminate]. Qed.

Lemma virtio_mem_sbm_plug_sb_spec fuel mb_id sb_id count w :
  wlp (virtio_mem_sbm_plug_sb fuel mb_id sb_id count)
      (fun rc w' => cfgR w w' /\
                    (rc = 0 -> acct (count * sb_size (sbm (vm w))) w w')) w.
Proof.
  unfold virtio_mem_sbm_plug_sb. apply wlp_get_vm, wlp_get_plat.
  eapply wlp_bind_post; [apply virtio_mem_send_plug_request_spec|].
  cbn. intros rc w1 (C1 & _ & A1). specialize (A1 eq_refl).
  wlp_keeps. apply wlp_ret. split; [cfg_path|].
  intros ->. specialize (A1 eq_refl). acct_path.
  eq64_solve.
Qed.

Lemma virtio_mem_sbm_unplug_sb_spec fuel mb_id sb_id count w :
  wlp (virtio_mem_sbm_unplug_sb fuel mb_id sb_id count)
      (fun rc w' => if rc =? 0 then acct (- (count * sb_size (sbm (vm w)))) w w'
                    else plugR w w') w.
Proof.
  unfold virtio_mem_sbm_unplug_sb. apply wlp_get_vm, wlp_get_plat.
  eapply wlp_bind_post; [apply virtio_mem_send_unplug_request_spec|].
  cbn. intros rc w1 H1. rewrite andb_true_r in H1.
  wlp_keeps. apply wlp_ret.
  destruct (rc =? 0); [|plug_path].
  acct_path. eq64_solve.
Qed.

Lemma virtio_mem_bbm_plug_bb_spec fuel bb_id w :
  wlp (virtio_mem_bbm_plug_bb fuel bb_id)
      (fun rc w' => cfgR w w' /\ (rc = 0 -> acct (bb_size (bbm (vm w))) w w')) w.
Proof.
  unfold virtio_mem_bbm_plug_bb. apply wlp_get_vm.
  eapply wlp_mono; [apply virtio_mem_send_plug_request_spec|].
  cbn. intros rc w1 (C1 & _ & A1). split; [exact C1 | auto].
Qed.

Lemma virtio_mem_bbm_unplug_bb_spec fuel bb_id w :
  wlp (virtio_mem_bbm_unplug_bb fuel bb_id)
      (fun rc w' => if rc =? 0 then acct (- bb_size (bbm (vm w))) w w'
                    else plugR w w') w.
Proof.
  unfold virtio_mem_bbm_unplug_bb. apply wlp_get_vm.
  eapply wlp_mono; [apply virtio_mem_send_unplug_request_spec|].
  cbn. intros rc w1 H1. rewrite andb_true_r in H1. exact H1.
Qed.


Lemma cfgR_sb_size w w' : cfgR w w' -> sb_size (sbm (vm w')) = sb_size (sbm (vm w)).
Proof. intros H. apply cfgR_fields in H. tauto. Qed.
Lemma cfgR_bb_size w w' : cfgR w w' -> bb_size (bbm (vm w')) = bb_size (bbm (vm w)).
Proof. intros H. apply cfgR_fields in H. tauto. Qed.
Lemma cfgR_in_sbm w w' : cfgR w w' -> in_sbm (vm w') = in_sbm (vm w).
Proof. intros H. apply cfgR_fields in H. tauto. Qed.
Lemma cfgR_requested_size w w' :
  cfgR w w' -> requested_size (vm w') = requested_size (vm w).
Proof. intros H. apply cfgR_fields in H. tauto. Qed.
Lemma cfgR_plat w w' : cfgR w w' -> plat w' = plat w.
Proof. intros H. apply cfgR_fields in H. tauto. Qed.
Lemma cfgR_is_u64 w w' :
  cfgR w w' -> is_u64 (plugged_size (vm w)) -> is_u64 (plugged_size (vm w')).
Proof. intros [_ H]. exact H. Qed.

Tactic Notation "wlp_keeps" "as" ident(w) ident(H) :=
  eapply (wlp_bind_keeps plugR);
  [ solve [ eauto with keeps | keeps_auto plug_side ] | intros ? w H ].

(** What an operation on [*nb_sb] does to [plugged_size]: [plugged_size]
    has moved by the subblocks that [*nb_sb] has lost, each of size [u],
    taken with the sign [s]. *)
Definition moved (s u nb : Z) (w : world) (r : Z * Z) (w' : world) : Prop :=
  acct (s * ((nb - snd r) * u)) w w'.

Lemma virtio_mem_sbm_unplug_any_sb_raw_spec fuel mb_id nb_sb w :
  wlp (virtio_mem_sbm_unplug_any_sb_raw fuel mb_id nb_sb)
      (moved (-1) (sb_size (sbm (vm w))) nb_sb w) w.
Proof.
  unfold virtio_mem_sbm_unplug_any_sb_raw, moved. apply wlp_get_vm.
  set (u := sb_size (sbm (vm w))).
  apply (wlp_iterate (fun '(_, nb) w' => acct (-1 * ((nb_sb - nb) * u)) w w')).
  2:{ acct_path. eq64_solve. }
  intros [sb_id nb] w1 A1.
  destruct (nb =? 0); [apply wlp_ret; exact A1|].
  wlp_keeps as w2 H2. destruct (_ <? 0); [apply wlp_ret; cbn; acct_path; eq64_solve|].
  wlp_keeps as w3 H3. destruct a0 as [count sb_id'].
  eapply wlp_bind_post; [apply virtio_mem_sbm_unplug_sb_spec|].
  cbn. intros rc w4 H4.
  assert (E : sb_size (sbm (vm w3)) = u) by (unfold u; apply cfgR_sb_size; cfg_path).
  rewrite E in H4.
  unfold nz. destruct (rc =? 0); cbn; apply wlp_ret; cbn; acct_path; eq64_solve.
Qed.


(** A plug operation on [*nb_sb]: the configuration is kept, and on
    success [plugged_size] has grown by the subblocks [*nb_sb] has lost. *)
Definition plugged_more (u nb : Z) (w : world) (r : Z * Z) (w' : world) : Prop :=
  cfgR w w' /\ (fst r = 0 -> moved 1 u nb w r w').

Lemma virtio_mem_sbm_plug_and_add_mb_spec fuel mb_id nb_sb w :
  wlp (virtio_mem_sbm_plug_and_add_mb fuel mb_id nb_sb)
      (plugged_more (sb_size (sbm (vm w))) nb_sb w) w.
Proof.
  unfold virtio_mem_sbm_plug_and_add_mb, plugged_more, moved. apply wlp_get_vm.
  set (u := sb_size (sbm (vm w))).
  set (count := Z.min _ _).
  destruct (count =? 0); [apply wlp_ret; cbn; split; [cfg_path | discriminate]|].
  eapply wlp_bind_post; [apply virtio_mem_sbm_plug_sb_spec|].
  cbn. intros rc w1 [C1 A1]. fold u in A1.
  destruct (nz rc) eqn:Hrc.
  { apply wlp_ret. cbn. split; [cfg_path|]. intros ->. discriminate. }
  apply nz_false in Hrc. specialize (A1 Hrc).
  wlp_keeps as w2 H2.
  wlp_keeps as w3 H3.
  destruct (nz a0) eqn:Ha.
  - eapply (wlp_bind_keeps cfgR); [eauto with keeps|]. intros rc' w4 H4.
    eapply (wlp_bind_keeps cfgR); [eauto with keeps|]. intros [] w5 H5.
    apply wlp_ret. cbn. split; [cfg_path|]. intros ->. discriminate.
  - apply wlp_ret. cbn. split; [cfg_path|]. intros _. acct_path. eq64_solve.
Qed.

Lemma virtio_mem_sbm_plug_any_sb_spec fuel mb_id nb_sb w :
  wlp (virtio_mem_sbm_plug_any_sb fuel mb_id nb_sb)
      (plugged_more (sb_size (sbm (vm w))) nb_sb w) w.
Proof.
  unfold virtio_mem_sbm_plug_any_sb, plugged_more, moved.
  wlp_keeps as w0 H0. rename a into old_state.
  apply wlp_get_vm, wlp_get_plat.
  set (u := sb_size (sbm (vm w))).
  assert (Eu : sb_size (sbm (vm w0)) = u) by (apply cfgR_sb_size; cfg_path).
  destruct (nb_sb =? 0); [apply wlp_ret; cbn; split; [cfg_path | discriminate]|].
  eapply wlp_bind_post.
  { apply (wlp_iterate
             (fun nb w' => acct (1 * ((nb_sb - nb) * u)) w w')
             (fun r w' => cfgR w w' /\
                          (fst r = 0 -> acct (1 * ((nb_sb - snd r) * u)) w w'))).
    2:{ acct_path. eq64_solve. }
    intros nb w1 A1.
    destruct (nb =? 0); [apply wlp_ret; cbn; split; [cfg_path | auto]|].
    wlp_keeps as w2 H2. rename a into sb_id.
    destruct (_ <=? sb_id); [apply wlp_ret; cbn; split; [cfg_path|intros _; acct_path; eq64_solve]|].
    wlp_keeps as w3 H3. rename a into count.
    eapply wlp_bind_post; [apply virtio_mem_sbm_plug_sb_spec|].
    cbn. intros rc w4 [C4 A4].
    assert (E : sb_size (sbm (vm w3)) = u) by (unfold u; apply cfgR_sb_size; cfg_path).
    rewrite E in A4.
    destruct (nz rc) eqn:Hrc.
    { apply wlp_ret. cbn. split; [cfg_path|]. intros ->. discriminate. }
    apply nz_false in Hrc. specialize (A4 Hrc).
    destruct (decide _).
    - apply wlp_ret. acct_path. eq64_solve.
    - wlp_keeps as w5 H5. apply wlp_ret. acct_path. eq64_solve. }
  cbn. intros [rc nb] w1 [C1 A1]. cbn in A1.
  destruct (nz rc) eqn:Hrc.
  { apply wlp_ret. cbn. split; [cfg_path|]. intros ->. discriminate. }
  apply nz_false in Hrc. specialize (A1 Hrc).
  wlp_keeps as w2 H2. wlp_keeps as w3 H3.
  apply wlp_ret. cbn. split; [cfg_path|]. intros _. acct_path. eq64_solve.
Qed.


(** The iteration macros: an invariant of the statement under the macro is
    an invariant of the loop. *)
Lemma wlp_virtio_mem_sbm_get_mb_state {B} mb_id (k : sbm_mb_state -> M B) Q w :
  (forall st, wlp (k st) Q w) ->
  wlp (bind (virtio_mem_sbm_get_mb_state mb_id) k) Q w.
Proof.
  intros H. unfold wlp, virtio_mem_sbm_get_mb_state, bind, get_vm, lift_access.
  destruct (mb_states (sbm (vm w)) !! _) as [st|]; [apply H | exact Logic.I].
Qed.

Lemma wlp_virtio_mem_bbm_get_bb_state {B} bb_id (k : bbm_bb_state -> M B) Q w :
  (forall st, wlp (k st) Q w) ->
  wlp (bind (virtio_mem_bbm_get_bb_state bb_id) k) Q w.
Proof.
  intros H. unfold wlp, virtio_mem_bbm_get_bb_state, bind, get_vm, lift_access.
  destruct (bb_states (bbm (vm w)) !! _) as [st|]; [apply H | exact Logic.I].
Qed.

Definition loop_post {A B} (J : A -> world -> Prop) (Q : B -> world -> Prop)
    (s : step A B) (w : world) : Prop :=
  match s with
  | Next a => J a w
  | Stop r => Q r w
  end.

Ltac wlp_macro get_state :=
  intros Hbody HJ; apply wlp_get_vm;
  match goal with
  | |- wlp (iterate _ _ (_, ?a)) (loop_post ?J _) _ =>
      apply (wlp_iterate (fun '(_, a') w' => J a' w')); [ | exact HJ ]
  end;
  intros [id a'] w1 H1; apply wlp_get_vm;
  match goal with |- wlp (if ?c then _ else _) _ _ => destruct c end;
  [ | apply wlp_ret; exact H1 ];
  apply get_state; intros st;
  match goal with |- wlp (if ?c then _ else _) _ _ => destruct c end;
  [ | apply wlp_ret; exact H1 ];
  eapply wlp_bind_post; [ apply Hbody, H1 | ];
  intros [a''|r] w2 H2; apply wlp_ret; exact H2.

Lemma wlp_virtio_mem_sbm_for_each_mb {A B} (J : A -> world -> Prop)
    (Q : B -> world -> Prop) fuel state body a w :
  (forall mb_id a w, J a w -> wlp (body mb_id a) (loop_post J Q) w) ->
  J a w ->
  wlp (virtio_mem_sbm_for_each_mb fuel state body a) (loop_post J Q) w.
Proof. unfold virtio_mem_sbm_for_each_mb. wlp_macro @wlp_virtio_mem_sbm_get_mb_state. Qed.

Lemma wlp_virtio_mem_sbm_for_each_mb_rev {A B} (J : A -> world -> Prop)
    (Q : B -> world -> Prop) fuel state body a w :
  (forall mb_id a w, J a w -> wlp (body mb_id a) (loop_post J Q) w) ->
  J a w ->
  wlp (virtio_mem_sbm_for_each_mb_rev fuel state body a) (loop_post J Q) w.
Proof. unfold virtio_mem_sbm_for_each_mb_rev. wlp_macro @wlp_virtio_mem_sbm_get_mb_state. Qed.

Lemma wlp_virtio_mem_bbm_for_each_bb {A B} (J : A -> world -> Prop)
    (Q : B -> world -> Prop) fuel state body a w :
  (forall bb_id a w, J a w -> wlp (body bb_id a) (loop_post J Q) w) ->
  J a w ->
  wlp (virtio_mem_bbm_for_each_bb fuel state body a) (loop_post J Q) w.
Proof. unfold virtio_mem_bbm_for_each_bb. wlp_macro @wlp_virtio_mem_bbm_get_bb_state. Qed.

Lemma wlp_virtio_mem_bbm_for_each_bb_rev {A B} (J : A -> world -> Prop)
    (Q : B -> world -> Prop) fuel state body a w :
  (forall bb_id a w, J a w -> wlp (body bb_id a) (loop_post J Q) w) ->
  J a w ->
  wlp (virtio_mem_bbm_for_each_bb_rev fuel state body a) (loop_post J Q) w.
Proof. unfold virtio_mem_bbm_for_each_bb_rev. wlp_macro @wlp_virtio_mem_bbm_get_bb_state. Qed.


(** A request to the engine: the configuration is kept; when it returns [0]
    (and, for unplugging, the run [ok]), [plugged_size] has moved by the
    whole units of [diff], with the sign [s]. *)
Definition request_post (s u diff : Z) (ok : Prop) (w : world) (rc : Z)
    (w' : world) : Prop :=
  cfgR w w' /\ (rc = 0 -> ok -> acct (s * (diff / u * u)) w w').

Lemma virtio_mem_sbm_plug_request_spec fuel diff w :
  wlp (virtio_mem_sbm_plug_request fuel diff)
      (request_post 1 (sb_size (sbm (vm w))) diff True w) w.
Proof.
  unfold virtio_mem_sbm_plug_request, request_post.
  apply wlp_get_vm, wlp_get_plat.
  set (u := sb_size (sbm (vm w))). apply wlp_udiv. intros Hu.
  set (nb0 := diff / u).
  destruct (Z.eqb_spec nb0 0) as [E0|_].
  { apply wlp_ret. split; [cfg_path|]. intros _ _. rewrite E0. acct_path. eq64_solve. }
  (* the invariant of all loops, and what a return from inside them gives *)
  set (J := fun (nb : Z) (w' : world) => acct (1 * ((nb0 - nb) * u)) w w').
  set (Q := fun (rc : Z) (w' : world) =>
              cfgR w w' /\ (rc = 0 -> True -> acct (1 * (nb0 * u)) w w')).
  assert (Hpartial : forall state nb w1, J nb w1 ->
            wlp (virtio_mem_sbm_for_each_mb fuel state
                   (fun mb_id nb_sb =>
                      r <- virtio_mem_sbm_plug_any_sb fuel mb_id nb_sb ;;
                      let '(rc, nb_sb) := r in
                      if nz rc || (nb_sb =? 0) then ret (Stop rc)
                      else extcall cond_resched ;; ret (Next nb_sb)) nb)
                (loop_post J Q) w1).
  { intros state nb w1 J1. apply wlp_virtio_mem_sbm_for_each_mb; [|exact J1].
    clear nb w1 J1. intros mb_id nb w1 J1. unfold J in J1.
    eapply wlp_bind_post; [apply virtio_mem_sbm_plug_any_sb_spec|].
    cbn. intros [rc nb'] w2 [C2 A2]. unfold moved in A2. cbn in A2.
    assert (E : sb_size (sbm (vm w1)) = u) by (unfold u; apply cfgR_sb_size; cfg_path).
    rewrite E in A2.
    destruct (nz rc) eqn:Hrc; cbn.
    { apply wlp_ret. split; [cfg_path|]. intros ->. discriminate. }
    apply nz_false in Hrc. specialize (A2 Hrc).
    destruct (Z.eqb_spec nb' 0) as [->|_].
    - apply wlp_ret. split; [cfg_path|]. intros _ _. acct_path. eq64_solve.
    - wlp_keeps as w3 H3. apply wlp_ret. unfold loop_post, J. acct_path. eq64_solve. }
  eapply wlp_bind_post; [apply Hpartial; unfold J; acct_path; eq64_solve|].
  intros [nb1|rc] w1 H1; [|apply wlp_ret; exact H1].
  eapply wlp_bind_post; [apply Hpartial, H1|].
  intros [nb2|rc] w2 H2; [|apply wlp_ret; exact H2].
  eapply wlp_bind_post; [apply Hpartial, H2|].
  intros [nb3|rc] w3 H3; [|apply wlp_ret; exact H3].
  clear Hpartial.
  assert (Hadd : forall mb_id nb w1, J nb w1 ->
            wlp (virtio_mem_sbm_plug_and_add_mb fuel mb_id nb)
                (fun r w' => cfgR w w' /\ (fst r = 0 -> J (snd r) w')) w1).
  { intros mb_id nb w4 J4. unfold J in J4.
    eapply wlp_mono; [apply virtio_mem_sbm_plug_and_add_mb_spec|].
    cbn. intros [rc nb'] w5 [C5 A5]. unfold moved in A5. cbn in A5 |- *.
    assert (E : sb_size (sbm (vm w4)) = u) by (unfold u; apply cfgR_sb_size; cfg_path).
    rewrite E in A5. split; [cfg_path|]. intros Hrc. specialize (A5 Hrc).
    unfold J. acct_path. eq64_solve. }
  eapply wlp_bind_post.
  { apply (wlp_virtio_mem_sbm_for_each_mb J Q); [|exact H3].
    intros mb_id nb w4 J4. apply wlp_get_vm.
    destruct (negb _).
    { apply wlp_ret. split; [unfold J in J4; cfg_path|]. discriminate. }
    eapply wlp_bind_post; [apply Hadd, J4|].
    cbn. intros [rc nb'] w5 [C5 J5]. cbn in J5.
    destruct (nz rc) eqn:Hrc; cbn.
    { apply wlp_ret. split; [cfg_path|]. intros ->. discriminate. }
    apply nz_false in Hrc. specialize (J5 Hrc). unfold J in J5.
    destruct (Z.eqb_spec nb' 0) as [->|_].
    - apply wlp_ret. split; [cfg_path|]. intros _ _. acct_path. eq64_solve.
    - wlp_keeps as w6 H6. apply wlp_ret. unfold loop_post, J. acct_path. eq64_solve. }
  intros [nb4|rc] w4 H4; [|apply wlp_ret; exact H4].
  apply (wlp_iterate J Q); [|exact H4].
  intros nb w5 J5.
  destruct (Z.eqb_spec nb 0) as [->|_].
  { apply wlp_ret. unfold J in J5. split; [cfg_path|]. intros _ _. acct_path. eq64_solve. }
  apply wlp_get_vm.
  destruct (negb _).
  { apply wlp_ret. split; [unfold J in J5; cfg_path|]. discriminate. }
  assert (J5' := J5). unfold J in J5'.
  wlp_keeps as w6 H6. destruct a as [rc mb_id].
  destruct (nz rc) eqn:Hrc.
  { apply wlp_ret. split; [cfg_path|]. intros ->. discriminate. }
  eapply wlp_bind_post; [apply (Hadd mb_id nb w6); unfold J; acct_path; eq64_solve|].
  cbn. intros [rc' nb'] w7 [C7 J7]. cbn in J7.
  destruct (nz rc') eqn:Hrc'.
  { apply wlp_ret. split; [cfg_path|]. intros ->. discriminate. }
  apply nz_false in Hrc'. specialize (J7 Hrc'). unfold J in J7.
  wlp_keeps as w8 H8. apply wlp_ret. unfold J. acct_path. eq64_solve.
Qed.


Lemma virtio_mem_sbm_unplug_sb_online_spec fuel mb_id sb_id count w :
  wlp (virtio_mem_sbm_unplug_sb_online fuel mb_id sb_id count)
      (fun rc w' => if rc =? 0 then acct (- (count * sb_size (sbm (vm w)))) w w'
                    else plugR w w') w.
Proof.
  unfold virtio_mem_sbm_unplug_sb_online. apply wlp_get_vm, wlp_get_plat.
  set (u := sb_size (sbm (vm w))).
  wlp_keeps as w1 H1. wlp_keeps as w2 H2. rename a0 into rc.
  destruct (nz rc) eqn:Hrc.
  { apply wlp_ret. apply nz_true in Hrc. apply Z.eqb_neq in Hrc. rewrite Hrc.
    plug_path. }
  eapply wlp_bind_post; [apply virtio_mem_sbm_unplug_sb_spec|].
  cbn. intros rc' w3 H3.
  assert (E : sb_size (sbm (vm w2)) = u) by (unfold u; apply cfgR_sb_size; cfg_path).
  rewrite E in H3.
  destruct (nz rc') eqn:Hrc'.
  - apply nz_true in Hrc'. apply Z.eqb_neq in Hrc'. rewrite Hrc' in H3.
    wlp_keeps as w4 H4. apply wlp_ret. rewrite Hrc'. plug_path.
  - apply nz_false in Hrc'. subst rc'. cbn in H3.
    wlp_keeps as w4 H4. apply wlp_ret. cbn. acct_path. eq64_solve.
Qed.

Lemma virtio_mem_sbm_unplug_any_sb_online_spec fuel mb_id nb_sb w :
  wlp (virtio_mem_sbm_unplug_any_sb_online fuel mb_id nb_sb)
      (moved (-1) (sb_size (sbm (vm w))) nb_sb w) w.
Proof.
  unfold virtio_mem_sbm_unplug_any_sb_online, moved. apply wlp_get_vm.
  set (u := sb_size (sbm (vm w))).
  assert (Hunplugged : forall nb w1,
            acct (-1 * ((nb_sb - nb) * u)) w w1 ->
            wlp (rc <- virtio_mem_sbm_try_remove_unplugged_mb fuel mb_id ;;
                 when (nz rc) (modify_sbm (sbm_with_have_unplugged_mb true)) ;;
                 ret (0, nb))
                (fun r w' => acct (-1 * ((nb_sb - snd r) * u)) w w') w1).
  { intros nb w1 A1. wlp_keeps as w2 H2. wlp_keeps as w3 H3.
    apply wlp_ret. cbn. acct_path. eq64_solve. }
  eapply wlp_bind_post.
  { instantiate (1 := fun s w' =>
       match s with
       | Stop (inl nb) => acct (-1 * ((nb_sb - nb) * u)) w w'
       | _ => plugR w w'
       end).
    destruct (_ <=? nb_sb); [|apply wlp_ret; reflexivity].
    wlp_keeps as w1 H1. destruct a; [|apply wlp_ret; exact H1].
    eapply wlp_bind_post; [apply virtio_mem_sbm_unplug_sb_online_spec|].
    cbn. intros rc w2 H2.
    assert (E : sb_size (sbm (vm w1)) = u) by (unfold u; apply cfgR_sb_size; cfg_path).
    rewrite E in H2. unfold nz.
    destruct (rc =? 0); cbn.
    - apply wlp_ret. acct_path. eq64_solve.
    - destruct (_ && _); apply wlp_ret; plug_path. }
  cbn. intros [[]|[nb|rc]] w1 H1.
  - eapply wlp_bind_post.
    { apply (wlp_iterate
               (fun '(_, nb) w' => acct (-1 * ((nb_sb - nb) * u)) w w')
               (fun r w' => acct (-1 * ((nb_sb - snd r) * u)) w w')).
      2:{ acct_path. eq64_solve. }
      intros [sb_id nb] w2 A2.
      destruct (_ && _); [|apply wlp_ret; exact A2].
      wlp_keeps as w3 H3. rename a into sb_id'.
      destruct (sb_id' <? 0); [apply wlp_ret; cbn; acct_path; eq64_solve|].
      eapply wlp_bind_post; [apply virtio_mem_sbm_unplug_sb_online_spec|].
      cbn. intros rc w4 H4.
      assert (E : sb_size (sbm (vm w3)) = u) by (unfold u; apply cfgR_sb_size; cfg_path).
      rewrite E in H4.
      destruct (Z.eqb_spec rc (- EBUSY)) as [->|_].
      { apply wlp_ret. change (plugR w3 w4) in H4. acct_path. eq64_solve. }
      unfold nz. destruct (rc =? 0); cbn; apply wlp_ret; cbn; acct_path; eq64_solve. }
    cbn. intros [rc nb] w2 A2. cbn in A2.
    destruct (nz rc); [apply wlp_ret; exact A2|].
    apply Hunplugged, A2.
  - apply Hunplugged, H1.
  - apply wlp_ret. cbn. acct_path. eq64_solve.
Qed.

Lemma virtio_mem_sbm_unplug_any_sb_offline_spec fuel mb_id nb_sb w :
  wlp (virtio_mem_sbm_unplug_any_sb_offline fuel mb_id nb_sb)
      (moved (-1) (sb_size (sbm (vm w))) nb_sb w) w.
Proof.
  unfold virtio_mem_sbm_unplug_any_sb_offline. apply wlp_get_vm.
  eapply wlp_bind_post; [apply virtio_mem_sbm_unplug_any_sb_raw_spec|].
  unfold moved. intros [rc nb] w1 A1. cbn in A1.
  wlp_keeps as w2 H2. wlp_keeps as w3 H3.
  destruct (nz rc); [apply wlp_ret; cbn; acct_path; eq64_solve|].
  wlp_keeps as w4 H4. wlp_keeps as w5 H5.
  apply wlp_ret. cbn. acct_path. eq64_solve.
Qed.

Lemma virtio_mem_sbm_unplug_any_sb_spec fuel mb_id nb_sb w :
  wlp (virtio_mem_sbm_unplug_any_sb fuel mb_id nb_sb)
      (moved (-1) (sb_size (sbm (vm w))) nb_sb w) w.
Proof.
  unfold virtio_mem_sbm_unplug_any_sb.
  apply wlp_virtio_mem_sbm_get_mb_state. intros st.
  destruct st;
    first [ apply virtio_mem_sbm_unplug_any_sb_online_spec
          | apply virtio_mem_sbm_unplug_any_sb_offline_spec
          | apply wlp_ret; unfold moved; cbn; acct_path; eq64_solve ].
Qed.


Lemma sbm_unplug_walk_spec fuel op nb0 w0 :
  (forall mb_id nb w,
     wlp (op mb_id nb) (moved (-1) (sb_size (sbm (vm w))) nb w) w) ->
  forall states i nb w,
    acct (-1 * ((nb0 - nb) * sb_size (sbm (vm w0)))) w0 w ->
    wlp (sbm_unplug_walk fuel op i states nb)
        (fun rc w' =>
           cfgR w0 w' /\
           (rc = 0 -> unplug_online (plat w0) = true ->
            acct (-1 * (nb0 * sb_size (sbm (vm w0)))) w0 w')) w.
Proof.
  intros Hop. set (u := sb_size (sbm (vm w0))).
  induction states as [|state states IH]; intros i nb w A.
  - cbn [sbm_unplug_walk]. apply wlp_ret. split; [cfg_path|].
    unfold nz. destruct (Z.eqb_spec nb 0) as [->|_]; cbn; [|discriminate].
    intros _ _. acct_path. eq64_solve.
  - cbn [sbm_unplug_walk]. apply wlp_get_plat.
    eapply wlp_bind_post.
    { apply (wlp_virtio_mem_sbm_for_each_mb_rev
               (fun nb w' => acct (-1 * ((nb0 - nb) * u)) w0 w')
               (fun rc w' => cfgR w0 w' /\
                             (rc = 0 -> unplug_online (plat w0) = true ->
                              acct (-1 * (nb0 * u)) w0 w'))); [|exact A].
      intros mb_id nb1 w1 A1.
      eapply wlp_bind_post; [apply Hop|].
      unfold moved. intros [rc nb2] w2 A2. cbn in A2.
      assert (E : sb_size (sbm (vm w1)) = u) by (unfold u; apply cfgR_sb_size; cfg_path).
      rewrite E in A2.
      destruct (nz rc) eqn:Hrc; cbn [orb].
      { apply wlp_ret. split; [cfg_path|]. intros ->. discriminate. }
      destruct (Z.eqb_spec nb2 0) as [->|_].
      - apply wlp_ret. split; [cfg_path|]. intros _ _. acct_path. eq64_solve.
      - wlp_keeps as w3 H3. apply wlp_ret. cbn. acct_path. eq64_solve. }
    intros [nb1|rc] w1 H1; cbn in H1; [|apply wlp_ret; exact H1].
    assert (Ep : plat w = plat w0) by (apply cfgR_plat; cfg_path).
    rewrite Ep.
    destruct (unplug_online (plat w0)) eqn:Hon; cbn.
    + apply IH, H1.
    + destruct (i =? 1); [|apply IH, H1].
      apply wlp_ret. split; [cfg_path|]. discriminate.
Qed.

Lemma virtio_mem_sbm_unplug_request_spec fuel diff w :
  wlp (virtio_mem_sbm_unplug_request fuel diff)
      (request_post (-1) (sb_size (sbm (vm w))) diff
         (unplug_online (plat w) = true) w) w.
Proof.
  unfold virtio_mem_sbm_unplug_request, request_post. apply wlp_get_vm.
  apply wlp_udiv. intros Hu.
  destruct (Z.eqb_spec (diff / sb_size (sbm (vm w))) 0) as [E0|_].
  { apply wlp_ret. split; [cfg_path|]. intros _ _. rewrite E0. acct_path. eq64_solve. }
  apply sbm_unplug_walk_spec.
  - intros. apply virtio_mem_sbm_unplug_any_sb_spec.
  - acct_path. eq64_solve.
Qed.

(** Big Block Mode. *)

Lemma virtio_mem_bbm_plug_and_add_bb_spec fuel bb_id w :
  wlp (virtio_mem_bbm_plug_and_add_bb fuel bb_id)
      (fun rc w' => cfgR w w' /\ (rc = 0 -> acct (bb_size (bbm (vm w))) w w')) w.
Proof.
  unfold virtio_mem_bbm_plug_and_add_bb.
  apply wlp_virtio_mem_bbm_get_bb_state. intros st.
  destruct (decide _); [|apply wlp_ret; split; [cfg_path | discriminate]].
  eapply wlp_bind_post; [apply virtio_mem_bbm_plug_bb_spec|].
  cbn. intros rc w1 [C1 A1].
  destruct (nz rc) eqn:Hrc.
  { apply wlp_ret. split; [cfg_path|]. intros ->. discriminate. }
  apply nz_false in Hrc. specialize (A1 Hrc).
  wlp_keeps as w2 H2. wlp_keeps as w3 H3. rename a0 into rc'.
  destruct (nz rc') eqn:Hrc'.
  - eapply (wlp_bind_keeps cfgR); [eauto with keeps|]. intros rc'' w4 H4.
    eapply (wlp_bind_keeps cfgR); [keeps_auto cfg_side|]. intros [] w5 H5.
    apply wlp_ret. split; [cfg_path|]. intros ->. discriminate.
  - apply wlp_ret. split; [cfg_path|]. intros _. acct_path. eq64_solve.
Qed.

Lemma virtio_mem_bbm_plug_request_spec fuel diff w :
  wlp (virtio_mem_bbm_plug_request fuel diff)
      (request_post 1 (bb_size (bbm (vm w))) diff True w) w.
Proof.
  unfold virtio_mem_bbm_plug_request, request_post. apply wlp_get_vm.
  set (u := bb_size (bbm (vm w))). apply wlp_udiv. intros Hu.
  set (nb0 := diff / u).
  destruct (Z.eqb_spec nb0 0) as [E0|_].
  { apply wlp_ret. split; [cfg_path|]. intros _ _. rewrite E0. acct_path. eq64_solve. }
  set (J := fun (nb : Z) (w' : world) => acct (1 * ((nb0 - nb) * u)) w w').
  set (Q := fun (rc : Z) (w' : world) =>
              cfgR w w' /\ (rc = 0 -> True -> acct (1 * (nb0 * u)) w w')).
  assert (Hadd : forall bb_id w1, cfgR w w1 ->
            wlp (virtio_mem_bbm_plug_and_add_bb fuel bb_id)
                (fun rc w' => cfgR w1 w' /\ (rc = 0 -> acct u w1 w')) w1).
  { intros bb_id w1 C1.
    eapply wlp_mono; [apply virtio_mem_bbm_plug_and_add_bb_spec|].
    cbn. intros rc w2 [C2 A2].
    assert (E : bb_size (bbm (vm w1)) = u) by (unfold u; apply cfgR_bb_size; cfg_path).
    rewrite E in A2. split; assumption. }
  eapply wlp_bind_post.
  { apply (wlp_virtio_mem_bbm_for_each_bb J Q); [|unfold J; acct_path; eq64_solve].
    intros bb_id nb w1 J1. unfold J in J1. apply wlp_get_vm.
    destruct (negb _).
    { apply wlp_ret. split; [cfg_path|]. discriminate. }
    eapply wlp_bind_post; [apply Hadd; cfg_path|].
    cbn. intros rc w2 [C2 A2].
    destruct (nz rc) eqn:Hrc; cbn [orb negb].
    { apply wlp_ret. split; [cfg_path|]. intros ->. discriminate. }
    apply nz_false in Hrc. specialize (A2 Hrc).
    destruct (Z.eqb_spec (u64 (nb - 1)) 0) as [E1|_].
    - apply wlp_ret. split; [cfg_path|]. intros _ _. acct_path.
      assert (E2 : eq64 (nb - 1) 0) by (rewrite <- E1; symmetry; apply u64_eq64).
      revert E2. eq64_solve.
    - wlp_keeps as w3 H3. apply wlp_ret. unfold loop_post, J. acct_path. eq64_solve. }
  intros [nb1|rc] w1 H1; [|apply wlp_ret; exact H1].
  apply (wlp_iterate J Q); [|exact H1].
  intros nb w2 J2. unfold J in J2.
  destruct (Z.eqb_spec nb 0) as [->|_].
  { apply wlp_ret. split; [cfg_path|]. intros _ _. acct_path. eq64_solve. }
  apply wlp_get_vm.
  destruct (negb _).
  { apply wlp_ret. split; [cfg_path|]. discriminate. }
  wlp_keeps as w3 H3. destruct a as [rc bb_id].
  destruct (nz rc) eqn:Hrc.
  { apply wlp_ret. split; [cfg_path|]. intros ->. discriminate. }
  eapply wlp_bind_post; [apply Hadd; cfg_path|].
  cbn. intros rc' w4 [C4 A4].
  destruct (nz rc') eqn:Hrc'.
  { apply wlp_ret. split; [cfg_path|]. intros ->. discriminate. }
  apply nz_false in Hrc'. specialize (A4 Hrc').
  wlp_keeps as w5 H5. apply wlp_ret. unfold J. acct_path. eq64_solve.
Qed.


Tactic Notation "wlp_keeps" "as" ident(a) ident(w) ident(H) :=
  eapply (wlp_bind_keeps plugR);
  [ solve [ eauto with keeps | keeps_auto plug_side ] | intros a w H ].

Lemma wlp_bbm_for_each_online_section {B} (Q : B -> world -> Prop) w0 fuel
    start_pfn end_pfn body w :
  (forall pfn w1, plugR w0 w1 ->
     wlp (body pfn) (loop_post (fun _ w' => plugR w0 w') Q) w1) ->
  plugR w0 w ->
  wlp (bbm_for_each_online_section fuel start_pfn end_pfn body)
      (loop_post (fun _ w' => plugR w0 w') Q) w.
Proof.
  intros Hbody H0. unfold bbm_for_each_online_section. apply wlp_get_plat.
  apply (wlp_iterate (fun _ w' => plugR w0 w')); [|exact H0].
  intros pfn w1 H1.
  destruct (pfn <? end_pfn); [|apply wlp_ret; exact H1].
  apply wlp_extcall. set (w2 := with_trace _ w1).
  assert (H2 : plugR w1 w2) by apply plugR_extcall.
  destruct (negb _); [apply wlp_ret; cbn; plug_path|].
  eapply wlp_bind_post; [apply Hbody; plug_path|].
  intros [[]|r] w3 H3; apply wlp_ret; exact H3.
Qed.

Lemma virtio_mem_bbm_offline_remove_and_unplug_bb_spec fuel bb_id w :
  wlp (virtio_mem_bbm_offline_remove_and_unplug_bb fuel bb_id)
      (fun rc w' => if rc =? 0 then acct (- bb_size (bbm (vm w))) w w'
                    else plugR w w') w.
Proof.
  unfold virtio_mem_bbm_offline_remove_and_unplug_bb.
  apply wlp_get_vm, wlp_get_plat. set (u := bb_size (bbm (vm w))).
  assert (Hrollback : forall end_pfn rc w1, plugR w w1 -> rc <> 0 ->
    wlp (bbm_for_each_online_section (R := unit) fuel
           (PFN_DOWN (plat w) (virtio_mem_bb_id_to_phys (vm w) bb_id)) end_pfn
           (fun pfn =>
              virtio_mem_fake_online fuel pfn (PAGES_PER_SECTION (plat w)) ;;
              ret (Next tt)) ;;
         virtio_mem_bbm_set_bb_state bb_id VIRTIO_MEM_BBM_BB_ADDED ;;
         ret rc)
        (fun rc w' => if rc =? 0 then acct (- u) w w' else plugR w w') w1).
  { intros end_pfn rc w1 H1 Hrc. wlp_keeps as w2 H2. wlp_keeps as w3 H3.
    apply wlp_ret. apply Z.eqb_neq in Hrc. cbv beta.
    destruct (rc =? 0); [discriminate | cbv iota; plug_path]. }
  apply wlp_virtio_mem_bbm_get_bb_state. intros st.
  destruct (decide _); [|apply wlp_ret; change (plugR w w); reflexivity].
  wlp_keeps as w1 H1.
  eapply wlp_bind_post.
  { apply (wlp_bbm_for_each_online_section
             (fun (r : Z * Z) w' => plugR w w' /\ snd r <> 0) w); [|exact H1].
    intros pfn w2 H2. wlp_keeps as rc w3 H3.
    destruct (nz rc) eqn:Hrc; apply wlp_ret; cbn.
    - split; [plug_path | apply nz_true, Hrc].
    - plug_path. }
  intros [[]|[pfn rc]] w2 H2; cbn in H2.
  - wlp_keeps as rc w3 H3.
    destruct (nz rc) eqn:Hrc.
    { apply Hrollback; [plug_path | apply nz_true, Hrc]. }
    eapply wlp_bind_post; [apply virtio_mem_bbm_unplug_bb_spec|].
    cbn. intros rc' w4 H4.
    assert (E : bb_size (bbm (vm w3)) = u) by (unfold u; apply cfgR_bb_size; cfg_path).
    rewrite E in H4.
    wlp_keeps as w5 H5. apply wlp_ret.
    destruct (rc' =? 0); [acct_path; eq64_solve | plug_path].
  - destruct H2 as [H2 Hrc]. apply Hrollback; assumption.
Qed.

Lemma bbm_unplug_walk_spec fuel nb0 w0 :
  forall passes i nb w,
    acct (-1 * ((nb0 - nb) * bb_size (bbm (vm w0)))) w0 w ->
    wlp (bbm_unplug_walk fuel passes i nb)
        (fun rc w' =>
           cfgR w0 w' /\
           (rc = 0 -> unplug_online (plat w0) = true ->
            acct (-1 * (nb0 * bb_size (bbm (vm w0)))) w0 w')) w.
Proof.
  set (u := bb_size (bbm (vm w0))).
  induction passes as [|passes IH]; intros i nb w A.
  - cbn [bbm_unplug_walk]. apply wlp_ret. split; [cfg_path|].
    unfold nz. destruct (Z.eqb_spec nb 0) as [->|_]; cbn; [|discriminate].
    intros _ _. acct_path. eq64_solve.
  - cbn [bbm_unplug_walk]. apply wlp_get_plat.
    eapply wlp_bind_post.
    { apply (wlp_virtio_mem_bbm_for_each_bb_rev
               (fun nb w' => acct (-1 * ((nb0 - nb) * u)) w0 w')
               (fun rc w' => cfgR w0 w' /\
                             (rc = 0 -> unplug_online (plat w0) = true ->
                              acct (-1 * (nb0 * u)) w0 w'))); [|exact A].
      intros bb_id nb1 w1 A1.
      wlp_keeps as w2 H2. wlp_keeps as skip0 w3 H3.
      destruct skip0; [apply wlp_ret; cbn; acct_path; eq64_solve|].
      wlp_keeps as skip1 w4 H4.
      destruct skip1; [apply wlp_ret; cbn; acct_path; eq64_solve|].
      eapply wlp_bind_post; [apply virtio_mem_bbm_offline_remove_and_unplug_bb_spec|].
      cbn. intros rc w5 H5.
      assert (E : bb_size (bbm (vm w4)) = u) by (unfold u; apply cfgR_bb_size; cfg_path).
      rewrite E in H5.
      destruct (Z.eqb_spec rc (- EBUSY)) as [->|_].
      { apply wlp_ret. change (plugR w4 w5) in H5. cbn. acct_path. eq64_solve. }
      unfold nz. destruct (Z.eqb_spec rc 0) as [->|Hrc]; cbn [orb negb].
      - destruct (Z.eqb_spec (u64 (nb1 - 1)) 0) as [E1|_].
        + apply wlp_ret. split; [cfg_path|]. intros _ _. acct_path.
          assert (E2 : eq64 (nb1 - 1) 0) by (rewrite <- E1; symmetry; apply u64_eq64).
          revert E2. eq64_solve.
        + apply wlp_ret. cbn. acct_path. eq64_solve.
      - apply wlp_ret. split; [cfg_path|]. intros E0. contradiction. }
    intros [nb1|rc] w1 H1; cbn in H1; [|apply wlp_ret; exact H1].
    assert (Ep : plat w = plat w0) by (apply cfgR_plat; cfg_path).
    rewrite Ep.
    destruct (unplug_online (plat w0)) eqn:Hon; cbn [negb].
    + rewrite andb_false_r. apply IH, H1.
    + destruct (i =? 0); cbn [andb]; [|apply IH, H1].
      apply wlp_ret. split; [cfg_path|]. discriminate.
Qed.

Lemma virtio_mem_bbm_unplug_request_spec fuel diff w :
  wlp (virtio_mem_bbm_unplug_request fuel diff)
      (request_post (-1) (bb_size (bbm (vm w))) diff
         (unplug_online (plat w) = true) w) w.
Proof.
  unfold virtio_mem_bbm_unplug_request, request_post. apply wlp_get_vm.
  apply wlp_udiv. intros Hu.
  destruct (Z.eqb_spec (diff / bb_size (bbm (vm w))) 0) as [E0|_].
  { apply wlp_ret. split; [cfg_path|]. intros _ _. rewrite E0. acct_path. eq64_solve. }
  apply bbm_unplug_walk_spec. acct_path. eq64_solve.
Qed.

(** The unit of the active mode. *)
Definition unit_size (v : virtio_mem) : Z :=
  if in_sbm v then sb_size (sbm v) else bb_size (bbm v).

Lemma virtio_mem_plug_request_spec fuel diff w :
  wlp (virtio_mem_plug_request fuel diff)
      (request_post 1 (unit_size (vm w)) diff True w) w.
Proof.
  unfold virtio_mem_plug_request, unit_size. apply wlp_get_vm.
  destruct (in_sbm (vm w));
    [apply virtio_mem_sbm_plug_request_spec | apply virtio_mem_bbm_plug_request_spec].
Qed.

Lemma virtio_mem_unplug_request_spec fuel diff w :
  wlp (virtio_mem_unplug_request fuel diff)
      (request_post (-1) (unit_size (vm w)) diff
         (unplug_online (plat w) = true) w) w.
Proof.
  unfold virtio_mem_unplug_request, unit_size. apply wlp_get_vm.
  destruct (in_sbm (vm w));
    [apply virtio_mem_sbm_unplug_request_spec | apply virtio_mem_bbm_unplug_request_spec].
Qed.


(** [plugged_size] is within less than one unit of [requested_size]. *)
Definition reconciled (v : virtio_mem) : Prop :=
  Z.abs (requested_size v - plugged_size v) < unit_size v.

Lemma cfgR_unit_size w w' : cfgR w w' -> unit_size (vm w') = unit_size (vm w).
Proof.
  intros H. unfold unit_size.
  rewrite (cfgR_in_sbm _ _ H), (cfgR_sb_size _ _ H), (cfgR_bb_size _ _ H).
  reflexivity.
Qed.

Lemma acct_exact d w w' :
  acct d w w' -> is_u64 (plugged_size (vm w)) ->
  is_u64 (plugged_size (vm w) + d) ->
  plugged_size (vm w') = plugged_size (vm w) + d.
Proof.
  intros [C E] Hp Hd. apply eq64_is_u64; [exact E | | exact Hd].
  apply (cfgR_is_u64 _ _ C Hp).
Qed.

Lemma virtio_mem_run_wq_pass_spec fuel w :
  wlp (virtio_mem_run_wq_pass fuel)
      (fun rc w' =>
         cfgR w w' /\
         (rc = 0 -> unplug_online (plat w) = true ->
          is_u64 (plugged_size (vm w)) -> is_u64 (requested_size (vm w)) ->
          0 < unit_size (vm w) ->
          reconciled (vm w'))) w.
Proof.
  unfold virtio_mem_run_wq_pass. apply wlp_get_vm.
  eapply (wlp_bind_keeps cfgR); [keeps_auto cfg_side|]. intros rc0 w1 C1.
  eapply (wlp_bind_keeps cfgR); [eauto with keeps|]. intros changed w2 C2.
  eapply (wlp_bind_keeps cfgR); [keeps_auto cfg_side|]. intros [] w3 C3.
  eapply (wlp_bind_keeps cfgR); [keeps_auto cfg_side|]. intros rc1 w4 C4.
  apply wlp_get_vm.
  assert (C : cfgR w w4) by cfg_path.
  assert (Er : requested_size (vm w4) = requested_size (vm w))
    by (apply cfgR_requested_size, C).
  assert (Eu : unit_size (vm w4) = unit_size (vm w)) by (apply cfgR_unit_size, C).
  assert (Ep : plat w4 = plat w) by (apply cfgR_plat, C).
  set (req := requested_size (vm w)) in *.
  set (u := unit_size (vm w)) in *.
  set (p := plugged_size (vm w4)).
  (* the last test of the pass *)
  assert (Hlast : forall rc (w5 : world),
            cfgR w w5 ->
            (rc = 0 -> unplug_online (plat w) = true ->
             is_u64 (plugged_size (vm w)) -> is_u64 req -> 0 < u ->
             reconciled (vm w5)) ->
            wlp (v <- get_vm ;;
                 if negb (nz rc) && in_sbm v && have_unplugged_mb (sbm v)
                 then ret (- EBUSY) else ret rc)
                (fun rc w' =>
                   cfgR w w' /\
                   (rc = 0 -> unplug_online (plat w) = true ->
                    is_u64 (plugged_size (vm w)) -> is_u64 req -> 0 < u ->
                    reconciled (vm w'))) w5).
  { intros rc w5 C5 H5. apply wlp_get_vm.
    destruct (_ && _); apply wlp_ret; (split; [exact C5|]); [discriminate | exact H5]. }
  destruct (nz rc1) eqn:Hrc1; cbn [negb andb].
  { apply (wlp_bind (ret rc1)), wlp_ret. apply Hlast; [exact C|].
    intros ->. discriminate. }
  destruct (Z.eqb_spec req p) as [Heq|Hne]; cbn [negb].
  { rewrite Er. destruct (Z.eqb_spec req p); [|contradiction]. cbn [negb].
    apply (wlp_bind (ret rc1)), wlp_ret. apply Hlast; [exact C|].
    intros _ _ _ _ Hu. unfold reconciled. rewrite Eu, Er. fold req p u.
    rewrite Heq, Z.sub_diag. exact Hu. }
  rewrite Er. destruct (Z.eqb_spec req p); [contradiction|]. cbn [negb].
  fold p. destruct (Z.ltb_spec p req) as [Hlt|Hge].
  - eapply wlp_bind_post; [apply virtio_mem_plug_request_spec|].
    unfold request_post. rewrite Eu. intros rc w5 [C5 A5].
    apply Hlast; [cfg_path|].
    intros -> _ Hp Hr Hu. specialize (A5 eq_refl Logic.I).
    assert (Hp4 : is_u64 p) by (apply (cfgR_is_u64 _ _ C Hp)).
    assert (Ed : u64 (req - p) = req - p).
    { unfold u64. apply Z.mod_small. unfold is_u64 in *. lia. }
    rewrite Ed in A5.
    assert (Hq : 0 <= (req - p) / u * u <= req - p).
    { split; [apply Z.mul_nonneg_nonneg; [apply Z.div_pos|]; lia|].
      rewrite Z.mul_comm. apply Z.mul_div_le. lia. }
    pose proof (acct_exact _ _ _ A5 Hp4) as Ex. fold p in Ex.
    unfold reconciled.
    rewrite (cfgR_unit_size _ _ C5), Eu, (cfgR_requested_size _ _ C5), Er.
    fold req u. rewrite Ex by (unfold is_u64 in *; lia).
    pose proof (Z.mod_pos_bound (req - p) u Hu) as Hm.
    rewrite (Z.mod_eq (req - p) u) in Hm by lia.
    rewrite Z.abs_eq; lia.
  - eapply wlp_bind_post; [apply virtio_mem_unplug_request_spec|].
    unfold request_post. rewrite Eu, Ep. intros rc w5 [C5 A5].
    apply Hlast; [cfg_path|].
    intros -> Hon Hp Hr Hu. specialize (A5 eq_refl Hon).
    assert (Hp4 : is_u64 p) by (apply (cfgR_is_u64 _ _ C Hp)).
    assert (Ed : u64 (p - req) = p - req).
    { unfold u64. apply Z.mod_small. unfold is_u64 in *. lia. }
    rewrite Ed in A5.
    assert (Hq : 0 <= (p - req) / u * u <= p - req).
    { split; [apply Z.mul_nonneg_nonneg; [apply Z.div_pos|]; lia|].
      rewrite Z.mul_comm. apply Z.mul_div_le. lia. }
    pose proof (acct_exact _ _ _ A5 Hp4) as Ex. fold p in Ex.
    unfold reconciled.
    rewrite (cfgR_unit_size _ _ C5), Eu, (cfgR_requested_size _ _ C5), Er.
    fold req u. rewrite Ex by (unfold is_u64 in *; lia).
    pose proof (Z.mod_pos_bound (p - req) u Hu) as Hm.
    rewrite (Z.mod_eq (p - req) u) in Hm by lia.
    rewrite Z.abs_neq; lia.
Qed.


(** Nothing is pending: the retry timer is not armed and the work is not
    queued. *)
Definition quiescent (v : virtio_mem) : Prop :=
  retry_timer v = None /\ wq_pending v = false.

(** How the [switch] of the worker leaves the device. *)
Definition switch_post (w : world) (o : option Z) (w' : world) : Prop :=
  plugged_size (vm w') = plugged_size (vm w) /\
  cfgR w w' /\
  match o with
  | None => True
  | Some rc =>
      (rc = 0 /\ broken (vm w') = broken (vm w)
       /\ retry_timer (vm w') = retry_timer (vm w))
      \/ rc = - ENOSPC
      \/ retry_timer (vm w') <> None
      \/ broken (vm w') = true
  end.

Lemma virtio_mem_run_wq_switch_spec rc w :
  wlp (virtio_mem_run_wq_switch rc) (fun o w' => switch_post w o w' /\
                                       (rc = 0 <-> o = Some 0)) w.
Proof.
  unfold virtio_mem_run_wq_switch, switch_post. apply wlp_get_plat.
  destruct (Z.eqb_spec rc 0) as [->|H0].
  { apply wlp_ret. cbn. split; [|tauto].
    split; [reflexivity|]. split; [cfg_side|]. left. auto. }
  assert (Hiff : forall o : option Z, o <> Some 0 -> rc = 0 <-> o = Some 0)
    by (intros o Ho; split; [intros; contradiction | intros; contradiction]).
  destruct (Z.eqb_spec rc (- ENOSPC)) as [->|H1].
  { apply wlp_ret. split; [|apply Hiff; discriminate].
    split; [reflexivity|]. split; [reflexivity|]. right. left. reflexivity. }
  destruct (_ || _).
  { apply wlp_ret. cbn. split; [|apply Hiff; intros [= E]; contradiction].
    split; [reflexivity|]. split; [cfg_side|]. right. right. left. discriminate. }
  destruct (rc =? - EAGAIN).
  { apply wlp_ret. split; [|apply Hiff; discriminate].
    split; [reflexivity|]. split; [reflexivity | exact Logic.I]. }
  apply wlp_ret. cbn. split; [|apply Hiff; intros [= E]; contradiction].
  split; [reflexivity|]. split; [cfg_side|]. right. right. right. reflexivity.
Qed.

Lemma reconciled_aligned v :
  reconciled v ->
  (unit_size v | requested_size v - plugged_size v) ->
  plugged_size v = requested_size v.
Proof.
  unfold reconciled. intros H [k Hk]. rewrite Hk in H.
  destruct (Z.eq_dec k 0) as [->|Hne]; [lia|].
  exfalso. rewrite Z.abs_mul in H.
  assert (1 <= Z.abs k) by lia. assert (0 <= Z.abs (unit_size v)) by lia.
  assert (unit_size v <= Z.abs (unit_size v)) by lia. nia.
Qed.

(** C1, amended.  Outside of a kdump kernel and with the module parameter
    [unplug_online] set, for every world the worker is started in (hence
    after every sequence of requests): when the worker has returned and
    nothing is pending, and the difference that remains between
    [requested_size] and [plugged_size] is a multiple of the unit size of
    the active mode ([sbm.sb_size] or [bbm.bb_size]), then [plugged_size]
    equals [requested_size], or the last pass ended with [-ENOSPC], or the
    device is marked broken. *)
Theorem virtio_mem_run_wq_reconciles fuel w r w' :
  unplug_online (plat w) = true ->
  in_kdump (vm w) = false ->
  is_u64 (plugged_size (vm w)) ->
  is_u64 (requested_size (vm w)) ->
  0 < unit_size (vm w) ->
  virtio_mem_run_wq fuel w = Ok r w' ->
  quiescent (vm w') ->
  (unit_size (vm w') | requested_size (vm w') - plugged_size (vm w')) ->
  plugged_size (vm w') = requested_size (vm w')
  \/ r = Some (- ENOSPC)
  \/ broken (vm w') = true.
Proof.
  intros Hon Hk Hp Hr Hu Hrun [Hq _] Hdiv.
  revert Hq Hdiv. revert r w' Hrun.
  enough (H : wlp (virtio_mem_run_wq fuel)
                (fun r w' =>
                   retry_timer (vm w') = None ->
                   (unit_size (vm w') | requested_size (vm w') - plugged_size (vm w')) ->
                   plugged_size (vm w') = requested_size (vm w')
                   \/ r = Some (- ENOSPC) \/ broken (vm w') = true) w).
  { intros r w' Hrun. exact (wlp_ok _ _ _ _ _ H Hrun). }
  unfold virtio_mem_run_wq. apply wlp_get_vm. rewrite Hk.
  apply wlp_modify_vm.
  destruct (broken (vm w)) eqn:Hb.
  { apply wlp_ret. intros _ _. right. right. exact Hb. }
  apply wlp_modify_vm. set (w0 := with_vm _ (with_vm _ w)).
  assert (C0 : cfgR w w0) by cfg_side.
  eapply wlp_bind_post.
  { apply (wlp_iterate
             (fun _ w1 => cfgR w w1)
             (fun rc w2 =>
                (rc = 0 /\ reconciled (vm w2))
                \/ rc = - ENOSPC
                \/ retry_timer (vm w2) <> None
                \/ broken (vm w2) = true)); [|exact C0].
    intros [] w1 C1.
    eapply wlp_bind_post; [apply virtio_mem_run_wq_pass_spec|].
    cbn. intros rc w2 [C2 R2].
    eapply wlp_bind_post; [apply virtio_mem_run_wq_switch_spec|].
    cbn. intros o w3 [(P3 & C3 & S3) Hiff].
    destruct o as [rc'|]; apply wlp_ret; [|cfg_path].
    destruct S3 as [(-> & Hb3 & Ht3)|S3]; [|right; exact S3].
    left. split; [reflexivity|].
    assert (Hrc : rc = 0) by (apply Hiff; reflexivity).
    assert (C12 : cfgR w w1) by exact C1.
    unfold reconciled.
    rewrite (cfgR_unit_size _ _ C3), (cfgR_requested_size _ _ C3), P3.
    apply (R2 Hrc).
    - rewrite (cfgR_plat _ _ C1). exact Hon.
    - apply (cfgR_is_u64 _ _ C1 Hp).
    - rewrite (cfgR_requested_size _ _ C1). exact Hr.
    - rewrite (cfgR_unit_size _ _ C1). exact Hu. }
  intros rc w2 H2. cbn in H2. apply wlp_modify_vm. unfold wlp, ret. cbn.
  intros Ht Hdiv.
  destruct H2 as [[-> Hrec]|[->|[Ht2|Hb2]]].
  - left. exact (reconciled_aligned (vm w2) Hrec Hdiv).
  - right. left. reflexivity.
  - contradiction.
  - right. right. exact Hb2.
Qed.


(** ** Example worlds

    A platform with 4 KiB pages, memory blocks of 128 MiB and subblocks of
    4 MiB, and an environment in which every call succeeds. *)

Definition example_platform (online : bool) : platform :=
  Platform 12 (2 ^ 27) (2 ^ 15) 10 1024 64 50000 300000 online.

Definition env_ok (_ : list call) (c : call) : Z :=
  match c with
  | mem_buf_alloc a _ => a + 1
  | kzalloc_gh_sgl | kstrdup_const | vzalloc _ => 1
  | mhp_get_pluggable_range_end => 2 ^ 48 - 1
  | pfn_to_online_page _ => 1
  | _ => 0
  end.

Definition example_bbm : bbm_t := Bbm 0 0 0 0 (fun _ => 0) [].

(** A device in Sub-Block Mode at 1 GiB, 1 GiB large, with 32 subblocks to
    the memory block, with [plugged] bytes plugged, [requested] bytes
    requested and the tables [s]. *)
Definition example_sbm_device (s : sbm_t) (requested plugged : Z)
    (changed : bool) : virtio_mem :=
  VirtioMem (2 ^ 30) (2 ^ 30) (2 ^ 22) true false requested plugged 0 (2 ^ 30)
    false false false false false changed false false None 50000 false
    s example_bbm.

Definition example_world (pf : platform) (env : list call -> call -> Z)
    (v : virtio_mem) : world :=
  World v ∅ [] [] [] env pf.

(** Freshly probed: no memory block yet, 48 MiB requested. *)
Definition fresh_sbm : sbm_t :=
  Sbm 8 8 0 (2 ^ 22) 32 false (fun _ => 0) [] [].
Definition fresh_world : world :=
  example_world (example_platform true) env_ok
    (example_sbm_device fresh_sbm (12 * 2 ^ 22) 0 true).

(** One memory block, fully plugged and online in a kernel zone. *)
Definition one_kernel_mb : sbm_t :=
  Sbm 8 9 15 (2 ^ 22) 32 false
    (sbm_table (fun s => if decide (s = VIRTIO_MEM_SBM_MB_KERNEL) then 1 else 0))
    (VIRTIO_MEM_SBM_MB_KERNEL
       :: replicate (Z.to_nat 4095) VIRTIO_MEM_SBM_MB_UNUSED)
    (replicate 32 true ++ replicate (Z.to_nat 32736) false).

(** The same device with nothing requested, and [unplug_online] unset. *)
Definition stuck_world : world :=
  example_world (example_platform false) env_ok
    (example_sbm_device one_kernel_mb 0 (2 ^ 27) false).

(** The freshly probed device in a kdump kernel, one subblock requested. *)
Definition kdump_world : world :=
  example_world (example_platform true) env_ok
    (VirtioMem (2 ^ 30) (2 ^ 30) (2 ^ 22) true false (2 ^ 22) 0 0 (2 ^ 30)
       false false false false true false false false None 50000 false
       fresh_sbm example_bbm).

(** C1, as stated, fails.  With the module parameter [unplug_online] unset
    the worker leaves a fully online memory block plugged although nothing
    is requested: it ends with result [0], nothing is pending, the device
    is not broken, and the difference is 32 subblocks.  In a kdump kernel
    the worker returns at once, with the subblock that is requested not
    plugged. *)
Lemma run_wq_rests_unreconciled :
  match virtio_mem_run_wq 16 stuck_world with
  | Ok r w' =>
      r = Some 0 /\
      quiescent (vm w') /\
      (unit_size (vm w') | requested_size (vm w') - plugged_size (vm w')) /\
      plugged_size (vm w') <> requested_size (vm w') /\
      r <> Some (- ENOSPC) /\
      broken (vm w') = false
  | _ => False
  end /\
  match virtio_mem_run_wq 100 kdump_world with
  | Ok r w' =>
      r = None /\
      quiescent (vm w') /\
      plugged_size (vm w') = 0 /\
      requested_size (vm w') = 2 ^ 22 /\
      broken (vm w') = false
  | _ => False
  end.
Proof.
  split.
  - vm_compute.
    split; [reflexivity|]. split; [split; reflexivity|].
    split; [exists (-32)%Z; reflexivity|].
    split; [discriminate|]. split; [discriminate | reflexivity].
  - vm_compute. repeat split; reflexivity.
Qed.

Definition run_result {A} (r : result A) (a : A) (w : world) : A * world :=
  match r with
  | Ok a' w' => (a', w')
  | _ => (a, w)
  end.

Definition is_ok {A} (r : result A) : bool :=
  match r with
  | Ok _ _ => true
  | _ => false
  end.

Lemma run_result_ok {A} (r : result A) a w :
  is_ok r = true -> r = Ok (fst (run_result r a w)) (snd (run_result r a w)).
Proof. destruct r; [reflexivity | discriminate..]. Qed.

(** A run of the worker on the freshly probed device, with its result. *)
Definition fresh_run : option Z * world :=
  run_result (virtio_mem_run_wq 100 fresh_world) None fresh_world.

Lemma fresh_run_ok :
  virtio_mem_run_wq 100 fresh_world = Ok (fst fresh_run) (snd fresh_run).
Proof.
  refine (run_result_ok (virtio_mem_run_wq 100 fresh_world) None fresh_world _).
  vm_compute. reflexivity.
Qed.

Lemma virtio_mem_run_wq_reconciles_witness :
  plugged_size (vm (snd fresh_run)) = requested_size (vm (snd fresh_run))
  \/ fst fresh_run = Some (- ENOSPC)
  \/ broken (vm (snd fresh_run)) = true.
Proof.
  refine (virtio_mem_run_wq_reconciles 100 fresh_world (fst fresh_run)
            (snd fresh_run) _ _ _ _ _ fresh_run_ok _ _).
  - reflexivity.
  - reflexivity.
  - vm_compute. split; [discriminate | reflexivity].
  - vm_compute. split; [discriminate | reflexivity].
  - reflexivity.
  - split; vm_compute; reflexivity.
  - exists 0. vm_compute. reflexivity.
Defined.


(** * The state tables and their counters *)

(** The index of a block in its state array. *)
Definition sbm_idx (v : virtio_mem) (mb_id : Z) : nat :=
  Z.to_nat (u64 (mb_id - first_mb_id (sbm v))).
Definition bbm_idx (v : virtio_mem) (bb_id : Z) : nat :=
  Z.to_nat (u64 (bb_id - first_bb_id (bbm v))).

(** Every state that a tracked block is in has a counter that is not
    zero. *)
Definition sbm_occupied_counted (v : virtio_mem) : Prop :=
  forall mb_id st,
    first_mb_id (sbm v) <= mb_id < next_mb_id (sbm v) ->
    mb_states (sbm v) !! sbm_idx v mb_id = Some st ->
    mb_count (sbm v) st <> 0.
Definition bbm_occupied_counted (v : virtio_mem) : Prop :=
  forall bb_id st,
    first_bb_id (bbm v) <= bb_id < next_bb_id (bbm v) ->
    bb_states (bbm v) !! bbm_idx v bb_id = Some st ->
    bb_count (bbm v) st <> 0.

Lemma sbm_table_eq f s : sbm_table f s = f s.
Proof. destruct s; reflexivity. Qed.
Lemma bbm_table_eq f s : bbm_table f s = f s.
Proof. destruct s; reflexivity. Qed.

Lemma virtio_mem_sbm_set_mb_state_zero w mb_id state old :
  mb_states (sbm (vm w)) !! sbm_idx (vm w) mb_id = Some old ->
  mb_count (sbm (vm w)) old = 0 ->
  virtio_mem_sbm_set_mb_state mb_id state w = Bug.
Proof.
  intros Hl Hc. unfold sbm_idx in Hl.
  unfold virtio_mem_sbm_set_mb_state, bind, get_vm, lift_access.
  rewrite Hl. cbn. rewrite Hc. reflexivity.
Qed.

Lemma virtio_mem_sbm_set_mb_state_moves w mb_id state old :
  mb_states (sbm (vm w)) !! sbm_idx (vm w) mb_id = Some old ->
  mb_count (sbm (vm w)) old <> 0 ->
  exists w',
    virtio_mem_sbm_set_mb_state mb_id state w = Ok tt w' /\
    mb_states (sbm (vm w'))
    = <[sbm_idx (vm w) mb_id := state]> (mb_states (sbm (vm w))) /\
    (forall t, mb_count (sbm (vm w')) t
               = count_inc state (count_dec old (mb_count (sbm (vm w)))) t) /\
    first_mb_id (sbm (vm w')) = first_mb_id (sbm (vm w)) /\
    next_mb_id (sbm (vm w')) = next_mb_id (sbm (vm w)).
Proof.
  intros Hl Hc. unfold sbm_idx in *.
  unfold virtio_mem_sbm_set_mb_state, bind, get_vm, lift_access.
  rewrite Hl. cbn. apply Z.eqb_neq in Hc. rewrite Hc. cbn.
  eexists. split; [reflexivity|]. cbn.
  split; [reflexivity|]. split; [|split; reflexivity].
  intros t. rewrite sbm_table_eq. unfold count_inc.
  rewrite sbm_table_eq. reflexivity.
Qed.

Lemma virtio_mem_bbm_set_bb_state_zero w bb_id state old :
  bb_states (bbm (vm w)) !! bbm_idx (vm w) bb_id = Some old ->
  bb_count (bbm (vm w)) old = 0 ->
  virtio_mem_bbm_set_bb_state bb_id state w = Bug.
Proof.
  intros Hl Hc. unfold bbm_idx in Hl.
  unfold virtio_mem_bbm_set_bb_state, bind, get_vm, lift_access.
  rewrite Hl. cbn. rewrite Hc. reflexivity.
Qed.

Lemma virtio_mem_bbm_set_bb_state_moves w bb_id state old :
  bb_states (bbm (vm w)) !! bbm_idx (vm w) bb_id = Some old ->
  bb_count (bbm (vm w)) old <> 0 ->
  exists w',
    virtio_mem_bbm_set_bb_state bb_id state w = Ok tt w' /\
    bb_states (bbm (vm w'))
    = <[bbm_idx (vm w) bb_id := state]> (bb_states (bbm (vm w))) /\
    (forall t, bb_count (bbm (vm w')) t
               = count_inc state (count_dec old (bb_count (bbm (vm w)))) t) /\
    first_bb_id (bbm (vm w')) = first_bb_id (bbm (vm w)) /\
    next_bb_id (bbm (vm w')) = next_bb_id (bbm (vm w)).
Proof.
  intros Hl Hc. unfold bbm_idx in *.
  unfold virtio_mem_bbm_set_bb_state, bind, get_vm, lift_access.
  rewrite Hl. cbn. apply Z.eqb_neq in Hc. rewrite Hc. cbn.
  eexists. split; [reflexivity|]. cbn.
  split; [reflexivity|]. split; [|split; reflexivity].
  intros t. rewrite bbm_table_eq. unfold count_inc.
  rewrite bbm_table_eq. reflexivity.
Qed.


(** C4.  [virtio_mem_sbm_set_mb_state] and [virtio_mem_bbm_set_bb_state]
    run into [BUG_ON] when the counter of the state the block is in is
    zero.  When it is not zero the call stores the new state, decrements
    the counter of the old state and increments the counter of the new one.
    Hence, when every state that a tracked block is in has a counter that is
    not zero, no call for a tracked block reaches the [BUG_ON]. *)
Theorem set_state_counter_of_old_state w :
  (forall mb_id state old,
     mb_states (sbm (vm w)) !! sbm_idx (vm w) mb_id = Some old ->
     (mb_count (sbm (vm w)) old = 0 ->
      virtio_mem_sbm_set_mb_state mb_id state w = Bug) /\
     (mb_count (sbm (vm w)) old <> 0 ->
      exists w',
        virtio_mem_sbm_set_mb_state mb_id state w = Ok tt w' /\
        mb_states (sbm (vm w'))
        = <[sbm_idx (vm w) mb_id := state]> (mb_states (sbm (vm w))) /\
        forall t, mb_count (sbm (vm w')) t
                  = count_inc state (count_dec old (mb_count (sbm (vm w)))) t)) /\
  (forall bb_id state old,
     bb_states (bbm (vm w)) !! bbm_idx (vm w) bb_id = Some old ->
     (bb_count (bbm (vm w)) old = 0 ->
      virtio_mem_bbm_set_bb_state bb_id state w = Bug) /\
     (bb_count (bbm (vm w)) old <> 0 ->
      exists w',
        virtio_mem_bbm_set_bb_state bb_id state w = Ok tt w' /\
        bb_states (bbm (vm w'))
        = <[bbm_idx (vm w) bb_id := state]> (bb_states (bbm (vm w))) /\
        forall t, bb_count (bbm (vm w')) t
                  = count_inc state (count_dec old (bb_count (bbm (vm w)))) t)) /\
  (sbm_occupied_counted (vm w) ->
   forall mb_id state,
     first_mb_id (sbm (vm w)) <= mb_id < next_mb_id (sbm (vm w)) ->
     virtio_mem_sbm_set_mb_state mb_id state w <> Bug) /\
  (bbm_occupied_counted (vm w) ->
   forall bb_id state,
     first_bb_id (bbm (vm w)) <= bb_id < next_bb_id (bbm (vm w)) ->
     virtio_mem_bbm_set_bb_state bb_id state w <> Bug).
Proof.
  split; [|split; [|split]].
  - intros mb_id state old Hl. split; intros Hc.
    + eapply virtio_mem_sbm_set_mb_state_zero; eassumption.
    + destruct (virtio_mem_sbm_set_mb_state_moves w mb_id state old Hl Hc)
        as (w' & E & Hs & Ht & _).
      exists w'. auto.
  - intros bb_id state old Hl. split; intros Hc.
    + eapply virtio_mem_bbm_set_bb_state_zero; eassumption.
    + destruct (virtio_mem_bbm_set_bb_state_moves w bb_id state old Hl Hc)
        as (w' & E & Hs & Ht & _).
      exists w'. auto.
  - intros Hocc mb_id state Hin.
    destruct (mb_states (sbm (vm w)) !! sbm_idx (vm w) mb_id) as [old|] eqn:Hl.
    + destruct (virtio_mem_sbm_set_mb_state_moves w mb_id state old Hl)
        as (w' & E & _).
      { eapply Hocc; eassumption. }
      rewrite E. discriminate.
    + unfold sbm_idx in Hl.
      unfold virtio_mem_sbm_set_mb_state, bind, get_vm, lift_access.
      rewrite Hl. discriminate.
  - intros Hocc bb_id state Hin.
    destruct (bb_states (bbm (vm w)) !! bbm_idx (vm w) bb_id) as [old|] eqn:Hl.
    + destruct (virtio_mem_bbm_set_bb_state_moves w bb_id state old Hl)
        as (w' & E & _).
      { eapply Hocc; eassumption. }
      rewrite E. discriminate.
    + unfold bbm_idx in Hl.
      unfold virtio_mem_bbm_set_bb_state, bind, get_vm, lift_access.
      rewrite Hl. discriminate.
Qed.

Lemma stuck_world_occupied_counted : sbm_occupied_counted (vm stuck_world).
Proof.
  intros mb_id st Hin Hl.
  change (8 <= mb_id < 9) in Hin. assert (mb_id = 8) as -> by lia.
  vm_compute in Hl. injection Hl as <-. vm_compute. discriminate.
Qed.

Lemma set_state_counter_of_old_state_witness :
  virtio_mem_sbm_set_mb_state 8 VIRTIO_MEM_SBM_MB_OFFLINE stuck_world <> Bug.
Proof.
  apply (proj1 (proj2 (proj2 (set_state_counter_of_old_state stuck_world)))).
  - exact stuck_world_occupied_counted.
  - vm_compute. split; [discriminate | reflexivity].
Defined.


(** * The counters add up *)

Definition sum_counts {S} (all : list S) (c : S -> Z) : Z :=
  foldr (fun s acc => c s + acc) 0 all.

(** The counters of the states, read as numbers, add up to the number of
    the blocks that are tracked. *)
Definition sbm_counted (s : sbm_t) : Prop :=
  (forall st, 0 <= mb_count s st) /\
  0 <= first_mb_id s <= next_mb_id s /\ next_mb_id s < U64 /\
  sum_counts sbm_all_states (mb_count s) = next_mb_id s - first_mb_id s.
Definition bbm_counted (b : bbm_t) : Prop :=
  (forall st, 0 <= bb_count b st) /\
  0 <= first_bb_id b <= next_bb_id b /\ next_bb_id b < U64 /\
  sum_counts bbm_all_states (bb_count b) = next_bb_id b - first_bb_id b.

Lemma u64_small x : 0 <= x < U64 -> u64 x = x.
Proof. intros H. unfold u64. apply Z.mod_small. exact H. Qed.

Lemma u64_nonneg x : 0 <= u64 x.
Proof. apply u64_is_u64. Qed.

Lemma count_move_nonneg {S} `{EqDecision S} (c : S -> Z) old state :
  (forall t, 0 <= c t) ->
  forall t, 0 <= count_inc state (count_dec old c) t.
Proof.
  intros Hc t. unfold count_inc, count_dec.
  repeat destruct (decide _); auto using u64_nonneg.
Qed.

Lemma count_inc_nonneg {S} `{EqDecision S} (c : S -> Z) state :
  (forall t, 0 <= c t) ->
  forall t, 0 <= count_inc state c t.
Proof.
  intros Hc t. unfold count_inc.
  repeat destruct (decide _); auto using u64_nonneg.
Qed.

Ltac count_cases :=
  unfold sum_counts, count_inc, count_dec; cbn;
  repeat match goal with
         | |- context [decide ?P] =>
             destruct (decide P) as [?|?]; [ try discriminate | try congruence ]
         end;
  rewrite ?u64_small by (rewrite ?u64_small by lia; lia); try lia.

Lemma sbm_count_move (c : sbm_mb_state -> Z) old state :
  (forall t, 0 <= c t) ->
  sum_counts sbm_all_states c < U64 ->
  c old <> 0 ->
  sum_counts sbm_all_states (count_inc state (count_dec old c))
  = sum_counts sbm_all_states c.
Proof.
  intros Hc Hs Ho.
  pose proof (Hc VIRTIO_MEM_SBM_MB_UNUSED).
  pose proof (Hc VIRTIO_MEM_SBM_MB_PLUGGED).
  pose proof (Hc VIRTIO_MEM_SBM_MB_OFFLINE).
  pose proof (Hc VIRTIO_MEM_SBM_MB_OFFLINE_PARTIAL).
  pose proof (Hc VIRTIO_MEM_SBM_MB_KERNEL).
  pose proof (Hc VIRTIO_MEM_SBM_MB_KERNEL_PARTIAL).
  pose proof (Hc VIRTIO_MEM_SBM_MB_MOVABLE).
  pose proof (Hc VIRTIO_MEM_SBM_MB_MOVABLE_PARTIAL).
  clear Hc. unfold sum_counts in Hs. cbn in Hs.
  destruct old, state; count_cases.
Qed.

Lemma bbm_count_move (c : bbm_bb_state -> Z) old state :
  (forall t, 0 <= c t) ->
  sum_counts bbm_all_states c < U64 ->
  c old <> 0 ->
  sum_counts bbm_all_states (count_inc state (count_dec old c))
  = sum_counts bbm_all_states c.
Proof.
  intros Hc Hs Ho.
  pose proof (Hc VIRTIO_MEM_BBM_BB_UNUSED).
  pose proof (Hc VIRTIO_MEM_BBM_BB_PLUGGED).
  pose proof (Hc VIRTIO_MEM_BBM_BB_ADDED).
  pose proof (Hc VIRTIO_MEM_BBM_BB_FAKE_OFFLINE).
  clear Hc. unfold sum_counts in Hs. cbn in Hs.
  destruct old, state; count_cases.
Qed.

Lemma sbm_count_add (c : sbm_mb_state -> Z) state :
  (forall t, 0 <= c t) ->
  sum_counts sbm_all_states c + 1 < U64 ->
  sum_counts sbm_all_states (count_inc state c)
  = sum_counts sbm_all_states c + 1.
Proof.
  intros Hc Hs.
  pose proof (Hc VIRTIO_MEM_SBM_MB_UNUSED).
  pose proof (Hc VIRTIO_MEM_SBM_MB_PLUGGED).
  pose proof (Hc VIRTIO_MEM_SBM_MB_OFFLINE).
  pose proof (Hc VIRTIO_MEM_SBM_MB_OFFLINE_PARTIAL).
  pose proof (Hc VIRTIO_MEM_SBM_MB_KERNEL).
  pose proof (Hc VIRTIO_MEM_SBM_MB_KERNEL_PARTIAL).
  pose proof (Hc VIRTIO_MEM_SBM_MB_MOVABLE).
  pose proof (Hc VIRTIO_MEM_SBM_MB_MOVABLE_PARTIAL).
  clear Hc. unfold sum_counts in Hs. cbn in Hs.
  destruct state; count_cases.
Qed.

Lemma bbm_count_add (c : bbm_bb_state -> Z) state :
  (forall t, 0 <= c t) ->
  sum_counts bbm_all_states c + 1 < U64 ->
  sum_counts bbm_all_states (count_inc state c)
  = sum_counts bbm_all_states c + 1.
Proof.
  intros Hc Hs.
  pose proof (Hc VIRTIO_MEM_BBM_BB_UNUSED).
  pose proof (Hc VIRTIO_MEM_BBM_BB_PLUGGED).
  pose proof (Hc VIRTIO_MEM_BBM_BB_ADDED).
  pose proof (Hc VIRTIO_MEM_BBM_BB_FAKE_OFFLINE).
  clear Hc. unfold sum_counts in Hs. cbn in Hs.
  destruct state; count_cases.
Qed.

Lemma sum_counts_ext {S} (all : list S) (c c' : S -> Z) :
  (forall t, c' t = c t) -> sum_counts all c' = sum_counts all c.
Proof.
  intros E. unfold sum_counts. induction all as [|s all IH]; cbn; [reflexivity|].
  rewrite E, IH. reflexivity.
Qed.


(** The counters and the first and next ids are left alone. *)
Definition tallyR (w w' : world) : Prop :=
  mb_count (sbm (vm w')) = mb_count (sbm (vm w)) /\
  first_mb_id (sbm (vm w')) = first_mb_id (sbm (vm w)) /\
  next_mb_id (sbm (vm w')) = next_mb_id (sbm (vm w)) /\
  bb_count (bbm (vm w')) = bb_count (bbm (vm w)) /\
  first_bb_id (bbm (vm w')) = first_bb_id (bbm (vm w)) /\
  next_bb_id (bbm (vm w')) = next_bb_id (bbm (vm w)).

#[global] Instance tallyR_preorder : PreOrder tallyR.
Proof.
  unfold tallyR. split.
  - intros w. repeat split.
  - intros w1 w2 w3 (?&?&?&?&?&?) (?&?&?&?&?&?). repeat split; congruence.
Qed.

Ltac tally_side := intros; repeat split.

Lemma tallyR_virtio_mem_sbm_mb_states_prepare_next_mb :
  keeps tallyR virtio_mem_sbm_mb_states_prepare_next_mb.
Proof. unfold virtio_mem_sbm_mb_states_prepare_next_mb. keeps_auto tally_side. Qed.
Lemma tallyR_virtio_mem_sbm_sb_states_prepare_next_mb :
  keeps tallyR virtio_mem_sbm_sb_states_prepare_next_mb.
Proof. unfold virtio_mem_sbm_sb_states_prepare_next_mb. keeps_auto tally_side. Qed.
Lemma tallyR_virtio_mem_bbm_bb_states_prepare_next_bb :
  keeps tallyR virtio_mem_bbm_bb_states_prepare_next_bb.
Proof. unfold virtio_mem_bbm_bb_states_prepare_next_bb. keeps_auto tally_side. Qed.

(** What [virtio_mem_sbm_prepare_next_mb] does to the counters: on success
    the block with the old [next_mb_id] is the new one and [UNUSED] has one
    block more; on failure nothing has changed. *)
Lemma virtio_mem_sbm_prepare_next_mb_spec w :
  wlp virtio_mem_sbm_prepare_next_mb
      (fun r w' =>
         (bb_count (bbm (vm w')) = bb_count (bbm (vm w)) /\
          first_bb_id (bbm (vm w')) = first_bb_id (bbm (vm w)) /\
          next_bb_id (bbm (vm w')) = next_bb_id (bbm (vm w))) /\
         first_mb_id (sbm (vm w')) = first_mb_id (sbm (vm w)) /\
         if fst r =? 0 then
           snd r = next_mb_id (sbm (vm w)) /\
           next_mb_id (sbm (vm w')) = u64 (next_mb_id (sbm (vm w)) + 1) /\
           forall t, mb_count (sbm (vm w')) t
                     = count_inc VIRTIO_MEM_SBM_MB_UNUSED (mb_count (sbm (vm w))) t
         else
           next_mb_id (sbm (vm w')) = next_mb_id (sbm (vm w)) /\
           mb_count (sbm (vm w')) = mb_count (sbm (vm w))) w.
Proof.
  unfold virtio_mem_sbm_prepare_next_mb. apply wlp_get_vm.
  destruct (_ <? _).
  { apply wlp_ret. cbn. change (- ENOSPC =? 0) with false. cbn iota. auto. }
  eapply (wlp_bind_keeps tallyR);
    [apply tallyR_virtio_mem_sbm_mb_states_prepare_next_mb|].
  intros rc w1 (C1 & F1 & N1 & B1 & FB1 & NB1).
  destruct (nz rc) eqn:Hrc.
  { apply wlp_ret. cbn. apply nz_true in Hrc. apply Z.eqb_neq in Hrc.
    rewrite Hrc. auto. }
  eapply (wlp_bind_keeps tallyR);
    [apply tallyR_virtio_mem_sbm_sb_states_prepare_next_mb|].
  intros rc2 w2 (C2 & F2 & N2 & B2 & FB2 & NB2).
  destruct (nz rc2) eqn:Hrc2.
  { apply wlp_ret. cbn. apply nz_true in Hrc2. apply Z.eqb_neq in Hrc2.
    rewrite Hrc2. repeat split; congruence. }
  unfold wlp, bind, modify_sbm, modify_vm, ret. cbn.
  split; [repeat split; congruence|].
  split; [congruence|]. split; [reflexivity|]. split; [congruence|].
  intros t. rewrite sbm_table_eq, C2, C1. reflexivity.
Qed.

Lemma virtio_mem_bbm_prepare_next_bb_spec w :
  wlp virtio_mem_bbm_prepare_next_bb
      (fun r w' =>
         (mb_count (sbm (vm w')) = mb_count (sbm (vm w)) /\
          first_mb_id (sbm (vm w')) = first_mb_id (sbm (vm w)) /\
          next_mb_id (sbm (vm w')) = next_mb_id (sbm (vm w))) /\
         first_bb_id (bbm (vm w')) = first_bb_id (bbm (vm w)) /\
         if fst r =? 0 then
           snd r = next_bb_id (bbm (vm w)) /\
           next_bb_id (bbm (vm w')) = u64 (next_bb_id (bbm (vm w)) + 1) /\
           forall t, bb_count (bbm (vm w')) t
                     = count_inc VIRTIO_MEM_BBM_BB_UNUSED (bb_count (bbm (vm w))) t
         else
           next_bb_id (bbm (vm w')) = next_bb_id (bbm (vm w)) /\
           bb_count (bbm (vm w')) = bb_count (bbm (vm w))) w.
Proof.
  unfold virtio_mem_bbm_prepare_next_bb. apply wlp_get_vm.
  destruct (_ <? _).
  { apply wlp_ret. cbn. change (- ENOSPC =? 0) with false. cbn iota. auto. }
  eapply (wlp_bind_keeps tallyR);
    [apply tallyR_virtio_mem_bbm_bb_states_prepare_next_bb|].
  intros rc w1 (M1 & FM1 & NM1 & C1 & F1 & N1).
  destruct (nz rc) eqn:Hrc.
  { apply wlp_ret. cbn. apply nz_true in Hrc. apply Z.eqb_neq in Hrc.
    rewrite Hrc. auto. }
  unfold wlp, bind, modify_bbm, modify_vm, ret. cbn.
  split; [repeat split; congruence|].
  split; [congruence|]. split; [reflexivity|]. split; [congruence|].
  intros t. rewrite bbm_table_eq, C1. reflexivity.
Qed.

(** ** The same in the arithmetic of the machine

    Counters and ids are [unsigned long] and [uint64_t]: modulo [2^64] the
    counters add up whatever their values are, and every function of the
    engine keeps it so. *)
Definition counted64 (v : virtio_mem) : Prop :=
  eq64 (sum_counts sbm_all_states (mb_count (sbm v)))
       (next_mb_id (sbm v) - first_mb_id (sbm v)) /\
  eq64 (sum_counts bbm_all_states (bb_count (bbm v)))
       (next_bb_id (bbm v) - first_bb_id (bbm v)).

Definition cntR (w w' : world) : Prop := counted64 (vm w) -> counted64 (vm w').

#[global] Instance cntR_preorder : PreOrder cntR.
Proof. unfold cntR. split; [intros w; auto | intros w1 w2 w3; auto]. Qed.

Ltac cnt_side := unfold cntR; intros; assumption.

Ltac count_cases64 :=
  unfold sum_counts, count_inc, count_dec; cbn;
  repeat match goal with
         | |- context [decide ?P] =>
             destruct (decide P) as [?|?]; [ try discriminate | try congruence ]
         end;
  eq64_solve.

Lemma sbm_count_move64 (c : sbm_mb_state -> Z) old state :
  eq64 (sum_counts sbm_all_states (count_inc state (count_dec old c)))
       (sum_counts sbm_all_states c).
Proof. destruct old, state; count_cases64. Qed.

Lemma bbm_count_move64 (c : bbm_bb_state -> Z) old state :
  eq64 (sum_counts bbm_all_states (count_inc state (count_dec old c)))
       (sum_counts bbm_all_states c).
Proof. destruct old, state; count_cases64. Qed.

Lemma sbm_count_add64 (c : sbm_mb_state -> Z) state :
  eq64 (sum_counts sbm_all_states (count_inc state c))
       (sum_counts sbm_all_states c + 1).
Proof. destruct state; count_cases64. Qed.

Lemma bbm_count_add64 (c : bbm_bb_state -> Z) state :
  eq64 (sum_counts bbm_all_states (count_inc state c))
       (sum_counts bbm_all_states c + 1).
Proof. destruct state; count_cases64. Qed.


Lemma virtio_mem_sbm_set_mb_state_inv mb_id state w a w' :
  virtio_mem_sbm_set_mb_state mb_id state w = Ok a w' ->
  exists old,
    mb_states (sbm (vm w)) !! sbm_idx (vm w) mb_id = Some old /\
    mb_count (sbm (vm w)) old <> 0 /\
    (forall t, mb_count (sbm (vm w')) t
               = count_inc state (count_dec old (mb_count (sbm (vm w)))) t) /\
    first_mb_id (sbm (vm w')) = first_mb_id (sbm (vm w)) /\
    next_mb_id (sbm (vm w')) = next_mb_id (sbm (vm w)) /\
    bbm (vm w') = bbm (vm w).
Proof.
  intros E.
  destruct (mb_states (sbm (vm w)) !! sbm_idx (vm w) mb_id) as [old|] eqn:Hl.
  2:{ unfold sbm_idx in Hl.
      unfold virtio_mem_sbm_set_mb_state, bind, get_vm, lift_access in E.
      rewrite Hl in E. discriminate. }
  exists old. split; [reflexivity|].
  destruct (Z.eq_dec (mb_count (sbm (vm w)) old) 0) as [Hc|Hc].
  { rewrite (virtio_mem_sbm_set_mb_state_zero w mb_id state old Hl Hc) in E.
    discriminate. }
  split; [exact Hc|].
  destruct (virtio_mem_sbm_set_mb_state_moves w mb_id state old Hl Hc)
    as (w1 & E1 & _ & Ht & Hf & Hn).
  assert (Hb : bbm (vm w1) = bbm (vm w)).
  { revert E1. unfold sbm_idx in Hl.
    unfold virtio_mem_sbm_set_mb_state, bind, get_vm, lift_access.
    rewrite Hl. cbn. apply Z.eqb_neq in Hc. rewrite Hc. cbn.
    intros [= <-]. reflexivity. }
  rewrite E1 in E. injection E as _ <-. auto.
Qed.

Lemma virtio_mem_bbm_set_bb_state_inv bb_id state w a w' :
  virtio_mem_bbm_set_bb_state bb_id state w = Ok a w' ->
  exists old,
    bb_states (bbm (vm w)) !! bbm_idx (vm w) bb_id = Some old /\
    bb_count (bbm (vm w)) old <> 0 /\
    (forall t, bb_count (bbm (vm w')) t
               = count_inc state (count_dec old (bb_count (bbm (vm w)))) t) /\
    first_bb_id (bbm (vm w')) = first_bb_id (bbm (vm w)) /\
    next_bb_id (bbm (vm w')) = next_bb_id (bbm (vm w)) /\
    sbm (vm w') = sbm (vm w).
Proof.
  intros E.
  destruct (bb_states (bbm (vm w)) !! bbm_idx (vm w) bb_id) as [old|] eqn:Hl.
  2:{ unfold bbm_idx in Hl.
      unfold virtio_mem_bbm_set_bb_state, bind, get_vm, lift_access in E.
      rewrite Hl in E. discriminate. }
  exists old. split; [reflexivity|].
  destruct (Z.eq_dec (bb_count (bbm (vm w)) old) 0) as [Hc|Hc].
  { rewrite (virtio_mem_bbm_set_bb_state_zero w bb_id state old Hl Hc) in E.
    discriminate. }
  split; [exact Hc|].
  destruct (virtio_mem_bbm_set_bb_state_moves w bb_id state old Hl Hc)
    as (w1 & E1 & _ & Ht & Hf & Hn).
  assert (Hb : sbm (vm w1) = sbm (vm w)).
  { revert E1. unfold bbm_idx in Hl.
    unfold virtio_mem_bbm_set_bb_state, bind, get_vm, lift_access.
    rewrite Hl. cbn. apply Z.eqb_neq in Hc. rewrite Hc. cbn.
    intros [= <-]. reflexivity. }
  rewrite E1 in E. injection E as _ <-. auto.
Qed.

Lemma cntR_virtio_mem_sbm_set_mb_state mb_id state :
  keeps cntR (virtio_mem_sbm_set_mb_state mb_id state).
Proof.
  intros w. apply wlp_intro. intros a w' E.
  destruct (virtio_mem_sbm_set_mb_state_inv _ _ _ _ _ E)
    as (old & _ & _ & Ht & Hf & Hn & Hb).
  intros [Hs Hbb]. split.
  - rewrite (sum_counts_ext _ _ _ Ht), Hf, Hn.
    etransitivity; [apply sbm_count_move64 | exact Hs].
  - rewrite Hb. exact Hbb.
Qed.
#[global] Hint Resolve cntR_virtio_mem_sbm_set_mb_state : keeps.

Lemma cntR_virtio_mem_bbm_set_bb_state bb_id state :
  keeps cntR (virtio_mem_bbm_set_bb_state bb_id state).
Proof.
  intros w. apply wlp_intro. intros a w' E.
  destruct (virtio_mem_bbm_set_bb_state_inv _ _ _ _ _ E)
    as (old & _ & _ & Ht & Hf & Hn & Hb).
  intros [Hs Hbb]. split.
  - rewrite Hb. exact Hs.
  - rewrite (sum_counts_ext _ _ _ Ht), Hf, Hn.
    etransitivity; [apply bbm_count_move64 | exact Hbb].
Qed.
#[global] Hint Resolve cntR_virtio_mem_bbm_set_bb_state : keeps.


Lemma eq64_add_u64 a b c : eq64 a (b - c) -> eq64 (a + 1) (u64 (b + 1) - c).
Proof. eq64_solve. Qed.

Lemma cntR_virtio_mem_sbm_prepare_next_mb :
  keeps cntR virtio_mem_sbm_prepare_next_mb.
Proof.
  intros w. eapply wlp_mono; [apply virtio_mem_sbm_prepare_next_mb_spec|].
  intros [rc id] w' ((Hb & Hfb & Hnb) & Hf & H) [Hs Hbb]. cbn in H. split.
  - destruct (rc =? 0).
    + destruct H as (_ & Hn & Ht).
      rewrite (sum_counts_ext _ _ _ Ht), Hf, Hn.
      etransitivity; [apply sbm_count_add64 | apply eq64_add_u64, Hs].
    + destruct H as (Hn & Hc). rewrite Hc, Hf, Hn. exact Hs.
  - rewrite Hb, Hfb, Hnb. exact Hbb.
Qed.
#[global] Hint Resolve cntR_virtio_mem_sbm_prepare_next_mb : keeps.

Lemma cntR_virtio_mem_bbm_prepare_next_bb :
  keeps cntR virtio_mem_bbm_prepare_next_bb.
Proof.
  intros w. eapply wlp_mono; [apply virtio_mem_bbm_prepare_next_bb_spec|].
  intros [rc id] w' ((Hb & Hfb & Hnb) & Hf & H) [Hs Hbb]. cbn in H. split.
  - rewrite Hb, Hfb, Hnb. exact Hs.
  - destruct (rc =? 0).
    + destruct H as (_ & Hn & Ht).
      rewrite (sum_counts_ext _ _ _ Ht), Hf, Hn.
      etransitivity; [apply bbm_count_add64 | apply eq64_add_u64, Hbb].
    + destruct H as (Hn & Hc). rewrite Hc, Hf, Hn. exact Hbb.
Qed.
#[global] Hint Resolve cntR_virtio_mem_bbm_prepare_next_bb : keeps.

Lemma cntR_virtio_mem_bbm_bb_states_prepare_next_bb  :
  keeps cntR (virtio_mem_bbm_bb_states_prepare_next_bb ).
Proof. unfold virtio_mem_bbm_bb_states_prepare_next_bb. keeps_auto cnt_side. Qed.
#[global] Hint Resolve cntR_virtio_mem_bbm_bb_states_prepare_next_bb : keeps.

Lemma cntR_virtio_mem_sbm_mb_states_prepare_next_mb  :
  keeps cntR (virtio_mem_sbm_mb_states_prepare_next_mb ).
Proof. unfold virtio_mem_sbm_mb_states_prepare_next_mb. keeps_auto cnt_side. Qed.
#[global] Hint Resolve cntR_virtio_mem_sbm_mb_states_prepare_next_mb : keeps.

Lemma cntR_virtio_mem_sbm_set_sb_plugged mb_id sb_id count :
  keeps cntR (virtio_mem_sbm_set_sb_plugged mb_id sb_id count).
Proof. unfold virtio_mem_sbm_set_sb_plugged. keeps_auto cnt_side. Qed.
#[global] Hint Resolve cntR_virtio_mem_sbm_set_sb_plugged : keeps.

Lemma cntR_virtio_mem_sbm_set_sb_unplugged mb_id sb_id count :
  keeps cntR (virtio_mem_sbm_set_sb_unplugged mb_id sb_id count).
Proof. unfold virtio_mem_sbm_set_sb_unplugged. keeps_auto cnt_side. Qed.
#[global] Hint Resolve cntR_virtio_mem_sbm_set_sb_unplugged : keeps.

Lemma cntR_virtio_mem_sbm_test_sb_plugged mb_id sb_id count :
  keeps cntR (virtio_mem_sbm_test_sb_plugged mb_id sb_id count).
Proof. unfold virtio_mem_sbm_test_sb_plugged. keeps_auto cnt_side. Qed.
#[global] Hint Resolve cntR_virtio_mem_sbm_test_sb_plugged : keeps.

Lemma cntR_virtio_mem_sbm_test_sb_unplugged mb_id sb_id count :
  keeps cntR (virtio_mem_sbm_test_sb_unplugged mb_id sb_id count).
Proof. unfold virtio_mem_sbm_test_sb_unplugged. keeps_auto cnt_side. Qed.
#[global] Hint Resolve cntR_virtio_mem_sbm_test_sb_unplugged : keeps.

Lemma cntR_virtio_mem_sbm_first_unplugged_sb mb_id :
  keeps cntR (virtio_mem_sbm_first_unplugged_sb mb_id).
Proof. unfold virtio_mem_sbm_first_unplugged_sb. keeps_auto cnt_side. Qed.
#[global] Hint Resolve cntR_virtio_mem_sbm_first_unplugged_sb : keeps.

Lemma cntR_virtio_mem_sbm_sb_states_prepare_next_mb  :
  keeps cntR (virtio_mem_sbm_sb_states_prepare_next_mb ).
Proof. unfold virtio_mem_sbm_sb_states_prepare_next_mb. keeps_auto cnt_side. Qed.
#[global] Hint Resolve cntR_virtio_mem_sbm_sb_states_prepare_next_mb : keeps.

Lemma cntR_xa_store_membuf index entry :
  keeps cntR (xa_store_membuf index entry).
Proof. unfold xa_store_membuf. keeps_auto cnt_side. Qed.
#[global] Hint Resolve cntR_xa_store_membuf : keeps.

Lemma cntR_virtio_mem_send_unplug_request fuel addr size memmap :
  keeps cntR (virtio_mem_send_unplug_request fuel addr size memmap).
Proof. unfold virtio_mem_send_unplug_request. keeps_auto cnt_side. Qed.
#[global] Hint Resolve cntR_virtio_mem_send_unplug_request : keeps.

Lemma cntR_virtio_mem_send_plug_request fuel addr size memmap :
  keeps cntR (virtio_mem_send_plug_request fuel addr size memmap).
Proof. unfold virtio_mem_send_plug_request. keeps_auto cnt_side. Qed.
#[global] Hint Resolve cntR_virtio_mem_send_plug_request : keeps.

Lemma cntR_virtio_mem_send_unplug_all_request  :
  keeps cntR (virtio_mem_send_unplug_all_request ).
Proof. unfold virtio_mem_send_unplug_all_request. keeps_auto cnt_side. Qed.
#[global] Hint Resolve cntR_virtio_mem_send_unplug_all_request : keeps.

Lemma cntR_virtio_mem_plug_memmap fuel addr :
  keeps cntR (virtio_mem_plug_memmap fuel addr).
Proof. unfold virtio_mem_plug_memmap. keeps_auto cnt_side. Qed.
#[global] Hint Resolve cntR_virtio_mem_plug_memmap : keeps.

Lemma cntR_virtio_mem_unplug_memmap fuel addr :
  keeps cntR (virtio_mem_unplug_memmap fuel addr).
Proof. unfold virtio_mem_unplug_memmap. keeps_auto cnt_side. Qed.
#[global] Hint Resolve cntR_virtio_mem_unplug_memmap : keeps.

Lemma cntR_virtio_mem_retry  :
  keeps cntR (virtio_mem_retry ).
Proof. unfold virtio_mem_retry. keeps_auto cnt_side. Qed.
#[global] Hint Resolve cntR_virtio_mem_retry : keeps.

Lemma cntR_atomic64_add_offline_size d :
  keeps cntR (atomic64_add_offline_size d).
Proof. unfold atomic64_add_offline_size. keeps_auto cnt_side. Qed.
#[global] Hint Resolve cntR_atomic64_add_offline_size : keeps.

Lemma cntR_virtio_mem_set_fake_offline pfn nr_pages onlined :
  keeps cntR (virtio_mem_set_fake_offline pfn nr_pages onlined).
Proof. unfold virtio_mem_set_fake_offline. keeps_auto cnt_side. Qed.
#[global] Hint Resolve cntR_virtio_mem_set_fake_offline : keeps.

Lemma cntR_virtio_mem_clear_fake_offline pfn nr_pages onlined :
  keeps cntR (virtio_mem_clear_fake_offline pfn nr_pages onlined).
Proof. unfold virtio_mem_clear_fake_offline. keeps_auto cnt_side. Qed.
#[global] Hint Resolve cntR_virtio_mem_clear_fake_offline : keeps.

Lemma cntR_virtio_mem_fake_online fuel pfn nr_pages :
  keeps cntR (virtio_mem_fake_online fuel pfn nr_pages).
Proof. unfold virtio_mem_fake_online. keeps_auto cnt_side. Qed.
#[global] Hint Resolve cntR_virtio_mem_fake_online : keeps.

Lemma cntR_virtio_mem_config_changed  :
  keeps cntR (virtio_mem_config_changed ).
Proof. unfold virtio_mem_config_changed. keeps_auto cnt_side. Qed.
#[global] Hint Resolve cntR_virtio_mem_config_changed : keeps.

Lemma cntR_atomic_read_config_changed  :
  keeps cntR (atomic_read_config_changed ).
Proof. unfold atomic_read_config_changed. keeps_auto cnt_side. Qed.
#[global] Hint Resolve cntR_atomic_read_config_changed : keeps.

Lemma cntR_virtio_mem_fake_offline pfn nr_pages :
  keeps cntR (virtio_mem_fake_offline pfn nr_pages).
Proof. unfold virtio_mem_fake_offline. keeps_auto cnt_side. Qed.
#[global] Hint Resolve cntR_virtio_mem_fake_offline : keeps.

Lemma cntR_virtio_mem_fake_offline_going_offline fuel pfn nr_pages :
  keeps cntR (virtio_mem_fake_offline_going_offline fuel pfn nr_pages).
Proof. unfold virtio_mem_fake_offline_going_offline. keeps_auto cnt_side. Qed.
#[global] Hint Resolve cntR_virtio_mem_fake_offline_going_offline : keeps.

Lemma cntR_virtio_mem_fake_offline_cancel_offline fuel pfn nr_pages :
  keeps cntR (virtio_mem_fake_offline_cancel_offline fuel pfn nr_pages).
Proof. unfold virtio_mem_fake_offline_cancel_offline. keeps_auto cnt_side. Qed.
#[global] Hint Resolve cntR_virtio_mem_fake_offline_cancel_offline : keeps.

Lemma cntR_virtio_mem_sbm_notify_going_online mb_id :
  keeps cntR (virtio_mem_sbm_notify_going_online mb_id).
Proof. unfold virtio_mem_sbm_notify_going_online. keeps_auto cnt_side. Qed.
#[global] Hint Resolve cntR_virtio_mem_sbm_notify_going_online : keeps.

Lemma cntR_virtio_mem_sbm_notify_offline mb_id :
  keeps cntR (virtio_mem_sbm_notify_offline mb_id).
Proof. unfold virtio_mem_sbm_notify_offline. keeps_auto cnt_side. Qed.
#[global] Hint Resolve cntR_virtio_mem_sbm_notify_offline : keeps.

Lemma cntR_virtio_mem_sbm_notify_online mb_id start_pfn :
  keeps cntR (virtio_mem_sbm_notify_online mb_id start_pfn).
Proof. unfold virtio_mem_sbm_notify_online. keeps_auto cnt_side. Qed.
#[global] Hint Resolve cntR_virtio_mem_sbm_notify_online : keeps.

Lemma cntR_virtio_mem_sbm_notify_going_offline fuel mb_id :
  keeps cntR (virtio_mem_sbm_notify_going_offline fuel mb_id).
Proof. unfold virtio_mem_sbm_notify_going_offline. keeps_auto cnt_side. Qed.
#[global] Hint Resolve cntR_virtio_mem_sbm_notify_going_offline : keeps.

Lemma cntR_virtio_mem_sbm_notify_cancel_offline fuel mb_id :
  keeps cntR (virtio_mem_sbm_notify_cancel_offline fuel mb_id).
Proof. unfold virtio_mem_sbm_notify_cancel_offline. keeps_auto cnt_side. Qed.
#[global] Hint Resolve cntR_virtio_mem_sbm_notify_cancel_offline : keeps.

Lemma cntR_virtio_mem_bbm_notify_going_offline fuel bb_id pfn nr_pages :
  keeps cntR (virtio_mem_bbm_notify_going_offline fuel bb_id pfn nr_pages).
Proof. unfold virtio_mem_bbm_notify_going_offline. keeps_auto cnt_side. Qed.
#[global] Hint Resolve cntR_virtio_mem_bbm_notify_going_offline : keeps.

Lemma cntR_virtio_mem_bbm_notify_cancel_offline fuel bb_id pfn nr_pages :
  keeps cntR (virtio_mem_bbm_notify_cancel_offline fuel bb_id pfn nr_pages).
Proof. unfold virtio_mem_bbm_notify_cancel_offline. keeps_auto cnt_side. Qed.
#[global] Hint Resolve cntR_virtio_mem_bbm_notify_cancel_offline : keeps.

Lemma cntR_virtio_mem_memory_notifier_cb fuel action mhp :
  keeps cntR (virtio_mem_memory_notifier_cb fuel action mhp).
Proof. unfold virtio_mem_memory_notifier_cb. keeps_auto cnt_side. Qed.
#[global] Hint Resolve cntR_virtio_mem_memory_notifier_cb : keeps.

Lemma cntR_virtio_mem_online_page fuel pfn order :
  keeps cntR (virtio_mem_online_page fuel pfn order).
Proof. unfold virtio_mem_online_page. cbv zeta. keeps_auto cnt_side. Qed.
#[global] Hint Resolve cntR_virtio_mem_online_page : keeps.

Lemma cntR_virtio_mem_online_page_cb fuel pfn order :
  keeps cntR (virtio_mem_online_page_cb fuel pfn order).
Proof. unfold virtio_mem_online_page_cb. keeps_auto cnt_side. Qed.
#[global] Hint Resolve cntR_virtio_mem_online_page_cb : keeps.

Lemma cntR_kernel_callbacks fuel :
  keeps cntR (kernel_callbacks fuel).
Proof. unfold kernel_callbacks. keeps_auto cnt_side. Qed.
#[global] Hint Resolve cntR_kernel_callbacks : keeps.

Lemma cntR_virtio_mem_add_memory fuel addr size :
  keeps cntR (virtio_mem_add_memory fuel addr size).
Proof. unfold virtio_mem_add_memory. keeps_auto cnt_side. Qed.
#[global] Hint Resolve cntR_virtio_mem_add_memory : keeps.

Lemma cntR_virtio_mem_sbm_add_mb fuel mb_id :
  keeps cntR (virtio_mem_sbm_add_mb fuel mb_id).
Proof. unfold virtio_mem_sbm_add_mb. keeps_auto cnt_side. Qed.
#[global] Hint Resolve cntR_virtio_mem_sbm_add_mb : keeps.

Lemma cntR_virtio_mem_bbm_add_bb fuel bb_id :
  keeps cntR (virtio_mem_bbm_add_bb fuel bb_id).
Proof. unfold virtio_mem_bbm_add_bb. keeps_auto cnt_side. Qed.
#[global] Hint Resolve cntR_virtio_mem_bbm_add_bb : keeps.

Lemma cntR_virtio_mem_remove_memory fuel addr size :
  keeps cntR (virtio_mem_remove_memory fuel addr size).
Proof. unfold virtio_mem_remove_memory. keeps_auto cnt_side. Qed.
#[global] Hint Resolve cntR_virtio_mem_remove_memory : keeps.

Lemma cntR_virtio_mem_sbm_remove_mb fuel mb_id :
  keeps cntR (virtio_mem_sbm_remove_mb fuel mb_id).
Proof. unfold virtio_mem_sbm_remove_mb. keeps_auto cnt_side. Qed.
#[global] Hint Resolve cntR_virtio_mem_sbm_remove_mb : keeps.

Lemma cntR_virtio_mem_offline_and_remove_memory fuel addr size :
  keeps cntR (virtio_mem_offline_and_remove_memory fuel addr size).
Proof. unfold virtio_mem_offline_and_remove_memory. keeps_auto cnt_side. Qed.
#[global] Hint Resolve cntR_virtio_mem_offline_and_remove_memory : keeps.

Lemma cntR_virtio_mem_sbm_offline_and_remove_mb fuel mb_id :
  keeps cntR (virtio_mem_sbm_offline_and_remove_mb fuel mb_id).
Proof. unfold virtio_mem_sbm_offline_and_remove_mb. keeps_auto cnt_side. Qed.
#[global] Hint Resolve cntR_virtio_mem_sbm_offline_and_remove_mb : keeps.

Lemma cntR_virtio_mem_sbm_try_remove_unplugged_mb fuel mb_id :
  keeps cntR (virtio_mem_sbm_try_remove_unplugged_mb fuel mb_id).
Proof. unfold virtio_mem_sbm_try_remove_unplugged_mb. keeps_auto cnt_side. Qed.
#[global] Hint Resolve cntR_virtio_mem_sbm_try_remove_unplugged_mb : keeps.

Lemma cntR_virtio_mem_bbm_offline_and_remove_bb fuel bb_id :
  keeps cntR (virtio_mem_bbm_offline_and_remove_bb fuel bb_id).
Proof. unfold virtio_mem_bbm_offline_and_remove_bb. keeps_auto cnt_side. Qed.
#[global] Hint Resolve cntR_virtio_mem_bbm_offline_and_remove_bb : keeps.

Lemma cntR_virtio_mem_sbm_plug_sb fuel mb_id sb_id count :
  keeps cntR (virtio_mem_sbm_plug_sb fuel mb_id sb_id count).
Proof. unfold virtio_mem_sbm_plug_sb. keeps_auto cnt_side. Qed.
#[global] Hint Resolve cntR_virtio_mem_sbm_plug_sb : keeps.

Lemma cntR_virtio_mem_sbm_unplug_sb fuel mb_id sb_id count :
  keeps cntR (virtio_mem_sbm_unplug_sb fuel mb_id sb_id count).
Proof. unfold virtio_mem_sbm_unplug_sb. keeps_auto cnt_side. Qed.
#[global] Hint Resolve cntR_virtio_mem_sbm_unplug_sb : keeps.

Lemma cntR_virtio_mem_bbm_unplug_bb fuel bb_id :
  keeps cntR (virtio_mem_bbm_unplug_bb fuel bb_id).
Proof. unfold virtio_mem_bbm_unplug_bb. keeps_auto cnt_side. Qed.
#[global] Hint Resolve cntR_virtio_mem_bbm_unplug_bb : keeps.

Lemma cntR_virtio_mem_bbm_plug_bb fuel bb_id :
  keeps cntR (virtio_mem_bbm_plug_bb fuel bb_id).
Proof. unfold virtio_mem_bbm_plug_bb. keeps_auto cnt_side. Qed.
#[global] Hint Resolve cntR_virtio_mem_bbm_plug_bb : keeps.

Lemma cntR_virtio_mem_sbm_unplug_any_sb_raw fuel mb_id nb_sb :
  keeps cntR (virtio_mem_sbm_unplug_any_sb_raw fuel mb_id nb_sb).
Proof. unfold virtio_mem_sbm_unplug_any_sb_raw. keeps_auto cnt_side. Qed.
#[global] Hint Resolve cntR_virtio_mem_sbm_unplug_any_sb_raw : keeps.

Lemma cntR_virtio_mem_sbm_unplug_mb fuel mb_id :
  keeps cntR (virtio_mem_sbm_unplug_mb fuel mb_id).
Proof. unfold virtio_mem_sbm_unplug_mb. keeps_auto cnt_side. Qed.
#[global] Hint Resolve cntR_virtio_mem_sbm_unplug_mb : keeps.

Lemma cntR_virtio_mem_sbm_plug_and_add_mb fuel mb_id nb_sb :
  keeps cntR (virtio_mem_sbm_plug_and_add_mb fuel mb_id nb_sb).
Proof. unfold virtio_mem_sbm_plug_and_add_mb. keeps_auto cnt_side. Qed.
#[global] Hint Resolve cntR_virtio_mem_sbm_plug_and_add_mb : keeps.

Lemma cntR_virtio_mem_sbm_plug_any_sb fuel mb_id nb_sb :
  keeps cntR (virtio_mem_sbm_plug_any_sb fuel mb_id nb_sb).
Proof. unfold virtio_mem_sbm_plug_any_sb. keeps_auto cnt_side. Qed.
#[global] Hint Resolve cntR_virtio_mem_sbm_plug_any_sb : keeps.

Lemma cntR_virtio_mem_sbm_plug_request fuel diff :
  keeps cntR (virtio_mem_sbm_plug_request fuel diff).
Proof. unfold virtio_mem_sbm_plug_request. keeps_auto cnt_side. Qed.
#[global] Hint Resolve cntR_virtio_mem_sbm_plug_request : keeps.

Lemma cntR_virtio_mem_sbm_unplug_any_sb_offline fuel mb_id nb_sb :
  keeps cntR (virtio_mem_sbm_unplug_any_sb_offline fuel mb_id nb_sb).
Proof. unfold virtio_mem_sbm_unplug_any_sb_offline. keeps_auto cnt_side. Qed.
#[global] Hint Resolve cntR_virtio_mem_sbm_unplug_any_sb_offline : keeps.

Lemma cntR_virtio_mem_sbm_unplug_sb_online fuel mb_id sb_id count :
  keeps cntR (virtio_mem_sbm_unplug_sb_online fuel mb_id sb_id count).
Proof. unfold virtio_mem_sbm_unplug_sb_online. keeps_auto cnt_side. Qed.
#[global] Hint Resolve cntR_virtio_mem_sbm_unplug_sb_online : keeps.

Lemma cntR_virtio_mem_sbm_unplug_any_sb_online fuel mb_id nb_sb :
  keeps cntR (virtio_mem_sbm_unplug_any_sb_online fuel mb_id nb_sb).
Proof. unfold virtio_mem_sbm_unplug_any_sb_online. keeps_auto cnt_side. Qed.
#[global] Hint Resolve cntR_virtio_mem_sbm_unplug_any_sb_online : keeps.

Lemma cntR_virtio_mem_sbm_unplug_any_sb fuel mb_id nb_sb :
  keeps cntR (virtio_mem_sbm_unplug_any_sb fuel mb_id nb_sb).
Proof. unfold virtio_mem_sbm_unplug_any_sb. keeps_auto cnt_side. Qed.
#[global] Hint Resolve cntR_virtio_mem_sbm_unplug_any_sb : keeps.

Lemma cntR_virtio_mem_sbm_unplug_request fuel diff :
  keeps cntR (virtio_mem_sbm_unplug_request fuel diff).
Proof. unfold virtio_mem_sbm_unplug_request. keeps_auto cnt_side. Qed.
#[global] Hint Resolve cntR_virtio_mem_sbm_unplug_request : keeps.

Lemma cntR_virtio_mem_bbm_plug_and_add_bb fuel bb_id :
  keeps cntR (virtio_mem_bbm_plug_and_add_bb fuel bb_id).
Proof. unfold virtio_mem_bbm_plug_and_add_bb. keeps_auto cnt_side. Qed.
#[global] Hint Resolve cntR_virtio_mem_bbm_plug_and_add_bb : keeps.

Lemma cntR_virtio_mem_bbm_plug_request fuel diff :
  keeps cntR (virtio_mem_bbm_plug_request fuel diff).
Proof. unfold virtio_mem_bbm_plug_request. keeps_auto cnt_side. Qed.
#[global] Hint Resolve cntR_virtio_mem_bbm_plug_request : keeps.

Lemma cntR_virtio_mem_plug_request fuel diff :
  keeps cntR (virtio_mem_plug_request fuel diff).
Proof. unfold virtio_mem_plug_request. keeps_auto cnt_side. Qed.
#[global] Hint Resolve cntR_virtio_mem_plug_request : keeps.

Lemma cntR_virtio_mem_bbm_offline_remove_and_unplug_bb fuel bb_id :
  keeps cntR (virtio_mem_bbm_offline_remove_and_unplug_bb fuel bb_id).
Proof. unfold virtio_mem_bbm_offline_remove_and_unplug_bb. keeps_auto cnt_side. Qed.
#[global] Hint Resolve cntR_virtio_mem_bbm_offline_remove_and_unplug_bb : keeps.

Lemma cntR_virtio_mem_bbm_bb_is_offline fuel bb_id :
  keeps cntR (virtio_mem_bbm_bb_is_offline fuel bb_id).
Proof. unfold virtio_mem_bbm_bb_is_offline. keeps_auto cnt_side. Qed.
#[global] Hint Resolve cntR_virtio_mem_bbm_bb_is_offline : keeps.

Lemma cntR_virtio_mem_bbm_bb_is_movable fuel bb_id :
  keeps cntR (virtio_mem_bbm_bb_is_movable fuel bb_id).
Proof. unfold virtio_mem_bbm_bb_is_movable. keeps_auto cnt_side. Qed.
#[global] Hint Resolve cntR_virtio_mem_bbm_bb_is_movable : keeps.

Lemma cntR_bbm_unplug_walk fuel passes :
  forall i nb_bb, keeps cntR (bbm_unplug_walk fuel passes i nb_bb).
Proof.
  induction passes as [|passes IH]; intros i nb_bb; cbn [bbm_unplug_walk];
    keeps_auto cnt_side.
Qed.
#[global] Hint Resolve cntR_bbm_unplug_walk : keeps.

Lemma cntR_virtio_mem_bbm_unplug_request fuel diff :
  keeps cntR (virtio_mem_bbm_unplug_request fuel diff).
Proof. unfold virtio_mem_bbm_unplug_request. keeps_auto cnt_side. Qed.
#[global] Hint Resolve cntR_virtio_mem_bbm_unplug_request : keeps.

Lemma cntR_virtio_mem_unplug_request fuel diff :
  keeps cntR (virtio_mem_unplug_request fuel diff).
Proof. unfold virtio_mem_unplug_request. keeps_auto cnt_side. Qed.
#[global] Hint Resolve cntR_virtio_mem_unplug_request : keeps.

Lemma cntR_virtio_mem_cleanup_pending_mb fuel :
  keeps cntR (virtio_mem_cleanup_pending_mb fuel).
Proof. unfold virtio_mem_cleanup_pending_mb. keeps_auto cnt_side. Qed.
#[global] Hint Resolve cntR_virtio_mem_cleanup_pending_mb : keeps.

Lemma cntR_virtio_mem_refresh_config  :
  keeps cntR (virtio_mem_refresh_config ).
Proof. unfold virtio_mem_refresh_config. keeps_auto cnt_side. Qed.
#[global] Hint Resolve cntR_virtio_mem_refresh_config : keeps.

Lemma cntR_virtio_mem_run_wq_pass fuel :
  keeps cntR (virtio_mem_run_wq_pass fuel).
Proof. unfold virtio_mem_run_wq_pass. keeps_auto cnt_side. Qed.
#[global] Hint Resolve cntR_virtio_mem_run_wq_pass : keeps.

Lemma cntR_virtio_mem_run_wq_switch rc :
  keeps cntR (virtio_mem_run_wq_switch rc).
Proof. unfold virtio_mem_run_wq_switch. keeps_auto cnt_side. Qed.
#[global] Hint Resolve cntR_virtio_mem_run_wq_switch : keeps.

Lemma cntR_virtio_mem_run_wq fuel :
  keeps cntR (virtio_mem_run_wq fuel).
Proof. unfold virtio_mem_run_wq. keeps_auto cnt_side. Qed.
#[global] Hint Resolve cntR_virtio_mem_run_wq : keeps.

Lemma cntR_virtio_mem_timer_expired  :
  keeps cntR (virtio_mem_timer_expired ).
Proof. unfold virtio_mem_timer_expired. keeps_auto cnt_side. Qed.
#[global] Hint Resolve cntR_virtio_mem_timer_expired : keeps.




Lemma sbm_counted_set_mb_state mb_id state w a w' :
  sbm_counted (sbm (vm w)) ->
  virtio_mem_sbm_set_mb_state mb_id state w = Ok a w' ->
  sbm_counted (sbm (vm w')).
Proof.
  intros (Hc & Hf & Hn & Hs) E.
  destruct (virtio_mem_sbm_set_mb_state_inv _ _ _ _ _ E)
    as (old & _ & Ho & Ht & Hf' & Hn' & _).
  unfold sbm_counted. rewrite Hf', Hn'. split; [|split; [exact Hf|split; [exact Hn|]]].
  - intros st. rewrite Ht. apply count_move_nonneg, Hc.
  - rewrite (sum_counts_ext _ _ _ Ht), sbm_count_move; [exact Hs | exact Hc | lia | exact Ho].
Qed.

Lemma bbm_counted_set_bb_state bb_id state w a w' :
  bbm_counted (bbm (vm w)) ->
  virtio_mem_bbm_set_bb_state bb_id state w = Ok a w' ->
  bbm_counted (bbm (vm w')).
Proof.
  intros (Hc & Hf & Hn & Hs) E.
  destruct (virtio_mem_bbm_set_bb_state_inv _ _ _ _ _ E)
    as (old & _ & Ho & Ht & Hf' & Hn' & _).
  unfold bbm_counted. rewrite Hf', Hn'. split; [|split; [exact Hf|split; [exact Hn|]]].
  - intros st. rewrite Ht. apply count_move_nonneg, Hc.
  - rewrite (sum_counts_ext _ _ _ Ht), bbm_count_move; [exact Hs | exact Hc | lia | exact Ho].
Qed.

Lemma sum_counts_ge {S} (all : list S) (c : S -> Z) s :
  (forall t, 0 <= c t) -> s ∈ all -> c s <= sum_counts all c.
Proof.
  intros Hc. unfold sum_counts. induction all as [|x all IH]; intros Hin.
  - inversion Hin.
  - cbn. assert (0 <= foldr (fun s acc => c s + acc) 0 all).
    { clear - Hc. induction all as [|y all IH']; cbn; [lia|]. pose proof (Hc y). lia. }
    apply elem_of_cons in Hin as [->|Hin]; [lia|].
    specialize (IH Hin). pose proof (Hc x). lia.
Qed.

Lemma sum_counts_ge2 {S} (all : list S) (c : S -> Z) s s' :
  (forall t, 0 <= c t) -> s <> s' -> s ∈ all -> s' ∈ all ->
  c s + c s' <= sum_counts all c.
Proof.
  intros Hc Hne. induction all as [|x all IH]; intros Hin Hin'.
  - inversion Hin.
  - change (sum_counts (x :: all) c) with (c x + sum_counts all c).
    apply elem_of_cons in Hin as [->|Hin];
      apply elem_of_cons in Hin' as [->|Hin'].
    + contradiction.
    + pose proof (sum_counts_ge all c s' Hc Hin'). lia.
    + pose proof (sum_counts_ge all c s Hc Hin). lia.
    + specialize (IH Hin Hin'). pose proof (Hc x). lia.
Qed.

(** One counter is decremented and one is incremented, each by one and
    without wrapping around, when the counters are not negative and add up
    to less than [2^64]. *)
Lemma count_move_exact {S} `{EqDecision S} (all : list S) (c : S -> Z)
    old state :
  (forall t, t ∈ all) ->
  (forall t, 0 <= c t) ->
  sum_counts all c < U64 ->
  c old <> 0 ->
  forall t, count_inc state (count_dec old c) t
            = c t - (if decide (t = old) then 1 else 0)
              + (if decide (t = state) then 1 else 0).
Proof.
  intros Hall Hc Hs Ho t.
  pose proof (Hc old) as H0.
  pose proof (sum_counts_ge all c old Hc (Hall old)) as H1.
  unfold count_inc, count_dec.
  destruct (decide (t = state)) as [Hts|Hts];
    destruct (decide (t = old)) as [Hto|Hto].
  - subst t. rewrite (u64_small (c state - 1)) by (subst; lia).
    rewrite u64_small; subst; lia.
  - subst t.
    pose proof (sum_counts_ge2 all c state old Hc Hto (Hall state) (Hall old)).
    pose proof (Hc state). rewrite u64_small; lia.
  - subst t. rewrite u64_small; lia.
  - lia.
Qed.

Lemma sbm_all_states_all (st : sbm_mb_state) : st ∈ sbm_all_states.
Proof.
  unfold sbm_all_states. destruct st;
    repeat (apply elem_of_cons; first [left; reflexivity | right]).
Qed.

Lemma bbm_all_states_all (st : bbm_bb_state) : st ∈ bbm_all_states.
Proof.
  unfold bbm_all_states. destruct st;
    repeat (apply elem_of_cons; first [left; reflexivity | right]).
Qed.

(** A state change of a memory block, seen from the counters: the counter
    of the old state is one less and the counter of the new state is one
    more, and no other counter has changed. *)
Lemma sbm_set_mb_state_moves_one mb_id state w a w' :
  sbm_counted (sbm (vm w)) ->
  virtio_mem_sbm_set_mb_state mb_id state w = Ok a w' ->
  exists old,
    mb_states (sbm (vm w)) !! sbm_idx (vm w) mb_id = Some old /\
    1 <= mb_count (sbm (vm w)) old /\
    forall t, mb_count (sbm (vm w')) t
              = mb_count (sbm (vm w)) t
                - (if decide (t = old) then 1 else 0)
                + (if decide (t = state) then 1 else 0).
Proof.
  intros (Hc & Hf & Hn & Hs) E.
  destruct (virtio_mem_sbm_set_mb_state_inv _ _ _ _ _ E)
    as (old & Hl & Ho & Ht & _).
  exists old. split; [exact Hl|]. pose proof (Hc old). split; [lia|].
  intros t. rewrite Ht.
  apply (count_move_exact sbm_all_states);
    [exact sbm_all_states_all | exact Hc | lia | exact Ho].
Qed.

Lemma bbm_set_bb_state_moves_one bb_id state w a w' :
  bbm_counted (bbm (vm w)) ->
  virtio_mem_bbm_set_bb_state bb_id state w = Ok a w' ->
  exists old,
    bb_states (bbm (vm w)) !! bbm_idx (vm w) bb_id = Some old /\
    1 <= bb_count (bbm (vm w)) old /\
    forall t, bb_count (bbm (vm w')) t
              = bb_count (bbm (vm w)) t
                - (if decide (t = old) then 1 else 0)
                + (if decide (t = state) then 1 else 0).
Proof.
  intros (Hc & Hf & Hn & Hs) E.
  destruct (virtio_mem_bbm_set_bb_state_inv _ _ _ _ _ E)
    as (old & Hl & Ho & Ht & _).
  exists old. split; [exact Hl|]. pose proof (Hc old). split; [lia|].
  intros t. rewrite Ht.
  apply (count_move_exact bbm_all_states);
    [exact bbm_all_states_all | exact Hc | lia | exact Ho].
Qed.

Lemma sbm_counted_prepare_next_mb w rc mb_id w' :
  sbm_counted (sbm (vm w)) ->
  next_mb_id (sbm (vm w)) + 1 < U64 ->
  virtio_mem_sbm_prepare_next_mb w = Ok (rc, mb_id) w' ->
  sbm_counted (sbm (vm w')) /\
  if rc =? 0 then
    mb_id = next_mb_id (sbm (vm w)) /\
    next_mb_id (sbm (vm w')) = next_mb_id (sbm (vm w)) + 1 /\
    mb_count (sbm (vm w')) VIRTIO_MEM_SBM_MB_UNUSED
    = mb_count (sbm (vm w)) VIRTIO_MEM_SBM_MB_UNUSED + 1 /\
    forall t, t <> VIRTIO_MEM_SBM_MB_UNUSED ->
              mb_count (sbm (vm w')) t = mb_count (sbm (vm w)) t
  else
    next_mb_id (sbm (vm w')) = next_mb_id (sbm (vm w)) /\
    mb_count (sbm (vm w')) = mb_count (sbm (vm w)).
Proof.
  intros (Hc & Hf & Hn & Hs) Hnext E.
  pose proof (wlp_ok _ _ _ _ _ (virtio_mem_sbm_prepare_next_mb_spec w) E)
    as (_ & Hf' & H).
  cbn in H. unfold sbm_counted. rewrite Hf'. destruct (rc =? 0).
  - destruct H as (Hid & Hn' & Ht).
    rewrite u64_small in Hn' by lia.
    assert (Hu : mb_count (sbm (vm w)) VIRTIO_MEM_SBM_MB_UNUSED
                 <= sum_counts sbm_all_states (mb_count (sbm (vm w)))).
    { apply sum_counts_ge; [exact Hc | apply elem_of_cons; left; reflexivity]. }
    pose proof (Hc VIRTIO_MEM_SBM_MB_UNUSED) as H0.
    split; [split; [|split; [lia|split; [lia|]]]|split; [exact Hid|split; [exact Hn'|split]]].
    + intros st. rewrite Ht. apply count_inc_nonneg, Hc.
    + rewrite (sum_counts_ext _ _ _ Ht), sbm_count_add; [lia | exact Hc | lia].
    + rewrite Ht. unfold count_inc. destruct (decide _); [|congruence].
      apply u64_small. lia.
    + intros t Hne. rewrite Ht. unfold count_inc. destruct (decide _); congruence.
  - destruct H as (Hn' & Hc'). rewrite Hn', Hc'. auto.
Qed.

Lemma bbm_counted_prepare_next_bb w rc bb_id w' :
  bbm_counted (bbm (vm w)) ->
  next_bb_id (bbm (vm w)) + 1 < U64 ->
  virtio_mem_bbm_prepare_next_bb w = Ok (rc, bb_id) w' ->
  bbm_counted (bbm (vm w')) /\
  if rc =? 0 then
    bb_id = next_bb_id (bbm (vm w)) /\
    next_bb_id (bbm (vm w')) = next_bb_id (bbm (vm w)) + 1 /\
    bb_count (bbm (vm w')) VIRTIO_MEM_BBM_BB_UNUSED
    = bb_count (bbm (vm w)) VIRTIO_MEM_BBM_BB_UNUSED + 1 /\
    forall t, t <> VIRTIO_MEM_BBM_BB_UNUSED ->
              bb_count (bbm (vm w')) t = bb_count (bbm (vm w)) t
  else
    next_bb_id (bbm (vm w')) = next_bb_id (bbm (vm w)) /\
    bb_count (bbm (vm w')) = bb_count (bbm (vm w)).
Proof.
  intros (Hc & Hf & Hn & Hs) Hnext E.
  pose proof (wlp_ok _ _ _ _ _ (virtio_mem_bbm_prepare_next_bb_spec w) E)
    as (_ & Hf' & H).
  cbn in H. unfold bbm_counted. rewrite Hf'. destruct (rc =? 0).
  - destruct H as (Hid & Hn' & Ht).
    rewrite u64_small in Hn' by lia.
    assert (Hu : bb_count (bbm (vm w)) VIRTIO_MEM_BBM_BB_UNUSED
                 <= sum_counts bbm_all_states (bb_count (bbm (vm w)))).
    { apply sum_counts_ge; [exact Hc | apply elem_of_cons; left; reflexivity]. }
    pose proof (Hc VIRTIO_MEM_BBM_BB_UNUSED) as H0.
    split; [split; [|split; [lia|split; [lia|]]]|split; [exact Hid|split; [exact Hn'|split]]].
    + intros st. rewrite Ht. apply count_inc_nonneg, Hc.
    + rewrite (sum_counts_ext _ _ _ Ht), bbm_count_add; [lia | exact Hc | lia].
    + rewrite Ht. unfold count_inc. destruct (decide _); [|congruence].
      apply u64_small. lia.
    + intros t Hne. rewrite Ht. unfold count_inc. destruct (decide _); congruence.
  - destruct H as (Hn' & Hc'). rewrite Hn', Hc'. auto.
Qed.


(** C9.  In each mode the counters of the states add up to
    [next_id - first_id].  [virtio_mem_sbm_set_mb_state] and
    [virtio_mem_bbm_set_bb_state] keep it so, and they leave [first_id]
    and [next_id] alone: a state change takes one from the counter of the
    state that the block was in, which was not zero, adds one to the
    counter of the new state, and changes no other counter (so none at
    all when the new state is the old one).
    [virtio_mem_sbm_prepare_next_mb] and [virtio_mem_bbm_prepare_next_bb]
    keep the sum for an id that is not the last [unsigned long]: on
    success they hand out the old [next_id], advance [next_id] by one and
    add one to the counter of [UNUSED] and to no other, and on failure
    they change neither [next_id] nor a counter.  Read modulo [2^64] the
    sum is kept by the worker and by the memory notifier as a whole. *)
Theorem state_counters_add_up :
  (forall w mb_id state a w',
     sbm_counted (sbm (vm w)) ->
     virtio_mem_sbm_set_mb_state mb_id state w = Ok a w' ->
     sbm_counted (sbm (vm w')) /\
     first_mb_id (sbm (vm w')) = first_mb_id (sbm (vm w)) /\
     next_mb_id (sbm (vm w')) = next_mb_id (sbm (vm w)) /\
     exists old,
       mb_states (sbm (vm w)) !! sbm_idx (vm w) mb_id = Some old /\
       1 <= mb_count (sbm (vm w)) old /\
       forall t, mb_count (sbm (vm w')) t
                 = mb_count (sbm (vm w)) t
                   - (if decide (t = old) then 1 else 0)
                   + (if decide (t = state) then 1 else 0)) /\
  (forall w bb_id state a w',
     bbm_counted (bbm (vm w)) ->
     virtio_mem_bbm_set_bb_state bb_id state w = Ok a w' ->
     bbm_counted (bbm (vm w')) /\
     first_bb_id (bbm (vm w')) = first_bb_id (bbm (vm w)) /\
     next_bb_id (bbm (vm w')) = next_bb_id (bbm (vm w)) /\
     exists old,
       bb_states (bbm (vm w)) !! bbm_idx (vm w) bb_id = Some old /\
       1 <= bb_count (bbm (vm w)) old /\
       forall t, bb_count (bbm (vm w')) t
                 = bb_count (bbm (vm w)) t
                   - (if decide (t = old) then 1 else 0)
                   + (if decide (t = state) then 1 else 0)) /\
  (forall w rc mb_id w',
     sbm_counted (sbm (vm w)) ->
     next_mb_id (sbm (vm w)) + 1 < U64 ->
     virtio_mem_sbm_prepare_next_mb w = Ok (rc, mb_id) w' ->
     sbm_counted (sbm (vm w')) /\
     if rc =? 0 then
       mb_id = next_mb_id (sbm (vm w)) /\
       next_mb_id (sbm (vm w')) = next_mb_id (sbm (vm w)) + 1 /\
       mb_count (sbm (vm w')) VIRTIO_MEM_SBM_MB_UNUSED
       = mb_count (sbm (vm w)) VIRTIO_MEM_SBM_MB_UNUSED + 1 /\
       forall t, t <> VIRTIO_MEM_SBM_MB_UNUSED ->
                 mb_count (sbm (vm w')) t = mb_count (sbm (vm w)) t
     else
       next_mb_id (sbm (vm w')) = next_mb_id (sbm (vm w)) /\
       mb_count (sbm (vm w')) = mb_count (sbm (vm w))) /\
  (forall w rc bb_id w',
     bbm_counted (bbm (vm w)) ->
     next_bb_id (bbm (vm w)) + 1 < U64 ->
     virtio_mem_bbm_prepare_next_bb w = Ok (rc, bb_id) w' ->
     bbm_counted (bbm (vm w')) /\
     if rc =? 0 then
       bb_id = next_bb_id (bbm (vm w)) /\
       next_bb_id (bbm (vm w')) = next_bb_id (bbm (vm w)) + 1 /\
       bb_count (bbm (vm w')) VIRTIO_MEM_BBM_BB_UNUSED
       = bb_count (bbm (vm w)) VIRTIO_MEM_BBM_BB_UNUSED + 1 /\
       forall t, t <> VIRTIO_MEM_BBM_BB_UNUSED ->
                 bb_count (bbm (vm w')) t = bb_count (bbm (vm w)) t
     else
       next_bb_id (bbm (vm w')) = next_bb_id (bbm (vm w)) /\
       bb_count (bbm (vm w')) = bb_count (bbm (vm w))) /\
  (forall fuel w r w',
     counted64 (vm w) ->
     virtio_mem_run_wq fuel w = Ok r w' -> counted64 (vm w')) /\
  (forall fuel action mhp w r w',
     counted64 (vm w) ->
     virtio_mem_memory_notifier_cb fuel action mhp w = Ok r w' ->
     counted64 (vm w')).
Proof.
  split; [|split; [|split; [|split; [|split]]]].
  - intros w mb_id state a w' Hc E.
    split; [eapply sbm_counted_set_mb_state; eassumption|].
    destruct (virtio_mem_sbm_set_mb_state_inv _ _ _ _ _ E)
      as (_ & _ & _ & _ & Hf & Hn & _).
    split; [exact Hf|]. split; [exact Hn|].
    eapply sbm_set_mb_state_moves_one; eassumption.
  - intros w bb_id state a w' Hc E.
    split; [eapply bbm_counted_set_bb_state; eassumption|].
    destruct (virtio_mem_bbm_set_bb_state_inv _ _ _ _ _ E)
      as (_ & _ & _ & _ & Hf & Hn & _).
    split; [exact Hf|]. split; [exact Hn|].
    eapply bbm_set_bb_state_moves_one; eassumption.
  - intros. eapply sbm_counted_prepare_next_mb; eassumption.
  - intros. eapply bbm_counted_prepare_next_bb; eassumption.
  - intros fuel w r w' H E.
    exact (wlp_ok _ _ _ _ _ (cntR_virtio_mem_run_wq fuel w) E H).
  - intros fuel action mhp w r w' H E.
    exact (wlp_ok _ _ _ _ _ (cntR_virtio_mem_memory_notifier_cb fuel action mhp w) E H).
Qed.

Lemma one_kernel_mb_counted : sbm_counted one_kernel_mb.
Proof.
  split; [|split; [|split]].
  - intros st. destruct st; vm_compute; discriminate.
  - vm_compute. split; discriminate.
  - reflexivity.
  - reflexivity.
Qed.

(** The next memory block of the example device. *)
Definition next_mb_run : Z * Z * world :=
  run_result (virtio_mem_sbm_prepare_next_mb stuck_world) (0, 0) stuck_world.

Lemma next_mb_run_ok :
  virtio_mem_sbm_prepare_next_mb stuck_world
  = Ok (fst (fst next_mb_run), snd (fst next_mb_run)) (snd next_mb_run).
Proof.
  rewrite <- surjective_pairing.
  refine (run_result_ok (virtio_mem_sbm_prepare_next_mb stuck_world) (0, 0)
            stuck_world _).
  vm_compute. reflexivity.
Qed.

Lemma state_counters_add_up_witness :
  sbm_counted (sbm (vm (snd next_mb_run))) /\
  fst next_mb_run = (0, 9) /\
  next_mb_id (sbm (vm (snd next_mb_run))) = 10 /\
  mb_count (sbm (vm (snd next_mb_run))) VIRTIO_MEM_SBM_MB_UNUSED = 1.
Proof.
  destruct (proj1 (proj2 (proj2 state_counters_add_up)) stuck_world
              (fst (fst next_mb_run)) (snd (fst next_mb_run)) (snd next_mb_run)
              one_kernel_mb_counted eq_refl next_mb_run_ok) as [H _].
  split; [exact H|]. vm_compute. auto.
Defined.


(** * The result of a pass and the retry timer *)

(** The results that the [switch] of the worker knows. *)
Definition transient (rc : Z) : Prop :=
  rc = - ETXTBSY \/ rc = - EBUSY \/ rc = - ENOMEM.
Definition recognized (rc : Z) : Prop :=
  rc = 0 \/ rc = - ENOSPC \/ transient rc \/ rc = - EAGAIN.

Lemma virtio_mem_run_wq_switch_unknown rc w :
  ~ recognized rc ->
  virtio_mem_run_wq_switch rc w
  = Ok (Some rc) (with_vm (with_broken true (vm w)) w).
Proof.
  intros H. unfold recognized, transient in H.
  unfold virtio_mem_run_wq_switch, bind, get_plat, modify_vm, ret.
  destruct (rc =? 0) eqn:E0; [apply Z.eqb_eq in E0; tauto|].
  destruct (rc =? - ENOSPC) eqn:E1; [apply Z.eqb_eq in E1; tauto|].
  destruct (rc =? - ETXTBSY) eqn:E2; [apply Z.eqb_eq in E2; tauto|].
  destruct (rc =? - EBUSY) eqn:E3; [apply Z.eqb_eq in E3; tauto|].
  destruct (rc =? - ENOMEM) eqn:E4; [apply Z.eqb_eq in E4; tauto|].
  destruct (rc =? - EAGAIN) eqn:E5; [apply Z.eqb_eq in E5; tauto|].
  reflexivity.
Qed.


Lemma virtio_mem_convert_error_code_recognized rc :
  virtio_mem_convert_error_code rc <> 0 /\
  recognized (virtio_mem_convert_error_code rc) /\
  (rc <> - ENOSPC -> rc <> - ETXTBSY -> rc <> - EBUSY -> rc <> - EAGAIN ->
   virtio_mem_convert_error_code rc = - ENOMEM).
Proof.
  unfold virtio_mem_convert_error_code, recognized, transient.
  destruct (rc =? - ENOSPC) eqn:E1;
    [apply Z.eqb_eq in E1; subst; cbn; split; [discriminate | tauto]|].
  destruct (rc =? - ETXTBSY) eqn:E2;
    [apply Z.eqb_eq in E2; subst; cbn; split; [discriminate | tauto]|].
  destruct (rc =? - EBUSY) eqn:E3;
    [apply Z.eqb_eq in E3; subst; cbn; split; [discriminate | tauto]|].
  destruct (rc =? - EAGAIN) eqn:E4;
    [apply Z.eqb_eq in E4; subst; cbn; split; [discriminate | tauto]|].
  cbn. split; [discriminate | tauto].
Qed.

Lemma virtio_mem_send_plug_request_recognized fuel addr size memmap w :
  wlp (virtio_mem_send_plug_request fuel addr size memmap)
      (fun rc _ => recognized rc) w.
Proof.
  unfold virtio_mem_send_plug_request. apply wlp_get_vm.
  apply wlp_extcall.
  destruct (_ =? 0).
  { apply wlp_ret. right. right. left. right. right. reflexivity. }
  eapply wlp_bind_post.
  { apply (wlp_iterate (fun _ _ => True)
             (fun r _ => match snd r with
                         | None => True
                         | Some err => recognized err
                         end)); [|exact Logic.I].
    intros [a s] w1 _.
    destruct (s =? 0); [apply wlp_ret; exact Logic.I|].
    apply wlp_extcall.
    destruct (IS_ERR _).
    - apply wlp_ret. cbn. apply virtio_mem_convert_error_code_recognized.
    - eapply (wlp_bind_keeps plugR); [apply plugR_xa_store_membuf|].
      intros [] w2 _. destruct memmap; exact Logic.I. }
  intros [a [err|]] w1 H; cbn in H.
  - apply wlp_intro. intros rc w2 E.
    unfold bind in E. destruct (if addr <? a then _ else _) as [x w3| | |];
      try discriminate.
    injection E as <- _. exact H.
  - apply wlp_ret. left. reflexivity.
Qed.

Lemma virtio_mem_send_unplug_request_result fuel addr size memmap w :
  wlp (virtio_mem_send_unplug_request fuel addr size memmap)
      (fun rc _ => rc = 0 \/ rc = - EINVAL) w.
Proof.
  unfold virtio_mem_send_unplug_request. apply wlp_get_vm.
  apply wlp_intro. intros rc w' E. unfold bind in E.
  destruct (iterate _ _ _ _) as [found w1| | |]; try discriminate.
  destruct found.
  - destruct (when _ _ _); try discriminate. injection E as <- _. left. reflexivity.
  - injection E as <- _. right. reflexivity.
Qed.


(** No function below the [switch] of the worker touches the retry timer
    or its delay. *)
Definition timerR (w w' : world) : Prop :=
  retry_timer (vm w') = retry_timer (vm w) /\
  retry_timer_ms (vm w') = retry_timer_ms (vm w).

#[global] Instance timerR_preorder : PreOrder timerR.
Proof.
  unfold timerR. split.
  - intros w. split; reflexivity.
  - intros w1 w2 w3 [? ?] [? ?]. split; congruence.
Qed.

Ltac timer_side := intros; split; reflexivity.

Lemma timerR_virtio_mem_bbm_set_bb_state bb_id state :
  keeps timerR (virtio_mem_bbm_set_bb_state bb_id state).
Proof. unfold virtio_mem_bbm_set_bb_state. keeps_auto timer_side. Qed.
#[global] Hint Resolve timerR_virtio_mem_bbm_set_bb_state : keeps.

Lemma timerR_virtio_mem_bbm_bb_states_prepare_next_bb  :
  keeps timerR (virtio_mem_bbm_bb_states_prepare_next_bb ).
Proof. unfold virtio_mem_bbm_bb_states_prepare_next_bb. keeps_auto timer_side. Qed.
#[global] Hint Resolve timerR_virtio_mem_bbm_bb_states_prepare_next_bb : keeps.

Lemma timerR_virtio_mem_sbm_set_mb_state mb_id state :
  keeps timerR (virtio_mem_sbm_set_mb_state mb_id state).
Proof. unfold virtio_mem_sbm_set_mb_state. keeps_auto timer_side. Qed.
#[global] Hint Resolve timerR_virtio_mem_sbm_set_mb_state : keeps.

Lemma timerR_virtio_mem_sbm_mb_states_prepare_next_mb  :
  keeps timerR (virtio_mem_sbm_mb_states_prepare_next_mb ).
Proof. unfold virtio_mem_sbm_mb_states_prepare_next_mb. keeps_auto timer_side. Qed.
#[global] Hint Resolve timerR_virtio_mem_sbm_mb_states_prepare_next_mb : keeps.

Lemma timerR_virtio_mem_sbm_set_sb_plugged mb_id sb_id count :
  keeps timerR (virtio_mem_sbm_set_sb_plugged mb_id sb_id count).
Proof. unfold virtio_mem_sbm_set_sb_plugged. keeps_auto timer_side. Qed.
#[global] Hint Resolve timerR_virtio_mem_sbm_set_sb_plugged : keeps.

Lemma timerR_virtio_mem_sbm_set_sb_unplugged mb_id sb_id count :
  keeps timerR (virtio_mem_sbm_set_sb_unplugged mb_id sb_id count).
Proof. unfold virtio_mem_sbm_set_sb_unplugged. keeps_auto timer_side. Qed.
#[global] Hint Resolve timerR_virtio_mem_sbm_set_sb_unplugged : keeps.

Lemma timerR_virtio_mem_sbm_test_sb_plugged mb_id sb_id count :
  keeps timerR (virtio_mem_sbm_test_sb_plugged mb_id sb_id count).
Proof. unfold virtio_mem_sbm_test_sb_plugged. keeps_auto timer_side. Qed.
#[global] Hint Resolve timerR_virtio_mem_sbm_test_sb_plugged : keeps.

Lemma timerR_virtio_mem_sbm_test_sb_unplugged mb_id sb_id count :
  keeps timerR (virtio_mem_sbm_test_sb_unplugged mb_id sb_id count).
Proof. unfold virtio_mem_sbm_test_sb_unplugged. keeps_auto timer_side. Qed.
#[global] Hint Resolve timerR_virtio_mem_sbm_test_sb_unplugged : keeps.

Lemma timerR_virtio_mem_sbm_first_unplugged_sb mb_id :
  keeps timerR (virtio_mem_sbm_first_unplugged_sb mb_id).
Proof. unfold virtio_mem_sbm_first_unplugged_sb. keeps_auto timer_side. Qed.
#[global] Hint Resolve timerR_virtio_mem_sbm_first_unplugged_sb : keeps.

Lemma timerR_virtio_mem_sbm_sb_states_prepare_next_mb  :
  keeps timerR (virtio_mem_sbm_sb_states_prepare_next_mb ).
Proof. unfold virtio_mem_sbm_sb_states_prepare_next_mb. keeps_auto timer_side. Qed.
#[global] Hint Resolve timerR_virtio_mem_sbm_sb_states_prepare_next_mb : keeps.

Lemma timerR_xa_store_membuf index entry :
  keeps timerR (xa_store_membuf index entry).
Proof. unfold xa_store_membuf. keeps_auto timer_side. Qed.
#[global] Hint Resolve timerR_xa_store_membuf : keeps.

Lemma timerR_virtio_mem_send_unplug_request fuel addr size memmap :
  keeps timerR (virtio_mem_send_unplug_request fuel addr size memmap).
Proof. unfold virtio_mem_send_unplug_request. keeps_auto timer_side. Qed.
#[global] Hint Resolve timerR_virtio_mem_send_unplug_request : keeps.

Lemma timerR_virtio_mem_send_plug_request fuel addr size memmap :
  keeps timerR (virtio_mem_send_plug_request fuel addr size memmap).
Proof. unfold virtio_mem_send_plug_request. keeps_auto timer_side. Qed.
#[global] Hint Resolve timerR_virtio_mem_send_plug_request : keeps.

Lemma timerR_virtio_mem_send_unplug_all_request  :
  keeps timerR (virtio_mem_send_unplug_all_request ).
Proof. unfold virtio_mem_send_unplug_all_request. keeps_auto timer_side. Qed.
#[global] Hint Resolve timerR_virtio_mem_send_unplug_all_request : keeps.

Lemma timerR_virtio_mem_plug_memmap fuel addr :
  keeps timerR (virtio_mem_plug_memmap fuel addr).
Proof. unfold virtio_mem_plug_memmap. keeps_auto timer_side. Qed.
#[global] Hint Resolve timerR_virtio_mem_plug_memmap : keeps.

Lemma timerR_virtio_mem_unplug_memmap fuel addr :
  keeps timerR (virtio_mem_unplug_memmap fuel addr).
Proof. unfold virtio_mem_unplug_memmap. keeps_auto timer_side. Qed.
#[global] Hint Resolve timerR_virtio_mem_unplug_memmap : keeps.

Lemma timerR_virtio_mem_retry  :
  keeps timerR (virtio_mem_retry ).
Proof. unfold virtio_mem_retry. keeps_auto timer_side. Qed.
#[global] Hint Resolve timerR_virtio_mem_retry : keeps.

Lemma timerR_atomic64_add_offline_size d :
  keeps timerR (atomic64_add_offline_size d).
Proof. unfold atomic64_add_offline_size. keeps_auto timer_side. Qed.
#[global] Hint Resolve timerR_atomic64_add_offline_size : keeps.

Lemma timerR_virtio_mem_set_fake_offline pfn nr_pages onlined :
  keeps timerR (virtio_mem_set_fake_offline pfn nr_pages onlined).
Proof. unfold virtio_mem_set_fake_offline. keeps_auto timer_side. Qed.
#[global] Hint Resolve timerR_virtio_mem_set_fake_offline : keeps.

Lemma timerR_virtio_mem_clear_fake_offline pfn nr_pages onlined :
  keeps timerR (virtio_mem_clear_fake_offline pfn nr_pages onlined).
Proof. unfold virtio_mem_clear_fake_offline. keeps_auto timer_side. Qed.
#[global] Hint Resolve timerR_virtio_mem_clear_fake_offline : keeps.

Lemma timerR_virtio_mem_fake_online fuel pfn nr_pages :
  keeps timerR (virtio_mem_fake_online fuel pfn nr_pages).
Proof. unfold virtio_mem_fake_online. keeps_auto timer_side. Qed.
#[global] Hint Resolve timerR_virtio_mem_fake_online : keeps.

Lemma timerR_virtio_mem_config_changed  :
  keeps timerR (virtio_mem_config_changed ).
Proof. unfold virtio_mem_config_changed. keeps_auto timer_side. Qed.
#[global] Hint Resolve timerR_virtio_mem_config_changed : keeps.

Lemma timerR_atomic_read_config_changed  :
  keeps timerR (atomic_read_config_changed ).
Proof. unfold atomic_read_config_changed. keeps_auto timer_side. Qed.
#[global] Hint Resolve timerR_atomic_read_config_changed : keeps.

Lemma timerR_virtio_mem_fake_offline pfn nr_pages :
  keeps timerR (virtio_mem_fake_offline pfn nr_pages).
Proof. unfold virtio_mem_fake_offline. keeps_auto timer_side. Qed.
#[global] Hint Resolve timerR_virtio_mem_fake_offline : keeps.

Lemma timerR_virtio_mem_fake_offline_going_offline fuel pfn nr_pages :
  keeps timerR (virtio_mem_fake_offline_going_offline fuel pfn nr_pages).
Proof. unfold virtio_mem_fake_offline_going_offline. keeps_auto timer_side. Qed.
#[global] Hint Resolve timerR_virtio_mem_fake_offline_going_offline : keeps.

Lemma timerR_virtio_mem_fake_offline_cancel_offline fuel pfn nr_pages :
  keeps timerR (virtio_mem_fake_offline_cancel_offline fuel pfn nr_pages).
Proof. unfold virtio_mem_fake_offline_cancel_offline. keeps_auto timer_side. Qed.
#[global] Hint Resolve timerR_virtio_mem_fake_offline_cancel_offline : keeps.

Lemma timerR_virtio_mem_sbm_notify_going_online mb_id :
  keeps timerR (virtio_mem_sbm_notify_going_online mb_id).
Proof. unfold virtio_mem_sbm_notify_going_online. keeps_auto timer_side. Qed.
#[global] Hint Resolve timerR_virtio_mem_sbm_notify_going_online : keeps.

Lemma timerR_virtio_mem_sbm_notify_offline mb_id :
  keeps timerR (virtio_mem_sbm_notify_offline mb_id).
Proof. unfold virtio_mem_sbm_notify_offline. keeps_auto timer_side. Qed.
#[global] Hint Resolve timerR_virtio_mem_sbm_notify_offline : keeps.

Lemma timerR_virtio_mem_sbm_notify_online mb_id start_pfn :
  keeps timerR (virtio_mem_sbm_notify_online mb_id start_pfn).
Proof. unfold virtio_mem_sbm_notify_online. keeps_auto timer_side. Qed.
#[global] Hint Resolve timerR_virtio_mem_sbm_notify_online : keeps.

Lemma timerR_virtio_mem_sbm_notify_going_offline fuel mb_id :
  keeps timerR (virtio_mem_sbm_notify_going_offline fuel mb_id).
Proof. unfold virtio_mem_sbm_notify_going_offline. keeps_auto timer_side. Qed.
#[global] Hint Resolve timerR_virtio_mem_sbm_notify_going_offline : keeps.

Lemma timerR_virtio_mem_sbm_notify_cancel_offline fuel mb_id :
  keeps timerR (virtio_mem_sbm_notify_cancel_offline fuel mb_id).
Proof. unfold virtio_mem_sbm_notify_cancel_offline. keeps_auto timer_side. Qed.
#[global] Hint Resolve timerR_virtio_mem_sbm_notify_cancel_offline : keeps.

Lemma timerR_virtio_mem_bbm_notify_going_offline fuel bb_id pfn nr_pages :
  keeps timerR (virtio_mem_bbm_notify_going_offline fuel bb_id pfn nr_pages).
Proof. unfold virtio_mem_bbm_notify_going_offline. keeps_auto timer_side. Qed.
#[global] Hint Resolve timerR_virtio_mem_bbm_notify_going_offline : keeps.

Lemma timerR_virtio_mem_bbm_notify_cancel_offline fuel bb_id pfn nr_pages :
  keeps timerR (virtio_mem_bbm_notify_cancel_offline fuel bb_id pfn nr_pages).
Proof. unfold virtio_mem_bbm_notify_cancel_offline. keeps_auto timer_side. Qed.
#[global] Hint Resolve timerR_virtio_mem_bbm_notify_cancel_offline : keeps.

Lemma timerR_virtio_mem_memory_notifier_cb fuel action mhp :
  keeps timerR (virtio_mem_memory_notifier_cb fuel action mhp).
Proof. unfold virtio_mem_memory_notifier_cb. keeps_auto timer_side. Qed.
#[global] Hint Resolve timerR_virtio_mem_memory_notifier_cb : keeps.

Lemma timerR_virtio_mem_online_page fuel pfn order :
  keeps timerR (virtio_mem_online_page fuel pfn order).
Proof. unfold virtio_mem_online_page. cbv zeta. keeps_auto timer_side. Qed.
#[global] Hint Resolve timerR_virtio_mem_online_page : keeps.

Lemma timerR_virtio_mem_online_page_cb fuel pfn order :
  keeps timerR (virtio_mem_online_page_cb fuel pfn order).
Proof. unfold virtio_mem_online_page_cb. keeps_auto timer_side. Qed.
#[global] Hint Resolve timerR_virtio_mem_online_page_cb : keeps.

Lemma timerR_kernel_callbacks fuel :
  keeps timerR (kernel_callbacks fuel).
Proof. unfold kernel_callbacks. keeps_auto timer_side. Qed.
#[global] Hint Resolve timerR_kernel_callbacks : keeps.

Lemma timerR_virtio_mem_add_memory fuel addr size :
  keeps timerR (virtio_mem_add_memory fuel addr size).
Proof. unfold virtio_mem_add_memory. keeps_auto timer_side. Qed.
#[global] Hint Resolve timerR_virtio_mem_add_memory : keeps.

Lemma timerR_virtio_mem_sbm_add_mb fuel mb_id :
  keeps timerR (virtio_mem_sbm_add_mb fuel mb_id).
Proof. unfold virtio_mem_sbm_add_mb. keeps_auto timer_side. Qed.
#[global] Hint Resolve timerR_virtio_mem_sbm_add_mb : keeps.

Lemma timerR_virtio_mem_bbm_add_bb fuel bb_id :
  keeps timerR (virtio_mem_bbm_add_bb fuel bb_id).
Proof. unfold virtio_mem_bbm_add_bb. keeps_auto timer_side. Qed.
#[global] Hint Resolve timerR_virtio_mem_bbm_add_bb : keeps.

Lemma timerR_virtio_mem_remove_memory fuel addr size :
  keeps timerR (virtio_mem_remove_memory fuel addr size).
Proof. unfold virtio_mem_remove_memory. keeps_auto timer_side. Qed.
#[global] Hint Resolve timerR_virtio_mem_remove_memory : keeps.

Lemma timerR_virtio_mem_sbm_remove_mb fuel mb_id :
  keeps timerR (virtio_mem_sbm_remove_mb fuel mb_id).
Proof. unfold virtio_mem_sbm_remove_mb. keeps_auto timer_side. Qed.
#[global] Hint Resolve timerR_virtio_mem_sbm_remove_mb : keeps.

Lemma timerR_virtio_mem_offline_and_remove_memory fuel addr size :
  keeps timerR (virtio_mem_offline_and_remove_memory fuel addr size).
Proof. unfold virtio_mem_offline_and_remove_memory. keeps_auto timer_side. Qed.
#[global] Hint Resolve timerR_virtio_mem_offline_and_remove_memory : keeps.

Lemma timerR_virtio_mem_sbm_offline_and_remove_mb fuel mb_id :
  keeps timerR (virtio_mem_sbm_offline_and_remove_mb fuel mb_id).
Proof. unfold virtio_mem_sbm_offline_and_remove_mb. keeps_auto timer_side. Qed.
#[global] Hint Resolve timerR_virtio_mem_sbm_offline_and_remove_mb : keeps.

Lemma timerR_virtio_mem_sbm_try_remove_unplugged_mb fuel mb_id :
  keeps timerR (virtio_mem_sbm_try_remove_unplugged_mb fuel mb_id).
Proof. unfold virtio_mem_sbm_try_remove_unplugged_mb. keeps_auto timer_side. Qed.
#[global] Hint Resolve timerR_virtio_mem_sbm_try_remove_unplugged_mb : keeps.

Lemma timerR_virtio_mem_bbm_offline_and_remove_bb fuel bb_id :
  keeps timerR (virtio_mem_bbm_offline_and_remove_bb fuel bb_id).
Proof. unfold virtio_mem_bbm_offline_and_remove_bb. keeps_auto timer_side. Qed.
#[global] Hint Resolve timerR_virtio_mem_bbm_offline_and_remove_bb : keeps.

Lemma timerR_virtio_mem_sbm_plug_sb fuel mb_id sb_id count :
  keeps timerR (virtio_mem_sbm_plug_sb fuel mb_id sb_id count).
Proof. unfold virtio_mem_sbm_plug_sb. keeps_auto timer_side. Qed.
#[global] Hint Resolve timerR_virtio_mem_sbm_plug_sb : keeps.

Lemma timerR_virtio_mem_sbm_unplug_sb fuel mb_id sb_id count :
  keeps timerR (virtio_mem_sbm_unplug_sb fuel mb_id sb_id count).
Proof. unfold virtio_mem_sbm_unplug_sb. keeps_auto timer_side. Qed.
#[global] Hint Resolve timerR_virtio_mem_sbm_unplug_sb : keeps.

Lemma timerR_virtio_mem_bbm_unplug_bb fuel bb_id :
  keeps timerR (virtio_mem_bbm_unplug_bb fuel bb_id).
Proof. unfold virtio_mem_bbm_unplug_bb. keeps_auto timer_side. Qed.
#[global] Hint Resolve timerR_virtio_mem_bbm_unplug_bb : keeps.

Lemma timerR_virtio_mem_bbm_plug_bb fuel bb_id :
  keeps timerR (virtio_mem_bbm_plug_bb fuel bb_id).
Proof. unfold virtio_mem_bbm_plug_bb. keeps_auto timer_side. Qed.
#[global] Hint Resolve timerR_virtio_mem_bbm_plug_bb : keeps.

Lemma timerR_virtio_mem_sbm_unplug_any_sb_raw fuel mb_id nb_sb :
  keeps timerR (virtio_mem_sbm_unplug_any_sb_raw fuel mb_id nb_sb).
Proof. unfold virtio_mem_sbm_unplug_any_sb_raw. keeps_auto timer_side. Qed.
#[global] Hint Resolve timerR_virtio_mem_sbm_unplug_any_sb_raw : keeps.

Lemma timerR_virtio_mem_sbm_unplug_mb fuel mb_id :
  keeps timerR (virtio_mem_sbm_unplug_mb fuel mb_id).
Proof. unfold virtio_mem_sbm_unplug_mb. keeps_auto timer_side. Qed.
#[global] Hint Resolve timerR_virtio_mem_sbm_unplug_mb : keeps.

Lemma timerR_virtio_mem_sbm_prepare_next_mb  :
  keeps timerR (virtio_mem_sbm_prepare_next_mb ).
Proof. unfold virtio_mem_sbm_prepare_next_mb. keeps_auto timer_side. Qed.
#[global] Hint Resolve timerR_virtio_mem_sbm_prepare_next_mb : keeps.

Lemma timerR_virtio_mem_sbm_plug_and_add_mb fuel mb_id nb_sb :
  keeps timerR (virtio_mem_sbm_plug_and_add_mb fuel mb_id nb_sb).
Proof. unfold virtio_mem_sbm_plug_and_add_mb. keeps_auto timer_side. Qed.
#[global] Hint Resolve timerR_virtio_mem_sbm_plug_and_add_mb : keeps.

Lemma timerR_virtio_mem_sbm_plug_any_sb fuel mb_id nb_sb :
  keeps timerR (virtio_mem_sbm_plug_any_sb fuel mb_id nb_sb).
Proof. unfold virtio_mem_sbm_plug_any_sb. keeps_auto timer_side. Qed.
#[global] Hint Resolve timerR_virtio_mem_sbm_plug_any_sb : keeps.

Lemma timerR_virtio_mem_sbm_plug_request fuel diff :
  keeps timerR (virtio_mem_sbm_plug_request fuel diff).
Proof. unfold virtio_mem_sbm_plug_request. keeps_auto timer_side. Qed.
#[global] Hint Resolve timerR_virtio_mem_sbm_plug_request : keeps.

Lemma timerR_virtio_mem_sbm_unplug_any_sb_offline fuel mb_id nb_sb :
  keeps timerR (virtio_mem_sbm_unplug_any_sb_offline fuel mb_id nb_sb).
Proof. unfold virtio_mem_sbm_unplug_any_sb_offline. keeps_auto timer_side. Qed.
#[global] Hint Resolve timerR_virtio_mem_sbm_unplug_any_sb_offline : keeps.

Lemma timerR_virtio_mem_sbm_unplug_sb_online fuel mb_id sb_id count :
  keeps timerR (virtio_mem_sbm_unplug_sb_online fuel mb_id sb_id count).
Proof. unfold virtio_mem_sbm_unplug_sb_online. keeps_auto timer_side. Qed.
#[global] Hint Resolve timerR_virtio_mem_sbm_unplug_sb_online : keeps.

Lemma timerR_virtio_mem_sbm_unplug_any_sb_online fuel mb_id nb_sb :
  keeps timerR (virtio_mem_sbm_unplug_any_sb_online fuel mb_id nb_sb).
Proof. unfold virtio_mem_sbm_unplug_any_sb_online. keeps_auto timer_side. Qed.
#[global] Hint Resolve timerR_virtio_mem_sbm_unplug_any_sb_online : keeps.

Lemma timerR_virtio_mem_sbm_unplug_any_sb fuel mb_id nb_sb :
  keeps timerR (virtio_mem_sbm_unplug_any_sb fuel mb_id nb_sb).
Proof. unfold virtio_mem_sbm_unplug_any_sb. keeps_auto timer_side. Qed.
#[global] Hint Resolve timerR_virtio_mem_sbm_unplug_any_sb : keeps.

Lemma timerR_virtio_mem_sbm_unplug_request fuel diff :
  keeps timerR (virtio_mem_sbm_unplug_request fuel diff).
Proof. unfold virtio_mem_sbm_unplug_request. keeps_auto timer_side. Qed.
#[global] Hint Resolve timerR_virtio_mem_sbm_unplug_request : keeps.

Lemma timerR_virtio_mem_bbm_plug_and_add_bb fuel bb_id :
  keeps timerR (virtio_mem_bbm_plug_and_add_bb fuel bb_id).
Proof. unfold virtio_mem_bbm_plug_and_add_bb. keeps_auto timer_side. Qed.
#[global] Hint Resolve timerR_virtio_mem_bbm_plug_and_add_bb : keeps.

Lemma timerR_virtio_mem_bbm_prepare_next_bb  :
  keeps timerR (virtio_mem_bbm_prepare_next_bb ).
Proof. unfold virtio_mem_bbm_prepare_next_bb. keeps_auto timer_side. Qed.
#[global] Hint Resolve timerR_virtio_mem_bbm_prepare_next_bb : keeps.

Lemma timerR_virtio_mem_bbm_plug_request fuel diff :
  keeps timerR (virtio_mem_bbm_plug_request fuel diff).
Proof. unfold virtio_mem_bbm_plug_request. keeps_auto timer_side. Qed.
#[global] Hint Resolve timerR_virtio_mem_bbm_plug_request : keeps.

Lemma timerR_virtio_mem_plug_request fuel diff :
  keeps timerR (virtio_mem_plug_request fuel diff).
Proof. unfold virtio_mem_plug_request. keeps_auto timer_side. Qed.
#[global] Hint Resolve timerR_virtio_mem_plug_request : keeps.

Lemma timerR_virtio_mem_bbm_offline_remove_and_unplug_bb fuel bb_id :
  keeps timerR (virtio_mem_bbm_offline_remove_and_unplug_bb fuel bb_id).
Proof. unfold virtio_mem_bbm_offline_remove_and_unplug_bb. keeps_auto timer_side. Qed.
#[global] Hint Resolve timerR_virtio_mem_bbm_offline_remove_and_unplug_bb : keeps.

Lemma timerR_virtio_mem_bbm_bb_is_offline fuel bb_id :
  keeps timerR (virtio_mem_bbm_bb_is_offline fuel bb_id).
Proof. unfold virtio_mem_bbm_bb_is_offline. keeps_auto timer_side. Qed.
#[global] Hint Resolve timerR_virtio_mem_bbm_bb_is_offline : keeps.

Lemma timerR_virtio_mem_bbm_bb_is_movable fuel bb_id :
  keeps timerR (virtio_mem_bbm_bb_is_movable fuel bb_id).
Proof. unfold virtio_mem_bbm_bb_is_movable. keeps_auto timer_side. Qed.
#[global] Hint Resolve timerR_virtio_mem_bbm_bb_is_movable : keeps.

Lemma timerR_bbm_unplug_walk fuel passes :
  forall i nb_bb, keeps timerR (bbm_unplug_walk fuel passes i nb_bb).
Proof.
  induction passes as [|passes IH]; intros i nb_bb; cbn [bbm_unplug_walk];
    keeps_auto timer_side.
Qed.
#[global] Hint Resolve timerR_bbm_unplug_walk : keeps.

Lemma timerR_virtio_mem_bbm_unplug_request fuel diff :
  keeps timerR (virtio_mem_bbm_unplug_request fuel diff).
Proof. unfold virtio_mem_bbm_unplug_request. keeps_auto timer_side. Qed.
#[global] Hint Resolve timerR_virtio_mem_bbm_unplug_request : keeps.

Lemma timerR_virtio_mem_unplug_request fuel diff :
  keeps timerR (virtio_mem_unplug_request fuel diff).
Proof. unfold virtio_mem_unplug_request. keeps_auto timer_side. Qed.
#[global] Hint Resolve timerR_virtio_mem_unplug_request : keeps.

Lemma timerR_virtio_mem_cleanup_pending_mb fuel :
  keeps timerR (virtio_mem_cleanup_pending_mb fuel).
Proof. unfold virtio_mem_cleanup_pending_mb. keeps_auto timer_side. Qed.
#[global] Hint Resolve timerR_virtio_mem_cleanup_pending_mb : keeps.

Lemma timerR_virtio_mem_refresh_config  :
  keeps timerR (virtio_mem_refresh_config ).
Proof. unfold virtio_mem_refresh_config. keeps_auto timer_side. Qed.
#[global] Hint Resolve timerR_virtio_mem_refresh_config : keeps.

Lemma timerR_virtio_mem_run_wq_pass fuel :
  keeps timerR (virtio_mem_run_wq_pass fuel).
Proof. unfold virtio_mem_run_wq_pass. keeps_auto timer_side. Qed.
#[global] Hint Resolve timerR_virtio_mem_run_wq_pass : keeps.




(** The world in which the worker starts its first pass: the retry timer
    is cancelled, [wq_active] is set. *)
Definition wq_started (w : world) : world :=
  with_vm (with_wq_active true (with_retry_timer None (vm w))) w.

Lemma virtio_mem_run_wq_unknown n w rc w1 :
  in_kdump (vm w) = false ->
  broken (vm w) = false ->
  virtio_mem_run_wq_pass (S n) (wq_started w) = Ok rc w1 ->
  ~ recognized rc ->
  exists w',
    virtio_mem_run_wq (S n) w = Ok (Some rc) w' /\
    broken (vm w') = true /\
    retry_timer (vm w') = None /\
    wq_pending (vm w') = wq_pending (vm w1).
Proof.
  intros Hk Hb E Hrc.
  pose proof (wlp_ok _ _ _ _ _ (timerR_virtio_mem_run_wq_pass (S n) _) E)
    as [Ht _].
  unfold virtio_mem_run_wq, bind, get_vm, modify_vm. rewrite Hk, Hb.
  cbn [iterate]. unfold bind.
  set (w0 := with_vm (with_wq_active true _) _).
  change w0 with (wq_started w). clear w0. rewrite E.
  rewrite (virtio_mem_run_wq_switch_unknown rc w1 Hrc).
  eexists. split; [reflexivity|]. cbn. split; [reflexivity|].
  split; [exact Ht | reflexivity].
Qed.

Lemma virtio_mem_run_wq_broken fuel w :
  in_kdump (vm w) = false ->
  broken (vm w) = true ->
  virtio_mem_run_wq fuel w
  = Ok None (with_vm (with_retry_timer None (vm w)) w).
Proof.
  intros Hk Hb. unfold virtio_mem_run_wq, bind, get_vm, modify_vm.
  rewrite Hk, Hb. reflexivity.
Qed.

(** C2, amended.  A result of a pass that is none of [0], [-ENOSPC],
    [-ETXTBSY], [-EBUSY], [-ENOMEM], [-EAGAIN] is fatal: the [switch] sets
    [broken] and leaves the loop, the worker returns with the retry timer
    not armed, and every later run of the worker returns at once.  The
    errors of the host during plug are not among these results:
    [virtio_mem_convert_error_code] hands [-ENOSPC], [-ETXTBSY], [-EBUSY]
    and [-EAGAIN] on and turns every other error into [-ENOMEM], so that
    [virtio_mem_send_plug_request] returns a result that the [switch]
    knows; [virtio_mem_send_unplug_request] returns [0] or [-EINVAL]. *)
Theorem unknown_result_marks_broken :
  (forall rc w,
     ~ recognized rc ->
     virtio_mem_run_wq_switch rc w
     = Ok (Some rc) (with_vm (with_broken true (vm w)) w)) /\
  (forall n w rc w1,
     in_kdump (vm w) = false ->
     broken (vm w) = false ->
     virtio_mem_run_wq_pass (S n) (wq_started w) = Ok rc w1 ->
     ~ recognized rc ->
     exists w',
       virtio_mem_run_wq (S n) w = Ok (Some rc) w' /\
       broken (vm w') = true /\
       retry_timer (vm w') = None /\
       wq_pending (vm w') = wq_pending (vm w1)) /\
  (forall fuel w,
     in_kdump (vm w) = false ->
     broken (vm w) = true ->
     virtio_mem_run_wq fuel w
     = Ok None (with_vm (with_retry_timer None (vm w)) w)) /\
  (forall rc,
     recognized (virtio_mem_convert_error_code rc) /\
     (rc <> - ENOSPC -> rc <> - ETXTBSY -> rc <> - EBUSY -> rc <> - EAGAIN ->
      virtio_mem_convert_error_code rc = - ENOMEM)) /\
  (forall fuel addr size memmap w rc w',
     virtio_mem_send_plug_request fuel addr size memmap w = Ok rc w' ->
     recognized rc) /\
  (forall fuel addr size memmap w rc w',
     virtio_mem_send_unplug_request fuel addr size memmap w = Ok rc w' ->
     rc = 0 \/ rc = - EINVAL).
Proof.
  split; [|split; [|split; [|split; [|split]]]].
  - exact virtio_mem_run_wq_switch_unknown.
  - exact virtio_mem_run_wq_unknown.
  - exact virtio_mem_run_wq_broken.
  - intros rc. apply virtio_mem_convert_error_code_recognized.
  - intros fuel addr size memmap w rc w' E.
    exact (wlp_ok _ _ _ _ _
             (virtio_mem_send_plug_request_recognized fuel addr size memmap w) E).
  - intros fuel addr size memmap w rc w' E.
    exact (wlp_ok _ _ _ _ _
             (virtio_mem_send_unplug_request_result fuel addr size memmap w) E).
Qed.

Lemma unknown_result_marks_broken_witness :
  virtio_mem_run_wq_switch (- EINVAL) fresh_world
  = Ok (Some (- EINVAL)) (with_vm (with_broken true (vm fresh_world)) fresh_world).
Proof.
  apply (proj1 unknown_result_marks_broken).
  unfold recognized, transient. vm_compute.
  intros [H|[H|[[H|[H|H]]|H]]]; discriminate H.
Defined.

(** A host that answers every [mem_buf_alloc] with [-EINVAL]. *)
Definition env_host_einval (tr : list call) (c : call) : Z :=
  match c with
  | mem_buf_alloc _ _ => - EINVAL
  | _ => env_ok tr c
  end.

Definition host_einval_world : world :=
  example_world (example_platform true) env_host_einval
    (example_sbm_device fresh_sbm (12 * 2 ^ 22) 0 true).

(** C2, as stated, fails for the errors of the host during plug: the host
    answers [mem_buf_alloc] with [-EINVAL], which is not a result that the
    [switch] knows; the worker ends with [-ENOMEM], arms the retry timer
    and does not mark the device broken. *)
Lemma host_error_is_retried :
  ~ recognized (- EINVAL) /\
  match virtio_mem_run_wq 100 host_einval_world with
  | Ok r w' =>
      r = Some (- ENOMEM) /\
      broken (vm w') = false /\
      retry_timer (vm w') = Some 50000 /\
      head (trace w') = Some (mem_buf_alloc (2 ^ 30) (2 ^ 22)) /\
      env w' (tail (trace w')) (mem_buf_alloc (2 ^ 30) (2 ^ 22)) = - EINVAL
  | _ => False
  end.
Proof.
  split.
  - unfold recognized, transient. vm_compute.
    intros [H|[H|[[H|[H|H]]|H]]]; discriminate H.
  - vm_compute. repeat split; reflexivity.
Qed.







(** * A plug request that fails *)

(** The handles of the [j] device blocks from [addr] on are in [xa_membuf]:
    virtio_mem_send_unplug_request finds every one of them. *)
Definition handles_stored (xa : gmap Z Z) (addr bs j : Z) : Prop :=
  forall i, 0 <= i < j ->
            exists m, xa !! (addr + i * bs) = Some m /\ m <> 0.

(** No store into [xa_membuf] fails for want of memory, and
    [mem_buf_alloc] does not answer [NULL]. *)
Definition handles_kept (e : list call -> call -> Z) : Prop :=
  (forall tr a m, xa_is_err (e tr (xa_store a m)) = false) /\
  (forall tr a s, e tr (mem_buf_alloc a s) <> 0).

Lemma virtio_mem_send_unplug_request_finds fuel addr j w :
  let bs := device_block_size (vm w) in
  0 < bs -> 0 <= j -> is_u64 addr -> addr + j * bs <= U64 ->
  handles_stored (xa_membuf w) addr bs j ->
  wlp (virtio_mem_send_unplug_request fuel addr (j * bs) false)
      (fun rc w' => rc = 0 /\
                    plugged_size (vm w') = u64 (plugged_size (vm w) - j * bs)) w.
Proof.
  intros bs Hbs Hj [Ha Ha'] Hend Hst.
  unfold virtio_mem_send_unplug_request. apply wlp_get_vm. fold bs.
  eapply wlp_bind_post.
  { apply (wlp_iterate
             (fun '(a, s) w2 =>
                exists i, 0 <= i <= j /\ a = u64 (addr + i * bs) /\
                          s = (j - i) * bs /\
                          xa_membuf w2 = xa_membuf w /\ vm w2 = vm w)
             (fun found w2 => found = true /\ vm w2 = vm w)).
    - intros [a s] w2 (i & Hi & -> & -> & Hxa & Hvm).
      destruct (Z.eqb_spec ((j - i) * bs) 0) as [E|E].
      { apply wlp_ret. auto. }
      assert (Hlt : i < j) by nia.
      destruct (Hst i) as (m & Hm & Hm0); [lia|].
      assert (Ex : u64 (addr + i * bs) = addr + i * bs).
      { apply u64_small.
        assert (0 <= i * bs) by (apply Z.mul_nonneg_nonneg; lia).
        assert (i * bs < j * bs) by (apply Z.mul_lt_mono_pos_r; lia).
        lia. }
      unfold wlp, bind, xa_load_membuf, extcall, ret. rewrite Ex, Hxa, Hm. cbn.
      apply Z.eqb_neq in Hm0. rewrite Hm0. cbn.
      exists (i + 1). split; [lia|]. split.
      { unfold u64. rewrite <- Ex at 1. unfold u64.
        rewrite Zplus_mod_idemp_l. f_equal. ring. }
      split; [|auto].
      assert (E1 : (j - i) * bs - bs = (j - (i + 1)) * bs) by ring.
      rewrite E1. apply u64_small.
      assert (0 <= (j - (i + 1)) * bs) by (apply Z.mul_nonneg_nonneg; lia).
      assert ((j - (i + 1)) * bs < j * bs) by (apply Z.mul_lt_mono_pos_r; lia).
      lia.
    - exists 0. split; [lia|]. split.
      { rewrite Z.mul_0_l, Z.add_0_r. symmetry. apply u64_small. lia. }
      split; [f_equal; lia | auto]. }
  cbn. intros found w2 [-> Hvm]. cbn.
  unfold wlp, bind, modify_vm, ret. cbn. rewrite Hvm. auto.
Qed.

(** An unplug request looks up the handle of every block of its range, and
    gives up at the first that is missing: it returns 0 exactly when the
    handles are all in [xa_membuf], which it leaves as it is. *)
Lemma virtio_mem_send_unplug_request_looks_up fuel addr j w :
  let bs := device_block_size (vm w) in
  0 < bs -> 0 <= j -> is_u64 addr -> addr + j * bs <= U64 ->
  wlp (virtio_mem_send_unplug_request fuel addr (j * bs) false)
      (fun rc w' =>
         xa_membuf w' = xa_membuf w /\
         ((rc = 0 /\ handles_stored (xa_membuf w) addr bs j /\
           vm w' = with_plugged_size (u64 (plugged_size (vm w) - j * bs))
                     (vm w)) \/
          (rc = - EINVAL /\ ~ handles_stored (xa_membuf w) addr bs j /\
           vm w' = vm w))) w.
Proof.
  intros bs Hbs Hj [Ha Ha'] Hend.
  unfold virtio_mem_send_unplug_request. apply wlp_get_vm. fold bs.
  eapply wlp_bind_post.
  { apply (wlp_iterate
             (fun '(a, s) w2 =>
                exists i, 0 <= i <= j /\ a = u64 (addr + i * bs) /\
                          s = (j - i) * bs /\
                          xa_membuf w2 = xa_membuf w /\ vm w2 = vm w /\
                          handles_stored (xa_membuf w) addr bs i)
             (fun (found : bool) w2 =>
                xa_membuf w2 = xa_membuf w /\ vm w2 = vm w /\
                if found then handles_stored (xa_membuf w) addr bs j
                else ~ handles_stored (xa_membuf w) addr bs j)).
    - intros [a s] w2 (i & Hi & -> & -> & Hxa & Hvm & Hst).
      destruct (Z.eqb_spec ((j - i) * bs) 0) as [E|E].
      { apply wlp_ret. assert (i = j) as -> by nia. auto. }
      assert (Hlt : i < j) by nia.
      assert (Ex : u64 (addr + i * bs) = addr + i * bs).
      { apply u64_small.
        assert (0 <= i * bs) by (apply Z.mul_nonneg_nonneg; lia).
        assert (i * bs < j * bs) by (apply Z.mul_lt_mono_pos_r; lia).
        lia. }
      unfold wlp, bind, xa_load_membuf, extcall, ret. rewrite Ex, Hxa.
      destruct (Z.eqb_spec (default 0 (xa_membuf w !! (addr + i * bs))) 0)
        as [E0|E0]; cbn.
      { split; [exact Hxa|]. split; [exact Hvm|]. intros Hall.
        destruct (Hall i) as (m & Hm & Hm0); [lia|].
        rewrite Hm in E0. cbn in E0. contradiction. }
      exists (i + 1). split; [lia|]. split.
      { unfold u64. rewrite <- Ex at 1. unfold u64.
        rewrite Zplus_mod_idemp_l. f_equal. ring. }
      split.
      { assert (E1 : (j - i) * bs - bs = (j - (i + 1)) * bs) by ring.
        rewrite E1. apply u64_small.
        assert (0 <= (j - (i + 1)) * bs) by (apply Z.mul_nonneg_nonneg; lia).
        assert ((j - (i + 1)) * bs < j * bs)
          by (apply Z.mul_lt_mono_pos_r; lia).
        lia. }
      split; [exact Hxa|]. split; [exact Hvm|].
      intros k Hk. destruct (Z.eq_dec k i) as [->|Hne]; [|apply Hst; lia].
      destruct (xa_membuf w !! (addr + i * bs)) as [m|]; [|contradiction].
      exists m. auto.
    - exists 0. split; [lia|]. split.
      { rewrite Z.mul_0_l, Z.add_0_r. symmetry. apply u64_small. lia. }
      split; [f_equal; lia|]. split; [reflexivity|]. split; [reflexivity|].
      intros i Hi. lia. }
  cbn. intros found w2 (Hxa & Hvm & Hf). destruct found; cbn.
  - unfold wlp, bind, modify_vm, ret. cbn. rewrite Hvm. auto.
  - unfold wlp, ret. cbn. auto.
Qed.

Lemma u64_add_l a b : u64 (u64 a + b) = u64 (a + b).
Proof. unfold u64. apply Zplus_mod_idemp_l. Qed.

Lemma u64_sub_l a b : u64 (u64 a - b) = u64 (a - b).
Proof. unfold u64. apply Zminus_mod_idemp_l. Qed.

(** What a plug request without memmap leaves, [j] being the number of
    device blocks it had plugged when it came to its end: all blocks of
    the request when it returns 0, and the blocks before the one whose
    allocation failed when it returns an error. *)
Definition plug_sent (addr size : Z) (w : world) (rc : Z) (w' : world)
  : Prop :=
  let bs := device_block_size (vm w) in
  exists j,
    0 <= j /\ j * bs <= size /\
    device_block_size (vm w') = bs /\
    (handles_kept (env w) -> handles_stored (xa_membuf w') addr bs j) /\
    (rc = 0 ->
     j * bs = size /\
     plugged_size (vm w') = u64 (plugged_size (vm w) + size)) /\
    (rc <> 0 ->
     (handles_stored (xa_membuf w') addr bs j ->
      plugged_size (vm w') = plugged_size (vm w)) /\
     (~ handles_stored (xa_membuf w') addr bs j ->
      plugged_size (vm w') = u64 (plugged_size (vm w) + j * bs))).

Lemma virtio_mem_send_plug_request_sent fuel addr size w :
  let bs := device_block_size (vm w) in
  0 < bs -> (bs | size) ->
  is_u64 addr -> 0 <= size -> addr + size <= U64 ->
  is_u64 (plugged_size (vm w)) ->
  wlp (virtio_mem_send_plug_request fuel addr size false)
      (plug_sent addr size w) w.
Proof.
  intros bs Hbs Hdiv [Ha Ha'] Hsize Hend Hp.
  unfold plug_sent. fold bs.
  unfold virtio_mem_send_plug_request. apply wlp_get_vm. fold bs.
  set (p := plugged_size (vm w)) in *.
  apply wlp_extcall.
  destruct (_ =? 0).
  { apply wlp_ret. exists 0. cbn [vm with_trace xa_membuf]. fold p.
    split; [lia|]. split; [lia|]. split; [reflexivity|].
    split; [intros _ i Hi; lia|]. split; [discriminate|]. intros _.
    split; [reflexivity|]. intros Hn. exfalso. apply Hn. intros i Hi. lia. }
  eapply wlp_bind_post.
  { apply (wlp_iterate
             (fun '(a, s) w1 =>
                exists j, 0 <= j /\ j * bs + s = size /\ 0 <= s /\
                          a = u64 (addr + j * bs) /\
                          plugged_size (vm w1) = u64 (p + j * bs) /\
                          (handles_kept (env w) ->
                           handles_stored (xa_membuf w1) addr bs j) /\
                          env w1 = env w /\ device_block_size (vm w1) = bs)
             (fun r w1 =>
                exists j, 0 <= j /\
                          plugged_size (vm w1) = u64 (p + j * bs) /\
                          (handles_kept (env w) ->
                           handles_stored (xa_membuf w1) addr bs j) /\
                          device_block_size (vm w1) = bs /\
                          match snd r with
                          | None => j * bs = size
                          | Some err =>
                              j * bs < size /\ fst r = addr + j * bs /\
                              err <> 0
                          end)).
    - intros [a s] w1 (j & Hj & Hjs & Hs & -> & Hpl & Hst & He & Hb).
      destruct (Z.eqb_spec s 0) as [->|Hs0].
      { apply wlp_ret. cbn. exists j. repeat split; auto; lia. }
      assert (Hjb : 0 <= j * bs) by (apply Z.mul_nonneg_nonneg; lia).
      assert (Ex : u64 (addr + j * bs) = addr + j * bs)
        by (apply u64_small; lia).
      assert (Hsb : bs <= s).
      { apply Z.divide_pos_le; [lia|].
        replace s with (size - j * bs) by lia.
        apply Z.divide_sub_r; [exact Hdiv | apply Z.divide_factor_r]. }
      apply wlp_extcall.
      destruct (IS_ERR _).
      { apply wlp_ret. cbn. exists j. rewrite Ex.
        repeat split; auto; try lia.
        apply (proj1 (virtio_mem_convert_error_code_recognized _)). }
      unfold xa_store_membuf.
      unfold wlp, bind, extcall, modify_xa_membuf, modify_vm, when, ret. cbn.
      rewrite He.
      set (m := env w (trace w1) (mem_buf_alloc (u64 (addr + j * bs)) bs)).
      set (r := env w _ (xa_store _ m)).
      assert (Hnext :
                forall xa,
                  (handles_kept (env w) -> handles_stored xa addr bs (j + 1)) ->
                  exists j0,
                    0 <= j0 /\
                    j0 * bs + u64 (s - bs) = size /\
                    0 <= u64 (s - bs) /\
                    u64 (u64 (addr + j * bs) + bs) = u64 (addr + j0 * bs) /\
                    u64 (plugged_size (vm w1) + bs) = u64 (p + j0 * bs) /\
                    (handles_kept (env w) -> handles_stored xa addr bs j0) /\
                    env w1 = env w /\ device_block_size (vm w1) = bs).
      { intros xa Hxa. exists (j + 1).
        split; [lia|].
        split; [rewrite u64_small; [ring_simplify; lia | lia]|].
        split; [apply u64_is_u64|].
        split; [rewrite u64_add_l; f_equal; ring|].
        split; [rewrite Hpl, u64_add_l; f_equal; ring|].
        split; [exact Hxa | auto]. }
      destruct (xa_is_err r) eqn:Er; cbn.
      + apply Hnext. intros [Hstore _]. unfold r in Er.
        rewrite Hstore in Er. discriminate Er.
      + apply Hnext. intros Hk. pose proof Hk as [_ Halloc].
        pose proof (Halloc (trace w1) (u64 (addr + j * bs)) bs) as Hm.
        fold m in Hm. apply Z.eqb_neq in Hm. rewrite Hm.
        apply Z.eqb_neq in Hm.
        intros i Hi. destruct (Z.eq_dec i j) as [->|Hne].
        * rewrite Ex. rewrite lookup_insert_eq. eexists.
          split; [reflexivity | exact Hm].
        * rewrite lookup_insert_ne.
          -- apply (Hst Hk). lia.
          -- rewrite Ex. intros Heq.
             assert (Hij : i * bs = j * bs) by lia.
             apply Z.mul_cancel_r in Hij; lia.
    - exists 0. rewrite Z.mul_0_l, !Z.add_0_r.
      split; [lia|]. split; [lia|]. split; [lia|].
      split; [symmetry; apply u64_small; lia|].
      split; [symmetry; apply u64_small; exact Hp|].
      split; [intros _ i Hi; lia | auto]. }
  intros [a [err|]] w1 (j & Hj & Hpl & Hst & Hb & H); cbn in H.
  2:{ apply wlp_ret. exists j. rewrite H in *.
      split; [exact Hj|]. split; [lia|]. split; [exact Hb|].
      split; [exact Hst|]. split; [auto|]. intros Habs. contradiction. }
  destruct H as (Hjs & -> & Herr).
  assert (Hjb : 0 <= j * bs) by (apply Z.mul_nonneg_nonneg; lia).
  destruct (Z.ltb_spec addr (addr + j * bs)) as [Hlt|Hge].
  - replace (addr + j * bs - addr) with (j * bs) by ring.
    rewrite (u64_small (j * bs)) by lia.
    eapply wlp_bind_post.
    { rewrite <- Hb in *.
      apply virtio_mem_send_unplug_request_looks_up; try assumption; try lia.
      split; assumption. }
    intros rc w2 (Hxa & Hun). apply wlp_ret.
    exists j. rewrite Hxa.
    assert (Hb2 : device_block_size (vm w2) = bs)
      by (destruct Hun as [(_ & _ & E)|(_ & _ & E)]; rewrite E; exact Hb).
    split; [exact Hj|]. split; [lia|]. split; [exact Hb2|].
    split; [exact Hst|]. split; [intros E0; contradiction|]. intros _.
    rewrite Hb in Hun.
    destruct Hun as [(_ & Hall & E)|(_ & Hnot & E)]; rewrite E; cbn.
    + split; [|intros Hn; contradiction]. intros _.
      rewrite Hpl, u64_sub_l.
      replace (p + j * bs - j * bs) with p by ring.
      apply u64_small. exact Hp.
    + split; [intros Hall; contradiction|]. intros _. exact Hpl.
  - apply wlp_ret. assert (Ej : j = 0) by nia. subst j.
    exists 0. rewrite Z.mul_0_l, Z.add_0_r in *.
    split; [lia|]. split; [lia|]. split; [exact Hb|].
    split; [exact Hst|]. split; [intros E0; contradiction|]. intros _.
    rewrite Hpl, (u64_small p Hp).
    split; [reflexivity|]. intros Hn. exfalso. apply Hn. intros i Hi. lia.
Qed.


(** C10.  A plug request without memmap, for a size that is a multiple of
    [device_block_size] and a range that lies in the address space, that
    returns an error: it had plugged [j] device blocks when the allocation
    failed, and it has sent the compensating unplug request for them.  When
    that request finds the handle of every one of the [j] blocks in
    [xa_membuf], [plugged_size] is what it was before the call.  The
    handles are all there, whatever [xa_membuf] held before, when no store
    into [xa_membuf] has failed and [mem_buf_alloc] has answered no [NULL].
    When a handle is missing, the compensating request gives up, and
    [plugged_size] stays larger by the [j] blocks. *)
Theorem failed_plug_request_restores_plugged_size fuel addr size w rc w' :
  let bs := device_block_size (vm w) in
  0 < bs -> (bs | size) ->
  is_u64 addr -> 0 <= size -> addr + size <= U64 ->
  is_u64 (plugged_size (vm w)) ->
  virtio_mem_send_plug_request fuel addr size false w = Ok rc w' ->
  rc <> 0 ->
  exists j,
    0 <= j /\ j * bs <= size /\
    (handles_stored (xa_membuf w') addr bs j ->
     plugged_size (vm w') = plugged_size (vm w)) /\
    (handles_kept (env w) -> handles_stored (xa_membuf w') addr bs j) /\
    (~ handles_stored (xa_membuf w') addr bs j ->
     plugged_size (vm w') = u64 (plugged_size (vm w) + j * bs)).
Proof.
  intros bs Hbs Hdiv Ha Hsize Hend Hp E Hrc.
  destruct (wlp_ok _ _ _ _ _
              (virtio_mem_send_plug_request_sent fuel addr size w
                 Hbs Hdiv Ha Hsize Hend Hp) E)
    as (j & Hj & Hjs & _ & Hk & _ & Hf).
  destruct (Hf Hrc) as [Hfound Hmissing].
  exists j. auto.
Qed.

(** A host that has no memory for the third device block of the region. *)
Definition env_third_fails (tr : list call) (c : call) : Z :=
  match c with
  | mem_buf_alloc a _ => if a =? 2 ^ 30 + 2 * 2 ^ 22 then - ENOSPC else 1
  | _ => env_ok tr c
  end.

Definition third_fails_world : world :=
  example_world (example_platform true) env_third_fails
    (example_sbm_device fresh_sbm (12 * 2 ^ 22) 0 true).

Definition failed_plug_run : Z * world :=
  run_result
    (virtio_mem_send_plug_request 100 (2 ^ 30) (4 * 2 ^ 22) false
       third_fails_world)
    0 third_fails_world.

Lemma failed_plug_run_ok :
  virtio_mem_send_plug_request 100 (2 ^ 30) (4 * 2 ^ 22) false third_fails_world
  = Ok (fst failed_plug_run) (snd failed_plug_run).
Proof.
  refine (run_result_ok _ 0 third_fails_world _). vm_compute. reflexivity.
Qed.

Lemma env_third_fails_kept : handles_kept env_third_fails.
Proof.
  split.
  - intros tr a m. reflexivity.
  - intros tr a s. cbn. destruct (a =? _); discriminate.
Qed.

Lemma failed_plug_request_restores_plugged_size_witness :
  fst failed_plug_run = - ENOSPC /\
  plugged_size (vm (snd failed_plug_run)) = plugged_size (vm third_fails_world).
Proof.
  split; [vm_compute; reflexivity|].
  destruct (failed_plug_request_restores_plugged_size 100 (2 ^ 30) (4 * 2 ^ 22)
              third_fails_world (fst failed_plug_run) (snd failed_plug_run))
    as (j & _ & _ & Hfound & Hkept & _).
  - reflexivity.
  - exists 4. reflexivity.
  - vm_compute. split; [discriminate | reflexivity].
  - vm_compute. discriminate.
  - vm_compute. discriminate.
  - vm_compute. split; [discriminate | reflexivity].
  - exact failed_plug_run_ok.
  - vm_compute. discriminate.
  - apply Hfound, Hkept. exact env_third_fails_kept.
Defined.


(** * Functions that leave the state tables alone *)

Definition tablesR (w w' : world) : Prop :=
  sbm (vm w') = sbm (vm w) /\ bbm (vm w') = bbm (vm w).

#[global] Instance tablesR_preorder : PreOrder tablesR.
Proof.
  unfold tablesR. split.
  - intros w. split; reflexivity.
  - intros w1 w2 w3 [? ?] [? ?]. split; congruence.
Qed.

Ltac tables_side := intros; split; reflexivity.

Lemma tablesR_xa_store_membuf index entry :
  keeps tablesR (xa_store_membuf index entry).
Proof. unfold xa_store_membuf. keeps_auto tables_side. Qed.
#[global] Hint Resolve tablesR_xa_store_membuf : keeps.

Lemma tablesR_virtio_mem_send_unplug_request fuel addr size memmap :
  keeps tablesR (virtio_mem_send_unplug_request fuel addr size memmap).
Proof. unfold virtio_mem_send_unplug_request. keeps_auto tables_side. Qed.
#[global] Hint Resolve tablesR_virtio_mem_send_unplug_request : keeps.

Lemma tablesR_virtio_mem_send_plug_request fuel addr size memmap :
  keeps tablesR (virtio_mem_send_plug_request fuel addr size memmap).
Proof. unfold virtio_mem_send_plug_request. keeps_auto tables_side. Qed.
#[global] Hint Resolve tablesR_virtio_mem_send_plug_request : keeps.

Lemma tablesR_virtio_mem_plug_memmap fuel addr :
  keeps tablesR (virtio_mem_plug_memmap fuel addr).
Proof. unfold virtio_mem_plug_memmap. keeps_auto tables_side. Qed.
#[global] Hint Resolve tablesR_virtio_mem_plug_memmap : keeps.

Lemma tablesR_virtio_mem_unplug_memmap fuel addr :
  keeps tablesR (virtio_mem_unplug_memmap fuel addr).
Proof. unfold virtio_mem_unplug_memmap. keeps_auto tables_side. Qed.
#[global] Hint Resolve tablesR_virtio_mem_unplug_memmap : keeps.

Lemma tablesR_virtio_mem_retry  :
  keeps tablesR (virtio_mem_retry ).
Proof. unfold virtio_mem_retry. keeps_auto tables_side. Qed.
#[global] Hint Resolve tablesR_virtio_mem_retry : keeps.

Lemma tablesR_atomic64_add_offline_size d :
  keeps tablesR (atomic64_add_offline_size d).
Proof. unfold atomic64_add_offline_size. keeps_auto tables_side. Qed.
#[global] Hint Resolve tablesR_atomic64_add_offline_size : keeps.

(** Memory that could not be added: the kernel has not called back, and
    the state tables are what they were. *)
Lemma virtio_mem_add_memory_failed_tables fuel addr size w :
  wlp (virtio_mem_add_memory fuel addr size)
      (fun rc w' => rc <> 0 -> tablesR w w') w.
Proof.
  unfold virtio_mem_add_memory. apply wlp_get_vm.
  eapply (wlp_bind_keeps tablesR); [keeps_auto tables_side|].
  intros name w1 H1. destruct (negb name); [apply wlp_ret; intros _; exact H1|].
  eapply (wlp_bind_keeps tablesR); [eauto with keeps|].
  intros rc w2 H2. assert (H12 : tablesR w w2) by (etransitivity; eassumption).
  destruct (nz rc); [apply wlp_ret; intros _; exact H12|].
  eapply (wlp_bind_keeps tablesR); [eauto with keeps|].
  intros [] w3 H3. assert (H13 : tablesR w w3) by (etransitivity; eassumption).
  apply wlp_extcall.
  match goal with |- context [nz ?r] => set (rc2 := r) end.
  destruct (nz rc2) eqn:Hnz; cbn [negb when].
  - eapply (wlp_bind_keeps tablesR); [apply keeps_ret; typeclasses eauto|].
    intros [] w4 H4.
    eapply (wlp_bind_keeps tablesR); [keeps_auto tables_side|].
    intros [] w5 H5. apply wlp_ret. intros _.
    etransitivity; [exact H13|]. etransitivity; [|exact H5].
    etransitivity; [|exact H4]. split; reflexivity.
  - apply nz_false in Hnz. repeat (apply wlp_bind_any; intros).
    apply wlp_ret. intros Hne. contradiction.
Qed.

Lemma virtio_mem_bbm_add_bb_failed_tables fuel bb_id w :
  wlp (virtio_mem_bbm_add_bb fuel bb_id)
      (fun rc w' => rc <> 0 -> tablesR w w') w.
Proof.
  unfold virtio_mem_bbm_add_bb. apply wlp_get_vm.
  apply virtio_mem_add_memory_failed_tables.
Qed.

Lemma tablesR_virtio_mem_set_fake_offline pfn nr_pages onlined :
  keeps tablesR (virtio_mem_set_fake_offline pfn nr_pages onlined).
Proof. unfold virtio_mem_set_fake_offline. keeps_auto tables_side. Qed.
#[global] Hint Resolve tablesR_virtio_mem_set_fake_offline : keeps.

Lemma tablesR_virtio_mem_config_changed  :
  keeps tablesR (virtio_mem_config_changed ).
Proof. unfold virtio_mem_config_changed. keeps_auto tables_side. Qed.
#[global] Hint Resolve tablesR_virtio_mem_config_changed : keeps.

Lemma tablesR_atomic_read_config_changed  :
  keeps tablesR (atomic_read_config_changed ).
Proof. unfold atomic_read_config_changed. keeps_auto tables_side. Qed.
#[global] Hint Resolve tablesR_atomic_read_config_changed : keeps.

Lemma tablesR_virtio_mem_fake_offline pfn nr_pages :
  keeps tablesR (virtio_mem_fake_offline pfn nr_pages).
Proof. unfold virtio_mem_fake_offline. keeps_auto tables_side. Qed.
#[global] Hint Resolve tablesR_virtio_mem_fake_offline : keeps.

Lemma tablesR_virtio_mem_sbm_notify_going_online mb_id :
  keeps tablesR (virtio_mem_sbm_notify_going_online mb_id).
Proof. unfold virtio_mem_sbm_notify_going_online. keeps_auto tables_side. Qed.
#[global] Hint Resolve tablesR_virtio_mem_sbm_notify_going_online : keeps.

Lemma tablesR_virtio_mem_bbm_unplug_bb fuel bb_id :
  keeps tablesR (virtio_mem_bbm_unplug_bb fuel bb_id).
Proof. unfold virtio_mem_bbm_unplug_bb. keeps_auto tables_side. Qed.
#[global] Hint Resolve tablesR_virtio_mem_bbm_unplug_bb : keeps.

Lemma tablesR_virtio_mem_bbm_plug_bb fuel bb_id :
  keeps tablesR (virtio_mem_bbm_plug_bb fuel bb_id).
Proof. unfold virtio_mem_bbm_plug_bb. keeps_auto tables_side. Qed.
#[global] Hint Resolve tablesR_virtio_mem_bbm_plug_bb : keeps.


(** * Plugging and adding a big block *)

(** The state in which [virtio_mem_bbm_plug_and_add_bb] leaves a big block
    that could not be added, by the result of the compensating unplug. *)
Definition bbm_rolled_back (rc' : Z) : bbm_bb_state :=
  if rc' =? 0 then VIRTIO_MEM_BBM_BB_UNUSED else VIRTIO_MEM_BBM_BB_PLUGGED.

(** C3.  A big block in state [UNUSED] whose plug request succeeds and
    whose [virtio_mem_bbm_add_bb] then fails with [rc]:
    [virtio_mem_bbm_plug_and_add_bb] returns [rc], and the block is in
    state [UNUSED] when the compensating [virtio_mem_bbm_unplug_bb]
    succeeded and in state [PLUGGED] when it failed.  The counters follow
    the state, and they still add up. *)
Theorem bbm_plug_and_add_bb_rolls_back fuel bb_id w w1 w2 rc w3 rc' w4 :
  bbm_counted (bbm (vm w)) ->
  bb_states (bbm (vm w)) !! bbm_idx (vm w) bb_id
  = Some VIRTIO_MEM_BBM_BB_UNUSED ->
  virtio_mem_bbm_plug_bb fuel bb_id w = Ok 0 w1 ->
  virtio_mem_bbm_set_bb_state bb_id VIRTIO_MEM_BBM_BB_ADDED w1 = Ok tt w2 ->
  virtio_mem_bbm_add_bb fuel bb_id w2 = Ok rc w3 ->
  rc <> 0 ->
  virtio_mem_bbm_unplug_bb fuel bb_id w3 = Ok rc' w4 ->
  exists w',
    virtio_mem_bbm_plug_and_add_bb fuel bb_id w = Ok rc w' /\
    bb_states (bbm (vm w')) !! bbm_idx (vm w') bb_id
    = Some (bbm_rolled_back rc') /\
    (forall t, bb_count (bbm (vm w')) t
               = count_inc (bbm_rolled_back rc')
                   (count_dec VIRTIO_MEM_BBM_BB_UNUSED (bb_count (bbm (vm w)))) t) /\
    bbm_counted (bbm (vm w')).
Proof.
  intros Hcnt Hl E1 E2 E3 Hrc E4.
  pose proof (wlp_ok _ _ _ _ _ (tablesR_virtio_mem_bbm_plug_bb fuel bb_id w) E1)
    as [_ B1].
  pose proof (wlp_ok _ _ _ _ _
                (virtio_mem_bbm_add_bb_failed_tables fuel bb_id w2) E3 Hrc)
    as [_ B3].
  pose proof (wlp_ok _ _ _ _ _ (tablesR_virtio_mem_bbm_unplug_bb fuel bb_id w3) E4)
    as [_ B4].
  assert (Hidx1 : bbm_idx (vm w1) bb_id = bbm_idx (vm w) bb_id)
    by (unfold bbm_idx; rewrite B1; reflexivity).
  assert (Hl1 : bb_states (bbm (vm w1)) !! bbm_idx (vm w1) bb_id
                = Some VIRTIO_MEM_BBM_BB_UNUSED)
    by (rewrite Hidx1, B1; exact Hl).
  destruct (virtio_mem_bbm_set_bb_state_inv _ _ _ _ _ E2)
    as (old & Hold & Ho & _).
  rewrite Hl1 in Hold. injection Hold as <-.
  destruct (virtio_mem_bbm_set_bb_state_moves w1 bb_id VIRTIO_MEM_BBM_BB_ADDED _ Hl1 Ho)
    as (w2' & E2' & Hs2 & Ht2 & Hf2 & Hn2).
  rewrite E2 in E2'. injection E2' as <-.
  assert (Hcnt2 : bbm_counted (bbm (vm w2))).
  { eapply bbm_counted_set_bb_state; [|exact E2]. rewrite B1. exact Hcnt. }
  assert (Hidx4 : bbm_idx (vm w4) bb_id = bbm_idx (vm w) bb_id).
  { unfold bbm_idx. rewrite B4, B3, Hf2, B1. reflexivity. }
  assert (Hl4 : bb_states (bbm (vm w4)) !! bbm_idx (vm w4) bb_id
                = Some VIRTIO_MEM_BBM_BB_ADDED).
  { rewrite Hidx4, B4, B3, Hs2, Hidx1, B1.
    apply list_lookup_insert_eq. apply lookup_lt_is_Some. eauto. }
  assert (Hc4 : bb_count (bbm (vm w4)) VIRTIO_MEM_BBM_BB_ADDED <> 0).
  { rewrite B4, B3, Ht2, B1. unfold count_inc, count_dec.
    destruct (decide _) as [_|?]; [|congruence].
    destruct (decide _) as [?|_]; [discriminate|].
    destruct Hcnt as (Hc & Hf & Hn & Hsum).
    pose proof (Hc VIRTIO_MEM_BBM_BB_UNUSED).
    pose proof (Hc VIRTIO_MEM_BBM_BB_PLUGGED).
    pose proof (Hc VIRTIO_MEM_BBM_BB_ADDED).
    pose proof (Hc VIRTIO_MEM_BBM_BB_FAKE_OFFLINE).
    unfold sum_counts in Hsum. cbn in Hsum. rewrite B1 in Ho.
    rewrite u64_small; lia. }
  destruct (virtio_mem_bbm_set_bb_state_moves w4 bb_id (bbm_rolled_back rc') _ Hl4 Hc4)
    as (w5 & E5 & Hs5 & Ht5 & Hf5 & Hn5).
  exists w5. split; [|split; [|split]].
  - unfold virtio_mem_bbm_plug_and_add_bb, bind.
    unfold virtio_mem_bbm_get_bb_state at 1. unfold bind, get_vm, lift_access.
    unfold bbm_idx in Hl. rewrite Hl.
    change (ret VIRTIO_MEM_BBM_BB_UNUSED w) with (Ok VIRTIO_MEM_BBM_BB_UNUSED w).
    cbv beta iota.
    destruct (decide (VIRTIO_MEM_BBM_BB_UNUSED = VIRTIO_MEM_BBM_BB_UNUSED))
      as [_|?]; [|congruence].
    rewrite E1. change (nz 0) with false. cbv beta iota. rewrite E2, E3.
    destruct (nz rc) eqn:Hnz; [|apply nz_false in Hnz; contradiction].
    rewrite E4. unfold bbm_rolled_back in E5. unfold nz.
    destruct (rc' =? 0); cbn [negb]; rewrite E5; reflexivity.
  - assert (Hidx5 : bbm_idx (vm w5) bb_id = bbm_idx (vm w4) bb_id)
      by (unfold bbm_idx; rewrite Hf5; reflexivity).
    rewrite Hidx5, Hs5. apply list_lookup_insert_eq.
    apply lookup_lt_is_Some. eauto.
  - intros t. rewrite Ht5. unfold count_inc, count_dec.
    rewrite B4, B3, !Ht2, B1. unfold count_inc, count_dec.
    destruct (decide (t = bbm_rolled_back rc')) as [->|Hne].
    + destruct (decide (VIRTIO_MEM_BBM_BB_ADDED = VIRTIO_MEM_BBM_BB_ADDED));
        [|congruence].
      destruct (decide (bbm_rolled_back rc' = VIRTIO_MEM_BBM_BB_ADDED)) as [Ha|_].
      { unfold bbm_rolled_back in Ha. destruct (rc' =? 0); discriminate. }
      reflexivity.
    + destruct (decide (t = VIRTIO_MEM_BBM_BB_ADDED)) as [->|Hna].
      * destruct (decide (VIRTIO_MEM_BBM_BB_ADDED = VIRTIO_MEM_BBM_BB_UNUSED));
          [discriminate|].
        destruct Hcnt as (Hc & Hf & Hn & Hsum).
        pose proof (Hc VIRTIO_MEM_BBM_BB_UNUSED).
        pose proof (Hc VIRTIO_MEM_BBM_BB_PLUGGED).
        pose proof (Hc VIRTIO_MEM_BBM_BB_ADDED).
        pose proof (Hc VIRTIO_MEM_BBM_BB_FAKE_OFFLINE).
        unfold sum_counts in Hsum. cbn in Hsum. rewrite B1 in Ho.
        rewrite (u64_small (_ + 1)) by lia.
        replace (bb_count (bbm (vm w)) VIRTIO_MEM_BBM_BB_ADDED + 1 - 1)
          with (bb_count (bbm (vm w)) VIRTIO_MEM_BBM_BB_ADDED) by ring.
        apply u64_small. lia.
      * reflexivity.
  - eapply bbm_counted_set_bb_state; [|exact E5].
    rewrite B4, B3. exact Hcnt2.
Qed.


(** A device in Big-Block Mode with one big block of 128 MiB, not yet
    plugged, in a kernel in which adding memory fails. *)
Definition one_unused_bb : bbm_t :=
  Bbm 8 9 15 (2 ^ 27)
    (bbm_table (fun s => if decide (s = VIRTIO_MEM_BBM_BB_UNUSED) then 1 else 0))
    (replicate (Z.to_nat 4096) VIRTIO_MEM_BBM_BB_UNUSED).

Definition example_bbm_device (b : bbm_t) (requested plugged : Z) : virtio_mem :=
  VirtioMem (2 ^ 30) (2 ^ 30) (2 ^ 22) false false requested plugged 0 (2 ^ 30)
    false false false false false false false false None 50000 false
    (Sbm 0 0 0 0 0 false (fun _ => 0) [] []) b.

Definition env_add_fails (tr : list call) (c : call) : Z :=
  match c with
  | add_memory_driver_managed _ _ _ => - EBUSY
  | _ => env_ok tr c
  end.

Definition add_fails_world : world :=
  example_world (example_platform true) env_add_fails
    (example_bbm_device one_unused_bb (2 ^ 27) 0).

Definition add_fails_plugged : Z * world :=
  run_result (virtio_mem_bbm_plug_bb 100 8 add_fails_world) 0 add_fails_world.
Definition add_fails_set : unit * world :=
  run_result
    (virtio_mem_bbm_set_bb_state 8 VIRTIO_MEM_BBM_BB_ADDED (snd add_fails_plugged))
    tt add_fails_world.
Definition add_fails_added : Z * world :=
  run_result (virtio_mem_bbm_add_bb 100 8 (snd add_fails_set)) 0 add_fails_world.
Definition add_fails_unplugged : Z * world :=
  run_result (virtio_mem_bbm_unplug_bb 100 8 (snd add_fails_added)) 0
    add_fails_world.

Lemma run_result_is {A} (r : result A) a w a' :
  is_ok r = true -> fst (run_result r a w) = a' ->
  r = Ok a' (snd (run_result r a w)).
Proof. intros H <-. apply run_result_ok, H. Qed.

Lemma add_fails_plugged_ok :
  virtio_mem_bbm_plug_bb 100 8 add_fails_world = Ok 0 (snd add_fails_plugged).
Proof. apply run_result_is; vm_compute; reflexivity. Qed.
Lemma add_fails_set_ok :
  virtio_mem_bbm_set_bb_state 8 VIRTIO_MEM_BBM_BB_ADDED (snd add_fails_plugged)
  = Ok tt (snd add_fails_set).
Proof. apply run_result_is; vm_compute; reflexivity. Qed.
Lemma add_fails_added_ok :
  virtio_mem_bbm_add_bb 100 8 (snd add_fails_set)
  = Ok (- EBUSY) (snd add_fails_added).
Proof. apply run_result_is; vm_compute; reflexivity. Qed.
Lemma add_fails_unplugged_ok :
  virtio_mem_bbm_unplug_bb 100 8 (snd add_fails_added)
  = Ok 0 (snd add_fails_unplugged).
Proof. apply run_result_is; vm_compute; reflexivity. Qed.

Lemma one_unused_bb_counted : bbm_counted one_unused_bb.
Proof.
  split; [|split; [|split]].
  - intros st. destruct st; vm_compute; discriminate.
  - vm_compute. split; discriminate.
  - reflexivity.
  - reflexivity.
Qed.

Lemma bbm_plug_and_add_bb_rolls_back_witness :
  exists w',
    virtio_mem_bbm_plug_and_add_bb 100 8 add_fails_world = Ok (- EBUSY) w' /\
    bb_states (bbm (vm w')) !! bbm_idx (vm w') 8
    = Some VIRTIO_MEM_BBM_BB_UNUSED.
Proof.
  destruct (bbm_plug_and_add_bb_rolls_back 100 8 add_fails_world
              (snd add_fails_plugged) (snd add_fails_set) (- EBUSY)
              (snd add_fails_added) 0 (snd add_fails_unplugged)
              one_unused_bb_counted eq_refl
              add_fails_plugged_ok add_fails_set_ok add_fails_added_ok
              ltac:(discriminate) add_fails_unplugged_ok)
    as (w' & E & Hs & _).
  exists w'. split; assumption.
Defined.


(** * The veto of the memory notifier *)

(** The memory block of a notification, and the notifications that pass
    the checks which virtio_mem_memory_notifier_cb makes in Sub-Block Mode
    before it looks at the action: the range overlaps the device, has the
    size of a memory block (less the memmap) and starts at one. *)
Definition notified_mb (w : world) (mhp : memory_notify) : Z :=
  virtio_mem_phys_to_mb_id (plat w) (PFN_PHYS (plat w) (start_pfn mhp)).

Definition notifies_mb (w : world) (mhp : memory_notify) : bool :=
  let v := vm w in
  let pf := plat w in
  let start := PFN_PHYS pf (start_pfn mhp) in
  let size := PFN_PHYS pf (nr_pages mhp) in
  in_sbm v
  && virtio_mem_overlaps_range v start size
  && (size =? (if memmap_on_memory v
               then u64 (memory_block_size_bytes pf - sb_size (sbm v))
               else memory_block_size_bytes pf))
  && IS_ALIGNED (u64 (start - (if memmap_on_memory v then sb_size (sbm v) else 0)))
       (memory_block_size_bytes pf).

(** The answer to [MEM_GOING_ONLINE] by the state of the block. *)
Definition going_online_answer (st : sbm_mb_state) : Z :=
  match st with
  | VIRTIO_MEM_SBM_MB_OFFLINE | VIRTIO_MEM_SBM_MB_OFFLINE_PARTIAL => NOTIFY_OK
  | _ => NOTIFY_BAD
  end.

Lemma virtio_mem_sbm_notify_going_online_answer mb_id w st :
  mb_states (sbm (vm w)) !! sbm_idx (vm w) mb_id = Some st ->
  virtio_mem_sbm_notify_going_online mb_id w = Ok (going_online_answer st) w.
Proof.
  intros Hl. unfold sbm_idx in Hl.
  unfold virtio_mem_sbm_notify_going_online, virtio_mem_sbm_get_mb_state,
    bind, get_vm, lift_access.
  rewrite Hl. destruct st; reflexivity.
Qed.

Lemma virtio_mem_memory_notifier_cb_going_online fuel mhp w st :
  notifies_mb w mhp = true ->
  mb_states (sbm (vm w)) !! sbm_idx (vm w) (notified_mb w mhp) = Some st ->
  exists w',
    virtio_mem_memory_notifier_cb fuel MEM_GOING_ONLINE mhp w
    = Ok (if removing (vm w) then notifier_from_errno (- EBUSY)
          else going_online_answer st) w' /\
    sbm (vm w') = sbm (vm w) /\ bbm (vm w') = bbm (vm w).
Proof.
  unfold notifies_mb, notified_mb. intros Hn Hl.
  apply andb_prop in Hn as [Hn Hal]. apply andb_prop in Hn as [Hn Hsz].
  apply andb_prop in Hn as [Hsbm Hov].
  unfold virtio_mem_memory_notifier_cb, bind, get_vm, get_plat.
  rewrite Hov, Hsbm, Hsz, Hal. cbn [negb orb andb].
  destruct (removing (vm w)).
  - eexists. split; [reflexivity|]. split; reflexivity.
  - unfold modify_vm.
    set (w1 := with_vm _ w).
    assert (Hl1 : mb_states (sbm (vm w1)) !! sbm_idx (vm w1)
                    (virtio_mem_phys_to_mb_id (plat w)
                       (PFN_PHYS (plat w) (start_pfn mhp)))
                  = Some st) by exact Hl.
    rewrite (virtio_mem_sbm_notify_going_online_answer _ w1 st Hl1).
    eexists. split; [reflexivity|]. split; reflexivity.
Qed.

(** C5, amended.  A [MEM_GOING_ONLINE] notification for a memory block of
    a device in Sub-Block Mode that is not being removed is answered with
    [NOTIFY_BAD] when the block is in a state other than [OFFLINE] and
    [OFFLINE_PARTIAL], and with [NOTIFY_OK] when it is in one of these two;
    that is the result of virtio_mem_sbm_notify_going_online.  While the
    device is being removed the notification is answered with
    [notifier_from_errno(-EBUSY)] whatever the state is.  In every case
    the state table, the counters and the subblock bitmap are what they
    were. *)
Theorem going_online_is_vetoed_by_state :
  (forall mb_id w st,
     mb_states (sbm (vm w)) !! sbm_idx (vm w) mb_id = Some st ->
     virtio_mem_sbm_notify_going_online mb_id w
     = Ok (if decide (st = VIRTIO_MEM_SBM_MB_OFFLINE
                      \/ st = VIRTIO_MEM_SBM_MB_OFFLINE_PARTIAL)
           then NOTIFY_OK else NOTIFY_BAD) w) /\
  (forall fuel mhp w st,
     notifies_mb w mhp = true ->
     mb_states (sbm (vm w)) !! sbm_idx (vm w) (notified_mb w mhp) = Some st ->
     exists w',
       virtio_mem_memory_notifier_cb fuel MEM_GOING_ONLINE mhp w
       = Ok (if removing (vm w) then notifier_from_errno (- EBUSY)
             else if decide (st = VIRTIO_MEM_SBM_MB_OFFLINE
                             \/ st = VIRTIO_MEM_SBM_MB_OFFLINE_PARTIAL)
                  then NOTIFY_OK else NOTIFY_BAD) w' /\
       sbm (vm w') = sbm (vm w) /\ bbm (vm w') = bbm (vm w)).
Proof.
  assert (Ha : forall st,
             going_online_answer st
             = if decide (st = VIRTIO_MEM_SBM_MB_OFFLINE
                          \/ st = VIRTIO_MEM_SBM_MB_OFFLINE_PARTIAL)
               then NOTIFY_OK else NOTIFY_BAD).
  { intros st. destruct (decide _) as [[->| ->]|Hn]; [reflexivity..|].
    destruct st; try reflexivity; exfalso; apply Hn; auto. }
  split.
  - intros mb_id w st Hl. rewrite <- Ha.
    apply virtio_mem_sbm_notify_going_online_answer, Hl.
  - intros fuel mhp w st Hn Hl. rewrite <- Ha.
    apply virtio_mem_memory_notifier_cb_going_online; assumption.
Qed.

(** The memory block 8 of the example device. *)
Definition mb_8 : memory_notify := MemoryNotify (2 ^ 18) (2 ^ 15).

Lemma going_online_is_vetoed_by_state_witness :
  exists w',
    virtio_mem_memory_notifier_cb 100 MEM_GOING_ONLINE mb_8 stuck_world
    = Ok NOTIFY_BAD w' /\
    sbm (vm w') = sbm (vm stuck_world) /\ bbm (vm w') = bbm (vm stuck_world).
Proof.
  apply (proj2 going_online_is_vetoed_by_state 100%nat mb_8 stuck_world
           VIRTIO_MEM_SBM_MB_KERNEL).
  - vm_compute. reflexivity.
  - vm_compute. reflexivity.
Defined.

(** The example device while it is being removed. *)
Definition removing_world : world :=
  example_world (example_platform false) env_ok
    (VirtioMem (2 ^ 30) (2 ^ 30) (2 ^ 22) true false 0 (2 ^ 27) 0 (2 ^ 30)
       false true false false false false false false None 50000 false
       one_kernel_mb example_bbm).

(** C5, as stated, fails while the device is being removed: the memory
    block 8 is in state [KERNEL], which is neither [OFFLINE] nor
    [OFFLINE_PARTIAL], and the notification is answered with
    [notifier_from_errno(-EBUSY)], which is not [NOTIFY_BAD]. *)
Lemma going_online_while_removing :
  mb_states (sbm (vm removing_world)) !! sbm_idx (vm removing_world)
    (notified_mb removing_world mb_8)
  = Some VIRTIO_MEM_SBM_MB_KERNEL /\
  notifies_mb removing_world mb_8 = true /\
  match virtio_mem_memory_notifier_cb 100 MEM_GOING_ONLINE mb_8 removing_world with
  | Ok r _ => r = notifier_from_errno (- EBUSY) /\ r = 32785 /\ r <> NOTIFY_BAD
  | _ => False
  end.
Proof.
  split; [vm_compute; reflexivity|]. split; [vm_compute; reflexivity|].
  vm_compute. split; [reflexivity|]. split; [reflexivity | discriminate].
Qed.


(** * Fake offlining *)

(** Loops that end: a loop whose body brings a measure down at each
    iteration returns a result when it is given more fuel than the
    measure. *)
Lemma iterate_total {A R} (I : A -> world -> Prop) (Q : R -> world -> Prop)
    (measure : A -> nat) (body : A -> M (step A R)) :
  (forall a w, I a w ->
     exists s w', body a w = Ok s w' /\
                  match s with
                  | Next a' => I a' w' /\ (measure a' < measure a)%nat
                  | Stop r => Q r w'
                  end) ->
  forall fuel a w, (measure a < fuel)%nat -> I a w ->
    exists r w', iterate fuel body a w = Ok r w' /\ Q r w'.
Proof.
  intros Hbody. induction fuel as [|fuel IH]; intros a w Hm Ha; [lia|].
  destruct (Hbody a w Ha) as (s & w' & E & Hs).
  cbn [iterate]. unfold bind. rewrite E. destruct s as [a'|r].
  - destruct Hs as [Ha' Hlt]. apply IH; [lia | exact Ha'].
  - exists r, w'. split; [reflexivity | exact Hs].
Qed.

Definition is_alloc (c : call) : bool :=
  match c with alloc_contig_range _ _ => true | _ => false end.

(** The calls to [alloc_contig_range] among the calls [l]. *)
Definition count_alloc (l : list call) : nat := length (filter is_alloc l).

(** In the calls [l], the latest first, every [alloc_contig_range] comes
    right after a read of [config_changed]. *)
Fixpoint checked_first (l : list call) : bool :=
  match l with
  | [] => true
  | c :: rest =>
      (if is_alloc c
       then match rest with irq_config_changed :: _ => true | _ => false end
       else true)
      && checked_first rest
  end.

(** The calls [new] that were made after the calls [base], each with the
    answer it got. *)
Fixpoint answers (e : list call -> call -> Z) (base new : list call)
  : list (call * Z) :=
  match new with
  | [] => []
  | c :: rest => (c, e (rest ++ base) c) :: answers e base rest
  end.

Lemma atomic_read_config_changed_spec w :
  exists b w',
    atomic_read_config_changed w = Ok b w' /\
    b = config_changed (vm w') /\
    trace w' = irq_config_changed :: trace w /\
    env w' = env w /\
    PageOffline w' = PageOffline w /\ PageDirty w' = PageDirty w /\
    (config_changed (vm w) = true -> config_changed (vm w') = true).
Proof.
  unfold atomic_read_config_changed, virtio_mem_config_changed,
    virtio_mem_retry, bind, extcall, when, get_vm, modify_vm, ret.
  destruct (nz _); cbn; [|do 2 eexists; split; [reflexivity|]; cbn; auto 10].
  destruct (in_kdump (vm w)); cbn;
    [do 2 eexists; split; [reflexivity|]; cbn; auto 10|].
  destruct (removing (vm w)); cbn; do 2 eexists; (split; [reflexivity|]);
    cbn; auto 10.
Qed.


(** Some [alloc_contig_range] among the calls [new] was answered [z]. *)
Definition alloc_answered (e : list call -> call -> Z) (base new : list call)
    (z : Z) : Prop :=
  exists a b, In (alloc_contig_range a b, z) (answers e base new).

Lemma alloc_answered_other e base c new z :
  is_alloc c = false ->
  alloc_answered e base (c :: new) z <-> alloc_answered e base new z.
Proof.
  intros Hc. unfold alloc_answered. cbn. split.
  - intros (a & b & [H|H]); [|eauto].
    injection H as -> _. discriminate Hc.
  - intros (a & b & H). eauto.
Qed.

Lemma alloc_answered_alloc e base a b new z :
  alloc_answered e base (alloc_contig_range a b :: new) z
  <-> z = e (new ++ base) (alloc_contig_range a b)
      \/ alloc_answered e base new z.
Proof.
  unfold alloc_answered. cbn. split.
  - intros (a' & b' & [H|H]); [|eauto].
    injection H as _ _ <-. left. reflexivity.
  - intros [->|(a' & b' & H)]; eauto.
Qed.

(** What a call of virtio_mem_fake_offline from [w] has done when it
    returns [rc] in [w']. *)
Definition fake_offline_post (pfn nr_pages : Z) (w : world) (rc : Z)
    (w' : world) : Prop :=
  exists new,
    trace w' = new ++ trace w /\
    (count_alloc new <= 5)%nat /\
    checked_first new = true /\
    (rc = - EAGAIN <-> config_changed (vm w') = true) /\
    (rc = - ENOMEM <-> alloc_answered (env w) (trace w) new (- ENOMEM)) /\
    (rc = - ENOMEM -> exists a b rest, new = alloc_contig_range a b :: rest) /\
    (rc = 0 <-> alloc_answered (env w) (trace w) new 0) /\
    (rc = 0 \/ rc = - EAGAIN \/ rc = - ENOMEM \/ rc = - EBUSY) /\
    (rc <> 0 ->
     PageOffline w' = PageOffline w /\ PageDirty w' = PageDirty w) /\
    (rc = 0 -> PageOffline w' = (true, pfn, nr_pages) :: PageOffline w) /\
    (rc = - EAGAIN -> exists rest, new = irq_config_changed :: rest).

Definition fake_offline_inv (w : world) (k : Z) (w1 : world) : Prop :=
  0 <= k <= 5 /\
  env w1 = env w /\
  (0 < k -> config_changed (vm w1) = false) /\
  PageOffline w1 = PageOffline w /\ PageDirty w1 = PageDirty w /\
  exists new,
    trace w1 = new ++ trace w /\
    count_alloc new = Z.to_nat k /\
    checked_first new = true /\
    (forall z, alloc_answered (env w) (trace w) new z ->
               z <> 0 /\ z <> - ENOMEM).


Lemma virtio_mem_fake_offline_returns pfn nr_pages w :
  exists rc w',
    virtio_mem_fake_offline pfn nr_pages w = Ok rc w' /\
    fake_offline_post pfn nr_pages w rc w'.
Proof.
  unfold virtio_mem_fake_offline. unfold bind at 1. unfold extcall at 1.
  set (mv := env w (trace w) (is_zone_movable_page pfn)).
  apply (iterate_total (fake_offline_inv w) (fake_offline_post pfn nr_pages w)
           (fun k => Z.to_nat (5 - k))).
  3:{ split; [lia|]. split; [reflexivity|]. split; [lia|].
      split; [reflexivity|]. split; [reflexivity|].
      exists [is_zone_movable_page pfn]. split; [reflexivity|].
      split; [reflexivity|]. split; [reflexivity|].
      intros z (a & b & [H|[]]). discriminate H. }
  2:{ cbn. lia. }
  intros k w1 (Hk & He & Hflag & HPO & HPD & new & Htr & Hcnt & Hchk & Hans).
  destruct (Z.ltb_spec k 5) as [Hlt|Hge].
  2:{ do 2 eexists. split; [reflexivity|]. exists new.
      assert (k = 5) as -> by lia.
      split; [exact Htr|]. split; [rewrite Hcnt; cbn; lia|].
      split; [exact Hchk|].
      split; [split; [discriminate | rewrite Hflag by lia; discriminate]|].
      split; [split; [discriminate | intros H; apply Hans in H; tauto]|].
      split; [discriminate|].
      split; [split; [discriminate | intros H; apply Hans in H; tauto]|].
      split; [auto|]. split; [auto|]. split; discriminate. }
  destruct (atomic_read_config_changed_spec w1)
    as (b & w2 & E & Hb & Htr2 & He2 & HPO2 & HPD2 & _).
  unfold bind at 1. rewrite E. destruct b.
  { do 2 eexists. split; [reflexivity|]. exists (irq_config_changed :: new).
    split; [rewrite Htr2, Htr; reflexivity|].
    split; [change (count_alloc (irq_config_changed :: new)) with (count_alloc new);
            rewrite Hcnt; lia|].
    split; [exact Hchk|].
    split; [split; [auto | reflexivity]|].
    split; [split; [discriminate|]|].
    { intros H. apply alloc_answered_other in H; [|reflexivity].
      apply Hans in H. tauto. }
    split; [discriminate|].
    split; [split; [discriminate|]|].
    { intros H. apply alloc_answered_other in H; [|reflexivity].
      apply Hans in H. tauto. }
    split; [auto|]. split; [intros _; split; congruence|].
    split; [discriminate | eauto]. }
  unfold bind at 1. unfold extcall at 1.
  set (c := alloc_contig_range pfn (u64 (pfn + nr_pages))).
  set (rc0 := env w2 (trace w2) c).
  set (w3 := with_trace (c :: trace w2) w2).
  assert (Erc0 : rc0 = env w ((irq_config_changed :: new) ++ trace w) c).
  { unfold rc0. rewrite He2, He, Htr2, Htr. reflexivity. }
  assert (Htr3 : trace w3 = (c :: irq_config_changed :: new) ++ trace w).
  { cbn. rewrite Htr2, Htr. reflexivity. }
  assert (Hcnt3 : count_alloc (c :: irq_config_changed :: new) = S (Z.to_nat k)).
  { change (count_alloc (c :: irq_config_changed :: new)) with (S (count_alloc new)).
    rewrite Hcnt. reflexivity. }
  assert (Hchk3 : checked_first (c :: irq_config_changed :: new) = true)
    by exact Hchk.
  assert (Hans3 : forall z,
             alloc_answered (env w) (trace w) (c :: irq_config_changed :: new) z
             <-> z = rc0 \/ alloc_answered (env w) (trace w) new z).
  { intros z. unfold c at 1. rewrite alloc_answered_alloc. fold c. rewrite <- Erc0.
    rewrite alloc_answered_other by reflexivity. reflexivity. }
  assert (Hflag3 : config_changed (vm w3) = false) by (symmetry; exact Hb).

  assert (HPO3 : PageOffline w3 = PageOffline w) by (cbn; congruence).
  assert (HPD3 : PageDirty w3 = PageDirty w) by (cbn; congruence).
  assert (He3 : env w3 = env w) by (cbn; congruence).
  clearbody w3. clear E.
  destruct (Z.eqb_spec rc0 (- ENOMEM)) as [Em|Em].
  { do 2 eexists. split; [reflexivity|].
    exists (c :: irq_config_changed :: new).
    split; [exact Htr3|]. split; [rewrite Hcnt3; lia|]. split; [exact Hchk3|].
    split; [split; [rewrite Em; discriminate | rewrite Hflag3; discriminate]|].
    split; [split; [intros _; apply Hans3; left; symmetry; exact Em | auto]|].
    split; [intros _; unfold c; eauto|].
    split; [split; [rewrite Em; discriminate|]|].
    { intros H. apply Hans3 in H as [H|H];
        [rewrite <- H in Em; discriminate Em | apply Hans in H; tauto]. }
    split; [auto|]. split; [auto|]. rewrite Em. split; discriminate. }
  destruct (nz rc0) eqn:Hnz; cbn [andb].
  2:{ apply nz_false in Hnz.
      unfold virtio_mem_set_fake_offline, bind, modify_PageOffline, extcall, ret.
      cbn [negb]. do 2 eexists. split; [reflexivity|].
      exists (adjust_managed_page_count pfn (- nr_pages)
                :: c :: irq_config_changed :: new).
      split; [cbn; rewrite Htr3; reflexivity|].
      split; [change (count_alloc (adjust_managed_page_count pfn (- nr_pages)
                                     :: c :: irq_config_changed :: new))
                with (count_alloc (c :: irq_config_changed :: new));
              rewrite Hcnt3; lia|].
      split; [exact Hchk3|].
      split; [split; [discriminate | cbn; rewrite Hflag3; discriminate]|].
      split; [split; [discriminate|]|].
      { intros H. apply alloc_answered_other in H; [|reflexivity].
        apply Hans3 in H as [H|H]; [congruence | apply Hans in H; tauto]. }
      split; [discriminate|].
      split; [split; [intros _ | reflexivity]|].
      { apply alloc_answered_other; [reflexivity|]. apply Hans3. left.
        symmetry. exact Hnz. }
      split; [auto|]. split; [intros H; contradiction|].
      split; [|discriminate].
      intros _. cbn. rewrite HPO3. reflexivity. }
  apply nz_true in Hnz.
  assert (Hans' : forall z,
             alloc_answered (env w) (trace w) (c :: irq_config_changed :: new) z ->
             z <> 0 /\ z <> - ENOMEM).
  { intros z H. apply Hans3 in H as [->|H]; [auto | apply Hans, H]. }
  destruct (negb (nz mv)).
  { do 2 eexists. split; [reflexivity|].
    exists (c :: irq_config_changed :: new).
    split; [exact Htr3|]. split; [rewrite Hcnt3; lia|]. split; [exact Hchk3|].
    split; [split; [discriminate | rewrite Hflag3; discriminate]|].
    split; [split; [discriminate | intros H; apply Hans' in H; tauto]|].
    split; [discriminate|].
    split; [split; [discriminate | intros H; apply Hans' in H; tauto]|].
    split; [auto|]. split; [auto|]. split; discriminate. }
  do 2 eexists. split; [reflexivity|]. split; [|lia].
  split; [lia|]. split; [exact He3|]. split; [intros _; exact Hflag3|].
  split; [exact HPO3|]. split; [exact HPD3|].
  exists (c :: irq_config_changed :: new).
  split; [exact Htr3|]. split; [rewrite Hcnt3; lia|]. split; [exact Hchk3|].
  exact Hans'.
Qed.


(** C7.  virtio_mem_fake_offline returns, whatever the kernel answers, and
    calls [alloc_contig_range] at most 5 times.  Every call of
    [alloc_contig_range] comes right after a read of [config_changed]; the
    result is [-EAGAIN] exactly when the configuration has changed by the
    time of the return, and then the read of the flag was its last call.
    The result is [-ENOMEM] exactly when [alloc_contig_range] has answered
    [-ENOMEM], and then this was its last call.  The result is [0] exactly
    when [alloc_contig_range] has succeeded; in every other case, that of
    [-EBUSY] among them, no page has been marked fake-offline.  Here
    [new] are the calls that the function has made, the latest first. *)
Theorem virtio_mem_fake_offline_is_bounded pfn nr_pages w :
  exists rc w' new,
    virtio_mem_fake_offline pfn nr_pages w = Ok rc w' /\
    trace w' = new ++ trace w /\
    (count_alloc new <= 5)%nat /\
    checked_first new = true /\
    (rc = - EAGAIN <-> config_changed (vm w') = true) /\
    (rc = - EAGAIN -> exists rest, new = irq_config_changed :: rest) /\
    (rc = - ENOMEM <-> alloc_answered (env w) (trace w) new (- ENOMEM)) /\
    (rc = - ENOMEM -> exists a b rest, new = alloc_contig_range a b :: rest) /\
    (rc = 0 <-> alloc_answered (env w) (trace w) new 0) /\
    (rc = 0 \/ rc = - EAGAIN \/ rc = - ENOMEM \/ rc = - EBUSY) /\
    (rc <> 0 ->
     PageOffline w' = PageOffline w /\ PageDirty w' = PageDirty w) /\
    (rc = 0 -> PageOffline w' = (true, pfn, nr_pages) :: PageOffline w).
Proof.
  destruct (virtio_mem_fake_offline_returns pfn nr_pages w)
    as (rc & w' & E & new & H1 & H2 & H3 & H4 & H5 & H6 & H7 & H8 & H9 & H10 & H11).
  exists rc, w', new. tauto.
Qed.


(** * The order in which memory blocks are visited for unplug *)

(** ** A walk that writes down its visits

    The walk of virtio_mem_sbm_unplug_request with one more variable: the
    list of the memory blocks on which the operation was called, each with
    the state for which it was visited, in the order of the calls.  Apart
    from that list it is the walk itself. *)

Definition visit : Type := sbm_mb_state * Z.

Fixpoint sbm_unplug_walk_visits (fuel : nat)
    (unplug_any_sb : Z -> Z -> M (Z * Z))
    (i : Z) (states : list sbm_mb_state) (a : Z * list visit)
  : M (Z * list visit) :=
  match states with
  | [] => ret (if nz (fst a) then - EBUSY else 0, snd a)
  | state :: states' =>
      pf <- get_plat ;;
      s <- virtio_mem_sbm_for_each_mb_rev fuel state
             (fun mb_id (a : Z * list visit) =>
                r <- unplug_any_sb mb_id (fst a) ;;
                let '(rc, nb_sb) := r in
                let visits := snd a ++ [(state, mb_id)] in
                if nz rc || (nb_sb =? 0) then ret (Stop (rc, visits))
                else extcall cond_resched ;; ret (Next (nb_sb, visits)))
             a ;;
      match s with
      | Stop r => ret r
      | Next a =>
          if negb (unplug_online pf) && (i =? 1) then ret (0, snd a)
          else sbm_unplug_walk_visits fuel unplug_any_sb (i + 1) states' a
      end
  end.

Definition virtio_mem_sbm_unplug_request_visits (fuel : nat) (diff : Z)
  : M (Z * list visit) :=
  v <- get_vm ;;
  nb_sb <- udiv diff (sb_size (sbm v)) ;;
  if nb_sb =? 0 then ret (0, [])
  else
    sbm_unplug_walk_visits fuel (virtio_mem_sbm_unplug_any_sb fuel) 0
      sbm_unplug_mb_states (nb_sb, []).

(** Forgetting the list gives the walk of the driver. *)
Definition rmap {A B} (f : A -> B) (r : result A) : result B :=
  match r with
  | Ok a w => Ok (f a) w
  | Bug => Bug
  | Fault => Fault
  | Fuel => Fuel
  end.

Definition step_map {A A' R R'} (f : A -> A') (g : R -> R') (s : step A R)
  : step A' R' :=
  match s with
  | Next a => Next (f a)
  | Stop r => Stop (g r)
  end.

Lemma iterate_erase {A A' R R'} (f : A -> A') (g : R -> R')
    (body : A -> M (step A R)) (body' : A' -> M (step A' R')) :
  (forall a w, rmap (step_map f g) (body a w) = body' (f a) w) ->
  forall fuel a w,
    rmap g (iterate fuel body a w) = iterate fuel body' (f a) w.
Proof.
  intros Hb. induction fuel as [|fuel IH]; intros a w; [reflexivity|].
  cbn [iterate]. unfold bind. rewrite <- Hb.
  destruct (body a w) as [[a1|r] w1| | |]; cbn; [apply IH | reflexivity..].
Qed.

Lemma virtio_mem_sbm_for_each_mb_rev_erase {A A' R R'} (f : A -> A')
    (g : R -> R') fuel state
    (body : Z -> A -> M (step A R)) (body' : Z -> A' -> M (step A' R')) :
  (forall mb_id a w,
     rmap (step_map f g) (body mb_id a w) = body' mb_id (f a) w) ->
  forall a w,
    rmap (step_map f g) (virtio_mem_sbm_for_each_mb_rev fuel state body a w)
    = virtio_mem_sbm_for_each_mb_rev fuel state body' (f a) w.
Proof.
  intros Hb a w. unfold virtio_mem_sbm_for_each_mb_rev, bind, get_vm.
  apply (iterate_erase (fun p : Z * A => (fst p, f (snd p))) (step_map f g)).
  intros [mb_id a1] w1. cbn [fst snd].
  destruct (_ && _); [|reflexivity].
  destruct (virtio_mem_sbm_get_mb_state mb_id w1) as [st w2| | |];
    [|reflexivity..].
  destruct (decide (st = state)); [|reflexivity].
  rewrite <- Hb.
  destruct (body mb_id a1 w2) as [[a2|r] w3| | |]; reflexivity.
Qed.

Lemma sbm_unplug_walk_erase fuel op states :
  forall i a w,
    rmap fst (sbm_unplug_walk_visits fuel op i states a w)
    = sbm_unplug_walk fuel op i states (fst a) w.
Proof.
  induction states as [|state states IH]; intros i a w; [reflexivity|].
  cbn [sbm_unplug_walk_visits sbm_unplug_walk].
  match goal with
  | |- context [virtio_mem_sbm_for_each_mb_rev fuel state ?b a] =>
      set (body := b)
  end.
  match goal with
  | |- context [virtio_mem_sbm_for_each_mb_rev fuel state ?b (fst a)] =>
      set (body' := b)
  end.
  assert (Hb : forall mb_id a w,
             rmap (step_map fst fst) (body mb_id a w) = body' mb_id (fst a) w).
  { intros mb_id a1 w1. unfold body, body', bind.
    destruct (op mb_id (fst a1) w1) as [[rc nb] w2| | |]; [|reflexivity..].
    destruct (_ || _); reflexivity. }
  pose proof (virtio_mem_sbm_for_each_mb_rev_erase fst fst fuel state
                body body' Hb a w) as E.
  unfold bind, get_plat. rewrite <- E.
  destruct (virtio_mem_sbm_for_each_mb_rev fuel state body a w)
    as [[a1|r] w1| | |]; cbn; [|reflexivity..].
  destruct (_ && _); [reflexivity | apply IH].
Qed.

Lemma virtio_mem_sbm_unplug_request_erase fuel diff w :
  rmap fst (virtio_mem_sbm_unplug_request_visits fuel diff w)
  = virtio_mem_sbm_unplug_request fuel diff w.
Proof.
  unfold virtio_mem_sbm_unplug_request_visits, virtio_mem_sbm_unplug_request,
    bind, get_vm.
  destruct (udiv _ _ _) as [nb w1| | |]; [|reflexivity..].
  destruct (nb =? 0); [reflexivity|]. apply sbm_unplug_walk_erase.
Qed.


(** ** The order of the visits *)

(** The place of a state in [mb_states[]] of virtio_mem_sbm_unplug_request;
    [UNUSED] and [PLUGGED], which are not in the array, come last. *)
Definition unplug_rank (s : sbm_mb_state) : Z :=
  match s with
  | VIRTIO_MEM_SBM_MB_OFFLINE_PARTIAL => 0
  | VIRTIO_MEM_SBM_MB_OFFLINE => 1
  | VIRTIO_MEM_SBM_MB_MOVABLE_PARTIAL => 2
  | VIRTIO_MEM_SBM_MB_KERNEL_PARTIAL => 3
  | VIRTIO_MEM_SBM_MB_MOVABLE => 4
  | VIRTIO_MEM_SBM_MB_KERNEL => 5
  | VIRTIO_MEM_SBM_MB_UNUSED | VIRTIO_MEM_SBM_MB_PLUGGED => 6
  end.

(** [u] is visited before [v]: for a state that comes earlier in the
    array, or for the same state and with the larger id. *)
Definition visit_before (u v : visit) : Prop :=
  unplug_rank (fst u) < unplug_rank (fst v)
  \/ (fst u = fst v /\ snd v < snd u).

(** A visit is for a state of the array and for an id from [first_mb_id]
    up to [next_mb_id - 1]; with [unplug_online] unset it is for one of the
    two offline states. *)
Definition visit_ok (w : world) (u : visit) : Prop :=
  unplug_rank (fst u) <= 5 /\
  first_mb_id (sbm (vm w)) <= snd u < next_mb_id (sbm (vm w)) /\
  (unplug_online (plat w) = false -> unplug_rank (fst u) <= 1).

(** Unplugging from a memory block leaves [next_mb_id] alone. *)
Definition nextR (w w' : world) : Prop :=
  next_mb_id (sbm (vm w')) = next_mb_id (sbm (vm w)).

#[global] Instance nextR_preorder : PreOrder nextR.
Proof.
  unfold nextR. split; [intros w; reflexivity | intros w1 w2 w3; congruence].
Qed.

Ltac next_side := intros; reflexivity.

Lemma nextR_virtio_mem_sbm_set_mb_state mb_id state :
  keeps nextR (virtio_mem_sbm_set_mb_state mb_id state).
Proof. unfold virtio_mem_sbm_set_mb_state. keeps_auto next_side. Qed.
#[global] Hint Resolve nextR_virtio_mem_sbm_set_mb_state : keeps.

Lemma nextR_virtio_mem_sbm_set_sb_unplugged mb_id sb_id count :
  keeps nextR (virtio_mem_sbm_set_sb_unplugged mb_id sb_id count).
Proof. unfold virtio_mem_sbm_set_sb_unplugged. keeps_auto next_side. Qed.
#[global] Hint Resolve nextR_virtio_mem_sbm_set_sb_unplugged : keeps.

Lemma nextR_virtio_mem_sbm_test_sb_plugged mb_id sb_id count :
  keeps nextR (virtio_mem_sbm_test_sb_plugged mb_id sb_id count).
Proof. unfold virtio_mem_sbm_test_sb_plugged. keeps_auto next_side. Qed.
#[global] Hint Resolve nextR_virtio_mem_sbm_test_sb_plugged : keeps.

Lemma nextR_virtio_mem_sbm_test_sb_unplugged mb_id sb_id count :
  keeps nextR (virtio_mem_sbm_test_sb_unplugged mb_id sb_id count).
Proof. unfold virtio_mem_sbm_test_sb_unplugged. keeps_auto next_side. Qed.
#[global] Hint Resolve nextR_virtio_mem_sbm_test_sb_unplugged : keeps.

Lemma nextR_virtio_mem_send_unplug_request fuel addr size memmap :
  keeps nextR (virtio_mem_send_unplug_request fuel addr size memmap).
Proof. unfold virtio_mem_send_unplug_request. keeps_auto next_side. Qed.
#[global] Hint Resolve nextR_virtio_mem_send_unplug_request : keeps.

Lemma nextR_virtio_mem_unplug_memmap fuel addr :
  keeps nextR (virtio_mem_unplug_memmap fuel addr).
Proof. unfold virtio_mem_unplug_memmap. keeps_auto next_side. Qed.
#[global] Hint Resolve nextR_virtio_mem_unplug_memmap : keeps.

Lemma nextR_virtio_mem_retry  :
  keeps nextR (virtio_mem_retry ).
Proof. unfold virtio_mem_retry. keeps_auto next_side. Qed.
#[global] Hint Resolve nextR_virtio_mem_retry : keeps.

Lemma nextR_atomic64_add_offline_size d :
  keeps nextR (atomic64_add_offline_size d).
Proof. unfold atomic64_add_offline_size. keeps_auto next_side. Qed.
#[global] Hint Resolve nextR_atomic64_add_offline_size : keeps.

Lemma nextR_virtio_mem_set_fake_offline pfn nr_pages onlined :
  keeps nextR (virtio_mem_set_fake_offline pfn nr_pages onlined).
Proof. unfold virtio_mem_set_fake_offline. keeps_auto next_side. Qed.
#[global] Hint Resolve nextR_virtio_mem_set_fake_offline : keeps.

Lemma nextR_virtio_mem_clear_fake_offline pfn nr_pages onlined :
  keeps nextR (virtio_mem_clear_fake_offline pfn nr_pages onlined).
Proof. unfold virtio_mem_clear_fake_offline. keeps_auto next_side. Qed.
#[global] Hint Resolve nextR_virtio_mem_clear_fake_offline : keeps.

Lemma nextR_virtio_mem_fake_online fuel pfn nr_pages :
  keeps nextR (virtio_mem_fake_online fuel pfn nr_pages).
Proof. unfold virtio_mem_fake_online. keeps_auto next_side. Qed.
#[global] Hint Resolve nextR_virtio_mem_fake_online : keeps.

Lemma nextR_virtio_mem_config_changed  :
  keeps nextR (virtio_mem_config_changed ).
Proof. unfold virtio_mem_config_changed. keeps_auto next_side. Qed.
#[global] Hint Resolve nextR_virtio_mem_config_changed : keeps.

Lemma nextR_atomic_read_config_changed  :
  keeps nextR (atomic_read_config_changed ).
Proof. unfold atomic_read_config_changed. keeps_auto next_side. Qed.
#[global] Hint Resolve nextR_atomic_read_config_changed : keeps.

Lemma nextR_virtio_mem_fake_offline pfn nr_pages :
  keeps nextR (virtio_mem_fake_offline pfn nr_pages).
Proof. unfold virtio_mem_fake_offline. keeps_auto next_side. Qed.
#[global] Hint Resolve nextR_virtio_mem_fake_offline : keeps.

Lemma nextR_virtio_mem_fake_offline_going_offline fuel pfn nr_pages :
  keeps nextR (virtio_mem_fake_offline_going_offline fuel pfn nr_pages).
Proof. unfold virtio_mem_fake_offline_going_offline. keeps_auto next_side. Qed.
#[global] Hint Resolve nextR_virtio_mem_fake_offline_going_offline : keeps.

Lemma nextR_virtio_mem_fake_offline_cancel_offline fuel pfn nr_pages :
  keeps nextR (virtio_mem_fake_offline_cancel_offline fuel pfn nr_pages).
Proof. unfold virtio_mem_fake_offline_cancel_offline. keeps_auto next_side. Qed.
#[global] Hint Resolve nextR_virtio_mem_fake_offline_cancel_offline : keeps.

Lemma nextR_virtio_mem_sbm_notify_going_online mb_id :
  keeps nextR (virtio_mem_sbm_notify_going_online mb_id).
Proof. unfold virtio_mem_sbm_notify_going_online. keeps_auto next_side. Qed.
#[global] Hint Resolve nextR_virtio_mem_sbm_notify_going_online : keeps.

Lemma nextR_virtio_mem_sbm_notify_offline mb_id :
  keeps nextR (virtio_mem_sbm_notify_offline mb_id).
Proof. unfold virtio_mem_sbm_notify_offline. keeps_auto next_side. Qed.
#[global] Hint Resolve nextR_virtio_mem_sbm_notify_offline : keeps.

Lemma nextR_virtio_mem_sbm_notify_online mb_id start_pfn :
  keeps nextR (virtio_mem_sbm_notify_online mb_id start_pfn).
Proof. unfold virtio_mem_sbm_notify_online. keeps_auto next_side. Qed.
#[global] Hint Resolve nextR_virtio_mem_sbm_notify_online : keeps.

Lemma nextR_virtio_mem_sbm_notify_going_offline fuel mb_id :
  keeps nextR (virtio_mem_sbm_notify_going_offline fuel mb_id).
Proof. unfold virtio_mem_sbm_notify_going_offline. keeps_auto next_side. Qed.
#[global] Hint Resolve nextR_virtio_mem_sbm_notify_going_offline : keeps.

Lemma nextR_virtio_mem_sbm_notify_cancel_offline fuel mb_id :
  keeps nextR (virtio_mem_sbm_notify_cancel_offline fuel mb_id).
Proof. unfold virtio_mem_sbm_notify_cancel_offline. keeps_auto next_side. Qed.
#[global] Hint Resolve nextR_virtio_mem_sbm_notify_cancel_offline : keeps.

Lemma nextR_virtio_mem_bbm_notify_going_offline fuel bb_id pfn nr_pages :
  keeps nextR (virtio_mem_bbm_notify_going_offline fuel bb_id pfn nr_pages).
Proof. unfold virtio_mem_bbm_notify_going_offline. keeps_auto next_side. Qed.
#[global] Hint Resolve nextR_virtio_mem_bbm_notify_going_offline : keeps.

Lemma nextR_virtio_mem_bbm_notify_cancel_offline fuel bb_id pfn nr_pages :
  keeps nextR (virtio_mem_bbm_notify_cancel_offline fuel bb_id pfn nr_pages).
Proof. unfold virtio_mem_bbm_notify_cancel_offline. keeps_auto next_side. Qed.
#[global] Hint Resolve nextR_virtio_mem_bbm_notify_cancel_offline : keeps.

Lemma nextR_virtio_mem_memory_notifier_cb fuel action mhp :
  keeps nextR (virtio_mem_memory_notifier_cb fuel action mhp).
Proof. unfold virtio_mem_memory_notifier_cb. keeps_auto next_side. Qed.
#[global] Hint Resolve nextR_virtio_mem_memory_notifier_cb : keeps.

Lemma nextR_virtio_mem_online_page fuel pfn order :
  keeps nextR (virtio_mem_online_page fuel pfn order).
Proof. unfold virtio_mem_online_page. cbv zeta. keeps_auto next_side. Qed.
#[global] Hint Resolve nextR_virtio_mem_online_page : keeps.

Lemma nextR_virtio_mem_online_page_cb fuel pfn order :
  keeps nextR (virtio_mem_online_page_cb fuel pfn order).
Proof. unfold virtio_mem_online_page_cb. keeps_auto next_side. Qed.
#[global] Hint Resolve nextR_virtio_mem_online_page_cb : keeps.

Lemma nextR_kernel_callbacks fuel :
  keeps nextR (kernel_callbacks fuel).
Proof. unfold kernel_callbacks. keeps_auto next_side. Qed.
#[global] Hint Resolve nextR_kernel_callbacks : keeps.

Lemma nextR_virtio_mem_remove_memory fuel addr size :
  keeps nextR (virtio_mem_remove_memory fuel addr size).
Proof. unfold virtio_mem_remove_memory. keeps_auto next_side. Qed.
#[global] Hint Resolve nextR_virtio_mem_remove_memory : keeps.

Lemma nextR_virtio_mem_sbm_remove_mb fuel mb_id :
  keeps nextR (virtio_mem_sbm_remove_mb fuel mb_id).
Proof. unfold virtio_mem_sbm_remove_mb. keeps_auto next_side. Qed.
#[global] Hint Resolve nextR_virtio_mem_sbm_remove_mb : keeps.

Lemma nextR_virtio_mem_offline_and_remove_memory fuel addr size :
  keeps nextR (virtio_mem_offline_and_remove_memory fuel addr size).
Proof. unfold virtio_mem_offline_and_remove_memory. keeps_auto next_side. Qed.
#[global] Hint Resolve nextR_virtio_mem_offline_and_remove_memory : keeps.

Lemma nextR_virtio_mem_sbm_offline_and_remove_mb fuel mb_id :
  keeps nextR (virtio_mem_sbm_offline_and_remove_mb fuel mb_id).
Proof. unfold virtio_mem_sbm_offline_and_remove_mb. keeps_auto next_side. Qed.
#[global] Hint Resolve nextR_virtio_mem_sbm_offline_and_remove_mb : keeps.

Lemma nextR_virtio_mem_sbm_try_remove_unplugged_mb fuel mb_id :
  keeps nextR (virtio_mem_sbm_try_remove_unplugged_mb fuel mb_id).
Proof. unfold virtio_mem_sbm_try_remove_unplugged_mb. keeps_auto next_side. Qed.
#[global] Hint Resolve nextR_virtio_mem_sbm_try_remove_unplugged_mb : keeps.

Lemma nextR_virtio_mem_sbm_unplug_sb fuel mb_id sb_id count :
  keeps nextR (virtio_mem_sbm_unplug_sb fuel mb_id sb_id count).
Proof. unfold virtio_mem_sbm_unplug_sb. keeps_auto next_side. Qed.
#[global] Hint Resolve nextR_virtio_mem_sbm_unplug_sb : keeps.

Lemma nextR_virtio_mem_sbm_unplug_any_sb_raw fuel mb_id nb_sb :
  keeps nextR (virtio_mem_sbm_unplug_any_sb_raw fuel mb_id nb_sb).
Proof. unfold virtio_mem_sbm_unplug_any_sb_raw. keeps_auto next_side. Qed.
#[global] Hint Resolve nextR_virtio_mem_sbm_unplug_any_sb_raw : keeps.

Lemma nextR_virtio_mem_sbm_unplug_any_sb_offline fuel mb_id nb_sb :
  keeps nextR (virtio_mem_sbm_unplug_any_sb_offline fuel mb_id nb_sb).
Proof. unfold virtio_mem_sbm_unplug_any_sb_offline. keeps_auto next_side. Qed.
#[global] Hint Resolve nextR_virtio_mem_sbm_unplug_any_sb_offline : keeps.

Lemma nextR_virtio_mem_sbm_unplug_sb_online fuel mb_id sb_id count :
  keeps nextR (virtio_mem_sbm_unplug_sb_online fuel mb_id sb_id count).
Proof. unfold virtio_mem_sbm_unplug_sb_online. keeps_auto next_side. Qed.
#[global] Hint Resolve nextR_virtio_mem_sbm_unplug_sb_online : keeps.

Lemma nextR_virtio_mem_sbm_unplug_any_sb_online fuel mb_id nb_sb :
  keeps nextR (virtio_mem_sbm_unplug_any_sb_online fuel mb_id nb_sb).
Proof. unfold virtio_mem_sbm_unplug_any_sb_online. keeps_auto next_side. Qed.
#[global] Hint Resolve nextR_virtio_mem_sbm_unplug_any_sb_online : keeps.

Lemma nextR_virtio_mem_sbm_unplug_any_sb fuel mb_id nb_sb :
  keeps nextR (virtio_mem_sbm_unplug_any_sb fuel mb_id nb_sb).
Proof. unfold virtio_mem_sbm_unplug_any_sb. keeps_auto next_side. Qed.
#[global] Hint Resolve nextR_virtio_mem_sbm_unplug_any_sb : keeps.

(** What the walk keeps: the configuration and [next_mb_id]. *)
Definition walkR (w w' : world) : Prop := cfgR w w' /\ nextR w w'.

#[global] Instance walkR_preorder : PreOrder walkR.
Proof.
  unfold walkR. split.
  - intros w. split; reflexivity.
  - intros w1 w2 w3 [? ?] [? ?]. split; etransitivity; eassumption.
Qed.

Lemma keeps_walkR {A} (m : M A) :
  keeps cfgR m -> keeps nextR m -> keeps walkR m.
Proof. intros H1 H2 w. apply wlp_conj; [apply H1 | apply H2]. Qed.

Lemma cfgR_first_mb_id w w' :
  cfgR w w' -> first_mb_id (sbm (vm w')) = first_mb_id (sbm (vm w)).
Proof. intros [E _]. unfold cfg_of in E. congruence. Qed.

Lemma wlp_bind_assoc {A B C} (m : M A) (k1 : A -> M B) (k2 : B -> M C) Q w :
  wlp (bind m (fun x => bind (k1 x) k2)) Q w ->
  wlp (bind (bind m k1) k2) Q w.
Proof. unfold wlp, bind. destruct (m w); auto. Qed.

Lemma sbm_unplug_walk_visits_ordered fuel op w0 :
  (forall mb_id nb_sb, keeps walkR (op mb_id nb_sb)) ->
  0 < first_mb_id (sbm (vm w0)) ->
  0 < next_mb_id (sbm (vm w0)) < U64 ->
  forall states i a w,
    walkR w0 w ->
    (forall j st, states !! j = Some st -> unplug_rank st = i + Z.of_nat j) ->
    (unplug_online (plat w0) = false -> i <= 1) ->
    i + Z.of_nat (length states) <= 6 ->
    StronglySorted visit_before (snd a) ->
    Forall (fun u => unplug_rank (fst u) < i) (snd a) ->
    Forall (visit_ok w0) (snd a) ->
    wlp (sbm_unplug_walk_visits fuel op i states a)
        (fun r _ => StronglySorted visit_before (snd r) /\
                    Forall (visit_ok w0) (snd r)) w.
Proof.
  intros Hop Hfirst Hnext. induction states as [|state states IH];
    intros i a w C Hrank Honl Hlen Hs Hlt Hok.
  { apply wlp_ret. cbn. auto. }
  cbn [sbm_unplug_walk_visits]. apply wlp_get_plat.
  assert (Hst : unplug_rank state = i).
  { rewrite (Hrank 0%nat state eq_refl). cbn. lia. }
  eapply wlp_bind_post.
  { unfold virtio_mem_sbm_for_each_mb_rev. apply wlp_get_vm.
    apply (wlp_iterate
             (fun (p : Z * (Z * list visit)) w1 =>
                walkR w0 w1 /\ is_u64 (fst p) /\
                fst p < next_mb_id (sbm (vm w0)) /\
                StronglySorted visit_before (snd (snd p)) /\
                Forall (visit_ok w0) (snd (snd p)) /\
                Forall (fun u => unplug_rank (fst u) < i
                                 \/ (fst u = state /\ fst p < snd u))
                  (snd (snd p)))
             (fun (s : step (Z * list visit) (Z * list visit)) w1 =>
                walkR w0 w1 /\
                match s with
                | Next a1 =>
                    StronglySorted visit_before (snd a1) /\
                    Forall (visit_ok w0) (snd a1) /\
                    Forall (fun u => unplug_rank (fst u) < i + 1) (snd a1)
                | Stop r =>
                    StronglySorted visit_before (snd r) /\
                    Forall (visit_ok w0) (snd r)
                end)).
    - intros [mb_id [nb visits]] w1 (C1 & Hid & Hup & Hs1 & Hok1 & Hb1).
      cbn [fst snd] in *. apply wlp_get_vm.
      destruct (_ && _) eqn:Hguard.
      2:{ apply wlp_ret. split; [exact C1|]. split; [exact Hs1|].
          split; [exact Hok1|].
          eapply Forall_impl; [exact Hb1|]. cbn. intros u [H|[H _]]; [lia|].
          rewrite H. lia. }
      apply andb_prop in Hguard as [Hge _]. apply Z.leb_le in Hge.
      rewrite (cfgR_first_mb_id _ _ (proj1 C1)) in Hge.
      assert (Eprev : u64 (mb_id - 1) = mb_id - 1)
        by (apply u64_small; unfold is_u64 in *; lia).
      eapply (wlp_bind_keeps walkR); [apply keeps_virtio_mem_sbm_get_mb_state;
                                      typeclasses eauto|].
      intros st w2 C2.
      destruct (decide (st = state)) as [->|Hne].
      2:{ apply wlp_ret. split; [transitivity w1; assumption|].
          cbn [fst snd]. split; [apply u64_is_u64|]. split; [lia|].
          split; [exact Hs1|]. split; [exact Hok1|].
          eapply Forall_impl; [exact Hb1|]. cbn. intros u [H|[H H']]; [auto|].
          right. split; [exact H | lia]. }
      apply wlp_bind_assoc.
      eapply (wlp_bind_keeps walkR); [apply Hop|].
      intros [rc nb'] w3 C3.
      assert (C03 : walkR w0 w3)
        by (transitivity w1; [exact C1|]; transitivity w2; assumption).
      assert (Hs3 : StronglySorted visit_before (visits ++ [(state, mb_id)])).
      { apply StronglySorted_app_2; [|exact Hs1|repeat constructor].
        intros x1 x2 Hx1 Hx2. apply list_elem_of_singleton in Hx2 as ->.
        rewrite Forall_forall in Hb1. destruct (Hb1 x1 Hx1) as [H|[H H']].
        - left. cbn [fst snd]. rewrite Hst. exact H.
        - right. cbn [fst snd]. auto. }
      assert (Hok3 : Forall (visit_ok w0) (visits ++ [(state, mb_id)])).
      { apply Forall_app. split; [exact Hok1|]. repeat constructor; cbn [fst snd].
        - cbn [length] in Hlen. lia.
        - exact Hge.
        - exact Hup.
        - intros Ho. specialize (Honl Ho). lia. }
      destruct (_ || _).
      + unfold wlp, bind, ret. cbn. auto.
      + unfold wlp, bind, ret, extcall. cbn [fst snd].
        split; [transitivity w3; [exact C03 | split; [cfg_side | reflexivity]]|].
        split; [apply u64_is_u64|]. split; [lia|].
        split; [exact Hs3|]. split; [exact Hok3|].
        apply Forall_app. split.
        * eapply Forall_impl; [exact Hb1|]. cbn.
          intros u [H|[H H']]; [auto|]. right. split; [exact H | lia].
        * constructor; [|constructor]. cbn [fst snd]. right.
          split; [reflexivity | lia].
    - cbn [fst snd]. split; [exact C|]. split; [apply u64_is_u64|].
      split.
      { pose proof (proj2 C) as Hn. unfold nextR in Hn. rewrite Hn.
        rewrite u64_small; lia. }
      split; [exact Hs|]. split; [exact Hok|].
      eapply Forall_impl; [exact Hlt|]. cbn. auto. }
  cbn beta. intros [a1|r] w1 [C1 H1].
  2:{ apply wlp_ret. exact H1. }
  destruct H1 as (Hs1 & Hok1 & Hlt1).
  destruct (_ && _) eqn:Hstop; [apply wlp_ret; cbn; auto|].
  apply IH; try assumption.
  - intros j st Hj. rewrite (Hrank (S j) st Hj). lia.
  - intros Ho. specialize (Honl Ho).
    rewrite (cfgR_plat _ _ (proj1 C)), Ho in Hstop. cbn in Hstop.
    apply Z.eqb_neq in Hstop. lia.
  - cbn [length] in Hlen. lia.
Qed.


Lemma sbm_unplug_mb_states_rank j st :
  sbm_unplug_mb_states !! j = Some st -> unplug_rank st = 0 + Z.of_nat j.
Proof.
  do 6 (destruct j as [|j]; [intros [= <-]; reflexivity|]).
  cbn. discriminate.
Qed.

Lemma virtio_mem_sbm_unplug_request_visits_ordered fuel diff w :
  0 < first_mb_id (sbm (vm w)) ->
  0 < next_mb_id (sbm (vm w)) < U64 ->
  wlp (virtio_mem_sbm_unplug_request_visits fuel diff)
      (fun r _ => StronglySorted visit_before (snd r) /\
                  Forall (visit_ok w) (snd r)) w.
Proof.
  intros Hfirst Hnext. unfold virtio_mem_sbm_unplug_request_visits.
  apply wlp_get_vm. apply wlp_udiv. intros _.
  destruct (_ =? 0).
  { apply wlp_ret. cbn. split; constructor. }
  apply sbm_unplug_walk_visits_ordered; cbn [snd length];
    try solve [constructor].
  - intros mb_id nb_sb. apply keeps_walkR.
    + apply cfgR_virtio_mem_sbm_unplug_any_sb.
    + apply nextR_virtio_mem_sbm_unplug_any_sb.
  - exact Hfirst.
  - exact Hnext.
  - reflexivity.
  - exact sbm_unplug_mb_states_rank.
  - intros _. lia.
  - reflexivity.
Qed.

(** C6, amended.  virtio_mem_sbm_unplug_request calls
    virtio_mem_sbm_unplug_any_sb on the memory blocks in this order: by
    the state for which a block is visited, in the order [OFFLINE_PARTIAL],
    [OFFLINE], [MOVABLE_PARTIAL], [KERNEL_PARTIAL], [MOVABLE], [KERNEL],
    that is offline blocks first, then partially plugged online blocks,
    then fully plugged online blocks, in each of the two the movable ones
    before the kernel ones; and for one state by descending id, from
    [next_mb_id - 1] at most down to [first_mb_id] at least, both of which
    are taken to be positive.  With
    [unplug_online] unset only blocks in the two offline states are
    visited.  The visits are those of the walk that writes them down,
    which returns what the request returns. *)
Theorem sbm_unplug_request_visit_order fuel diff w rc w' :
  0 < first_mb_id (sbm (vm w)) ->
  0 < next_mb_id (sbm (vm w)) < U64 ->
  virtio_mem_sbm_unplug_request fuel diff w = Ok rc w' ->
  exists visits,
    virtio_mem_sbm_unplug_request_visits fuel diff w = Ok (rc, visits) w' /\
    StronglySorted visit_before visits /\
    Forall (visit_ok w) visits.
Proof.
  intros Hfirst Hnext E.
  pose proof (virtio_mem_sbm_unplug_request_erase fuel diff w) as Her.
  pose proof (virtio_mem_sbm_unplug_request_visits_ordered fuel diff w Hfirst
                Hnext) as Hord.
  unfold wlp in Hord.
  destruct (virtio_mem_sbm_unplug_request_visits fuel diff w)
    as [[rc1 visits] w1| | |]; cbn [rmap fst] in Her; rewrite E in Her;
    try discriminate.
  injection Her as -> ->. exists visits. split; [reflexivity | exact Hord].
Qed.


(** Two memory blocks that are online: block 8 in a kernel zone with half
    of its subblocks plugged, block 9 in the movable zone and fully
    plugged.  Nothing is requested, and every page is busy. *)
Definition two_online_mbs : sbm_t :=
  Sbm 8 10 15 (2 ^ 22) 32 false
    (sbm_table (fun s => if decide (s = VIRTIO_MEM_SBM_MB_KERNEL_PARTIAL) then 1
                         else if decide (s = VIRTIO_MEM_SBM_MB_MOVABLE) then 1
                         else 0))
    (VIRTIO_MEM_SBM_MB_KERNEL_PARTIAL :: VIRTIO_MEM_SBM_MB_MOVABLE
       :: replicate (Z.to_nat 4094) VIRTIO_MEM_SBM_MB_UNUSED)
    (replicate 16 true ++ replicate 16 false ++ replicate 32 true
       ++ replicate (Z.to_nat 32704) false).

Definition env_busy (tr : list call) (c : call) : Z :=
  match c with
  | alloc_contig_range _ _ => - EBUSY
  | _ => env_ok tr c
  end.

Definition busy_world : world :=
  example_world (example_platform true) env_busy
    (example_sbm_device two_online_mbs 0 (48 * 2 ^ 22) false).

(** C6, as stated, fails: block 8, which is in a kernel zone, is visited
    before block 9, which is in the movable zone.  And with the module
    parameter [unplug_online] unset a block that is online is not visited
    at all: the request for the 32 subblocks of the one block of the
    example device, which is online in a kernel zone, returns [0] without
    a visit. *)
Lemma kernel_partial_before_movable :
  match virtio_mem_sbm_unplug_request_visits 100 (48 * 2 ^ 22) busy_world with
  | Ok (rc, visits) w' =>
      virtio_mem_sbm_unplug_request 100 (48 * 2 ^ 22) busy_world = Ok rc w' /\
      visits = [ (VIRTIO_MEM_SBM_MB_KERNEL_PARTIAL, 8);
                 (VIRTIO_MEM_SBM_MB_MOVABLE, 9) ]
  | _ => False
  end /\
  match virtio_mem_sbm_unplug_request_visits 100 (2 ^ 27) stuck_world with
  | Ok (rc, visits) w' => rc = 0 /\ visits = []
  | _ => False
  end.
Proof.
  split; [|vm_compute; split; reflexivity].
  pose proof (virtio_mem_sbm_unplug_request_erase 100 (48 * 2 ^ 22) busy_world)
    as Her.
  destruct (virtio_mem_sbm_unplug_request_visits 100 (48 * 2 ^ 22) busy_world)
    as [[rc visits] w'| | |] eqn:E; cbn [rmap fst] in Her.
  - split; [symmetry; exact Her|].
    assert (Hv : snd (fst (run_result
                             (virtio_mem_sbm_unplug_request_visits 100
                                (48 * 2 ^ 22) busy_world) (0, []) busy_world))
                 = [ (VIRTIO_MEM_SBM_MB_KERNEL_PARTIAL, 8);
                     (VIRTIO_MEM_SBM_MB_MOVABLE, 9) ])
      by (vm_compute; reflexivity).
    rewrite E in Hv. exact Hv.
  - assert (Hok : is_ok (virtio_mem_sbm_unplug_request_visits 100
                           (48 * 2 ^ 22) busy_world) = true)
      by (vm_compute; reflexivity).
    rewrite E in Hok. discriminate.
  - assert (Hok : is_ok (virtio_mem_sbm_unplug_request_visits 100
                           (48 * 2 ^ 22) busy_world) = true)
      by (vm_compute; reflexivity).
    rewrite E in Hok. discriminate.
  - assert (Hok : is_ok (virtio_mem_sbm_unplug_request_visits 100
                           (48 * 2 ^ 22) busy_world) = true)
      by (vm_compute; reflexivity).
    rewrite E in Hok. discriminate.
Qed.

Definition busy_run : Z * world :=
  run_result (virtio_mem_sbm_unplug_request 100 (48 * 2 ^ 22) busy_world)
    0 busy_world.

Lemma busy_run_ok :
  virtio_mem_sbm_unplug_request 100 (48 * 2 ^ 22) busy_world
  = Ok (fst busy_run) (snd busy_run).
Proof.
  refine (run_result_ok _ 0 busy_world _). vm_compute. reflexivity.
Qed.

Lemma sbm_unplug_request_visit_order_witness :
  exists visits,
    virtio_mem_sbm_unplug_request_visits 100 (48 * 2 ^ 22) busy_world
    = Ok (fst busy_run, visits) (snd busy_run) /\
    StronglySorted visit_before visits /\
    Forall (visit_ok busy_world) visits.
Proof.
  refine (sbm_unplug_request_visit_order 100 (48 * 2 ^ 22) busy_world
            (fst busy_run) (snd busy_run) _ _ busy_run_ok).
  - reflexivity.
  - vm_compute. split; reflexivity.
Defined.




(** * Further properties of the driver

    Properties of the functions above that are read off the source. *)

(** ** The subblock bitmap *)

Lemma find_next_from_spec v map n :
  forall i size z,
    0 <= i -> size = i + Z.of_nat n ->
    find_next_from v map n i size = Some z ->
    i <= z <= size /\
    (z < size -> map !! Z.to_nat z = Some v) /\
    (forall j, i <= j < z -> map !! Z.to_nat j = Some (negb v)).
Proof.
  induction n as [|n IH]; intros i size z Hi Hsz E; cbn in E.
  - injection E as <-. split; [lia|]. split; [lia|]. intros j Hj. lia.
  - destruct (map !! Z.to_nat i) as [b|] eqn:Hb; [|discriminate].
    destruct (Bool.eqb b v) eqn:Hbv.
    + injection E as <-. apply Bool.eqb_prop in Hbv. subst b.
      split; [lia|]. split; [intros _; exact Hb|]. intros j Hj. lia.
    + apply IH in E; [|lia|lia]. destruct E as (Hz & Hv & Hbelow).
      split; [lia|]. split; [exact Hv|]. intros j Hj.
      destruct (Z.eq_dec j i) as [->|Hne]; [|apply Hbelow; lia].
      rewrite Hb. f_equal. destruct b, v; try reflexivity; discriminate.
Qed.

Lemma find_next_spec v map size offset z :
  find_next v map size offset = Some z ->
  0 <= offset /\ 0 <= size /\
  Z.min offset size <= z <= size /\
  (z < size -> map !! Z.to_nat z = Some v) /\
  (forall j, offset <= j < z -> map !! Z.to_nat j = Some (negb v)).
Proof.
  unfold find_next. destruct (_ || _) eqn:Hneg; [discriminate|].
  apply orb_false_elim in Hneg as [Ho Hs].
  apply Z.ltb_ge in Ho. apply Z.ltb_ge in Hs.
  destruct (Z.leb_spec size offset) as [Hle|Hlt].
  - intros [= <-]. split; [lia|]. split; [lia|]. split; [lia|].
    split; [lia|]. intros j Hj. lia.
  - intros E. apply find_next_from_spec in E; [|lia|lia].
    destruct E as (Hz & Hv & Hbelow). repeat split; try lia; assumption.
Qed.

(** All of the [count] bits from [bit] on have the value [v]. *)
Definition bits_are (v : bool) (map : list bool) (bit count : Z) : Prop :=
  forall k, 0 <= k < count -> map !! Z.to_nat (bit + k) = Some v.

Lemma find_next_all v map bit count z :
  find_next (negb v) map (bit + count) bit = Some z ->
  (bit + count <=? z) = true <-> bits_are v map bit count.
Proof.
  intros E. apply find_next_spec in E.
  destruct E as (Hb & Hs & Hz & Hv & Hbelow).
  rewrite Bool.negb_involutive in Hbelow.
  rewrite Z.leb_le. split.
  - intros Hle k Hk. apply Hbelow. lia.
  - intros Hall. destruct (Z.le_gt_cases (bit + count) z) as [?|Hlt]; [assumption|].
    exfalso. specialize (Hv Hlt).
    assert (Hk : 0 <= z - bit < count) by lia.
    specialize (Hall (z - bit) Hk).
    replace (bit + (z - bit)) with z in Hall by ring.
    rewrite Hv in Hall. injection Hall. destruct v; discriminate.
Qed.


Lemma virtio_mem_sbm_test_sb_plugged_spec mb_id sb_id count w b w' :
  virtio_mem_sbm_test_sb_plugged mb_id sb_id count w = Ok b w' ->
  w' = w /\
  (b = true <->
   bits_are true (sb_states (sbm (vm w)))
     (virtio_mem_sbm_sb_state_bit_nr (vm w) mb_id sb_id) count).
Proof.
  unfold virtio_mem_sbm_test_sb_plugged, bind, get_vm, lift_access, ret.
  set (bit := virtio_mem_sbm_sb_state_bit_nr (vm w) mb_id sb_id).
  set (map := sb_states (sbm (vm w))).
  destruct (Z.eqb_spec count 1) as [->|Hc].
  - unfold test_bit. destruct (Z.ltb_spec bit 0) as [?|Hb]; [discriminate|].
    destruct (map !! Z.to_nat bit) as [x|] eqn:Hx; [|discriminate].
    intros [= -> <-]. split; [reflexivity|]. unfold bits_are. split.
    + intros -> k Hk. replace (bit + k) with bit by lia. exact Hx.
    + intros H. specialize (H 0 ltac:(lia)). rewrite Z.add_0_r, Hx in H.
      congruence.
  - destruct (find_next_zero_bit map (bit + count) bit) as [z|] eqn:Hz;
      [|discriminate].
    intros [= <- <-]. split; [reflexivity|].
    apply (find_next_all true). exact Hz.
Qed.

Lemma virtio_mem_sbm_test_sb_unplugged_spec mb_id sb_id count w b w' :
  virtio_mem_sbm_test_sb_unplugged mb_id sb_id count w = Ok b w' ->
  w' = w /\
  (b = true <->
   bits_are false (sb_states (sbm (vm w)))
     (virtio_mem_sbm_sb_state_bit_nr (vm w) mb_id sb_id) count).
Proof.
  unfold virtio_mem_sbm_test_sb_unplugged, bind, get_vm, lift_access, ret.
  set (bit := virtio_mem_sbm_sb_state_bit_nr (vm w) mb_id sb_id).
  set (map := sb_states (sbm (vm w))).
  destruct (find_next_bit map (bit + count) bit) as [z|] eqn:Hz;
    [|discriminate].
  intros [= <- <-]. split; [reflexivity|].
  apply (find_next_all false). exact Hz.
Qed.

(** X1.  virtio_mem_sbm_test_sb_plugged answers [true] exactly when every
    one of the [count] subblocks from [sb_id] on has its bit set, and
    virtio_mem_sbm_test_sb_unplugged exactly when every one of them has its
    bit clear; neither changes anything.  For no subblock at all
    ([count <= 0]) an answer is [true]. *)
Theorem sbm_test_sb_tells_all_bits mb_id sb_id count w b w' :
  (virtio_mem_sbm_test_sb_plugged mb_id sb_id count w = Ok b w' ->
   w' = w /\
   (b = true <->
    bits_are true (sb_states (sbm (vm w)))
      (virtio_mem_sbm_sb_state_bit_nr (vm w) mb_id sb_id) count)) /\
  (virtio_mem_sbm_test_sb_unplugged mb_id sb_id count w = Ok b w' ->
   w' = w /\
   (b = true <->
    bits_are false (sb_states (sbm (vm w)))
      (virtio_mem_sbm_sb_state_bit_nr (vm w) mb_id sb_id) count)).
Proof.
  split.
  - apply virtio_mem_sbm_test_sb_plugged_spec.
  - apply virtio_mem_sbm_test_sb_unplugged_spec.
Qed.

Definition all_plugged_run : bool * world :=
  run_result (virtio_mem_sbm_test_sb_plugged 8 0 32 stuck_world) false
    stuck_world.

Lemma all_plugged_run_ok :
  virtio_mem_sbm_test_sb_plugged 8 0 32 stuck_world
  = Ok (fst all_plugged_run) (snd all_plugged_run).
Proof.
  refine (run_result_ok _ false stuck_world _). vm_compute. reflexivity.
Qed.

Lemma sbm_test_sb_tells_all_bits_witness :
  bits_are true (sb_states (sbm (vm stuck_world)))
    (virtio_mem_sbm_sb_state_bit_nr (vm stuck_world) 8 0) 32.
Proof.
  apply (proj2 (proj1 (sbm_test_sb_tells_all_bits 8 0 32 stuck_world
                         (fst all_plugged_run) (snd all_plugged_run))
                  all_plugged_run_ok)).
  vm_compute. reflexivity.
Defined.


Lemma bitmap_fill_spec v map start len map' :
  0 < len ->
  bitmap_fill v map start len = Some map' ->
  0 <= start /\ start + len <= Z.of_nat (length map) /\
  length map' = length map /\
  bits_are v map' start len /\
  (forall i : nat, Z.of_nat i < start \/ start + len <= Z.of_nat i ->
                   map' !! i = map !! i).
Proof.
  intros Hlen. unfold bitmap_fill.
  destruct (Z.leb_spec len 0) as [?|_]; [lia|].
  destruct (_ && _) eqn:Hin; [|discriminate].
  apply andb_prop in Hin as [H0 H1]. apply Z.leb_le in H0. apply Z.leb_le in H1.
  intros [= <-]. split; [exact H0|]. split; [exact H1|].
  assert (Ht : length (take (Z.to_nat start) map) = Z.to_nat start)
    by (rewrite length_take; lia).
  split; [|split].
  - rewrite !length_app, Ht, length_replicate, length_drop. lia.
  - intros k Hk. rewrite lookup_app_r by lia. rewrite Ht.
    rewrite lookup_app_l by (rewrite length_replicate; lia).
    apply lookup_replicate_2. lia.
  - intros i [Hi|Hi].
    + rewrite lookup_app_l by lia. apply lookup_take_lt. lia.
    + rewrite lookup_app_r by lia. rewrite Ht.
      rewrite lookup_app_r by (rewrite length_replicate; lia).
      rewrite length_replicate, lookup_drop. f_equal. lia.
Qed.

Lemma find_next_from_none v map n :
  forall i size,
    0 <= i -> size = i + Z.of_nat n ->
    (forall j, i <= j < size -> map !! Z.to_nat j = Some (negb v)) ->
    find_next_from v map n i size = Some size.
Proof.
  induction n as [|n IH]; intros i size Hi Hsz Hall; cbn; [reflexivity|].
  rewrite (Hall i) by lia.
  replace (Bool.eqb (negb v) v) with false by (destruct v; reflexivity).
  apply IH; [lia | lia |]. intros j Hj. apply Hall. lia.
Qed.

Lemma find_next_none v map bit count :
  0 <= bit -> 0 <= count ->
  bits_are v map bit count ->
  find_next (negb v) map (bit + count) bit = Some (bit + count).
Proof.
  intros Hb Hc Hall. unfold find_next.
  destruct (Z.ltb_spec bit 0); [lia|].
  destruct (Z.ltb_spec (bit + count) 0); [lia|]. cbn [orb].
  destruct (Z.leb_spec (bit + count) bit) as [Hle|Hlt].
  - reflexivity.
  - apply find_next_from_none; [lia | lia |].
    rewrite Bool.negb_involutive. intros j Hj.
    specialize (Hall (j - bit) ltac:(lia)).
    replace (bit + (j - bit)) with j in Hall by ring. exact Hall.
Qed.


(** What virtio_mem_sbm_set_sb_plugged ([v = true]) and
    virtio_mem_sbm_set_sb_unplugged ([v = false]) make of the world. *)
Definition sb_bits_set (v : bool) (mb_id sb_id count : Z) (w w' : world)
  : Prop :=
  let bit := virtio_mem_sbm_sb_state_bit_nr (vm w) mb_id sb_id in
  exists map,
    w' = with_vm (with_sbm (sbm_with_sb_states map (sbm (vm w))) (vm w)) w /\
    length map = length (sb_states (sbm (vm w))) /\
    bits_are v map bit count /\
    (forall i : nat, Z.of_nat i < bit \/ bit + count <= Z.of_nat i ->
                     map !! i = sb_states (sbm (vm w)) !! i).

Lemma sb_bits_set_tested v mb_id sb_id count w w' :
  0 < count ->
  sb_bits_set v mb_id sb_id count w w' ->
  0 <= virtio_mem_sbm_sb_state_bit_nr (vm w) mb_id sb_id ->
  (if v then virtio_mem_sbm_test_sb_plugged mb_id sb_id count w'
   else virtio_mem_sbm_test_sb_unplugged mb_id sb_id count w') = Ok true w'.
Proof.
  intros Hc (map & -> & Hlen & Hbits & _) Hbit.
  set (bit := virtio_mem_sbm_sb_state_bit_nr (vm w) mb_id sb_id) in *.
  destruct v.
  - unfold virtio_mem_sbm_test_sb_plugged, bind, get_vm, lift_access.
    cbn [vm with_vm sbm with_sbm sb_states sbm_with_sb_states].
    change (virtio_mem_sbm_sb_state_bit_nr _ mb_id sb_id) with bit. destruct (Z.eqb_spec count 1) as [->|Hne].
    + unfold test_bit. destruct (Z.ltb_spec bit 0); [lia|].
      specialize (Hbits 0 ltac:(lia)). rewrite Z.add_0_r in Hbits.
      rewrite Hbits. reflexivity.
    + unfold find_next_zero_bit.
      pose proof (find_next_none true map bit count Hbit ltac:(lia) Hbits)
        as Hn.
      cbn [negb] in Hn. rewrite Hn.
      unfold ret. f_equal. apply Z.leb_refl.
  - unfold virtio_mem_sbm_test_sb_unplugged, bind, get_vm, lift_access.
    cbn [vm with_vm sbm with_sbm sb_states sbm_with_sb_states].
    change (virtio_mem_sbm_sb_state_bit_nr _ mb_id sb_id) with bit.
    unfold find_next_bit.
    pose proof (find_next_none false map bit count Hbit ltac:(lia) Hbits)
      as Hn.
    cbn [negb] in Hn. rewrite Hn.
    unfold ret. f_equal. apply Z.leb_refl.
Qed.

Lemma virtio_mem_sbm_set_sb_spec (v : bool) mb_id sb_id count w w' :
  0 < count ->
  (if v then virtio_mem_sbm_set_sb_plugged mb_id sb_id count w
   else virtio_mem_sbm_set_sb_unplugged mb_id sb_id count w) = Ok tt w' ->
  sb_bits_set v mb_id sb_id count w w' /\
  0 <= virtio_mem_sbm_sb_state_bit_nr (vm w) mb_id sb_id.
Proof.
  intros Hc E.
  assert (Hf : exists map,
             bitmap_fill v (sb_states (sbm (vm w)))
               (virtio_mem_sbm_sb_state_bit_nr (vm w) mb_id sb_id) count
             = Some map /\
             w' = with_vm (with_sbm (sbm_with_sb_states map (sbm (vm w)))
                             (vm w)) w).
  { destruct v; revert E;
      unfold virtio_mem_sbm_set_sb_plugged, virtio_mem_sbm_set_sb_unplugged,
        bind, get_vm, lift_access;
      (destruct (bitmap_fill _ _ _ _) as [map|]; [|discriminate]);
      intros [= <-]; eauto. }
  destruct Hf as (map & Hf & ->).
  destruct (bitmap_fill_spec _ _ _ _ _ Hc Hf) as (H0 & H1 & Hlen & Hb & Hfr).
  split; [exists map; auto | exact H0].
Qed.

(** X2.  After virtio_mem_sbm_set_sb_plugged on [count > 0] subblocks
    virtio_mem_sbm_test_sb_plugged answers [true] for them, and after
    virtio_mem_sbm_set_sb_unplugged virtio_mem_sbm_test_sb_unplugged does.
    Either changes the subblock bitmap only, not its length and no bit
    outside of the range. *)
Theorem sbm_set_sb_then_test mb_id sb_id count w w' :
  0 < count ->
  (virtio_mem_sbm_set_sb_plugged mb_id sb_id count w = Ok tt w' ->
   sb_bits_set true mb_id sb_id count w w' /\
   virtio_mem_sbm_test_sb_plugged mb_id sb_id count w' = Ok true w') /\
  (virtio_mem_sbm_set_sb_unplugged mb_id sb_id count w = Ok tt w' ->
   sb_bits_set false mb_id sb_id count w w' /\
   virtio_mem_sbm_test_sb_unplugged mb_id sb_id count w' = Ok true w').
Proof.
  intros Hc. split; intros E.
  - destruct (virtio_mem_sbm_set_sb_spec true _ _ _ _ _ Hc E) as [Hs H0].
    split; [exact Hs|].
    exact (sb_bits_set_tested true _ _ _ _ _ Hc Hs H0).
  - destruct (virtio_mem_sbm_set_sb_spec false _ _ _ _ _ Hc E) as [Hs H0].
    split; [exact Hs|].
    exact (sb_bits_set_tested false _ _ _ _ _ Hc Hs H0).
Qed.

Definition set_unplugged_run : unit * world :=
  run_result (virtio_mem_sbm_set_sb_unplugged 8 4 3 stuck_world) tt stuck_world.

Lemma set_unplugged_run_ok :
  virtio_mem_sbm_set_sb_unplugged 8 4 3 stuck_world
  = Ok tt (snd set_unplugged_run).
Proof. apply run_result_is; vm_compute; reflexivity. Qed.

Lemma sbm_set_sb_then_test_witness :
  virtio_mem_sbm_test_sb_unplugged 8 4 3 (snd set_unplugged_run)
  = Ok true (snd set_unplugged_run).
Proof.
  apply (proj2 (sbm_set_sb_then_test 8 4 3 stuck_world (snd set_unplugged_run)
                  eq_refl) set_unplugged_run_ok).
Defined.


(** X3.  virtio_mem_sbm_first_unplugged_sb changes nothing and answers the
    first subblock of the memory block whose bit is clear: every subblock
    before the answer is plugged, and the answer is the number of subblocks
    per memory block when all of them are. *)
Theorem sbm_first_unplugged_sb_is_first mb_id w z w' :
  virtio_mem_sbm_first_unplugged_sb mb_id w = Ok z w' ->
  let bit := virtio_mem_sbm_sb_state_bit_nr (vm w) mb_id 0 in
  let map := sb_states (sbm (vm w)) in
  w' = w /\
  Z.min 0 (sbs_per_mb (sbm (vm w))) <= z <= sbs_per_mb (sbm (vm w)) /\
  bits_are true map bit z /\
  (z < sbs_per_mb (sbm (vm w)) -> map !! Z.to_nat (bit + z) = Some false).
Proof.
  unfold virtio_mem_sbm_first_unplugged_sb, bind, get_vm, lift_access,
    find_next_zero_bit.
  destruct (find_next _ _ _ _) as [z'|] eqn:Hf; [|discriminate].
  intros [= <- <-]. cbv zeta.
  destruct (find_next_spec _ _ _ _ _ Hf) as (H0 & H1 & Hz & Hat & Hbefore).
  split; [reflexivity|]. split; [lia|]. split.
  - intros k Hk. apply (Hbefore (_ + k)). lia.
  - intros Hlt. replace (_ + (z' - _)) with z' by lia. apply Hat. lia.
Qed.

Definition first_unplugged_run : Z * world :=
  run_result (virtio_mem_sbm_first_unplugged_sb 8 (snd set_unplugged_run)) 0
    stuck_world.

Lemma first_unplugged_run_ok :
  virtio_mem_sbm_first_unplugged_sb 8 (snd set_unplugged_run)
  = Ok 4 (snd first_unplugged_run).
Proof. apply run_result_is; vm_compute; reflexivity. Qed.

Lemma sbm_first_unplugged_sb_is_first_witness :
  bits_are true (sb_states (sbm (vm (snd set_unplugged_run))))
    (virtio_mem_sbm_sb_state_bit_nr (vm (snd set_unplugged_run)) 8 0) 4.
Proof.
  apply (sbm_first_unplugged_sb_is_first 8 (snd set_unplugged_run) 4
           (snd first_unplugged_run) first_unplugged_run_ok).
Defined.


(** ** The unit translator *)

Lemma u64_small_id x : 0 <= x < U64 -> u64 x = x.
Proof. intros H. unfold u64. apply Z.mod_small, H. Qed.

(** X4.  The unit translators are inverse to each other on addresses that
    fit 64 bits: the address of a memory block lies in that memory block,
    the address of a subblock lies in its memory block and in that subblock,
    also when the first subblock of each memory block is taken by the memory
    map ([memmap_on_memory]), and the address of a big block lies in that
    big block. *)
Theorem unit_translators_round_trip pf v mb_id sb_id bb_id :
  let mbs := memory_block_size_bytes pf in
  let skipped := if memmap_on_memory v then 1 else 0 in
  (0 <= mb_id -> 0 <= sb_id -> 0 < sb_size (sbm v) ->
   (sb_id + skipped + 1) * sb_size (sbm v) <= mbs ->
   (mb_id + 1) * mbs <= U64 ->
   virtio_mem_phys_to_mb_id pf (virtio_mem_mb_id_to_phys pf mb_id) = mb_id /\
   virtio_mem_phys_to_mb_id pf (virtio_mem_sb_id_to_phys pf v mb_id sb_id)
   = mb_id /\
   virtio_mem_phys_to_sb_id pf v (virtio_mem_sb_id_to_phys pf v mb_id sb_id)
   = sb_id) /\
  (0 <= bb_id -> 0 < bb_size (bbm v) -> bb_id * bb_size (bbm v) < U64 ->
   virtio_mem_phys_to_bb_id v (virtio_mem_bb_id_to_phys v bb_id) = bb_id).
Proof.
  intros mbs skipped. split; [intros Hmb Hsb Hss Hfit Hmax|intros Hbb Hbs Hbmax];
    cycle 1.
  { unfold virtio_mem_phys_to_bb_id, virtio_mem_bb_id_to_phys.
    rewrite u64_small_id by nia. apply Z.div_mul. lia. }
  assert (Hsk : 0 <= skipped <= 1) by (subst skipped; destruct memmap_on_memory; lia).
  assert (Hmbs : 0 < mbs) by nia.
  assert (Hoff : 0 <= (sb_id + skipped) * sb_size (sbm v) < mbs) by nia.
  assert (Hphys : virtio_mem_sb_id_to_phys pf v mb_id sb_id
                  = mb_id * mbs + (sb_id + skipped) * sb_size (sbm v)).
  { unfold virtio_mem_sb_id_to_phys. fold mbs.
    replace (if memmap_on_memory v then sb_id + 1 else sb_id)
      with (sb_id + skipped) by (subst skipped; destruct memmap_on_memory; lia).
    apply u64_small_id. nia. }
  assert (Hmbp : virtio_mem_mb_id_to_phys pf mb_id = mb_id * mbs).
  { unfold virtio_mem_mb_id_to_phys. fold mbs. apply u64_small_id. nia. }
  assert (Hmid : virtio_mem_phys_to_mb_id pf
                   (virtio_mem_sb_id_to_phys pf v mb_id sb_id) = mb_id).
  { rewrite Hphys. unfold virtio_mem_phys_to_mb_id. fold mbs.
    rewrite Z.add_comm, Z.div_add by lia.
    rewrite Z.div_small by lia. lia. }
  split; [|split; [exact Hmid|] ].
  - rewrite Hmbp. unfold virtio_mem_phys_to_mb_id. fold mbs.
    apply Z.div_mul. lia.
  - unfold virtio_mem_phys_to_sb_id. rewrite Hmid, Hmbp, Hphys.
    replace (mb_id * mbs + (sb_id + skipped) * sb_size (sbm v) - mb_id * mbs)
      with ((sb_id + skipped) * sb_size (sbm v)) by lia.
    assert (Hm : mbs <= U64) by nia.
    rewrite (u64_small_id ((sb_id + skipped) * _)) by lia.
    rewrite Z.div_mul by lia.
    subst skipped. destruct (memmap_on_memory v).
    + replace (sb_id + 1 - 1) with sb_id by lia.
      assert (sb_id + 1 <= (sb_id + 1) * sb_size (sbm v)) by nia.
      apply u64_small_id. lia.
    + lia.
Qed.

Lemma unit_translators_round_trip_witness :
  virtio_mem_phys_to_sb_id (plat stuck_world) (vm stuck_world)
    (virtio_mem_sb_id_to_phys (plat stuck_world) (vm stuck_world) 8 5) = 5 /\
  virtio_mem_phys_to_bb_id (vm add_fails_world)
    (virtio_mem_bb_id_to_phys (vm add_fails_world) 8) = 8.
Proof.
  split.
  - refine (proj2 (proj2 (proj1
      (unit_translators_round_trip (plat stuck_world) (vm stuck_world) 8 5 0)
      _ _ _ _ _)));
      vm_compute; first [reflexivity | intro H; discriminate H].
  - refine (proj2
      (unit_translators_round_trip (plat add_fails_world) (vm add_fails_world)
         0 0 8) _ _ _);
      vm_compute; first [reflexivity | intro H; discriminate H].
Defined.


(** ** The state tables *)

(** X5.  A state stored by virtio_mem_sbm_set_mb_state is the one that
    virtio_mem_sbm_get_mb_state reads back for that memory block, and the
    state read for a memory block with another index is the one from before
    the store; likewise for virtio_mem_bbm_set_bb_state and
    virtio_mem_bbm_get_bb_state. *)
Theorem set_state_then_get_state w w' :
  (forall mb_id state,
     virtio_mem_sbm_set_mb_state mb_id state w = Ok tt w' ->
     virtio_mem_sbm_get_mb_state mb_id w' = Ok state w' /\
     forall mb_id' st,
       sbm_idx (vm w) mb_id' <> sbm_idx (vm w) mb_id ->
       virtio_mem_sbm_get_mb_state mb_id' w' = Ok st w' <->
       virtio_mem_sbm_get_mb_state mb_id' w = Ok st w) /\
  (forall bb_id state,
     virtio_mem_bbm_set_bb_state bb_id state w = Ok tt w' ->
     virtio_mem_bbm_get_bb_state bb_id w' = Ok state w' /\
     forall bb_id' st,
       bbm_idx (vm w) bb_id' <> bbm_idx (vm w) bb_id ->
       virtio_mem_bbm_get_bb_state bb_id' w' = Ok st w' <->
       virtio_mem_bbm_get_bb_state bb_id' w = Ok st w).
Proof.
  split.
  - intros mb_id state.
    unfold virtio_mem_sbm_set_mb_state, virtio_mem_sbm_get_mb_state, sbm_idx,
      bind, get_vm, lift_access.
    destruct (mb_states _ !! _) as [old|] eqn:Hl; [|discriminate]. cbn.
    destruct (_ =? 0); [discriminate|]. cbn. intros [= <-]. cbn. split.
    + rewrite list_lookup_insert_eq by (eapply lookup_lt_Some, Hl).
      reflexivity.
    + intros mb_id' st Hne. rewrite list_lookup_insert_ne by congruence.
      destruct (mb_states _ !! Z.to_nat (u64 (mb_id' - _)));
        unfold ret, fault; split; intros [=]; subst; reflexivity.
  - intros bb_id state.
    unfold virtio_mem_bbm_set_bb_state, virtio_mem_bbm_get_bb_state, bbm_idx,
      bind, get_vm, lift_access.
    destruct (bb_states _ !! _) as [old|] eqn:Hl; [|discriminate]. cbn.
    destruct (_ =? 0); [discriminate|]. cbn. intros [= <-]. cbn. split.
    + rewrite list_lookup_insert_eq by (eapply lookup_lt_Some, Hl).
      reflexivity.
    + intros bb_id' st Hne. rewrite list_lookup_insert_ne by congruence.
      destruct (bb_states _ !! Z.to_nat (u64 (bb_id' - _)));
        unfold ret, fault; split; intros [=]; subst; reflexivity.
Qed.


Definition set_offline_run : unit * world :=
  run_result
    (virtio_mem_sbm_set_mb_state 8 VIRTIO_MEM_SBM_MB_OFFLINE stuck_world)
    tt stuck_world.

Lemma set_offline_run_ok :
  virtio_mem_sbm_set_mb_state 8 VIRTIO_MEM_SBM_MB_OFFLINE stuck_world
  = Ok tt (snd set_offline_run).
Proof. apply run_result_is; vm_compute; reflexivity. Qed.

Lemma set_state_then_get_state_witness :
  virtio_mem_sbm_get_mb_state 8 (snd set_offline_run)
  = Ok VIRTIO_MEM_SBM_MB_OFFLINE (snd set_offline_run).
Proof.
  exact (proj1 (proj1 (set_state_then_get_state stuck_world
                         (snd set_offline_run))
                  8 VIRTIO_MEM_SBM_MB_OFFLINE set_offline_run_ok)).
Defined.


(** ** Requests to the host *)

(** What an unplug request leaves of the device: on success [plugged_size]
    less the size of the request, unless the request is for a memory map;
    on failure the device as it was. *)
Definition unplug_sent (size : Z) (memmap : bool) (w : world) (rc : Z)
    (w' : world) : Prop :=
  (rc = 0 /\
   vm w' = if memmap then vm w
           else with_plugged_size (u64 (plugged_size (vm w) - size)) (vm w)) \/
  (rc = - EINVAL /\ vm w' = vm w).

Lemma virtio_mem_send_unplug_request_sent fuel addr size memmap w :
  wlp (virtio_mem_send_unplug_request fuel addr size memmap)
      (unplug_sent size memmap w) w.
Proof.
  unfold virtio_mem_send_unplug_request. apply wlp_get_vm.
  eapply wlp_bind_post.
  { apply (wlp_iterate (fun _ w2 => vm w2 = vm w) (fun _ w2 => vm w2 = vm w));
      [|reflexivity].
    intros [a s] w2 Hvm. destruct (s =? 0); [apply wlp_ret; exact Hvm|].
    unfold wlp, bind, xa_load_membuf, extcall, ret.
    destruct (_ =? 0); cbn; exact Hvm. }
  intros [|] w2 Hvm.
  - destruct memmap; cbn.
    + apply wlp_ret. left. auto.
    + unfold wlp, bind, modify_vm, ret. cbn. left. rewrite Hvm. auto.
  - apply wlp_ret. right. auto.
Qed.


Lemma virtio_mem_send_plug_request_frame fuel addr size memmap w :
  wlp (virtio_mem_send_plug_request fuel addr size memmap)
      (fun rc w' =>
         vm w' = with_plugged_size (plugged_size (vm w')) (vm w) /\
         (memmap = true -> vm w' = vm w)) w.
Proof.
  assert (H0 : vm w = with_plugged_size (plugged_size (vm w)) (vm w))
    by (destruct (vm w); reflexivity).
  unfold virtio_mem_send_plug_request. apply wlp_get_vm. apply wlp_extcall.
  destruct (_ =? 0); [apply wlp_ret; cbn; auto|].
  set (I := fun w2 : world =>
              vm w2 = with_plugged_size (plugged_size (vm w2)) (vm w) /\
              (memmap = true -> vm w2 = vm w)).
  eapply wlp_bind_post.
  { apply (wlp_iterate (fun _ w2 => I w2) (fun _ w2 => I w2));
      [|split; cbn; auto].
    intros [a s] w2 [Hvm Hm]. destruct (s =? 0); [apply wlp_ret; split; auto|].
    apply wlp_extcall. destruct (IS_ERR _); [apply wlp_ret; split; auto|].
    unfold wlp, bind, xa_store_membuf, extcall, modify_xa_membuf, ret.
    cbn. destruct (xa_is_err _); destruct memmap; cbn; split; auto;
      try discriminate; rewrite Hvm; reflexivity. }
  assert (Hun : forall a (w2 : world), I w2 ->
            wlp (virtio_mem_send_unplug_request fuel addr a memmap)
                (fun _ w3 => I w3) w2).
  { intros a w2 [Hvm Hm].
    eapply wlp_mono; [apply virtio_mem_send_unplug_request_sent|].
    intros rc w3 [ [_ E]|[_ E] ]; unfold I; rewrite E.
    - destruct memmap; split; auto; try discriminate.
      rewrite Hvm. reflexivity.
    - split; auto. }
  intros [a [err|]] w2 HI.
  - destruct (addr <? a).
    + eapply wlp_bind_post; [apply Hun, HI|].
      intros rc w3 HI3. apply wlp_ret. exact HI3.
    + apply wlp_ret. exact HI.
  - apply wlp_ret. exact HI.
Qed.

(** X6.  A plug request changes no field of the device but [plugged_size],
    and a plug request for a memory map changes no field at all, also when
    it fails half way and unplugs again what it had plugged.  An unplug
    request returns 0 or -EINVAL; when it returns -EINVAL, or when the
    request is for a memory map, the device is as it was, and else
    [plugged_size] is less by the size of the request and nothing else has
    changed. *)
Theorem send_request_device_effect fuel addr size memmap w rc w' :
  (virtio_mem_send_plug_request fuel addr size memmap w = Ok rc w' ->
   vm w' = with_plugged_size (plugged_size (vm w')) (vm w) /\
   (memmap = true -> vm w' = vm w)) /\
  (virtio_mem_send_unplug_request fuel addr size memmap w = Ok rc w' ->
   unplug_sent size memmap w rc w').
Proof.
  split; intros E.
  - exact (wlp_ok _ _ _ _ _
             (virtio_mem_send_plug_request_frame fuel addr size memmap w) E).
  - exact (wlp_ok _ _ _ _ _
             (virtio_mem_send_unplug_request_sent fuel addr size memmap w) E).
Qed.

Lemma send_request_device_effect_witness :
  vm (snd failed_plug_run)
  = with_plugged_size (plugged_size (vm (snd failed_plug_run)))
      (vm third_fails_world).
Proof.
  exact (proj1 (proj1 (send_request_device_effect 100 (2 ^ 30) (4 * 2 ^ 22)
                         false third_fails_world (fst failed_plug_run)
                         (snd failed_plug_run))
                  failed_plug_run_ok)).
Defined.


(** X7.  A plug request without memmap that succeeds adds the size of the
    request to [plugged_size].  An unplug request for the same range that
    follows it looks up the handle of every device block of the range in
    [xa_membuf]: when it finds them all it returns 0 and takes
    [plugged_size] back to what it was before the plug request, and when
    one is missing it returns -EINVAL and leaves the device as the plug
    request has left it.  The handles are all there, whatever [xa_membuf]
    held before, when no store into [xa_membuf] has failed and
    [mem_buf_alloc] has answered no [NULL].  The unplug request leaves
    [xa_membuf] as it is: a handle that was freed is still found. *)
Theorem plug_then_unplug_request_round_trip fuel fuel' addr size w w1 rc w2 :
  let bs := device_block_size (vm w) in
  0 < bs -> (bs | size) ->
  is_u64 addr -> 0 <= size -> addr + size <= U64 ->
  is_u64 (plugged_size (vm w)) ->
  virtio_mem_send_plug_request fuel addr size false w = Ok 0 w1 ->
  virtio_mem_send_unplug_request fuel' addr size false w1 = Ok rc w2 ->
  plugged_size (vm w1) = u64 (plugged_size (vm w) + size) /\
  (handles_stored (xa_membuf w1) addr bs (size / bs) ->
   rc = 0 /\ plugged_size (vm w2) = plugged_size (vm w)) /\
  (handles_kept (env w) -> handles_stored (xa_membuf w1) addr bs (size / bs)) /\
  (~ handles_stored (xa_membuf w1) addr bs (size / bs) ->
   rc = - EINVAL /\ vm w2 = vm w1) /\
  xa_membuf w2 = xa_membuf w1.
Proof.
  intros bs Hbs Hdiv Ha Hsize Hend Hp E1 E2.
  destruct (wlp_ok _ _ _ _ _
              (virtio_mem_send_plug_request_sent fuel addr size w
                 Hbs Hdiv Ha Hsize Hend Hp) E1)
    as (j & Hj & _ & Hb & Hk & H0 & _).
  destruct (H0 eq_refl) as [Hjs Hpl]. fold bs in Hb, Hk, Hjs.
  assert (Ej : size / bs = j).
  { rewrite <- Hjs. apply Z.div_mul. lia. }
  rewrite Ej. split; [exact Hpl|].
  rewrite <- Hb in Hbs, Hjs.
  assert (Hl := virtio_mem_send_unplug_request_looks_up fuel' addr j w1
                  Hbs Hj Ha ltac:(lia)).
  cbv zeta in Hl. rewrite Hjs in Hl.
  destruct (wlp_ok _ _ _ _ _ Hl E2) as (Hxa & Hun). rewrite Hb in Hun.
  split; [|split; [exact Hk|split; [|exact Hxa]]].
  - intros Hall. destruct Hun as [(-> & _ & E)|(_ & Hnot & _)];
      [|contradiction].
    split; [reflexivity|]. rewrite E. cbn. rewrite Hpl, u64_sub_l.
    replace (plugged_size (vm w) + size - size) with (plugged_size (vm w))
      by ring.
    apply u64_small. exact Hp.
  - intros Hnot. destruct Hun as [(_ & Hall & _)|(-> & _ & E)];
      [contradiction|].
    auto.
Qed.


Definition plugged_two_run : Z * world :=
  run_result
    (virtio_mem_send_plug_request 100 (2 ^ 30) (2 * 2 ^ 22) false
       third_fails_world)
    0 third_fails_world.

Lemma plugged_two_run_ok :
  virtio_mem_send_plug_request 100 (2 ^ 30) (2 * 2 ^ 22) false third_fails_world
  = Ok 0 (snd plugged_two_run).
Proof. apply run_result_is; vm_compute; reflexivity. Qed.

Definition unplugged_two_run : Z * world :=
  run_result
    (virtio_mem_send_unplug_request 100 (2 ^ 30) (2 * 2 ^ 22) false
       (snd plugged_two_run))
    0 third_fails_world.

Lemma unplugged_two_run_ok :
  virtio_mem_send_unplug_request 100 (2 ^ 30) (2 * 2 ^ 22) false
    (snd plugged_two_run)
  = Ok (fst unplugged_two_run) (snd unplugged_two_run).
Proof.
  refine (run_result_ok _ 0 third_fails_world _). vm_compute. reflexivity.
Qed.

Lemma plug_then_unplug_request_round_trip_witness :
  plugged_size (vm (snd plugged_two_run))
  = u64 (plugged_size (vm third_fails_world) + 2 * 2 ^ 22) /\
  fst unplugged_two_run = 0 /\
  plugged_size (vm (snd unplugged_two_run))
  = plugged_size (vm third_fails_world).
Proof.
  destruct (plug_then_unplug_request_round_trip 100 100 (2 ^ 30) (2 * 2 ^ 22)
              third_fails_world (snd plugged_two_run) (fst unplugged_two_run)
              (snd unplugged_two_run))
    as (Hpl & Hfound & Hkept & _ & _).
  - reflexivity.
  - exists 2. reflexivity.
  - vm_compute. split; [discriminate | reflexivity].
  - vm_compute. discriminate.
  - vm_compute. discriminate.
  - vm_compute. split; [discriminate | reflexivity].
  - exact plugged_two_run_ok.
  - exact unplugged_two_run_ok.
  - split; [exact Hpl|]. apply Hfound, Hkept. exact env_third_fails_kept.
Defined.




(** ** The memory notifier *)

Lemma virtio_mem_sbm_set_mb_state_get mb_id state w w' :
  virtio_mem_sbm_set_mb_state mb_id state w = Ok tt w' ->
  virtio_mem_sbm_get_mb_state mb_id w' = Ok state w'.
Proof.
  unfold virtio_mem_sbm_set_mb_state, virtio_mem_sbm_get_mb_state,
    bind, get_vm, lift_access.
  destruct (mb_states _ !! _) as [old|] eqn:Hl; [|discriminate]. cbn.
  destruct (_ =? 0); [discriminate|]. cbn. intros [= <-]. cbn.
  rewrite list_lookup_insert_eq by (eapply lookup_lt_Some, Hl).
  reflexivity.
Qed.

(** The states of a memory block that Linux has online, the states of a
    memory block that is plugged in part, and the states of a memory block
    in the movable zone. *)
Definition mb_online (st : sbm_mb_state) : bool :=
  match st with
  | VIRTIO_MEM_SBM_MB_KERNEL | VIRTIO_MEM_SBM_MB_KERNEL_PARTIAL
  | VIRTIO_MEM_SBM_MB_MOVABLE | VIRTIO_MEM_SBM_MB_MOVABLE_PARTIAL => true
  | _ => false
  end.
Definition mb_partial (st : sbm_mb_state) : bool :=
  match st with
  | VIRTIO_MEM_SBM_MB_OFFLINE_PARTIAL | VIRTIO_MEM_SBM_MB_KERNEL_PARTIAL
  | VIRTIO_MEM_SBM_MB_MOVABLE_PARTIAL => true
  | _ => false
  end.
Definition mb_movable (st : sbm_mb_state) : bool :=
  match st with
  | VIRTIO_MEM_SBM_MB_MOVABLE | VIRTIO_MEM_SBM_MB_MOVABLE_PARTIAL => true
  | _ => false
  end.

(** X8.  virtio_mem_sbm_notify_offline runs into [BUG] for a memory block
    that is not in an online state; else it takes the block to
    [OFFLINE_PARTIAL] when it is plugged in part and to [OFFLINE] when it is
    not.  virtio_mem_sbm_notify_online after it takes the block back to an
    online state that is partial exactly when the state before the two
    calls was, in the movable zone exactly when is_zone_movable_page says
    so. *)
Theorem sbm_notify_offline_then_online mb_id pfn w old :
  virtio_mem_sbm_get_mb_state mb_id w = Ok old w ->
  (mb_online old = false -> virtio_mem_sbm_notify_offline mb_id w = Bug) /\
  (forall w1,
     virtio_mem_sbm_notify_offline mb_id w = Ok tt w1 ->
     mb_online old = true /\
     virtio_mem_sbm_get_mb_state mb_id w1
     = Ok (if mb_partial old then VIRTIO_MEM_SBM_MB_OFFLINE_PARTIAL
           else VIRTIO_MEM_SBM_MB_OFFLINE) w1 /\
     forall w2,
       virtio_mem_sbm_notify_online mb_id pfn w1 = Ok tt w2 ->
       exists new,
         virtio_mem_sbm_get_mb_state mb_id w2 = Ok new w2 /\
         mb_online new = true /\
         mb_partial new = mb_partial old /\
         mb_movable new = nz (env w1 (trace w1) (is_zone_movable_page pfn))).
Proof.
  intros Hold.
  assert (Hoff : forall w1,
             virtio_mem_sbm_notify_offline mb_id w = Ok tt w1 ->
             mb_online old = true /\
             virtio_mem_sbm_get_mb_state mb_id w1
             = Ok (if mb_partial old then VIRTIO_MEM_SBM_MB_OFFLINE_PARTIAL
                   else VIRTIO_MEM_SBM_MB_OFFLINE) w1).
  { intros w1. unfold virtio_mem_sbm_notify_offline, bind at 1.
    rewrite Hold. destruct old; try discriminate; intros E;
      (split; [reflexivity|]);
      exact (virtio_mem_sbm_set_mb_state_get _ _ _ _ E). }
  split; [|intros w1 E1; destruct (Hoff w1 E1) as [Hon Hget];
           split; [exact Hon|split; [exact Hget|] ] ].
  - intros Hoffl. unfold virtio_mem_sbm_notify_offline, bind at 1.
    rewrite Hold. destruct old; try discriminate; reflexivity.
  - intros w2. unfold virtio_mem_sbm_notify_online.
    unfold bind at 1. unfold extcall.
    set (w1' := with_trace _ w1).
    assert (Hget' : virtio_mem_sbm_get_mb_state mb_id w1'
                    = Ok (if mb_partial old
                          then VIRTIO_MEM_SBM_MB_OFFLINE_PARTIAL
                          else VIRTIO_MEM_SBM_MB_OFFLINE) w1').
    { revert Hget. unfold virtio_mem_sbm_get_mb_state, bind, get_vm. cbn.
      destruct (lift_access _ w1) eqn:El; try discriminate.
      unfold lift_access in *.
      destruct (mb_states _ !! _); [|discriminate].
      injection El as <- <-. intros [= ->]. reflexivity. }
    unfold bind at 1. rewrite Hget'.
    destruct (nz _) eqn:Hnz, (mb_partial old) eqn:Hp; intros E;
      eexists; (split; [exact (virtio_mem_sbm_set_mb_state_get _ _ _ _ E)|]);
      auto.
Qed.


Lemma stuck_world_state :
  virtio_mem_sbm_get_mb_state 8 stuck_world
  = Ok VIRTIO_MEM_SBM_MB_KERNEL stuck_world.
Proof. reflexivity. Qed.

Definition notified_offline_run : unit * world :=
  run_result (virtio_mem_sbm_notify_offline 8 stuck_world) tt stuck_world.

Lemma notified_offline_run_ok :
  virtio_mem_sbm_notify_offline 8 stuck_world
  = Ok tt (snd notified_offline_run).
Proof. apply run_result_is; vm_compute; reflexivity. Qed.

Lemma sbm_notify_offline_then_online_witness :
  virtio_mem_sbm_get_mb_state 8 (snd notified_offline_run)
  = Ok VIRTIO_MEM_SBM_MB_OFFLINE (snd notified_offline_run).
Proof.
  exact (proj1 (proj2 (proj2 (sbm_notify_offline_then_online 8 0 stuck_world
                                VIRTIO_MEM_SBM_MB_KERNEL stuck_world_state)
                         (snd notified_offline_run) notified_offline_run_ok))).
Defined.


Lemma virtio_mem_memory_notifier_cb_answers fuel action mhp w :
  virtio_mem_overlaps_range (vm w) (PFN_PHYS (plat w) (start_pfn mhp))
    (PFN_PHYS (plat w) (nr_pages mhp)) = true ->
  wlp (virtio_mem_memory_notifier_cb fuel action mhp)
      (fun rc _ => rc = NOTIFY_BAD \/ rc = NOTIFY_OK
                   \/ rc = notifier_from_errno (- EBUSY)) w.
Proof.
  intros Ho. unfold virtio_mem_memory_notifier_cb.
  apply wlp_get_vm, wlp_get_plat. rewrite Ho. cbn [negb].
  match goal with |- wlp (if ?c then _ else _) _ _ => destruct c end;
    [exact Logic.I|].
  match goal with |- wlp (if ?c then _ else _) _ _ => destruct c end;
    [apply wlp_ret; auto|].
  assert (Hok : forall w', wlp (ret NOTIFY_OK)
            (fun rc _ => rc = NOTIFY_BAD \/ rc = NOTIFY_OK
                         \/ rc = notifier_from_errno (- EBUSY)) w')
    by (intros; apply wlp_ret; auto).
  destruct action.
  - repeat (apply wlp_bind_any; intros). apply Hok.
  - destruct (removing (vm w)); [apply wlp_ret; auto|].
    repeat (apply wlp_bind_any; intros). apply Hok.
  - repeat (apply wlp_bind_any; intros). apply Hok.
  - destruct (removing (vm w)); [apply wlp_ret; auto|].
    apply wlp_bind_any; intros. destruct (in_sbm (vm w)); [|apply Hok].
    unfold virtio_mem_sbm_notify_going_online.
    apply wlp_bind_any; intros st w2. destruct st; apply wlp_ret; auto.
  - destruct (negb _); [apply Hok|].
    repeat (apply wlp_bind_any; intros). apply Hok.
  - destruct (negb _); [apply Hok|].
    repeat (apply wlp_bind_any; intros). apply Hok.
Qed.

(** X9.  The memory notifier answers [NOTIFY_DONE] exactly for a range that
    does not overlap the device, and changes nothing then.  A range that
    overlaps the device and, in Sub-Block Mode, is not one memory block
    (less its memory map), or, in Big-Block Mode, does not lie in one big
    block, is answered [NOTIFY_BAD], again with nothing changed, whatever
    the action is. *)
Theorem notifier_range_checks fuel action mhp w :
  let start := PFN_PHYS (plat w) (start_pfn mhp) in
  let size := PFN_PHYS (plat w) (nr_pages mhp) in
  (virtio_mem_overlaps_range (vm w) start size = false ->
   virtio_mem_memory_notifier_cb fuel action mhp w = Ok NOTIFY_DONE w) /\
  (forall rc w',
     virtio_mem_memory_notifier_cb fuel action mhp w = Ok rc w' ->
     rc = NOTIFY_DONE ->
     virtio_mem_overlaps_range (vm w) start size = false) /\
  (virtio_mem_overlaps_range (vm w) start size = true ->
   in_sbm (vm w) = true -> notifies_mb w mhp = false ->
   virtio_mem_memory_notifier_cb fuel action mhp w = Ok NOTIFY_BAD w) /\
  (virtio_mem_overlaps_range (vm w) start size = true ->
   in_sbm (vm w) = false ->
   virtio_mem_phys_to_bb_id (vm w) start
   <> virtio_mem_phys_to_bb_id (vm w) (u64 (start + size - 1)) ->
   virtio_mem_memory_notifier_cb fuel action mhp w = Ok NOTIFY_BAD w).
Proof.
  intros start size. split; [|split; [|split] ].
  - intros Ho. unfold virtio_mem_memory_notifier_cb, bind, get_vm, get_plat.
    fold start size. rewrite Ho. reflexivity.
  - intros rc w' E ->.
    destruct (virtio_mem_overlaps_range _ _ _) eqn:Ho; [|reflexivity].
    pose proof (wlp_ok _ _ _ _ _
                  (virtio_mem_memory_notifier_cb_answers fuel action mhp w Ho)
                  E) as [H|[H|H] ]; discriminate H.
  - intros Ho Hs Hn.
    unfold virtio_mem_memory_notifier_cb, bind, get_vm, get_plat.
    fold start size. rewrite Ho, Hs. cbn [negb].
    unfold notifies_mb in Hn. fold start size in Hn.
    rewrite Hs, Ho in Hn. cbn [andb] in Hn.
    apply andb_false_iff in Hn as [-> | ->]; cbn [negb orb];
      [reflexivity|rewrite orb_true_r; reflexivity].
  - intros Ho Hs Hn.
    assert (Hb : (bb_size (bbm (vm w)) =? 0) = false).
    { apply Z.eqb_neq. intros Hb. apply Hn.
      unfold virtio_mem_phys_to_bb_id. rewrite Hb, !Z.div_0_r. reflexivity. }
    unfold virtio_mem_memory_notifier_cb, bind, get_vm, get_plat.
    fold start size. rewrite Ho, Hs, Hb. cbn [negb andb].
    apply Z.eqb_neq in Hn. rewrite Hn. reflexivity.
Qed.


Lemma notifier_range_checks_witness :
  virtio_mem_memory_notifier_cb 100 MEM_ONLINE (MemoryNotify 0 1) stuck_world
  = Ok NOTIFY_DONE stuck_world.
Proof.
  apply (proj1 (notifier_range_checks 100 MEM_ONLINE (MemoryNotify 0 1)
                  stuck_world)).
  vm_compute. reflexivity.
Defined.

(** What the state changes of the notifier leave alone: the size of the
    offline memory, the mark of a notification in progress and the
    platform. *)
Definition offR (w w' : world) : Prop :=
  offline_size (vm w') = offline_size (vm w) /\
  hotplug_active (vm w') = hotplug_active (vm w) /\
  plat w' = plat w.

#[global] Instance offR_preorder : PreOrder offR.
Proof.
  unfold offR. split.
  - intros w. auto.
  - intros w1 w2 w3 (? & ? & ?) (? & ? & ?). repeat split; congruence.
Qed.

Ltac off_side := intros; repeat split.

Lemma offR_virtio_mem_sbm_set_mb_state mb_id state :
  keeps offR (virtio_mem_sbm_set_mb_state mb_id state).
Proof. unfold virtio_mem_sbm_set_mb_state. keeps_auto off_side. Qed.

Lemma offR_virtio_mem_sbm_notify_offline mb_id :
  keeps offR (virtio_mem_sbm_notify_offline mb_id).
Proof.
  unfold virtio_mem_sbm_notify_offline.
  apply keeps_bind; [typeclasses eauto|keeps_auto off_side|intros st].
  destruct st; first [apply keeps_bug | apply offR_virtio_mem_sbm_set_mb_state].
Qed.

Lemma offR_virtio_mem_sbm_notify_online mb_id pfn :
  keeps offR (virtio_mem_sbm_notify_online mb_id pfn).
Proof.
  unfold virtio_mem_sbm_notify_online.
  apply keeps_bind; [typeclasses eauto|keeps_auto off_side|intros movable].
  apply keeps_bind; [typeclasses eauto|keeps_auto off_side|intros st].
  destruct st; first [apply keeps_bug | apply offR_virtio_mem_sbm_set_mb_state].
Qed.

(** The notifier's [MEM_OFFLINE] and [MEM_ONLINE], when they answer
    [NOTIFY_OK]: [d] is what they add to the size of the offline memory. *)
Definition offline_accounted (d : Z) (w : world) (rc : Z) (w' : world)
  : Prop :=
  rc = NOTIFY_OK ->
  offline_size (vm w') = u64 (offline_size (vm w) + d) /\
  hotplug_active (vm w') = false /\
  plat w' = plat w.

Lemma virtio_mem_memory_notifier_cb_offline fuel mhp w :
  wlp (virtio_mem_memory_notifier_cb fuel MEM_OFFLINE mhp)
      (offline_accounted (PFN_PHYS (plat w) (nr_pages mhp)) w) w.
Proof.
  unfold virtio_mem_memory_notifier_cb. apply wlp_get_vm, wlp_get_plat.
  destruct (negb _); [apply wlp_ret; discriminate|].
  match goal with |- wlp (if ?c then _ else _) _ _ => destruct c end;
    [exact Logic.I|].
  match goal with |- wlp (if ?c then _ else _) _ _ => destruct c end;
    [apply wlp_ret; discriminate|].
  eapply (wlp_bind_keeps offR).
  { apply keeps_when; [typeclasses eauto|].
    apply offR_virtio_mem_sbm_notify_offline. }
  intros [] w1 (Ho & Hh & Hp).
  unfold wlp, bind, atomic64_add_offline_size, virtio_mem_retry, modify_vm,
    when, get_vm, ret.
  destruct (negb (unplug_online _)); cbn;
    [destruct (negb (removing _)); cbn|]; intros _; rewrite Ho; auto.
Qed.

Lemma virtio_mem_memory_notifier_cb_online fuel mhp w :
  wlp (virtio_mem_memory_notifier_cb fuel MEM_ONLINE mhp)
      (offline_accounted (- PFN_PHYS (plat w) (nr_pages mhp)) w) w.
Proof.
  unfold virtio_mem_memory_notifier_cb. apply wlp_get_vm, wlp_get_plat.
  destruct (negb _); [apply wlp_ret; discriminate|].
  match goal with |- wlp (if ?c then _ else _) _ _ => destruct c end;
    [exact Logic.I|].
  match goal with |- wlp (if ?c then _ else _) _ _ => destruct c end;
    [apply wlp_ret; discriminate|].
  eapply (wlp_bind_keeps offR).
  { apply keeps_when; [typeclasses eauto|].
    apply offR_virtio_mem_sbm_notify_online. }
  intros [] w1 (Ho & Hh & Hp).
  unfold wlp, bind, atomic64_add_offline_size, virtio_mem_retry, modify_vm,
    when, get_vm, ret.
  cbn. destruct (_ && _); cbn;
    [destruct (negb (removing _)); cbn|]; intros _; rewrite Ho; auto.
Qed.


(** X10.  [MEM_OFFLINE] adds the size of the range to the size of the
    offline memory and [MEM_ONLINE] subtracts it: after a memory block went
    offline and online again, both answered [NOTIFY_OK], [offline_size] is
    what it was, and no notification is marked as in progress. *)
Theorem notifier_offline_online_accounting fuel fuel' mhp w w1 w2 :
  is_u64 (offline_size (vm w)) ->
  virtio_mem_memory_notifier_cb fuel MEM_OFFLINE mhp w = Ok NOTIFY_OK w1 ->
  virtio_mem_memory_notifier_cb fuel' MEM_ONLINE mhp w1 = Ok NOTIFY_OK w2 ->
  offline_size (vm w1)
  = u64 (offline_size (vm w) + PFN_PHYS (plat w) (nr_pages mhp)) /\
  hotplug_active (vm w1) = false /\
  offline_size (vm w2) = offline_size (vm w) /\
  hotplug_active (vm w2) = false.
Proof.
  intros Hu E1 E2.
  destruct (wlp_ok _ _ _ _ _
              (virtio_mem_memory_notifier_cb_offline fuel mhp w) E1 eq_refl)
    as (Ho1 & Hh1 & Hp1).
  destruct (wlp_ok _ _ _ _ _
              (virtio_mem_memory_notifier_cb_online fuel' mhp w1) E2 eq_refl)
    as (Ho2 & Hh2 & Hp2).
  repeat split; try assumption.
  rewrite Ho2, Ho1, Hp1, u64_add_l.
  replace (_ + _ + - _) with (offline_size (vm w)) by ring.
  apply u64_small, Hu.
Qed.

Definition offline_run : Z * world :=
  run_result (virtio_mem_memory_notifier_cb 100 MEM_OFFLINE mb_8 stuck_world)
    0 stuck_world.

Lemma offline_run_ok :
  virtio_mem_memory_notifier_cb 100 MEM_OFFLINE mb_8 stuck_world
  = Ok NOTIFY_OK (snd offline_run).
Proof. apply run_result_is; vm_compute; reflexivity. Qed.

Definition online_run : Z * world :=
  run_result
    (virtio_mem_memory_notifier_cb 100 MEM_ONLINE mb_8 (snd offline_run))
    0 stuck_world.

Lemma online_run_ok :
  virtio_mem_memory_notifier_cb 100 MEM_ONLINE mb_8 (snd offline_run)
  = Ok NOTIFY_OK (snd online_run).
Proof. apply run_result_is; vm_compute; reflexivity. Qed.

Lemma notifier_offline_online_accounting_witness :
  offline_size (vm (snd offline_run)) = 2 ^ 27 /\
  offline_size (vm (snd online_run)) = offline_size (vm stuck_world).
Proof.
  destruct (notifier_offline_online_accounting 100 100 mb_8 stuck_world
              (snd offline_run) (snd online_run)
              ltac:(vm_compute; split; [discriminate | reflexivity])
              offline_run_ok online_run_ok)
    as (H1 & _ & H2 & _).
  split; [rewrite H1; vm_compute; reflexivity | exact H2].
Defined.


(** ** Fake-online pages *)

Lemma IS_ALIGNED_lor a b o :
  0 <= o ->
  IS_ALIGNED (Z.lor a b) (Z.shiftl 1 o) = true ->
  (2 ^ o | a) /\ (2 ^ o | b).
Proof.
  intros Ho. unfold IS_ALIGNED. rewrite Z.shiftl_1_l.
  replace (2 ^ o - 1) with (Z.ones o) by (rewrite Z.ones_equiv; lia).
  rewrite Z.land_lor_distr_l. intros H. apply Z.eqb_eq in H.
  apply Z.lor_eq_0_iff in H as [Ha Hb].
  rewrite Z.land_ones in Ha, Hb by exact Ho.
  assert (0 < 2 ^ o) by (apply Z.pow_pos_nonneg; lia).
  split; apply Z.mod_divide; solve [lia | assumption].
Qed.

Lemma IS_ALIGNED_lor_order a b o :
  b <> 0 -> IS_ALIGNED (Z.lor a b) (Z.shiftl 1 o) = true -> 0 <= o.
Proof.
  intros Hb H. destruct (Z.le_gt_cases 0 o) as [|Hneg]; [assumption|].
  exfalso. unfold IS_ALIGNED in H.
  rewrite Z.shiftl_1_l, Z.pow_neg_r in H by exact Hneg.
  change (0 - 1) with (-1) in H. rewrite Z.land_m1_r in H.
  apply Z.eqb_eq, Z.lor_eq_0_iff in H. tauto.
Qed.

Lemma page_flag_get_cons v lo n f p :
  page_flag_get ((v, lo, n) :: f) p
  = if in_range lo n p then v else page_flag_get f p.
Proof. reflexivity. Qed.

(** The pages of [pfn .. pfn + n) have [PG_offline] clear in [w'], every
    other page has it as in [w]. *)
Definition offline_cleared (pfn n : Z) (w w' : world) : Prop :=
  forall p, page_flag_get (PageOffline w') p
            = if in_range pfn n p then false
              else page_flag_get (PageOffline w) p.

Lemma virtio_mem_fake_online_clears fuel pfn nr_pages w :
  0 <= pfn -> pfn + nr_pages < U64 ->
  wlp (virtio_mem_fake_online fuel pfn nr_pages)
      (fun _ w' => offline_cleared pfn nr_pages w w' /\ vm w' = vm w) w.
Proof.
  intros Hpfn Hend. unfold virtio_mem_fake_online. apply wlp_get_plat.
  eapply wlp_bind_post.
  { apply (wlp_iterate
             (fun _ w1 => w1 = w)
             (fun order w1 =>
                w1 = w /\
                IS_ALIGNED (Z.lor pfn nr_pages) (Z.shiftl 1 order) = true));
      [|reflexivity].
    intros order w1 ->.
    destruct (IS_ALIGNED _ _) eqn:Ha; apply wlp_ret; cbn; auto. }
  intros order w1 [-> Ha].
  destruct (Z.le_gt_cases nr_pages 0) as [Hn|Hn].
  { destruct fuel as [|fuel]; [exact Logic.I|].
    cbn [iterate]. destruct (Z.ltb_spec 0 nr_pages) as [|_]; [lia|].
    apply wlp_ret. split; [|reflexivity].
    intros p. unfold in_range.
    destruct (Z.leb_spec pfn p), (Z.ltb_spec p (pfn + nr_pages));
      cbn; try reflexivity; lia. }
  assert (Ho : 0 <= order) by (eapply IS_ALIGNED_lor_order, Ha; lia).
  destruct (IS_ALIGNED_lor _ _ _ Ho Ha) as [_ Hdn].
  rewrite Z.shiftl_1_l. set (c := 2 ^ order) in *.
  assert (Hc : 0 < c) by (apply Z.pow_pos_nonneg; lia).
  apply (wlp_iterate
           (fun i w1 => 0 <= i <= nr_pages /\ (c | i) /\
                        offline_cleared pfn i w w1 /\ vm w1 = vm w)
           (fun _ w1 => offline_cleared pfn nr_pages w w1 /\ vm w1 = vm w)).
  - intros i w1 (Hi & Hdi & Hcl & Hvm).
    destruct (Z.ltb_spec i nr_pages) as [Hlt|Hge].
    2:{ apply wlp_ret. replace nr_pages with i by lia. auto. }
    assert (Hic : i + c <= nr_pages).
    { destruct Hdi as [x Hx], Hdn as [y Hy].
      assert (x < y) by (apply (Z.mul_lt_mono_pos_r c); lia).
      assert ((x + 1) * c <= y * c) by (apply Z.mul_le_mono_nonneg_r; lia).
      lia. }
    assert (Ex : u64 (pfn + i) = pfn + i) by (apply u64_small; lia).
    assert (Ey : u64 (i + c) = i + c) by (apply u64_small; lia).
    rewrite Ex, Ey.
    assert (Hnew : forall f,
              (forall p, page_flag_get f p
                         = if in_range pfn i p then false
                           else page_flag_get (PageOffline w) p) ->
              forall p, page_flag_get ((false, pfn + i, c) :: f) p
                        = if in_range pfn (i + c) p then false
                          else page_flag_get (PageOffline w) p).
    { intros f Hf p. rewrite page_flag_get_cons, Hf. unfold in_range.
      destruct (Z.leb_spec (pfn + i) p), (Z.ltb_spec p (pfn + i + c)),
        (Z.leb_spec pfn p), (Z.ltb_spec p (pfn + i)),
        (Z.ltb_spec p (pfn + (i + c))); cbn; try reflexivity; lia. }
    unfold wlp, bind, get_world, virtio_mem_clear_fake_offline,
      modify_PageOffline, modify_PageDirty, extcall, ret.
    destruct (page_flag_get (PageDirty w1) (pfn + i)); cbn;
      (split; [lia|]); (split; [apply Z.divide_add_r;
                                [exact Hdi | apply Z.divide_refl]|]);
      (split; [exact (Hnew (PageOffline w1) Hcl) | exact Hvm]).
  - split; [lia|]. split; [apply Z.divide_0_r|]. split; [|reflexivity].
    intros p. unfold in_range.
    destruct (Z.leb_spec pfn p), (Z.ltb_spec p (pfn + 0));
      cbn; try reflexivity; lia.
Qed.


(** X11.  virtio_mem_fake_online clears [PG_offline] on every page of its
    range and on no other page, whatever the order is in which it releases
    the pages, and leaves the device as it is.  After a call of
    virtio_mem_fake_offline that returned 0 it takes [PG_offline] of the
    pages outside of the range back to what it was before that call. *)
Theorem fake_online_clears_offline fuel pfn nr_pages w w' :
  0 <= pfn -> pfn + nr_pages < U64 ->
  virtio_mem_fake_online fuel pfn nr_pages w = Ok tt w' ->
  offline_cleared pfn nr_pages w w' /\ vm w' = vm w /\
  forall w0,
    virtio_mem_fake_offline pfn nr_pages w0 = Ok 0 w ->
    (forall p, in_range pfn nr_pages p = true ->
               page_flag_get (PageOffline w) p = true) /\
    offline_cleared pfn nr_pages w0 w'.
Proof.
  intros Hpfn Hend E.
  destruct (wlp_ok _ _ _ _ _
              (virtio_mem_fake_online_clears fuel pfn nr_pages w Hpfn Hend) E)
    as [Hcl Hvm].
  split; [exact Hcl|]. split; [exact Hvm|].
  intros w0 E0.
  destruct (virtio_mem_fake_offline_returns pfn nr_pages w0)
    as (rc & w1 & E1 & new & _ & _ & _ & _ & _ & _ & _ & _ & _ & Hset & _).
  rewrite E0 in E1. injection E1 as <- <-.
  specialize (Hset eq_refl). split.
  - intros p Hp. rewrite Hset, page_flag_get_cons, Hp. reflexivity.
  - intros p. rewrite (Hcl p), Hset, page_flag_get_cons.
    destruct (in_range pfn nr_pages p); reflexivity.
Qed.

Definition fake_offline_run : Z * world :=
  run_result (virtio_mem_fake_offline (2 ^ 18) (2 ^ 10) stuck_world)
    0 stuck_world.

Lemma fake_offline_run_ok :
  virtio_mem_fake_offline (2 ^ 18) (2 ^ 10) stuck_world
  = Ok 0 (snd fake_offline_run).
Proof. apply run_result_is; vm_compute; reflexivity. Qed.

Definition fake_online_run : unit * world :=
  run_result
    (virtio_mem_fake_online 100 (2 ^ 18) (2 ^ 10) (snd fake_offline_run))
    tt stuck_world.

Lemma fake_online_run_ok :
  virtio_mem_fake_online 100 (2 ^ 18) (2 ^ 10) (snd fake_offline_run)
  = Ok tt (snd fake_online_run).
Proof. apply run_result_is; vm_compute; reflexivity. Qed.

Lemma fake_online_clears_offline_witness :
  offline_cleared (2 ^ 18) (2 ^ 10) stuck_world (snd fake_online_run).
Proof.
  refine (proj2 (proj2 (proj2
    (fake_online_clears_offline 100 (2 ^ 18) (2 ^ 10) (snd fake_offline_run)
       (snd fake_online_run) _ _ fake_online_run_ok)) stuck_world
    fake_offline_run_ok)); vm_compute; first [reflexivity | discriminate].
Defined.


(** ** Onlining pages *)

(** The subblocks that the [2 ^ order] pages at [addr] lie in, as
    virtio_mem_online_page computes them, all have the bit [b]. *)
Definition covered_bits (b : bool) (w : world) (addr order : Z) : Prop :=
  let v := vm w in
  let pf := plat w in
  let next := u64 (addr + PFN_PHYS pf (Z.shiftl 1 order)) in
  let sb_id := virtio_mem_phys_to_sb_id pf v addr in
  let count :=
    u64 (virtio_mem_phys_to_sb_id pf v (u64 (next - 1)) - sb_id + 1) in
  bits_are b (sb_states (sbm v))
    (virtio_mem_sbm_sb_state_bit_nr v (virtio_mem_phys_to_mb_id pf addr)
       (to_int sb_id))
    (to_int count).

(** The pages at [addr] are to go to the buddy ([b = true]) or to stay
    fake-offline ([b = false]) by the tables of [w]. *)
Definition pages_are (b : bool) (w : world) (addr order : Z) : Prop :=
  if in_sbm (vm w) then covered_bits b w addr order
  else
    exists st,
      bb_states (bbm (vm w)) !! bbm_idx (vm w) (virtio_mem_phys_to_bb_id (vm w) addr)
      = Some st /\
      (b = false <-> st = VIRTIO_MEM_BBM_BB_FAKE_OFFLINE).

Definition online_ok (w : world) (c : call) : Prop :=
  match c with
  | generic_online_page p order =>
      exists addr, p = PFN_DOWN (plat w) addr /\ pages_are true w addr order
  | ClearPageReserved _ _ => True
  | _ => False
  end.

Definition offline_ok (w : world) (e : bool * Z * Z) : Prop :=
  exists addr order,
    e = (true, PFN_DOWN (plat w) addr, Z.shiftl 1 order) /\
    pages_are false w addr order.

(** What virtio_mem_online_page has done to [w] when the world is [w1]. *)
Definition online_page_done (w w1 : world) : Prop :=
  vm w1 = vm w /\ plat w1 = plat w /\ xa_membuf w1 = xa_membuf w /\
  exists calls marks,
    trace w1 = calls ++ trace w /\
    PageOffline w1 = marks ++ PageOffline w /\
    PageDirty w1 = marks ++ PageDirty w /\
    Forall (online_ok w) calls /\ Forall (offline_ok w) marks.

Lemma online_page_done_online w w1 addr order :
  online_page_done w w1 -> pages_are true w addr order ->
  online_page_done w
    (with_trace (generic_online_page (PFN_DOWN (plat w) addr) order :: trace w1)
       w1).
Proof.
  intros (Hvm & Hp & Hxa & calls & marks & Ht & Ho & Hd & Hc & Hm) Hb.
  split; [exact Hvm|]. split; [exact Hp|]. split; [exact Hxa|].
  exists (generic_online_page (PFN_DOWN (plat w) addr) order :: calls), marks.
  cbn. rewrite Ht. repeat split; try assumption.
  constructor; [|exact Hc]. exists addr. auto.
Qed.

Lemma online_page_done_offline w w1 addr order :
  online_page_done w w1 -> pages_are false w addr order ->
  wlp (virtio_mem_set_fake_offline (PFN_DOWN (plat w) addr) (Z.shiftl 1 order)
         false)
      (fun _ w2 => online_page_done w w2) w1.
Proof.
  intros (Hvm & Hp & Hxa & calls & marks & Ht & Ho & Hd & Hc & Hm) Hb.
  unfold wlp, virtio_mem_set_fake_offline, bind, modify_PageOffline,
    modify_PageDirty, extcall, ret. cbn.
  split; [exact Hvm|]. split; [exact Hp|]. split; [exact Hxa|].
  eexists (ClearPageReserved _ _ :: calls), (_ :: marks).
  cbn. rewrite Ht, Ho, Hd. repeat split.
  - constructor; [exact Logic.I|exact Hc].
  - constructor; [|exact Hm]. exists addr, order. auto.
Qed.


Lemma virtio_mem_sbm_test_sb_plugged_one mb_id sb_id w w' :
  virtio_mem_sbm_test_sb_plugged mb_id sb_id 1 w = Ok false w' ->
  bits_are false (sb_states (sbm (vm w)))
    (virtio_mem_sbm_sb_state_bit_nr (vm w) mb_id sb_id) 1.
Proof.
  unfold virtio_mem_sbm_test_sb_plugged, bind, get_vm, lift_access, ret,
    test_bit. cbn.
  destruct (_ <? 0); [discriminate|].
  destruct (_ !! _) as [x|] eqn:Hx; [|discriminate].
  intros [= -> _] k Hk. replace (_ + k) with
    (virtio_mem_sbm_sb_state_bit_nr (vm w) mb_id sb_id) by lia.
  exact Hx.
Qed.

Lemma virtio_mem_online_page_pages fuel pfn order w :
  wlp (virtio_mem_online_page fuel pfn order)
      (fun _ w' => online_page_done w w') w.
Proof.
  assert (H0 : online_page_done w w).
  { repeat split. exists [], []. repeat split; constructor. }
  unfold virtio_mem_online_page. apply wlp_get_vm, wlp_get_plat.
  apply (wlp_iterate (fun _ w1 => online_page_done w w1)
           (fun _ w1 => online_page_done w w1)); [|exact H0].
  clear H0. intros [addr o] w1 HI.
  destruct (addr <? _); [|apply wlp_ret; exact HI].
  assert (Hon : pages_are true w addr o ->
            wlp (extcall (generic_online_page (PFN_DOWN (plat w) addr) o) ;;
                 ret tt)
                (fun _ w2 => online_page_done w w2) w1).
  { intros Hb. apply wlp_extcall, wlp_ret.
    apply online_page_done_online; assumption. }
  pose proof (online_page_done_offline w w1 addr o HI) as Hoff.
  unfold pages_are in Hon, Hoff.
  destruct HI as (Hvm & Hp & HI).
  destruct (in_sbm (vm w)).
  - destruct (sb_size (sbm (vm w)) =? 0); [exact Logic.I|].
    apply wlp_bind, wlp_intro. intros plugged w2 E.
    apply virtio_mem_sbm_test_sb_plugged_spec in E as E'.
    destruct E' as [-> Hpl]. rewrite Hvm in Hpl.
    destruct plugged.
    { eapply wlp_bind_post; [apply Hon, Hpl; reflexivity|].
      intros [] w3 H3. apply wlp_ret. exact H3. }
    apply wlp_bind, wlp_intro. intros unplugged w2 Eu.
    assert (Hu : w2 = w1 /\ (unplugged = true -> covered_bits false w addr o)).
    { match type of Eu with
      | (if ?c =? 1 then _ else _) _ = _ =>
          destruct (Z.eqb_spec c 1) as [E1|E1]
      end.
      - injection Eu as <- <-. split; [reflexivity|]. intros _.
        unfold covered_bits. cbv zeta. rewrite E1 in *.
        change (to_int 1) with 1 in *.
        pose proof (virtio_mem_sbm_test_sb_plugged_one _ _ _ _ E) as H1.
        rewrite Hvm in H1. exact H1.
      - apply virtio_mem_sbm_test_sb_unplugged_spec in Eu as [-> Hu].
        rewrite Hvm in Hu. split; [reflexivity|]. apply Hu. }
    destruct Hu as [-> Hu]. destruct unplugged.
    { eapply wlp_bind_post; [apply Hoff, Hu; reflexivity|].
      intros [] w3 H3. apply wlp_ret. exact H3. }
    apply wlp_bind, wlp_intro. intros b w2 Eb.
    apply virtio_mem_sbm_test_sb_plugged_spec in Eb as [-> _].
    apply wlp_ret. split; [exact Hvm|]. split; [exact Hp|]. exact HI.
  - destruct (bb_size (bbm (vm w)) =? 0); [exact Logic.I|].
    unfold virtio_mem_bbm_get_bb_state. apply wlp_bind, wlp_get_vm.
    rewrite Hvm.
    destruct (bb_states _ !! _) as [st|] eqn:Hst; [|exact Logic.I].
    apply wlp_ret.
    destruct (bool_decide_reflect (st = VIRTIO_MEM_BBM_BB_FAKE_OFFLINE))
      as [Hf|Hf]; cbn [negb].
    + eapply wlp_bind_post.
      { apply Hoff. exists st. split; [reflexivity|]. tauto. }
      intros [] w3 H3. apply wlp_ret. exact H3.
    + eapply wlp_bind_post.
      { apply Hon. exists st. split; [reflexivity|].
        split; [discriminate|contradiction]. }
      intros [] w3 H3. apply wlp_ret. exact H3.
Qed.


(** X12.  virtio_mem_online_page hands pages to generic_online_page only
    when, in Sub-Block Mode, every subblock that they lie in is plugged or,
    in Big-Block Mode, their big block is not [FAKE_OFFLINE]; it marks pages
    fake-offline, and dirty, only when every one of their subblocks is
    unplugged or their big block is [FAKE_OFFLINE].  It makes no other call
    but ClearPageReserved, and does not change the device or the handles. *)
Theorem online_page_respects_plugged fuel pfn order w w' :
  virtio_mem_online_page fuel pfn order w = Ok tt w' ->
  vm w' = vm w /\ xa_membuf w' = xa_membuf w /\
  exists calls marks,
    trace w' = calls ++ trace w /\
    PageOffline w' = marks ++ PageOffline w /\
    PageDirty w' = marks ++ PageDirty w /\
    Forall (online_ok w) calls /\ Forall (offline_ok w) marks.
Proof.
  intros E.
  destruct (wlp_ok _ _ _ _ _ (virtio_mem_online_page_pages fuel pfn order w) E)
    as (Hvm & _ & Hxa & H).
  auto.
Qed.

Definition online_page_run : unit * world :=
  run_result
    (virtio_mem_online_page 100 (2 ^ 18 + 2 ^ 12) 10 (snd set_unplugged_run))
    tt stuck_world.

Lemma online_page_run_ok :
  virtio_mem_online_page 100 (2 ^ 18 + 2 ^ 12) 10 (snd set_unplugged_run)
  = Ok tt (snd online_page_run).
Proof. apply run_result_is; vm_compute; reflexivity. Qed.

Lemma online_page_respects_plugged_witness :
  PageOffline (snd online_page_run) = [(true, 2 ^ 18 + 2 ^ 12, 2 ^ 10)] /\
  exists calls marks,
    trace (snd online_page_run) = calls ++ trace (snd set_unplugged_run) /\
    PageOffline (snd online_page_run)
    = marks ++ PageOffline (snd set_unplugged_run) /\
    PageDirty (snd online_page_run)
    = marks ++ PageDirty (snd set_unplugged_run) /\
    Forall (online_ok (snd set_unplugged_run)) calls /\
    Forall (offline_ok (snd set_unplugged_run)) marks.
Proof.
  split; [vm_compute; reflexivity|].
  exact (proj2 (proj2 (online_page_respects_plugged 100 (2 ^ 18 + 2 ^ 12) 10
                         (snd set_unplugged_run) (snd online_page_run)
                         online_page_run_ok))).
Defined.


(** ** Plugging and unplugging subblocks *)

Lemma virtio_mem_sbm_plug_sb_marks fuel mb_id sb_id count w rc w' :
  0 < count ->
  virtio_mem_sbm_plug_sb fuel mb_id sb_id count w = Ok rc w' ->
  (rc <> 0 -> sbm (vm w') = sbm (vm w)) /\
  (rc = 0 ->
   exists w1,
     vm w1 = with_plugged_size (plugged_size (vm w1)) (vm w) /\
     sb_bits_set true mb_id sb_id count w1 w').
Proof.
  intros Hc.
  unfold virtio_mem_sbm_plug_sb. unfold bind at 1 2 3. unfold get_vm, get_plat.
  destruct (virtio_mem_send_plug_request _ _ _ _ w) as [rc0 w1| | |] eqn:E;
    try discriminate.
  destruct (wlp_ok _ _ _ _ _
              (virtio_mem_send_plug_request_frame _ _ _ _ _) E) as [Hvm _].
  unfold nz. destruct (Z.eqb_spec rc0 0) as [->|Hne]; cbn [negb when].
  - unfold bind.
    destruct (virtio_mem_sbm_set_sb_plugged _ _ _ w1) as [ [] w2| | |] eqn:Es;
      try discriminate.
    intros [= <- <-]. split; [congruence|]. intros _.
    exists w1. split; [exact Hvm|].
    exact (proj1 (virtio_mem_sbm_set_sb_spec true _ _ _ _ _ Hc Es)).
  - intros [= <- <-]. split; [|contradiction]. intros _.
    rewrite Hvm. reflexivity.
Qed.

Lemma virtio_mem_sbm_unplug_sb_marks fuel mb_id sb_id count w rc w' :
  0 < count ->
  virtio_mem_sbm_unplug_sb fuel mb_id sb_id count w = Ok rc w' ->
  (rc <> 0 -> vm w' = vm w) /\
  (rc = 0 ->
   exists w1,
     vm w1 = with_plugged_size
               (u64 (plugged_size (vm w)
                     - u64 (count * sb_size (sbm (vm w))))) (vm w) /\
     sb_bits_set false mb_id sb_id count w1 w').
Proof.
  intros Hc.
  unfold virtio_mem_sbm_unplug_sb. unfold bind at 1 2 3.
  unfold get_vm, get_plat.
  destruct (virtio_mem_send_unplug_request _ _ _ _ w) as [rc0 w1| | |] eqn:E;
    try discriminate.
  pose proof (wlp_ok _ _ _ _ _
                (virtio_mem_send_unplug_request_sent _ _ _ _ _) E) as Hs.
  unfold nz. destruct (Z.eqb_spec rc0 0) as [->|Hne]; cbn [negb when].
  - unfold bind.
    destruct (virtio_mem_sbm_set_sb_unplugged _ _ _ w1) as [ [] w2| | |] eqn:Es;
      try discriminate.
    intros [= <- <-]. split; [congruence|]. intros _.
    exists w1. split.
    + destruct Hs as [ [_ Hvm]|[Hrc _] ]; [exact Hvm|discriminate Hrc].
    + exact (proj1 (virtio_mem_sbm_set_sb_spec false _ _ _ _ _ Hc Es)).
  - intros [= <- <-]. split; [|contradiction]. intros _.
    destruct Hs as [ [Hrc _]|[_ Hvm] ]; [contradiction|exact Hvm].
Qed.

(** X13.  virtio_mem_sbm_plug_sb sets the bits of the subblocks exactly when
    the plug request has returned 0: then the device is the one that the
    request has left, with these bits set; on an error the tables of the
    Sub-Block Mode are what they were.  virtio_mem_sbm_unplug_sb clears the
    bits exactly when the unplug request has returned 0, after
    [plugged_size] has been made less by the size of the subblocks; on an
    error the device is what it was. *)
Theorem sbm_plug_sb_marks_on_success fuel mb_id sb_id count w rc w' :
  0 < count ->
  (virtio_mem_sbm_plug_sb fuel mb_id sb_id count w = Ok rc w' ->
   (rc <> 0 -> sbm (vm w') = sbm (vm w)) /\
   (rc = 0 ->
    exists w1,
      vm w1 = with_plugged_size (plugged_size (vm w1)) (vm w) /\
      sb_bits_set true mb_id sb_id count w1 w')) /\
  (virtio_mem_sbm_unplug_sb fuel mb_id sb_id count w = Ok rc w' ->
   (rc <> 0 -> vm w' = vm w) /\
   (rc = 0 ->
    exists w1,
      vm w1 = with_plugged_size
                (u64 (plugged_size (vm w)
                      - u64 (count * sb_size (sbm (vm w))))) (vm w) /\
      sb_bits_set false mb_id sb_id count w1 w')).
Proof.
  intros Hc. split.
  - apply virtio_mem_sbm_plug_sb_marks, Hc.
  - apply virtio_mem_sbm_unplug_sb_marks, Hc.
Qed.

Definition plug_sb_run : Z * world :=
  run_result (virtio_mem_sbm_plug_sb 100 8 4 3 (snd set_unplugged_run))
    0 stuck_world.

Lemma plug_sb_run_ok :
  virtio_mem_sbm_plug_sb 100 8 4 3 (snd set_unplugged_run)
  = Ok 0 (snd plug_sb_run).
Proof. apply run_result_is; vm_compute; reflexivity. Qed.

Lemma sbm_plug_sb_marks_on_success_witness :
  exists w1,
    vm w1 = with_plugged_size (plugged_size (vm w1))
              (vm (snd set_unplugged_run)) /\
    sb_bits_set true 8 4 3 w1 (snd plug_sb_run).
Proof.
  exact (proj2 (proj1 (sbm_plug_sb_marks_on_success 100 8 4 3
                         (snd set_unplugged_run) 0 (snd plug_sb_run)
                         eq_refl)
                  plug_sb_run_ok) eq_refl).
Defined.


(** ** The callbacks of the kernel *)

(** What the callbacks of the kernel leave alone: the subblock bitmap and
    where a memory block has its bits in it, the tables of Big-Block Mode,
    and [plugged_size]. *)
Definition cbR (w w' : world) : Prop :=
  sb_states (sbm (vm w')) = sb_states (sbm (vm w)) /\
  first_mb_id (sbm (vm w')) = first_mb_id (sbm (vm w)) /\
  sbs_per_mb (sbm (vm w')) = sbs_per_mb (sbm (vm w)) /\
  bbm (vm w') = bbm (vm w) /\
  plugged_size (vm w') = plugged_size (vm w).

#[global] Instance cbR_preorder : PreOrder cbR.
Proof.
  unfold cbR. split.
  - intros w. auto.
  - intros w1 w2 w3 (? & ? & ? & ? & ?) (? & ? & ? & ? & ?).
    repeat split; congruence.
Qed.

Ltac cb_side := intros; repeat split.

Lemma cbR_atomic64_add_offline_size d :
  keeps cbR (atomic64_add_offline_size d).
Proof. unfold atomic64_add_offline_size. keeps_auto cb_side. Qed.
#[global] Hint Resolve cbR_atomic64_add_offline_size : keeps.

Lemma cbR_virtio_mem_retry  :
  keeps cbR (virtio_mem_retry ).
Proof. unfold virtio_mem_retry. keeps_auto cb_side. Qed.
#[global] Hint Resolve cbR_virtio_mem_retry : keeps.

Lemma cbR_virtio_mem_sbm_set_mb_state mb_id state :
  keeps cbR (virtio_mem_sbm_set_mb_state mb_id state).
Proof. unfold virtio_mem_sbm_set_mb_state. keeps_auto cb_side. Qed.
#[global] Hint Resolve cbR_virtio_mem_sbm_set_mb_state : keeps.

Lemma cbR_virtio_mem_sbm_test_sb_plugged mb_id sb_id count :
  keeps cbR (virtio_mem_sbm_test_sb_plugged mb_id sb_id count).
Proof. unfold virtio_mem_sbm_test_sb_plugged. keeps_auto cb_side. Qed.
#[global] Hint Resolve cbR_virtio_mem_sbm_test_sb_plugged : keeps.

Lemma cbR_virtio_mem_sbm_test_sb_unplugged mb_id sb_id count :
  keeps cbR (virtio_mem_sbm_test_sb_unplugged mb_id sb_id count).
Proof. unfold virtio_mem_sbm_test_sb_unplugged. keeps_auto cb_side. Qed.
#[global] Hint Resolve cbR_virtio_mem_sbm_test_sb_unplugged : keeps.

Lemma cbR_virtio_mem_set_fake_offline pfn nr_pages onlined :
  keeps cbR (virtio_mem_set_fake_offline pfn nr_pages onlined).
Proof. unfold virtio_mem_set_fake_offline. keeps_auto cb_side. Qed.
#[global] Hint Resolve cbR_virtio_mem_set_fake_offline : keeps.

Lemma cbR_virtio_mem_fake_offline_going_offline fuel pfn nr_pages :
  keeps cbR (virtio_mem_fake_offline_going_offline fuel pfn nr_pages).
Proof. unfold virtio_mem_fake_offline_going_offline. keeps_auto cb_side. Qed.
#[global] Hint Resolve cbR_virtio_mem_fake_offline_going_offline : keeps.

Lemma cbR_virtio_mem_fake_offline_cancel_offline fuel pfn nr_pages :
  keeps cbR (virtio_mem_fake_offline_cancel_offline fuel pfn nr_pages).
Proof. unfold virtio_mem_fake_offline_cancel_offline. keeps_auto cb_side. Qed.
#[global] Hint Resolve cbR_virtio_mem_fake_offline_cancel_offline : keeps.

Lemma cbR_virtio_mem_sbm_notify_going_online mb_id :
  keeps cbR (virtio_mem_sbm_notify_going_online mb_id).
Proof. unfold virtio_mem_sbm_notify_going_online. keeps_auto cb_side. Qed.
#[global] Hint Resolve cbR_virtio_mem_sbm_notify_going_online : keeps.

Lemma cbR_virtio_mem_sbm_notify_offline mb_id :
  keeps cbR (virtio_mem_sbm_notify_offline mb_id).
Proof. unfold virtio_mem_sbm_notify_offline. keeps_auto cb_side. Qed.
#[global] Hint Resolve cbR_virtio_mem_sbm_notify_offline : keeps.

Lemma cbR_virtio_mem_sbm_notify_online mb_id start_pfn :
  keeps cbR (virtio_mem_sbm_notify_online mb_id start_pfn).
Proof. unfold virtio_mem_sbm_notify_online. keeps_auto cb_side. Qed.
#[global] Hint Resolve cbR_virtio_mem_sbm_notify_online : keeps.

Lemma cbR_virtio_mem_sbm_notify_going_offline fuel mb_id :
  keeps cbR (virtio_mem_sbm_notify_going_offline fuel mb_id).
Proof. unfold virtio_mem_sbm_notify_going_offline. keeps_auto cb_side. Qed.
#[global] Hint Resolve cbR_virtio_mem_sbm_notify_going_offline : keeps.

Lemma cbR_virtio_mem_sbm_notify_cancel_offline fuel mb_id :
  keeps cbR (virtio_mem_sbm_notify_cancel_offline fuel mb_id).
Proof. unfold virtio_mem_sbm_notify_cancel_offline. keeps_auto cb_side. Qed.
#[global] Hint Resolve cbR_virtio_mem_sbm_notify_cancel_offline : keeps.

Lemma cbR_virtio_mem_bbm_notify_going_offline fuel bb_id pfn nr_pages :
  keeps cbR (virtio_mem_bbm_notify_going_offline fuel bb_id pfn nr_pages).
Proof. unfold virtio_mem_bbm_notify_going_offline. keeps_auto cb_side. Qed.
#[global] Hint Resolve cbR_virtio_mem_bbm_notify_going_offline : keeps.

Lemma cbR_virtio_mem_bbm_notify_cancel_offline fuel bb_id pfn nr_pages :
  keeps cbR (virtio_mem_bbm_notify_cancel_offline fuel bb_id pfn nr_pages).
Proof. unfold virtio_mem_bbm_notify_cancel_offline. keeps_auto cb_side. Qed.
#[global] Hint Resolve cbR_virtio_mem_bbm_notify_cancel_offline : keeps.

Lemma cbR_virtio_mem_memory_notifier_cb fuel action mhp :
  keeps cbR (virtio_mem_memory_notifier_cb fuel action mhp).
Proof. unfold virtio_mem_memory_notifier_cb. keeps_auto cb_side. Qed.
#[global] Hint Resolve cbR_virtio_mem_memory_notifier_cb : keeps.

Lemma cbR_virtio_mem_online_page fuel pfn order :
  keeps cbR (virtio_mem_online_page fuel pfn order).
Proof. unfold virtio_mem_online_page. cbv zeta. keeps_auto cb_side. Qed.
#[global] Hint Resolve cbR_virtio_mem_online_page : keeps.

Lemma cbR_virtio_mem_online_page_cb fuel pfn order :
  keeps cbR (virtio_mem_online_page_cb fuel pfn order).
Proof. unfold virtio_mem_online_page_cb. keeps_auto cb_side. Qed.
#[global] Hint Resolve cbR_virtio_mem_online_page_cb : keeps.

Lemma cbR_kernel_callbacks fuel :
  keeps cbR (kernel_callbacks fuel).
Proof. unfold kernel_callbacks. keeps_auto cb_side. Qed.
#[global] Hint Resolve cbR_kernel_callbacks : keeps.

(** Callbacks that do not come: the kernel has only been asked. *)
Lemma kernel_callbacks_none fuel w w' :
  kernel_callbacks fuel w = Ok tt w' ->
  env w (trace w) (hotplug_callback 0) = 0 ->
  w' = with_trace (hotplug_callback 0 :: trace w) w.
Proof.
  destruct fuel as [|fuel]; [discriminate|].
  unfold kernel_callbacks. cbn [iterate]. unfold bind, extcall.
  intros E H. rewrite H in E. cbn in E. injection E as <-. reflexivity.
Qed.

(** X24.  The memory notifier and virtio_mem_online_page_cb change neither
    the subblock bitmap nor the place of a memory block in it, nor the
    tables of Big-Block Mode, nor [plugged_size], whatever the action, the
    range and the pages are; so whatever the kernel calls back while the
    driver adds memory or offlines and removes it, what is plugged and
    what the driver takes to be plugged are the same after as before. *)
Theorem callbacks_keep_what_is_plugged fuel w :
  (forall action mhp rc w',
     virtio_mem_memory_notifier_cb fuel action mhp w = Ok rc w' ->
     cbR w w') /\
  (forall pfn order w',
     virtio_mem_online_page_cb fuel pfn order w = Ok tt w' -> cbR w w') /\
  (forall w', kernel_callbacks fuel w = Ok tt w' -> cbR w w').
Proof.
  split; [|split].
  - intros action mhp rc w' E.
    exact (wlp_ok _ _ _ _ _
             (cbR_virtio_mem_memory_notifier_cb fuel action mhp w) E).
  - intros pfn order w' E.
    exact (wlp_ok _ _ _ _ _
             (cbR_virtio_mem_online_page_cb fuel pfn order w) E).
  - intros w' E.
    exact (wlp_ok _ _ _ _ _ (cbR_kernel_callbacks fuel w) E).
Qed.

Lemma callbacks_keep_what_is_plugged_witness :
  cbR stuck_world (snd offline_run).
Proof.
  exact (proj1 (callbacks_keep_what_is_plugged 100 stuck_world)
           MEM_OFFLINE mb_8 NOTIFY_OK (snd offline_run) offline_run_ok).
Defined.

(** ** Memory added to and removed from Linux *)

Lemma virtio_mem_plug_memmap_vm fuel addr w :
  wlp (virtio_mem_plug_memmap fuel addr) (fun _ w' => vm w' = vm w) w.
Proof.
  unfold virtio_mem_plug_memmap. apply wlp_get_vm, wlp_get_plat.
  destruct (negb _); [apply wlp_ret; reflexivity|].
  eapply wlp_mono; [apply virtio_mem_send_plug_request_frame|].
  intros rc w' [_ H]. exact (H eq_refl).
Qed.

Lemma virtio_mem_unplug_memmap_vm fuel addr w :
  wlp (virtio_mem_unplug_memmap fuel addr) (fun _ w' => vm w' = vm w) w.
Proof.
  unfold virtio_mem_unplug_memmap. apply wlp_get_vm, wlp_get_plat.
  destruct (negb _); [apply wlp_ret; reflexivity|].
  eapply wlp_bind_post; [apply virtio_mem_send_unplug_request_sent|].
  intros rc w' [ [_ H]|[_ H] ]; apply wlp_ret; exact H.
Qed.

Lemma u64_add_sub o size :
  is_u64 o -> u64 (u64 (o + size) + - size) = o.
Proof.
  intros H. rewrite u64_add_l. replace (o + size + - size) with o by ring.
  apply u64_small, H.
Qed.

(** The memory is handed to the kernel on a device that counts it as
    offline already and that has its resource name: when
    virtio_mem_add_memory returns 0, the callbacks of the kernel have
    started in the world [w1], and nothing has followed them. *)
Definition memory_handed (fuel : nat) (size : Z) (w w' : world) : Prop :=
  exists w1,
    vm w1 = with_offline_size (u64 (offline_size (vm w) + size))
              (with_resource_name true (vm w)) /\
    kernel_callbacks fuel w1 = Ok tt w' /\
    (env w1 (trace w1) (hotplug_callback 0) = 0 -> vm w' = vm w1).

Lemma virtio_mem_add_memory_handed fuel addr size w :
  wlp (virtio_mem_add_memory fuel addr size)
      (fun rc w' =>
         if rc =? 0 then memory_handed fuel size w w'
         else
           offline_size (vm w') = offline_size (vm w) \/
           offline_size (vm w')
           = u64 (u64 (offline_size (vm w) + size) + - size)) w.
Proof.
  unfold virtio_mem_add_memory, memory_handed. apply wlp_get_vm.
  eapply (wlp_bind_post _ _
            (fun (name : bool) w1 =>
               if name then vm w1 = with_resource_name true (vm w)
               else vm w1 = vm w)).
  { destruct (resource_name (vm w)) eqn:Hn.
    - apply wlp_ret. destruct (vm w). cbn in *. subst. reflexivity.
    - apply wlp_extcall. destruct (_ =? 0); [apply wlp_ret; reflexivity|].
      unfold wlp, bind, modify_vm, ret. cbn. reflexivity. }
  intros name w1 H1. destruct name; cbn [negb].
  2:{ apply wlp_ret. change (- ENOMEM =? 0) with false. cbv iota.
      rewrite H1. auto. }
  eapply wlp_bind_post; [apply virtio_mem_plug_memmap_vm|].
  intros rc w2 H2. unfold nz.
  destruct (Z.eqb_spec rc 0) as [->|Hrc]; cbn [negb].
  2:{ apply wlp_ret. apply Z.eqb_neq in Hrc. rewrite Hrc, H2, H1. auto. }
  unfold bind at 1. unfold atomic64_add_offline_size, modify_vm.
  apply wlp_extcall.
  cbn [env trace with_vm with_trace].
  match goal with |- context [env ?a ?b ?c] => generalize (env a b c) end.
  intros rc.
  destruct (Z.eqb_spec rc 0) as [->|E]; cbn [negb when].
  - apply wlp_bind, wlp_intro. intros [] w3 Ek.
    apply wlp_bind, wlp_ret, wlp_ret. cbn [Z.eqb].
    eexists. split; [|split; [exact Ek|]].
    + cbn. rewrite H2, H1. reflexivity.
    + intros Hnone. rewrite (kernel_callbacks_none _ _ _ Ek Hnone).
      reflexivity.
  - apply wlp_bind, wlp_ret, wlp_bind. unfold bind at 1.
    eapply wlp_mono; [apply virtio_mem_unplug_memmap_vm|].
    intros [] w3 H3. apply wlp_ret. rewrite H3. cbn.
    apply Z.eqb_neq in E. rewrite E, H2, H1. cbn. auto.
Qed.

(** What virtio_mem_add_memory leaves: the memory handed to the kernel
    when it returns 0, and [offline_size] as it was when it returns an
    error. *)
Definition memory_added (fuel : nat) (size : Z) (w : world) (rc : Z)
    (w' : world) : Prop :=
  if rc =? 0 then memory_handed fuel size w w'
  else offline_size (vm w') = offline_size (vm w).

Lemma virtio_mem_add_memory_added fuel addr size w :
  is_u64 (offline_size (vm w)) ->
  wlp (virtio_mem_add_memory fuel addr size) (memory_added fuel size w) w.
Proof.
  intros Hu. eapply wlp_mono; [apply virtio_mem_add_memory_handed|].
  intros rc w' H. unfold memory_added. cbv beta in H.
  destruct (rc =? 0); [exact H|].
  destruct H as [H|H]; [exact H|]. rewrite H. apply u64_add_sub, Hu.
Qed.

(** What virtio_mem_remove_memory and virtio_mem_offline_and_remove_memory
    do to the device themselves: when they fail nothing, and else they
    take [size] from the offline memory and queue the worker, unless the
    device is being removed. *)
Definition memory_removed (size : Z) (w : world) (rc : Z) (w' : world)
  : Prop :=
  if rc =? 0 then
    vm w' = with_wq_pending (wq_pending (vm w) || negb (removing (vm w)))
              (with_offline_size (u64 (offline_size (vm w) + - size)) (vm w))
  else vm w' = vm w.

Lemma retried_vm v x :
  (if negb (removing v)
   then with_wq_pending true (with_offline_size x v)
   else with_offline_size x v)
  = with_wq_pending (wq_pending v || negb (removing v))
      (with_offline_size x v).
Proof.
  destruct v as [? ? ? ? ? ? ? ? ? ? rem ? ? ? ? ? pend].
  destruct rem; cbn; rewrite ?orb_true_r, ?orb_false_r; reflexivity.
Qed.

Lemma virtio_mem_remove_memory_removed fuel addr size w :
  wlp (virtio_mem_remove_memory fuel addr size) (memory_removed size w) w.
Proof.
  unfold virtio_mem_remove_memory. apply wlp_extcall.
  cbn [env trace with_vm with_trace].
  match goal with |- context [env ?a ?b ?c] => generalize (env a b c) end.
  intros rc.
  unfold nz, memory_removed.
  destruct (Z.eqb_spec rc 0) as [->|E]; cbn [negb].
  - eapply (wlp_bind_post _ _
              (fun _ w1 =>
                 vm w1
                 = with_wq_pending
                     (wq_pending (vm w) || negb (removing (vm w)))
                     (with_offline_size (u64 (offline_size (vm w) + - size))
                        (vm w)))).
    { unfold wlp, bind, atomic64_add_offline_size, virtio_mem_retry, get_vm,
        when, modify_vm, ret. cbn. rewrite <- retried_vm.
      destruct (removing (vm w)); reflexivity. }
    intros [] w1 H1. apply wlp_bind.
    eapply wlp_mono; [apply virtio_mem_unplug_memmap_vm|].
    intros [] w3 H3. apply wlp_ret. rewrite H3. exact H1.
  - apply wlp_bind, wlp_ret, wlp_bind, wlp_ret, wlp_ret.
    apply Z.eqb_neq in E. rewrite E. reflexivity.
Qed.

(** virtio_mem_offline_and_remove_memory: the kernel makes its callbacks
    inside offline_and_remove_memory(), from the world [w] to [w1], and
    what the function does itself it does after them. *)
Definition memory_offlined_and_removed (fuel : nat) (addr size : Z)
    (w : world) (rc : Z) (w' : world) : Prop :=
  (rc = 0 \/ rc = - ENOMEM \/ rc = - EBUSY) /\
  exists w1,
    kernel_callbacks fuel
      (with_trace (offline_and_remove_memory addr size :: trace w) w)
    = Ok tt w1 /\
    memory_removed size w1 rc w' /\
    (rc <> 0 -> w' = w1).

Lemma virtio_mem_offline_and_remove_memory_removed fuel addr size w :
  wlp (virtio_mem_offline_and_remove_memory fuel addr size)
      (memory_offlined_and_removed fuel addr size w) w.
Proof.
  unfold virtio_mem_offline_and_remove_memory, memory_offlined_and_removed.
  apply wlp_extcall.
  match goal with |- context [env ?a ?b ?c] => generalize (env a b c) end.
  intros rc.
  apply wlp_bind, wlp_intro. intros [] w1 Ek.
  unfold nz, memory_removed.
  destruct (Z.eqb_spec rc 0) as [->|E]; cbn [negb].
  - unfold bind at 1. unfold atomic64_add_offline_size, modify_vm.
    eapply wlp_bind_post; [apply virtio_mem_unplug_memmap_vm|].
    intros [] w3 H3. cbn in H3.
    apply wlp_bind. unfold virtio_mem_retry. apply wlp_get_vm.
    assert (Hrem : removing (vm w3) = removing (vm w1))
      by (rewrite H3; reflexivity).
    unfold wlp, when, modify_vm, ret.
    destruct (negb (removing (vm w3))) eqn:Hn; cbn;
      (split; [auto|]); exists w1; (split; [exact Ek|]);
      (split; [|intros Hne; contradiction]);
      rewrite <- retried_vm, <- Hrem, Hn, H3; reflexivity.
  - apply wlp_ret.
    assert (Hrc : (if rc =? - ENOMEM then - ENOMEM else - EBUSY) <> 0)
      by (destruct (rc =? - ENOMEM); discriminate).
    apply Z.eqb_neq in Hrc. rewrite Hrc.
    split; [destruct (rc =? - ENOMEM); auto|].
    exists w1. split; [exact Ek|]. split; [reflexivity|]. intros _.
    reflexivity.
Qed.


(** X14.  virtio_mem_add_memory counts the memory as offline before it
    hands it to the kernel, so that a memory block that the kernel puts
    online before add_memory_driver_managed() returns is taken from
    [offline_size] by the notifier after it was added to it: when the
    function returns 0, the callbacks of the kernel have started in a
    world [w1] whose device is the one before the call with the resource
    name set and [offline_size] larger by the size of the memory, and the
    function has done nothing after them; that device is the one it
    leaves when the kernel makes no callback.  When it returns an error,
    whichever step has failed, [offline_size] is what it was.
    virtio_mem_remove_memory leaves the device as it was when it fails;
    when it returns 0, [offline_size] is less by the size, the worker is
    queued unless the device is being removed, and nothing else of the
    device has changed.  virtio_mem_offline_and_remove_memory does the
    same to the device that the callbacks of the kernel inside
    offline_and_remove_memory() have left, and nothing more when it fails;
    it returns 0, -ENOMEM or -EBUSY, whatever the kernel has answered. *)
Theorem offline_size_accounting fuel addr size w rc w' :
  is_u64 (offline_size (vm w)) ->
  (virtio_mem_add_memory fuel addr size w = Ok rc w' ->
   if rc =? 0 then
     exists w1,
       vm w1 = with_offline_size (u64 (offline_size (vm w) + size))
                 (with_resource_name true (vm w)) /\
       kernel_callbacks fuel w1 = Ok tt w' /\
       (env w1 (trace w1) (hotplug_callback 0) = 0 -> vm w' = vm w1)
   else offline_size (vm w') = offline_size (vm w)) /\
  (virtio_mem_remove_memory fuel addr size w = Ok rc w' ->
   memory_removed size w rc w') /\
  (virtio_mem_offline_and_remove_memory fuel addr size w = Ok rc w' ->
   (rc = 0 \/ rc = - ENOMEM \/ rc = - EBUSY) /\
   exists w1,
     kernel_callbacks fuel
       (with_trace (offline_and_remove_memory addr size :: trace w) w)
     = Ok tt w1 /\
     memory_removed size w1 rc w' /\
     (rc <> 0 -> w' = w1)).
Proof.
  intros Hu. split; [|split]; intros E.
  - exact (wlp_ok _ _ _ _ _
             (virtio_mem_add_memory_added fuel addr size w Hu) E).
  - exact (wlp_ok _ _ _ _ _
             (virtio_mem_remove_memory_removed fuel addr size w) E).
  - exact (wlp_ok _ _ _ _ _
             (virtio_mem_offline_and_remove_memory_removed fuel addr size w) E).
Qed.

Definition add_memory_run : Z * world :=
  run_result (virtio_mem_add_memory 100 (2 ^ 30) (2 ^ 27) add_fails_world)
    0 add_fails_world.

Lemma add_memory_run_ok :
  virtio_mem_add_memory 100 (2 ^ 30) (2 ^ 27) add_fails_world
  = Ok (- EBUSY) (snd add_memory_run).
Proof. apply run_result_is; vm_compute; reflexivity. Qed.

(** A kernel that finds the memory block 8 online when the driver asks it
    to offline and remove the block: inside offline_and_remove_memory() it
    notifies the driver that the block is going offline, and then that it
    is offline when the driver has not objected, and that the offlining is
    cancelled when it has. *)
Definition env_offlines (tr : list call) (c : call) : Z :=
  match c with
  | hotplug_callback rc =>
      match tr with
      | offline_and_remove_memory _ _ :: _ => 2
      | hotplug_callback_arg :: hotplug_callback_pfn :: hotplug_callback _
          :: offline_and_remove_memory _ _ :: _ =>
          if rc =? NOTIFY_OK then 4 else 32
      | _ => 0
      end
  | hotplug_callback_pfn => 2 ^ 18
  | hotplug_callback_arg => 2 ^ 15
  | _ => env_ok tr c
  end.

Definition offlining_world : world :=
  example_world (example_platform false) env_offlines
    (example_sbm_device one_kernel_mb 0 (2 ^ 27) false).

Definition offlined_run : Z * world :=
  run_result
    (virtio_mem_offline_and_remove_memory 100 (2 ^ 30) (2 ^ 27)
       offlining_world)
    0 offlining_world.

Lemma offlined_run_ok :
  virtio_mem_offline_and_remove_memory 100 (2 ^ 30) (2 ^ 27) offlining_world
  = Ok 0 (snd offlined_run).
Proof. apply run_result_is; vm_compute; reflexivity. Qed.

(** The block went offline inside the call, which has added it to
    [offline_size] before the function has taken it away again. *)
Lemma offlined_run_balance :
  mb_states (sbm (vm (snd offlined_run))) !! sbm_idx (vm (snd offlined_run)) 8
  = Some VIRTIO_MEM_SBM_MB_OFFLINE /\
  offline_size (vm (snd offlined_run)) = offline_size (vm offlining_world).
Proof. split; vm_compute; reflexivity. Qed.

Lemma offline_size_accounting_witness :
  offline_size (vm (snd add_memory_run)) = offline_size (vm add_fails_world) /\
  (exists w1,
     kernel_callbacks 100
       (with_trace
          (offline_and_remove_memory (2 ^ 30) (2 ^ 27)
             :: trace offlining_world) offlining_world)
     = Ok tt w1 /\
     memory_removed (2 ^ 27) w1 0 (snd offlined_run)) /\
  offline_size (vm (snd offlined_run)) = offline_size (vm offlining_world).
Proof.
  split; [|split; [|exact (proj2 offlined_run_balance)]].
  - refine (proj1 (offline_size_accounting 100 (2 ^ 30) (2 ^ 27)
                     add_fails_world (- EBUSY) (snd add_memory_run) _)
              add_memory_run_ok).
    vm_compute. split; [discriminate | reflexivity].
  - assert (Hu : is_u64 (offline_size (vm offlining_world)))
      by (vm_compute; split; [discriminate | reflexivity]).
    destruct (proj2 (proj2 (offline_size_accounting 100 (2 ^ 30) (2 ^ 27)
                              offlining_world 0 (snd offlined_run) Hu))
                offlined_run_ok) as (_ & w1 & Ek & Hr & _).
    exists w1. split; assumption.
Defined.

(** ** Removing a memory block without plugged subblocks *)

Lemma virtio_mem_sbm_set_mb_state_bitmap mb_id state w w' :
  virtio_mem_sbm_set_mb_state mb_id state w = Ok tt w' ->
  sb_states (sbm (vm w')) = sb_states (sbm (vm w)) /\
  plugged_size (vm w') = plugged_size (vm w).
Proof.
  unfold virtio_mem_sbm_set_mb_state, bind, get_vm, lift_access.
  destruct (mb_states _ !! _) as [old|]; [|discriminate]. cbn.
  destruct (_ =? 0); [discriminate|]. cbn. intros [= <-]. auto.
Qed.

Lemma virtio_mem_sbm_try_remove_unplugged_mb_spec fuel mb_id w :
  wlp (virtio_mem_sbm_try_remove_unplugged_mb fuel mb_id)
      (fun rc w' =>
         let all_unplugged :=
           bits_are false (sb_states (sbm (vm w)))
             (virtio_mem_sbm_sb_state_bit_nr (vm w) mb_id 0)
             (sbs_per_mb (sbm (vm w))) in
         (~ all_unplugged -> rc = 0 /\ w' = w) /\
         (rc <> 0 ->
          sb_states (sbm (vm w')) = sb_states (sbm (vm w)) /\
          plugged_size (vm w') = plugged_size (vm w) /\
          kernel_callbacks fuel
            (with_trace
               (offline_and_remove_memory
                  (virtio_mem_mb_id_to_phys (plat w) mb_id)
                  (memory_block_size_bytes (plat w)) :: trace w) w)
          = Ok tt w' /\
          (env w
             (offline_and_remove_memory
                (virtio_mem_mb_id_to_phys (plat w) mb_id)
                (memory_block_size_bytes (plat w)) :: trace w)
             (hotplug_callback 0) = 0 ->
           vm w' = vm w)) /\
         (all_unplugged -> rc = 0 ->
          virtio_mem_sbm_get_mb_state mb_id w'
          = Ok VIRTIO_MEM_SBM_MB_UNUSED w' /\
          sb_states (sbm (vm w')) = sb_states (sbm (vm w)) /\
          plugged_size (vm w') = plugged_size (vm w))) w.
Proof.
  unfold virtio_mem_sbm_try_remove_unplugged_mb. apply wlp_get_vm.
  apply wlp_bind, wlp_intro. intros unplugged w1 E.
  apply virtio_mem_sbm_test_sb_unplugged_spec in E as [-> Hu].
  destruct unplugged; cbn [negb].
  2:{ apply wlp_ret. cbv zeta. split; [auto|]. split; [contradiction|].
      intros Ha. apply Hu in Ha. discriminate. }
  assert (Ha := proj1 Hu eq_refl).
  unfold virtio_mem_sbm_offline_and_remove_mb.
  eapply wlp_bind_post.
  { apply wlp_get_plat. apply virtio_mem_offline_and_remove_memory_removed. }
  intros rc w1 (_ & w0 & Ek & Hr & Hsame).
  pose proof (wlp_ok _ _ _ _ _ (cbR_kernel_callbacks fuel _) Ek)
    as (Hsb & _ & _ & _ & Hpl).
  cbn in Hsb, Hpl.
  unfold memory_removed in Hr. unfold nz.
  destruct (Z.eqb_spec rc 0) as [->|Hrc]; cbn [negb when].
  - apply wlp_bind, wlp_intro. intros [] w2 Es. apply wlp_ret. cbv zeta.
    split; [contradiction|]. split; [contradiction|]. intros _ _.
    split; [exact (virtio_mem_sbm_set_mb_state_get _ _ _ _ Es)|].
    destruct (virtio_mem_sbm_set_mb_state_bitmap _ _ _ _ Es) as [-> ->].
    cbn in Hr. rewrite Hr. cbn. auto.
  - apply wlp_bind, wlp_ret, wlp_ret. cbv zeta.
    split; [contradiction|]. split; [|contradiction]. intros _.
    rewrite (Hsame Hrc). split; [exact Hsb|]. split; [exact Hpl|].
    split; [exact Ek|]. intros Hnone.
    rewrite (kernel_callbacks_none _ _ _ Ek Hnone). reflexivity.
Qed.

(** X15.  virtio_mem_sbm_try_remove_unplugged_mb leaves a memory block with
    a plugged subblock alone: it returns 0 and has done nothing.  When no
    subblock is plugged it tries to offline and remove the memory block:
    on success the block is [UNUSED], with the subblock bitmap and
    [plugged_size] as they were; on failure the bitmap and [plugged_size]
    are as they were too, and the function has done nothing but call
    offline_and_remove_memory(): the world is the one that the callbacks
    of the kernel inside that call have left, and the device is what it
    was when the kernel has made no callback. *)
Theorem sbm_try_remove_unplugged_mb_needs_all_unplugged fuel mb_id w rc w' :
  virtio_mem_sbm_try_remove_unplugged_mb fuel mb_id w = Ok rc w' ->
  let all_unplugged :=
    bits_are false (sb_states (sbm (vm w)))
      (virtio_mem_sbm_sb_state_bit_nr (vm w) mb_id 0)
      (sbs_per_mb (sbm (vm w))) in
  (~ all_unplugged -> rc = 0 /\ w' = w) /\
  (rc <> 0 ->
   sb_states (sbm (vm w')) = sb_states (sbm (vm w)) /\
   plugged_size (vm w') = plugged_size (vm w) /\
   kernel_callbacks fuel
     (with_trace
        (offline_and_remove_memory
           (virtio_mem_mb_id_to_phys (plat w) mb_id)
           (memory_block_size_bytes (plat w)) :: trace w) w)
   = Ok tt w' /\
   (env w
      (offline_and_remove_memory
         (virtio_mem_mb_id_to_phys (plat w) mb_id)
         (memory_block_size_bytes (plat w)) :: trace w)
      (hotplug_callback 0) = 0 ->
    vm w' = vm w)) /\
  (all_unplugged -> rc = 0 ->
   virtio_mem_sbm_get_mb_state mb_id w' = Ok VIRTIO_MEM_SBM_MB_UNUSED w' /\
   sb_states (sbm (vm w')) = sb_states (sbm (vm w)) /\
   plugged_size (vm w') = plugged_size (vm w)).
Proof.
  intros E.
  exact (wlp_ok _ _ _ _ _
           (virtio_mem_sbm_try_remove_unplugged_mb_spec fuel mb_id w) E).
Qed.


Definition all_unplugged_run : unit * world :=
  run_result (virtio_mem_sbm_set_sb_unplugged 8 0 32 stuck_world) tt
    stuck_world.

Lemma all_unplugged_run_ok :
  virtio_mem_sbm_set_sb_unplugged 8 0 32 stuck_world
  = Ok tt (snd all_unplugged_run).
Proof. apply run_result_is; vm_compute; reflexivity. Qed.

Lemma all_unplugged_run_bits :
  bits_are false (sb_states (sbm (vm (snd all_unplugged_run))))
    (virtio_mem_sbm_sb_state_bit_nr (vm (snd all_unplugged_run)) 8 0)
    (sbs_per_mb (sbm (vm (snd all_unplugged_run)))).
Proof.
  destruct (virtio_mem_sbm_set_sb_spec false 8 0 32 stuck_world _ eq_refl
              all_unplugged_run_ok) as [(map & Hw & _ & Hb & _) _].
  rewrite Hw. exact Hb.
Qed.

Definition try_remove_run : Z * world :=
  run_result
    (virtio_mem_sbm_try_remove_unplugged_mb 100 8 (snd all_unplugged_run))
    0 stuck_world.

Lemma try_remove_run_ok :
  virtio_mem_sbm_try_remove_unplugged_mb 100 8 (snd all_unplugged_run)
  = Ok 0 (snd try_remove_run).
Proof. apply run_result_is; vm_compute; reflexivity. Qed.

Lemma sbm_try_remove_unplugged_mb_needs_all_unplugged_witness :
  virtio_mem_sbm_get_mb_state 8 (snd try_remove_run)
  = Ok VIRTIO_MEM_SBM_MB_UNUSED (snd try_remove_run).
Proof.
  exact (proj1 (proj2 (proj2
    (sbm_try_remove_unplugged_mb_needs_all_unplugged 100 8
       (snd all_unplugged_run) 0 (snd try_remove_run) try_remove_run_ok))
    all_unplugged_run_bits eq_refl)).
Defined.


(** A kernel that takes the memory block 8 offline inside
    offline_and_remove_memory(), cannot remove it, and puts it online
    again before it answers -EBUSY. *)
Fixpoint callbacks_made (tr : list call) : nat :=
  match tr with
  | [] => O
  | hotplug_callback _ :: tr' => S (callbacks_made tr')
  | _ :: tr' => callbacks_made tr'
  end.

Definition env_reonlines (tr : list call) (c : call) : Z :=
  match c with
  | offline_and_remove_memory _ _ => - EBUSY
  | hotplug_callback _ => nth (callbacks_made tr) [2; 4; 8; 1] 0
  | hotplug_callback_pfn => 2 ^ 18
  | hotplug_callback_arg => 2 ^ 15
  | _ => env_ok tr c
  end.

Definition reonlining_world : world :=
  World (vm (snd all_unplugged_run)) (xa_membuf (snd all_unplugged_run))
    (PageOffline (snd all_unplugged_run)) (PageDirty (snd all_unplugged_run))
    (trace (snd all_unplugged_run)) env_reonlines
    (plat (snd all_unplugged_run)).

Definition reonlined_run : Z * world :=
  run_result (virtio_mem_sbm_try_remove_unplugged_mb 2000 8 reonlining_world)
    0 stuck_world.

(** The removal has failed, and the worker is queued, which it was not:
    with the kernel calling back, the device after a failure is not always
    the device before the call. *)
Lemma reonlined_run_queued :
  fst reonlined_run = - EBUSY /\
  wq_pending (vm reonlining_world) = false /\
  wq_pending (vm (snd reonlined_run)) = true.
Proof. repeat split; vm_compute; reflexivity. Qed.


(** ** Unplugging a big block *)

Lemma virtio_mem_bbm_set_bb_state_get bb_id state w w' :
  virtio_mem_bbm_set_bb_state bb_id state w = Ok tt w' ->
  virtio_mem_bbm_get_bb_state bb_id w' = Ok state w'.
Proof.
  unfold virtio_mem_bbm_set_bb_state, virtio_mem_bbm_get_bb_state,
    bind, get_vm, lift_access.
  destruct (bb_states _ !! _) as [old|] eqn:Hl; [|discriminate]. cbn.
  destruct (_ =? 0); [discriminate|]. cbn. intros [= <-]. cbn.
  rewrite list_lookup_insert_eq by (eapply lookup_lt_Some, Hl).
  reflexivity.
Qed.

Lemma virtio_mem_bbm_set_bb_state_ret bb_id state (rc : Z) w :
  wlp (virtio_mem_bbm_set_bb_state bb_id state ;; ret rc)
      (fun r w' =>
         r = rc /\ virtio_mem_bbm_get_bb_state bb_id w' = Ok state w') w.
Proof.
  apply wlp_bind, wlp_intro. intros [] w' E. apply wlp_ret.
  split; [reflexivity|]. exact (virtio_mem_bbm_set_bb_state_get _ _ _ _ E).
Qed.

Lemma bbm_fake_offline_sections_stop fuel start_pfn end_pfn n w :
  wlp (bbm_for_each_online_section fuel start_pfn end_pfn
         (fun pfn =>
            rc <- virtio_mem_fake_offline pfn n ;;
            if nz rc then ret (Stop (pfn, rc)) else ret (Next tt)))
      (fun s _ => match s with
                  | Stop (_, rc) => rc <> 0
                  | Next _ => True
                  end) w.
Proof.
  unfold bbm_for_each_online_section. apply wlp_get_plat.
  apply (wlp_iterate (fun _ _ => True)
           (fun (s : step unit (Z * Z)) _ =>
              match s with Stop (_, rc) => rc <> 0 | Next _ => True end));
    [|exact Logic.I].
  intros pfn w1 _. destruct (pfn <? end_pfn); [|apply wlp_ret; exact Logic.I].
  apply wlp_extcall. destruct (negb _); [apply wlp_ret; exact Logic.I|].
  apply wlp_bind, wlp_bind_any. intros rc w2. unfold nz.
  destruct (Z.eqb_spec rc 0) as [->|Hrc]; cbn [negb];
    apply wlp_ret, wlp_ret; [exact Logic.I | exact Hrc].
Qed.

(** What virtio_mem_bbm_offline_remove_and_unplug_bb leaves of a big block
    that was in the state [st]. *)
Definition bb_unplug_outcome (bb_id : Z) (st : bbm_bb_state) (w : world)
    (rc : Z) (w' : world) : Prop :=
  if decide (st = VIRTIO_MEM_BBM_BB_ADDED) then
    exists st',
      virtio_mem_bbm_get_bb_state bb_id w' = Ok st' w' /\
      (rc = 0 -> st' = VIRTIO_MEM_BBM_BB_UNUSED) /\
      (rc <> 0 -> st' = VIRTIO_MEM_BBM_BB_ADDED
                  \/ st' = VIRTIO_MEM_BBM_BB_PLUGGED)
  else rc = - EINVAL /\ w' = w.

Lemma virtio_mem_bbm_offline_remove_and_unplug_bb_outcome fuel bb_id w :
  wlp (virtio_mem_bbm_offline_remove_and_unplug_bb fuel bb_id)
      (fun rc w' =>
         exists st,
           virtio_mem_bbm_get_bb_state bb_id w = Ok st w /\
           bb_unplug_outcome bb_id st w rc w') w.
Proof.
  unfold virtio_mem_bbm_offline_remove_and_unplug_bb.
  apply wlp_get_vm, wlp_get_plat.
  apply wlp_bind, wlp_intro. intros st w1 Est.
  assert (w1 = w) as ->.
  { revert Est. unfold virtio_mem_bbm_get_bb_state, bind, get_vm, lift_access.
    destruct (_ !! _); [|discriminate]. intros [= _ <-]. reflexivity. }
  unfold bb_unplug_outcome.
  assert (Hroll : forall (m : M (step unit unit)) rc w2, rc <> 0 ->
            wlp (m ;; virtio_mem_bbm_set_bb_state bb_id VIRTIO_MEM_BBM_BB_ADDED ;;
                 ret rc)
                (fun rc w' =>
                   exists st',
                     virtio_mem_bbm_get_bb_state bb_id w' = Ok st' w' /\
                     (rc = 0 -> st' = VIRTIO_MEM_BBM_BB_UNUSED) /\
                     (rc <> 0 -> st' = VIRTIO_MEM_BBM_BB_ADDED
                                 \/ st' = VIRTIO_MEM_BBM_BB_PLUGGED)) w2).
  { intros m rc w2 Hrc. apply wlp_bind_any. intros _ w3.
    eapply wlp_mono; [apply virtio_mem_bbm_set_bb_state_ret|].
    intros r w4 [-> Hg]. exists VIRTIO_MEM_BBM_BB_ADDED.
    split; [exact Hg|]. split; [contradiction|auto]. }
  destruct (decide (st = VIRTIO_MEM_BBM_BB_ADDED)) as [->|Hne].
  2:{ apply wlp_ret. exists st. split; [exact Est|].
      destruct (decide _); [contradiction|auto]. }
  eapply wlp_mono with
    (Q := fun rc w' =>
            exists st',
              virtio_mem_bbm_get_bb_state bb_id w' = Ok st' w' /\
              (rc = 0 -> st' = VIRTIO_MEM_BBM_BB_UNUSED) /\
              (rc <> 0 -> st' = VIRTIO_MEM_BBM_BB_ADDED
                          \/ st' = VIRTIO_MEM_BBM_BB_PLUGGED)).
  2:{ intros rc w' H. exists VIRTIO_MEM_BBM_BB_ADDED. split; [exact Est|].
      destruct (decide _); [exact H|contradiction]. }
  apply wlp_bind_any. intros _ w2.
  eapply wlp_bind_post; [apply bbm_fake_offline_sections_stop|].
  intros s w3 Hs. destruct s as [ [] | [pfn rc] ].
  - apply wlp_bind_any. intros rc w4. unfold nz.
    destruct (Z.eqb_spec rc 0) as [->|Hrc]; cbn [negb].
    + apply wlp_bind_any. intros rc w5.
      destruct (Z.eqb_spec rc 0) as [->|Hrc]; cbn [negb];
        (eapply wlp_mono; [apply virtio_mem_bbm_set_bb_state_ret|]);
        intros r w6 [-> Hg]; eexists; (split; [exact Hg|]); split; intros;
          auto; contradiction.
    + apply Hroll, Hrc.
  - apply Hroll, Hs.
Qed.

(** X16.  virtio_mem_bbm_offline_remove_and_unplug_bb returns -EINVAL and
    does nothing for a big block that is not [ADDED].  For one that is, the
    state of the block tells the result: it is [UNUSED] when the call has
    returned 0, and [ADDED] (nothing was removed) or [PLUGGED] (removed, but
    not unplugged) when it has returned an error; the block is never left
    [FAKE_OFFLINE]. *)
Theorem bbm_unplug_bb_state_tells_result fuel bb_id w rc w' :
  virtio_mem_bbm_offline_remove_and_unplug_bb fuel bb_id w = Ok rc w' ->
  exists st,
    virtio_mem_bbm_get_bb_state bb_id w = Ok st w /\
    if decide (st = VIRTIO_MEM_BBM_BB_ADDED) then
      exists st',
        virtio_mem_bbm_get_bb_state bb_id w' = Ok st' w' /\
        (rc = 0 -> st' = VIRTIO_MEM_BBM_BB_UNUSED) /\
        (rc <> 0 -> st' = VIRTIO_MEM_BBM_BB_ADDED
                    \/ st' = VIRTIO_MEM_BBM_BB_PLUGGED)
    else rc = - EINVAL /\ w' = w.
Proof.
  intros E.
  exact (wlp_ok _ _ _ _ _
           (virtio_mem_bbm_offline_remove_and_unplug_bb_outcome fuel bb_id w)
           E).
Qed.




Definition bb_unplug_run : Z * world :=
  run_result
    (virtio_mem_bbm_offline_remove_and_unplug_bb 100 8 (snd add_fails_set))
    0 add_fails_world.

Lemma bb_unplug_run_ok :
  virtio_mem_bbm_offline_remove_and_unplug_bb 100 8 (snd add_fails_set)
  = Ok 0 (snd bb_unplug_run).
Proof. apply run_result_is; vm_compute; reflexivity. Qed.

Lemma bbm_unplug_bb_state_tells_result_witness :
  exists st,
    virtio_mem_bbm_get_bb_state 8 (snd add_fails_set)
    = Ok st (snd add_fails_set) /\
    if decide (st = VIRTIO_MEM_BBM_BB_ADDED) then
      exists st',
        virtio_mem_bbm_get_bb_state 8 (snd bb_unplug_run)
        = Ok st' (snd bb_unplug_run) /\
        ((0 : Z) = 0 -> st' = VIRTIO_MEM_BBM_BB_UNUSED) /\
        ((0 : Z) <> 0 -> st' = VIRTIO_MEM_BBM_BB_ADDED
                         \/ st' = VIRTIO_MEM_BBM_BB_PLUGGED)
    else (0 : Z) = - EINVAL /\ snd bb_unplug_run = snd add_fails_set.
Proof.
  exact (bbm_unplug_bb_state_tells_result 100 8 (snd add_fails_set) 0
           (snd bb_unplug_run) bb_unplug_run_ok).
Defined.


(** ** Plugging and adding a memory block *)

Lemma virtio_mem_sbm_get_mb_state_sbm mb_id st w w' :
  virtio_mem_sbm_get_mb_state mb_id w = Ok st w ->
  sbm (vm w') = sbm (vm w) ->
  virtio_mem_sbm_get_mb_state mb_id w' = Ok st w'.
Proof.
  unfold virtio_mem_sbm_get_mb_state, bind, get_vm, lift_access.
  intros E H. rewrite H. destruct (_ !! _); [|discriminate].
  injection E as ->. reflexivity.
Qed.

Lemma virtio_mem_sbm_get_mb_state_lookup mb_id w st :
  virtio_mem_sbm_get_mb_state mb_id w = Ok st w <->
  mb_states (sbm (vm w)) !! sbm_idx (vm w) mb_id = Some st.
Proof.
  unfold virtio_mem_sbm_get_mb_state, bind, get_vm, lift_access, sbm_idx.
  destruct (_ !! _); split; intros H; try discriminate;
    injection H as ->; reflexivity.
Qed.

Lemma virtio_mem_sbm_plug_sb_failed fuel mb_id sb_id count w rc w' :
  virtio_mem_sbm_plug_sb fuel mb_id sb_id count w = Ok rc w' ->
  rc <> 0 -> sbm (vm w') = sbm (vm w).
Proof.
  unfold virtio_mem_sbm_plug_sb. unfold bind at 1 2 3. unfold get_vm, get_plat.
  destruct (virtio_mem_send_plug_request _ _ _ _ w) as [rc0 w1| | |] eqn:E;
    try discriminate.
  destruct (wlp_ok _ _ _ _ _
              (virtio_mem_send_plug_request_frame _ _ _ _ _) E) as [Hvm _].
  unfold nz. destruct (Z.eqb_spec rc0 0) as [->|Hne]; cbn [negb when].
  - unfold bind. destruct (virtio_mem_sbm_set_sb_plugged _ _ _ w1);
      try discriminate.
    intros [= <- <-]. contradiction.
  - intros [= <- <-] _. rewrite Hvm. reflexivity.
Qed.

Lemma virtio_mem_sbm_set_mb_state_ret {A} mb_id state (r : A) w :
  wlp (virtio_mem_sbm_set_mb_state mb_id state ;; ret r)
      (fun r' w' =>
         r' = r /\ virtio_mem_sbm_get_mb_state mb_id w' = Ok state w') w.
Proof.
  apply wlp_bind, wlp_intro. intros [] w' E. apply wlp_ret.
  split; [reflexivity|]. exact (virtio_mem_sbm_set_mb_state_get _ _ _ _ E).
Qed.

(** What virtio_mem_sbm_plug_and_add_mb, asked for [nb_sb] subblocks, leaves
    of a memory block that was in the state [st]; [w1] is the world in
    which the kernel starts its callbacks. *)
Definition mb_plugged_and_added (fuel : nat) (mb_id nb_sb : Z)
    (st : sbm_mb_state) (w : world) (r : Z * Z) (w' : world) : Prop :=
  let count := Z.min (to_int nb_sb) (to_int (sbs_per_mb (sbm (vm w)))) in
  (count = 0 -> r = (- EINVAL, nb_sb) /\ w' = w) /\
  (fst r = 0 ->
   snd r = u64 (nb_sb - count) /\
   exists w1,
     virtio_mem_sbm_get_mb_state mb_id w1
     = Ok (if u32 count =? sbs_per_mb (sbm (vm w))
           then VIRTIO_MEM_SBM_MB_OFFLINE
           else VIRTIO_MEM_SBM_MB_OFFLINE_PARTIAL) w1 /\
     kernel_callbacks fuel w1 = Ok tt w' /\
     (env w1 (trace w1) (hotplug_callback 0) = 0 ->
      virtio_mem_sbm_get_mb_state mb_id w'
      = Ok (if u32 count =? sbs_per_mb (sbm (vm w))
            then VIRTIO_MEM_SBM_MB_OFFLINE
            else VIRTIO_MEM_SBM_MB_OFFLINE_PARTIAL) w')) /\
  (fst r <> 0 ->
   snd r = nb_sb /\
   exists st',
     virtio_mem_sbm_get_mb_state mb_id w' = Ok st' w' /\
     (st' = st \/ st' = VIRTIO_MEM_SBM_MB_PLUGGED
      \/ st' = VIRTIO_MEM_SBM_MB_UNUSED)).

Lemma virtio_mem_sbm_plug_and_add_mb_outcome fuel mb_id nb_sb st w :
  virtio_mem_sbm_get_mb_state mb_id w = Ok st w ->
  wlp (virtio_mem_sbm_plug_and_add_mb fuel mb_id nb_sb)
      (mb_plugged_and_added fuel mb_id nb_sb st w) w.
Proof.
  intros Hst. unfold virtio_mem_sbm_plug_and_add_mb, mb_plugged_and_added.
  apply wlp_get_vm. cbv zeta.
  set (count := Z.min _ _).
  destruct (Z.eqb_spec count 0) as [Hc|Hc].
  { apply wlp_ret. cbn. split; [auto|]. split; [discriminate|].
    intros _. split; [reflexivity|]. exists st. auto. }
  apply wlp_bind, wlp_intro. intros rc w1 E. unfold nz.
  destruct (Z.eqb_spec rc 0) as [->|Hrc]; cbn [negb].
  2:{ apply wlp_ret. cbn. split; [contradiction|]. split; [contradiction|].
      intros _. split; [reflexivity|]. exists st. split; [|auto].
      eapply virtio_mem_sbm_get_mb_state_sbm; [exact Hst|].
      eapply virtio_mem_sbm_plug_sb_failed; eassumption. }
  set (new := if u32 count =? sbs_per_mb (sbm (vm w))
              then VIRTIO_MEM_SBM_MB_OFFLINE
              else VIRTIO_MEM_SBM_MB_OFFLINE_PARTIAL).
  eapply (wlp_bind_post _ _
            (fun _ w2 => virtio_mem_sbm_get_mb_state mb_id w2 = Ok new w2)).
  { subst new. destruct (_ =? _); apply wlp_intro; intros [] w2 Es;
      exact (virtio_mem_sbm_set_mb_state_get _ _ _ _ Es). }
  intros [] w2 Hnew.
  eapply wlp_bind_post.
  { unfold virtio_mem_sbm_add_mb. apply wlp_get_plat.
    apply virtio_mem_add_memory_handed. }
  intros rc w3 Hadd.
  destruct (Z.eqb_spec rc 0) as [->|Hrc]; cbn [negb].
  - apply wlp_ret. cbn. split; [contradiction|].
    split; [|contradiction]. intros _. split; [reflexivity|].
    destruct Hadd as (w0 & Hvm & Ek & Hnone).
    assert (H0 : virtio_mem_sbm_get_mb_state mb_id w0 = Ok new w0).
    { eapply virtio_mem_sbm_get_mb_state_sbm; [exact Hnew|].
      rewrite Hvm. reflexivity. }
    exists w0. split; [exact H0|]. split; [exact Ek|]. intros Hn.
    eapply virtio_mem_sbm_get_mb_state_sbm; [exact H0|].
    rewrite (Hnone Hn). reflexivity.
  - apply wlp_bind_any. intros rc' w4.
    eapply wlp_mono; [apply virtio_mem_sbm_set_mb_state_ret|].
    intros r w5 [-> Hg]. cbn. split; [contradiction|].
    split; [contradiction|]. intros _. split; [reflexivity|].
    eexists. split; [exact Hg|]. destruct (negb _); auto.
Qed.


(** X17.  virtio_mem_sbm_plug_and_add_mb, for a memory block in the state
    [st]: asked for no subblock it returns -EINVAL and does nothing.  When
    it returns 0 the count of subblocks still to plug is less by the
    subblocks of the block that it has plugged, and the kernel was handed
    a block that is [OFFLINE] when these are all of its subblocks and
    [OFFLINE_PARTIAL] when not: the callbacks of the kernel, whose
    notifier may put the block online before add_memory_driver_managed()
    returns, have found it so in the world [w1] in which they have
    started, and the function has done nothing after them, so that the
    block is still so when it returns and the kernel has made no
    callback.  When it
    returns an error the count is what it was and the block is in the
    state [st], or [UNUSED] after the subblocks were unplugged again, or
    [PLUGGED] when that unplug has failed: never in an offline state that it
    was not in before. *)
Theorem sbm_plug_and_add_mb_state fuel mb_id nb_sb st w rc nb_sb' w' :
  virtio_mem_sbm_get_mb_state mb_id w = Ok st w ->
  virtio_mem_sbm_plug_and_add_mb fuel mb_id nb_sb w = Ok (rc, nb_sb') w' ->
  let count := Z.min (to_int nb_sb) (to_int (sbs_per_mb (sbm (vm w)))) in
  (count = 0 -> (rc, nb_sb') = (- EINVAL, nb_sb) /\ w' = w) /\
  (rc = 0 ->
   nb_sb' = u64 (nb_sb - count) /\
   exists w1,
     virtio_mem_sbm_get_mb_state mb_id w1
     = Ok (if u32 count =? sbs_per_mb (sbm (vm w))
           then VIRTIO_MEM_SBM_MB_OFFLINE
           else VIRTIO_MEM_SBM_MB_OFFLINE_PARTIAL) w1 /\
     kernel_callbacks fuel w1 = Ok tt w' /\
     (env w1 (trace w1) (hotplug_callback 0) = 0 ->
      virtio_mem_sbm_get_mb_state mb_id w'
      = Ok (if u32 count =? sbs_per_mb (sbm (vm w))
            then VIRTIO_MEM_SBM_MB_OFFLINE
            else VIRTIO_MEM_SBM_MB_OFFLINE_PARTIAL) w')) /\
  (rc <> 0 ->
   nb_sb' = nb_sb /\
   exists st',
     virtio_mem_sbm_get_mb_state mb_id w' = Ok st' w' /\
     (st' = st \/ st' = VIRTIO_MEM_SBM_MB_PLUGGED
      \/ st' = VIRTIO_MEM_SBM_MB_UNUSED)).
Proof.
  intros Hst E.
  exact (wlp_ok _ _ _ _ _
           (virtio_mem_sbm_plug_and_add_mb_outcome fuel mb_id nb_sb st w Hst)
           E).
Qed.

Lemma next_mb_state :
  virtio_mem_sbm_get_mb_state 9 (snd next_mb_run)
  = Ok VIRTIO_MEM_SBM_MB_UNUSED (snd next_mb_run).
Proof. reflexivity. Qed.

(** A kernel that puts a memory block online as soon as it is added:
    inside add_memory_driver_managed() it notifies the driver that the
    memory block 9 is going online, and then that it is online when the
    driver has not objected, and that the onlining is cancelled when it
    has. *)
Definition env_onlines (tr : list call) (c : call) : Z :=
  match c with
  | hotplug_callback rc =>
      match tr with
      | add_memory_driver_managed _ _ _ :: _ => 8
      | hotplug_callback_arg :: hotplug_callback_pfn :: hotplug_callback _
          :: add_memory_driver_managed _ _ _ :: _ =>
          if rc =? NOTIFY_OK then 1 else 16
      | _ => 0
      end
  | hotplug_callback_pfn => 9 * 2 ^ 15
  | hotplug_callback_arg => 2 ^ 15
  | _ => env_ok tr c
  end.

Definition onlining_world : world :=
  World (vm (snd next_mb_run)) (xa_membuf (snd next_mb_run))
    (PageOffline (snd next_mb_run)) (PageDirty (snd next_mb_run))
    (trace (snd next_mb_run)) env_onlines (plat (snd next_mb_run)).

Lemma onlining_world_state :
  virtio_mem_sbm_get_mb_state 9 onlining_world
  = Ok VIRTIO_MEM_SBM_MB_UNUSED onlining_world.
Proof. reflexivity. Qed.

Definition plug_and_add_run : Z * Z * world :=
  run_result (virtio_mem_sbm_plug_and_add_mb 100 9 4 onlining_world)
    (0, 0) stuck_world.

Lemma plug_and_add_run_ok :
  virtio_mem_sbm_plug_and_add_mb 100 9 4 onlining_world
  = Ok (0, 0) (snd plug_and_add_run).
Proof. apply run_result_is; vm_compute; reflexivity. Qed.

Lemma plug_and_add_run_state :
  virtio_mem_sbm_get_mb_state 9 (snd plug_and_add_run)
  = Ok VIRTIO_MEM_SBM_MB_KERNEL_PARTIAL (snd plug_and_add_run) /\
  offline_size (vm (snd plug_and_add_run)) = offline_size (vm onlining_world).
Proof.
  split.
  - apply virtio_mem_sbm_get_mb_state_lookup. vm_compute. reflexivity.
  - vm_compute. reflexivity.
Qed.

Lemma sbm_plug_and_add_mb_state_witness :
  (exists w1,
     virtio_mem_sbm_get_mb_state 9 w1
     = Ok VIRTIO_MEM_SBM_MB_OFFLINE_PARTIAL w1 /\
     kernel_callbacks 100 w1 = Ok tt (snd plug_and_add_run)) /\
  virtio_mem_sbm_get_mb_state 9 (snd plug_and_add_run)
  = Ok VIRTIO_MEM_SBM_MB_KERNEL_PARTIAL (snd plug_and_add_run) /\
  offline_size (vm (snd plug_and_add_run)) = offline_size (vm onlining_world).
Proof.
  split; [|exact plug_and_add_run_state].
  destruct (proj2 (proj1 (proj2
    (sbm_plug_and_add_mb_state 100 9 4 VIRTIO_MEM_SBM_MB_UNUSED
       onlining_world 0 0 (snd plug_and_add_run)
       onlining_world_state plug_and_add_run_ok)) eq_refl))
    as (w1 & H1 & Ek & _).
  exists w1. split; assumption.
Defined.


(** ** The last usable block *)

Lemma IS_ALIGNED_pow2 x k :
  0 <= k -> IS_ALIGNED x (2 ^ k) = (x mod 2 ^ k =? 0).
Proof.
  intros Hk. unfold IS_ALIGNED.
  replace (2 ^ k - 1) with (Z.ones k) by (rewrite Z.ones_equiv; lia).
  rewrite Z.land_ones by exact Hk. reflexivity.
Qed.

Lemma last_usable_spec e k :
  0 <= k -> 0 <= e -> e + 1 < U64 -> 2 ^ k <= e + 1 ->
  let m := 2 ^ k in
  let last := if negb (IS_ALIGNED (u64 (e + 1)) m) then u64 (e / m - 1)
              else e / m in
  (last + 1) * m <= e + 1 < (last + 2) * m.
Proof.
  intros Hk He Hu Hm. cbv zeta.
  rewrite IS_ALIGNED_pow2 by exact Hk.
  rewrite (u64_small (e + 1)) by lia.
  remember (2 ^ k) as m eqn:Em.
  assert (Hmp : 0 < m) by (subst m; apply Z.pow_pos_nonneg; lia).
  clear Em.
  pose proof (Z.div_mod e m ltac:(lia)) as Hdm.
  pose proof (Z.mod_pos_bound e m Hmp) as Hr.
  pose proof (Z.div_mod (e + 1) m ltac:(lia)) as Hdm1.
  pose proof (Z.mod_pos_bound (e + 1) m Hmp) as Hr1.
  assert (Hq : 0 <= e / m) by (apply Z.div_pos; lia).
  remember (e / m) as q eqn:Eq. remember (e mod m) as r eqn:Er.
  remember ((e + 1) / m) as q1 eqn:Eq1.
  remember ((e + 1) mod m) as r1 eqn:Er1. clear Eq Er Eq1 Er1.
  destruct (Z.eqb_spec r1 0) as [E|E]; cbn [negb].
  - subst r1.
    assert (Hd : m * (q1 - q) = r + 1) by lia.
    assert (0 < q1 - q) by nia.
    assert (q1 - q < 2) by nia.
    assert (q1 = q + 1) by lia. subst q1. nia.
  - assert (Hd : m * (q1 - q) = r + 1 - r1) by lia.
    assert (-1 < q1 - q) by nia.
    assert (q1 - q < 1) by nia.
    assert (q1 = q) by lia. subst q1.
    assert (1 <= q) by nia.
    assert (q * m <= e) by nia.
    rewrite u64_small by (unfold U64 in *; lia). nia.
Qed.


(** The end of the usable addresses, as virtio_mem_refresh_config computes
    it. *)
Definition usable_end (w : world) : Z :=
  Z.min (u64 (addr (vm w) + region_size (vm w) - 1))
    (env w (trace w) mhp_get_pluggable_range_end).

(** X18.  virtio_mem_refresh_config changes nothing but the id of the last
    usable block, whenever it returns.  When the block size is a power of
    two and at least one block lies below the end of the usable addresses,
    it returns, and the last usable block is the last one that lies below
    that end as a whole: its end is not beyond the usable end, and the end
    of the block after it is. *)
Theorem refresh_config_last_usable w k :
  (forall r w',
     virtio_mem_refresh_config w = Ok r w' ->
     exists last,
       w' = with_vm
              (if in_sbm (vm w)
               then with_sbm (sbm_with_last_usable_mb_id last (sbm (vm w)))
                      (vm w)
               else with_bbm (bbm_with_last_usable_bb_id last (bbm (vm w)))
                      (vm w))
              (with_trace (mhp_get_pluggable_range_end :: trace w) w)) /\
  (0 <= k -> 0 <= usable_end w -> usable_end w + 1 < U64 ->
   2 ^ k <= usable_end w + 1 ->
   (if in_sbm (vm w) then memory_block_size_bytes (plat w)
    else bb_size (bbm (vm w))) = 2 ^ k ->
   exists last,
     virtio_mem_refresh_config w
     = Ok tt
         (with_vm
            (if in_sbm (vm w)
             then with_sbm (sbm_with_last_usable_mb_id last (sbm (vm w)))
                    (vm w)
             else with_bbm (bbm_with_last_usable_bb_id last (bbm (vm w)))
                    (vm w))
            (with_trace (mhp_get_pluggable_range_end :: trace w) w)) /\
     (last + 1) * 2 ^ k <= usable_end w + 1 < (last + 2) * 2 ^ k).
Proof.
  split.
  - intros r w'.
    unfold virtio_mem_refresh_config, bind, get_vm, get_plat, extcall,
      modify_sbm, modify_bbm, modify_vm.
    destruct (in_sbm (vm w)).
    + intros [= _ <-]. eexists. reflexivity.
    + destruct (bb_size (bbm (vm w)) =? 0); [discriminate|].
      intros [= _ <-]. eexists. reflexivity.
  - intros Hk He Hu Hm Hsize.
    pose proof (last_usable_spec (usable_end w) k Hk He Hu Hm) as H.
    cbv zeta in H.
    unfold virtio_mem_refresh_config, bind, get_vm, get_plat, extcall,
      modify_sbm, modify_bbm, modify_vm.
    fold (usable_end w).
    destruct (in_sbm (vm w)); rewrite Hsize.
    + unfold virtio_mem_phys_to_mb_id. rewrite Hsize.
      eexists. split; [reflexivity|]. exact H.
    + unfold virtio_mem_phys_to_bb_id. rewrite Hsize.
      assert (Hz : (2 ^ k =? 0) = false).
      { apply Z.eqb_neq. pose proof (Z.pow_pos_nonneg 2 k). lia. }
      rewrite Hz. eexists. split; [reflexivity|]. exact H.
Qed.

Lemma refresh_config_last_usable_witness :
  exists last,
    virtio_mem_refresh_config stuck_world
    = Ok tt
        (with_vm
           (with_sbm (sbm_with_last_usable_mb_id last (sbm (vm stuck_world)))
              (vm stuck_world))
           (with_trace (mhp_get_pluggable_range_end :: trace stuck_world)
              stuck_world)) /\
    (last + 1) * 2 ^ 27 <= usable_end stuck_world + 1 < (last + 2) * 2 ^ 27.
Proof.
  refine (proj2 (refresh_config_last_usable stuck_world 27) _ _ _ _ _);
    vm_compute; first [reflexivity | intro H; discriminate H].
Defined.


(** ** The references of fake-offline pages *)

(** The calls [c p], [c (p + 1)], ... for [n] pages, the latest first. *)
Fixpoint calls_from (c : Z -> call) (p : Z) (n : nat) : list call :=
  match n with
  | O => []
  | S n' => calls_from c (p + 1) n' ++ [c p]
  end.

Lemma with_trace_id w : with_trace (trace w) w = w.
Proof. destruct w; reflexivity. Qed.

Lemma iterate_page_calls (c : Z -> call) pfn nr_pages :
  0 <= pfn -> pfn + nr_pages < U64 ->
  forall n fuel i w,
    0 <= i <= nr_pages -> n = Z.to_nat (nr_pages - i) -> (n < fuel)%nat ->
    iterate fuel
      (fun i =>
         if i <? nr_pages then
           extcall (c (u64 (pfn + i))) ;; ret (Next (u64 (i + 1)))
         else ret (Stop tt))
      i w
    = Ok tt (with_trace (calls_from c (pfn + i) n ++ trace w) w).
Proof.
  intros Hp Hend. induction n as [|n IH]; intros fuel i w Hi Hn Hf.
  - destruct fuel as [|fuel]; [lia|]. cbn [iterate calls_from app].
    unfold bind at 1. destruct (Z.ltb_spec i nr_pages); [lia|].
    cbn. rewrite with_trace_id. reflexivity.
  - destruct fuel as [|fuel]; [lia|]. cbn [iterate].
    unfold bind at 1. destruct (Z.ltb_spec i nr_pages); [|lia].
    unfold bind at 1. unfold extcall at 1. cbn [ret].
    rewrite (u64_small (pfn + i)), (u64_small (i + 1)) by lia.
    rewrite (IH fuel (i + 1)) by lia.
    cbn [calls_from trace with_trace]. rewrite <- app_assoc.
    replace (pfn + (i + 1)) with (pfn + i + 1) by ring.
    destruct w; reflexivity.
Qed.

(** X19.  virtio_mem_fake_offline_going_offline adds the pages of the range
    to the managed pages and then drops one reference on every page of the
    range, each page once and in rising order;
    virtio_mem_fake_offline_cancel_offline subtracts the pages again and
    takes one reference on every page of the range.  They make no other
    call and change nothing else. *)
Theorem fake_offline_refs_dropped_and_taken fuel pfn nr_pages w :
  0 <= pfn -> 0 <= nr_pages -> pfn + nr_pages < U64 ->
  (Z.to_nat nr_pages < fuel)%nat ->
  virtio_mem_fake_offline_going_offline fuel pfn nr_pages w
  = Ok tt
      (with_trace
         (calls_from page_ref_dec_and_test pfn (Z.to_nat nr_pages)
            ++ adjust_managed_page_count pfn nr_pages :: trace w) w) /\
  virtio_mem_fake_offline_cancel_offline fuel pfn nr_pages w
  = Ok tt
      (with_trace
         (calls_from page_ref_inc pfn (Z.to_nat nr_pages)
            ++ adjust_managed_page_count pfn (- nr_pages) :: trace w) w).
Proof.
  intros Hp Hn Hend Hf. split.
  - unfold virtio_mem_fake_offline_going_offline. unfold bind at 1.
    unfold extcall at 1.
    rewrite (iterate_page_calls page_ref_dec_and_test pfn nr_pages Hp Hend
               (Z.to_nat nr_pages) fuel 0) by (try lia; f_equal; lia).
    rewrite Z.add_0_r. destruct w; reflexivity.
  - unfold virtio_mem_fake_offline_cancel_offline. unfold bind at 1.
    unfold extcall at 1.
    rewrite (iterate_page_calls page_ref_inc pfn nr_pages Hp Hend
               (Z.to_nat nr_pages) fuel 0) by (try lia; f_equal; lia).
    rewrite Z.add_0_r. destruct w; reflexivity.
Qed.


Lemma fake_offline_refs_dropped_and_taken_witness :
  virtio_mem_fake_offline_going_offline 10 (2 ^ 18) 2 stuck_world
  = Ok tt
      (with_trace
         [page_ref_dec_and_test (2 ^ 18 + 1); page_ref_dec_and_test (2 ^ 18);
          adjust_managed_page_count (2 ^ 18) 2] stuck_world).
Proof.
  refine (proj1 (fake_offline_refs_dropped_and_taken 10 (2 ^ 18) 2 stuck_world
                   _ _ _ _)).
  - vm_compute. discriminate.
  - vm_compute. discriminate.
  - vm_compute. reflexivity.
  - cbn. lia.
Defined.


(** ** The state arrays grow with the device *)

(** A state array that has room for [nb] blocks: it is absent or as long as
    the pages that [nb] entries take, and the entries from [nb] on are
    [zero], as vzalloc has left them. *)
Definition array_ok {A} (zero : A) (pf : platform) (arr : list A) (nb : Z)
  : Prop :=
  (arr = [] \/ Z.of_nat (length arr) = PFN_UP pf nb * PAGE_SIZE pf) /\
  forall i : nat, nb <= Z.of_nat i -> (i < length arr)%nat ->
                  arr !! i = Some zero.

Lemma PFN_UP_div pf x :
  0 <= PAGE_SHIFT pf -> 0 <= x -> x + PAGE_SIZE pf <= U64 ->
  PFN_UP pf x = (x + PAGE_SIZE pf - 1) / PAGE_SIZE pf.
Proof.
  intros Hs Hx Hu. unfold PFN_UP, PAGE_SIZE in *.
  assert (0 < 2 ^ PAGE_SHIFT pf) by (apply Z.pow_pos_nonneg; lia).
  rewrite u64_small by lia. apply Z.shiftr_div_pow2, Hs.
Qed.

Lemma PFN_UP_bounds pf x :
  0 <= PAGE_SHIFT pf -> 0 <= x -> x + PAGE_SIZE pf <= U64 ->
  0 <= PFN_UP pf x /\
  x <= PFN_UP pf x * PAGE_SIZE pf < x + PAGE_SIZE pf.
Proof.
  intros Hs Hx Hu. rewrite PFN_UP_div by assumption.
  assert (Hp : 0 < PAGE_SIZE pf) by (apply Z.pow_pos_nonneg; lia).
  pose proof (Z.div_mod (x + PAGE_SIZE pf - 1) (PAGE_SIZE pf) ltac:(lia)).
  pose proof (Z.mod_pos_bound (x + PAGE_SIZE pf - 1) (PAGE_SIZE pf) Hp).
  split; [apply Z.div_pos; lia | nia].
Qed.

Lemma to_int_small x : - 2 ^ 31 <= x < 2 ^ 31 -> to_int x = x.
Proof. intros H. unfold to_int. rewrite Z.mod_small; lia. Qed.

Lemma grow_array_ok {A} (zero : A) old a b p nb arr :
  0 <= a <= b -> 0 < p -> 0 <= nb < b * p ->
  (old = [] \/ Z.of_nat (length old) = a * p) ->
  (forall i : nat, nb <= Z.of_nat i -> (i < length old)%nat ->
                   old !! i = Some zero) ->
  grow_array zero old (a * p) (b * p) = Some arr ->
  Z.of_nat (length arr) = b * p /\
  (forall (i : nat) st, old !! i = Some st -> arr !! i = Some st) /\
  (forall i : nat, nb <= Z.of_nat i -> (i < length arr)%nat ->
                   arr !! i = Some zero).
Proof.
  intros Hab Hp Hnb Hlen Hzero. unfold grow_array.
  destruct old as [|x old'] eqn:Eold.
  - intros [= <-]. rewrite length_replicate.
    split; [nia|]. split; [intros i st Hi; discriminate Hi|].
    intros i _ Hi. rewrite ?length_replicate in Hi.
    apply lookup_replicate_2, Hi.
  - destruct Hlen as [Hnil|Hlen]; [discriminate Hnil|].
    rewrite <- Eold in *. clear Eold x old'.
    destruct (Z.ltb_spec (Z.of_nat (length old)) (a * p)); [lia|].
    intros [= <-].
    rewrite firstn_all2 by lia.
    rewrite length_app, length_replicate.
    assert (a * p <= b * p) by nia.
    split; [lia|]. split.
    + intros i st Hi. rewrite lookup_app_l by (eapply lookup_lt_Some, Hi).
      exact Hi.
    + intros i Hi Hl. rewrite ?length_app, ?length_replicate in Hl.
      destruct (Nat.lt_ge_cases i (length old)) as [Hlt|Hge].
      * rewrite lookup_app_l by exact Hlt. apply Hzero; assumption.
      * rewrite lookup_app_r by exact Hge. apply lookup_replicate_2. lia.
Qed.


(** What a call that prepares a state array for one more block than [nb]
    has made of the array [old]. *)
Definition array_grown {A} (zero : A) (pf : platform) (old : list A) (nb : Z)
    (rc : Z) (arr : list A) : Prop :=
  (rc = 0 \/ rc = - ENOMEM) /\
  (rc <> 0 -> arr = old) /\
  (rc = 0 ->
   array_ok zero pf arr (nb + 1) /\
   arr !! Z.to_nat nb = Some zero /\
   forall (i : nat) st, old !! i = Some st -> arr !! i = Some st).

Section Grow.
Context {A : Type} (zero : A) (pf : platform) (old : list A) (nb : Z).
Hypothesis Hshift : 0 <= PAGE_SHIFT pf.
Hypothesis Hnb : 0 <= nb.
Hypothesis Hsmall : nb + 1 + PAGE_SIZE pf <= 2 ^ 31.
Hypothesis Hok : array_ok zero pf old nb.

Lemma grow_pages :
  0 < PAGE_SIZE pf /\
  to_int (PFN_UP pf (u64 nb)) = PFN_UP pf nb /\
  to_int (PFN_UP pf (u64 (u64 nb + 1))) = PFN_UP pf (nb + 1) /\
  0 <= PFN_UP pf nb <= PFN_UP pf (nb + 1) /\
  nb + 1 <= PFN_UP pf (nb + 1) * PAGE_SIZE pf.
Proof.
  assert (Hp : 0 < PAGE_SIZE pf) by (apply Z.pow_pos_nonneg; lia).
  assert (HU : 2 ^ 31 < U64) by reflexivity.
  destruct (PFN_UP_bounds pf nb) as [Ha0 Ha]; try lia.
  destruct (PFN_UP_bounds pf (nb + 1)) as [Hb0 Hb]; try lia.
  rewrite (u64_small nb), (u64_small (nb + 1)) by lia.
  rewrite !to_int_small by nia.
  split; [exact Hp|]. split; [reflexivity|]. split; [reflexivity|].
  split; [|lia]. split; [exact Ha0|].
  rewrite !PFN_UP_div by lia. apply Z.div_le_mono; lia.
Qed.

Lemma array_kept :
  is_null old = false -> PFN_UP pf nb = PFN_UP pf (nb + 1) ->
  array_grown zero pf old nb 0 old.
Proof.
  intros Hnull Hsame. destruct grow_pages as (Hp & _ & _ & Hab & Hroom).
  destruct Hok as [Hlen Hzero].
  destruct Hlen as [->|Hlen]; [discriminate Hnull|].
  split; [auto|]. split; [reflexivity|]. intros _. split; [split|split].
  - right. rewrite <- Hsame. exact Hlen.
  - intros i Hi. apply Hzero. lia.
  - apply Hzero; lia.
  - auto.
Qed.

Lemma array_regrown arr :
  grow_array zero old (PFN_UP pf nb * PAGE_SIZE pf)
    (PFN_UP pf (nb + 1) * PAGE_SIZE pf) = Some arr ->
  array_grown zero pf old nb 0 arr.
Proof.
  intros Hg. destruct grow_pages as (Hp & _ & _ & Hab & Hroom).
  destruct Hok as [Hlen Hzero].
  destruct (grow_array_ok zero old _ _ _ nb arr Hab Hp ltac:(lia) Hlen Hzero Hg)
    as (Hl & Hkeep & Hz).
  split; [auto|]. split; [contradiction|]. intros _. split; [split|split].
  - right. exact Hl.
  - intros i Hi. apply Hz. lia.
  - apply Hz; lia.
  - exact Hkeep.
Qed.

End Grow.


Lemma virtio_mem_sbm_mb_states_prepare_next_mb_grows w rc w' :
  let nb := next_mb_id (sbm (vm w)) - first_mb_id (sbm (vm w)) in
  0 <= PAGE_SHIFT (plat w) -> 0 <= nb ->
  nb + 1 + PAGE_SIZE (plat w) <= 2 ^ 31 ->
  array_ok VIRTIO_MEM_SBM_MB_UNUSED (plat w) (mb_states (sbm (vm w))) nb ->
  virtio_mem_sbm_mb_states_prepare_next_mb w = Ok rc w' ->
  vm w' = with_sbm (sbm_with_mb_states (mb_states (sbm (vm w')))
                      (sbm (vm w))) (vm w) /\
  array_grown VIRTIO_MEM_SBM_MB_UNUSED (plat w) (mb_states (sbm (vm w))) nb
    rc (mb_states (sbm (vm w'))).
Proof.
  intros nb Hs Hnb Hsmall Hok.
  destruct (grow_pages (plat w) nb Hs Hnb Hsmall) as (Hp & Ea & Eb & Hab & _).
  unfold virtio_mem_sbm_mb_states_prepare_next_mb, bind, get_vm, get_plat.
  fold nb. rewrite Ea, Eb.
  assert (Hid : vm w = with_sbm (sbm_with_mb_states (mb_states (sbm (vm w)))
                                   (sbm (vm w))) (vm w))
    by (destruct (vm w) as [? ? ? ? ? ? ? ? ? ? ? ? ? ? ? ? ? ? ? ? [] ?];
        reflexivity).
  destruct (negb _ && _) eqn:Hsame.
  { intros [= <- <-]. split; [exact Hid|].
    apply andb_true_iff in Hsame as [Hn Hsame].
    apply negb_true_iff in Hn. apply Z.eqb_eq in Hsame.
    exact (array_kept _ _ _ nb Hs Hnb Hsmall Hok Hn Hsame). }
  unfold extcall. destruct (_ =? 0).
  { intros [= <- <-]. split; [exact Hid|].
    split; [auto|]. split; [reflexivity|]. intros H. discriminate H. }
  unfold lift_access.
  destruct (grow_array _ _ _ _) as [arr|] eqn:Hg; [|discriminate].
  intros [= <- <-]. split; [reflexivity|].
  exact (array_regrown _ _ _ nb Hs Hnb Hsmall Hok arr Hg).
Qed.


Lemma virtio_mem_bbm_bb_states_prepare_next_bb_grows w rc w' :
  let nb := next_bb_id (bbm (vm w)) - first_bb_id (bbm (vm w)) in
  0 <= PAGE_SHIFT (plat w) -> 0 <= nb ->
  nb + 1 + PAGE_SIZE (plat w) <= 2 ^ 31 ->
  array_ok VIRTIO_MEM_BBM_BB_UNUSED (plat w) (bb_states (bbm (vm w))) nb ->
  virtio_mem_bbm_bb_states_prepare_next_bb w = Ok rc w' ->
  vm w' = with_bbm (bbm_with_bb_states (bb_states (bbm (vm w')))
                      (bbm (vm w))) (vm w) /\
  array_grown VIRTIO_MEM_BBM_BB_UNUSED (plat w) (bb_states (bbm (vm w))) nb
    rc (bb_states (bbm (vm w'))).
Proof.
  intros nb Hs Hnb Hsmall Hok.
  destruct (grow_pages (plat w) nb Hs Hnb Hsmall) as (Hp & Ea & Eb & Hab & _).
  unfold virtio_mem_bbm_bb_states_prepare_next_bb, bind, get_vm, get_plat.
  fold nb. rewrite Ea, Eb.
  assert (Hid : vm w = with_bbm (bbm_with_bb_states (bb_states (bbm (vm w)))
                                   (bbm (vm w))) (vm w))
    by (destruct (vm w) as [? ? ? ? ? ? ? ? ? ? ? ? ? ? ? ? ? ? ? ? ? [] ];
        reflexivity).
  destruct (negb _ && _) eqn:Hsame.
  { intros [= <- <-]. split; [exact Hid|].
    apply andb_true_iff in Hsame as [Hn Hsame].
    apply negb_true_iff in Hn. apply Z.eqb_eq in Hsame.
    exact (array_kept _ _ _ nb Hs Hnb Hsmall Hok Hn Hsame). }
  unfold extcall. destruct (_ =? 0).
  { intros [= <- <-]. split; [exact Hid|].
    split; [auto|]. split; [reflexivity|]. intros H. discriminate H. }
  unfold lift_access.
  destruct (grow_array _ _ _ _) as [arr|] eqn:Hg; [|discriminate].
  intros [= <- <-]. split; [reflexivity|].
  exact (array_regrown _ _ _ nb Hs Hnb Hsmall Hok arr Hg).
Qed.

(** X20.  virtio_mem_sbm_mb_states_prepare_next_mb and
    virtio_mem_bbm_bb_states_prepare_next_bb return 0 or -ENOMEM and change
    nothing but the state array.  For an array that is absent or as long as
    the pages of the blocks tracked so far, with [UNUSED] entries after
    them: on -ENOMEM the array is what it was; on 0 it is as long as the
    pages of one more block, every state that it held is kept, and the
    entry of the new block and all after it are [UNUSED]. *)
Theorem state_arrays_grow_by_pages w rc w' :
  0 <= PAGE_SHIFT (plat w) ->
  (let nb := next_mb_id (sbm (vm w)) - first_mb_id (sbm (vm w)) in
   0 <= nb -> nb + 1 + PAGE_SIZE (plat w) <= 2 ^ 31 ->
   array_ok VIRTIO_MEM_SBM_MB_UNUSED (plat w) (mb_states (sbm (vm w))) nb ->
   virtio_mem_sbm_mb_states_prepare_next_mb w = Ok rc w' ->
   vm w' = with_sbm (sbm_with_mb_states (mb_states (sbm (vm w')))
                       (sbm (vm w))) (vm w) /\
   array_grown VIRTIO_MEM_SBM_MB_UNUSED (plat w) (mb_states (sbm (vm w))) nb
     rc (mb_states (sbm (vm w')))) /\
  (let nb := next_bb_id (bbm (vm w)) - first_bb_id (bbm (vm w)) in
   0 <= nb -> nb + 1 + PAGE_SIZE (plat w) <= 2 ^ 31 ->
   array_ok VIRTIO_MEM_BBM_BB_UNUSED (plat w) (bb_states (bbm (vm w))) nb ->
   virtio_mem_bbm_bb_states_prepare_next_bb w = Ok rc w' ->
   vm w' = with_bbm (bbm_with_bb_states (bb_states (bbm (vm w')))
                       (bbm (vm w))) (vm w) /\
   array_grown VIRTIO_MEM_BBM_BB_UNUSED (plat w) (bb_states (bbm (vm w))) nb
     rc (bb_states (bbm (vm w')))).
Proof.
  intros Hs. split; intros nb Hnb Hsmall Hok E.
  - exact (virtio_mem_sbm_mb_states_prepare_next_mb_grows w rc w'
             Hs Hnb Hsmall Hok E).
  - exact (virtio_mem_bbm_bb_states_prepare_next_bb_grows w rc w'
             Hs Hnb Hsmall Hok E).
Qed.

Definition grown_run : Z * world :=
  run_result (virtio_mem_sbm_mb_states_prepare_next_mb fresh_world) 0
    fresh_world.

Lemma grown_run_ok :
  virtio_mem_sbm_mb_states_prepare_next_mb fresh_world
  = Ok 0 (snd grown_run).
Proof. apply run_result_is; vm_compute; reflexivity. Qed.

Lemma state_arrays_grow_by_pages_witness :
  array_grown VIRTIO_MEM_SBM_MB_UNUSED (plat fresh_world)
    (mb_states (sbm (vm fresh_world))) 0 0
    (mb_states (sbm (vm (snd grown_run)))).
Proof.
  refine (proj2 (proj1 (state_arrays_grow_by_pages fresh_world 0
                          (snd grown_run) _) _ _ _ grown_run_ok)).
  - vm_compute. discriminate.
  - vm_compute. discriminate.
  - vm_compute. discriminate.
  - split; [left; reflexivity|]. intros i _ Hi. cbn in Hi. lia.
Defined.


(** ** The next memory block *)

Lemma virtio_mem_sbm_sb_states_prepare_next_mb_frame w rc w' :
  virtio_mem_sbm_sb_states_prepare_next_mb w = Ok rc w' ->
  mb_states (sbm (vm w')) = mb_states (sbm (vm w)) /\
  first_mb_id (sbm (vm w')) = first_mb_id (sbm (vm w)) /\
  next_mb_id (sbm (vm w')) = next_mb_id (sbm (vm w)) /\
  mb_count (sbm (vm w')) = mb_count (sbm (vm w)).
Proof.
  unfold virtio_mem_sbm_sb_states_prepare_next_mb, bind, get_vm, get_plat,
    extcall, lift_access.
  destruct (negb _ && _); [intros [= <- <-]; auto|].
  destruct (_ =? 0); [intros [= <- <-]; auto|].
  destruct (grow_array _ _ _ _); [|discriminate].
  intros [= <- <-]. auto.
Qed.

(** X21.  virtio_mem_sbm_prepare_next_mb returns -ENOSPC, and does nothing,
    when the next memory block lies beyond the last usable one.  When it
    returns 0 it returns the id that was the next one and moves the next id
    on by one; the new memory block reads as [UNUSED], and every memory
    block that was tracked reads as before.  This holds when the state
    array is absent or as long as the pages of the tracked blocks, with
    [UNUSED] entries after them. *)
Theorem sbm_prepare_next_mb_is_unused w rc mb_id w' :
  let nb := next_mb_id (sbm (vm w)) - first_mb_id (sbm (vm w)) in
  0 <= PAGE_SHIFT (plat w) -> 0 <= nb ->
  nb + 1 + PAGE_SIZE (plat w) <= 2 ^ 31 ->
  array_ok VIRTIO_MEM_SBM_MB_UNUSED (plat w) (mb_states (sbm (vm w))) nb ->
  virtio_mem_sbm_prepare_next_mb w = Ok (rc, mb_id) w' ->
  (last_usable_mb_id (sbm (vm w)) < next_mb_id (sbm (vm w)) ->
   rc = - ENOSPC /\ w' = w) /\
  (rc = 0 ->
   mb_id = next_mb_id (sbm (vm w)) /\
   next_mb_id (sbm (vm w')) = u64 (next_mb_id (sbm (vm w)) + 1) /\
   virtio_mem_sbm_get_mb_state mb_id w' = Ok VIRTIO_MEM_SBM_MB_UNUSED w' /\
   forall id st,
     virtio_mem_sbm_get_mb_state id w = Ok st w ->
     virtio_mem_sbm_get_mb_state id w' = Ok st w').
Proof.
  intros nb Hs Hnb Hsmall Hok.
  unfold virtio_mem_sbm_prepare_next_mb. unfold bind at 1. unfold get_vm.
  destruct (Z.ltb_spec (last_usable_mb_id (sbm (vm w)))
              (next_mb_id (sbm (vm w)))) as [Hlt|Hge].
  { intros [= <- <- <-]. split; [auto|]. intros H. discriminate H. }
  unfold bind at 1.
  destruct (virtio_mem_sbm_mb_states_prepare_next_mb w) as [rc1 w1| | |] eqn:E1;
    try discriminate.
  destruct (virtio_mem_sbm_mb_states_prepare_next_mb_grows w rc1 w1
              Hs Hnb Hsmall Hok E1) as [Hvm1 (_ & _ & Hg)].
  unfold nz. destruct (Z.eqb_spec rc1 0) as [->|Hrc1]; cbn [negb].
  2:{ intros [= <- <- <-]. split; [lia|contradiction]. }
  destruct (Hg eq_refl) as ([_ Hzero] & Hnew & Hkeep). clear Hg.
  unfold bind at 1.
  destruct (virtio_mem_sbm_sb_states_prepare_next_mb w1) as [rc2 w2| | |] eqn:E2;
    try discriminate.
  destruct (virtio_mem_sbm_sb_states_prepare_next_mb_frame _ _ _ E2)
    as (Hm2 & Hf2 & Hn2 & _).
  destruct (Z.eqb_spec rc2 0) as [->|Hrc2]; cbn [negb].
  2:{ intros [= <- <- <-]. split; [lia|contradiction]. }
  unfold bind, modify_sbm, modify_vm, ret. intros [= <- <- <-].
  split; [lia|]. intros _. split; [reflexivity|].
  assert (Hf1 : first_mb_id (sbm (vm w1)) = first_mb_id (sbm (vm w)))
    by (rewrite Hvm1; reflexivity).
  assert (Hn1 : next_mb_id (sbm (vm w1)) = next_mb_id (sbm (vm w)))
    by (rewrite Hvm1; reflexivity).
  split; [cbn; rewrite Hn2, Hn1; reflexivity|].
  split.
  - apply virtio_mem_sbm_get_mb_state_lookup. unfold sbm_idx. cbn.
    rewrite Hm2, Hf2, Hf1. fold nb.
    assert (HU : 2 ^ 31 < U64) by reflexivity.
    assert (Hp : 0 < PAGE_SIZE (plat w)) by (apply Z.pow_pos_nonneg; lia).
    rewrite u64_small by lia. exact Hnew.
  - intros id st Hid. apply virtio_mem_sbm_get_mb_state_lookup in Hid.
    apply virtio_mem_sbm_get_mb_state_lookup. unfold sbm_idx in *. cbn.
    rewrite Hm2, Hf2, Hf1. apply Hkeep, Hid.
Qed.


Lemma stuck_world_array_ok :
  array_ok VIRTIO_MEM_SBM_MB_UNUSED (plat stuck_world)
    (mb_states (sbm (vm stuck_world))) 1.
Proof.
  split; [right; vm_compute; reflexivity|].
  change (mb_states (sbm (vm stuck_world)))
    with (VIRTIO_MEM_SBM_MB_KERNEL
            :: replicate (Z.to_nat 4095) VIRTIO_MEM_SBM_MB_UNUSED).
  intros [|i] Hi Hl; [lia|]. cbn [lookup list_lookup].
  apply lookup_replicate_2. cbn [length] in Hl.
  rewrite length_replicate in Hl. lia.
Qed.

Lemma sbm_prepare_next_mb_is_unused_witness :
  virtio_mem_sbm_get_mb_state (snd (fst next_mb_run)) (snd next_mb_run)
  = Ok VIRTIO_MEM_SBM_MB_UNUSED (snd next_mb_run).
Proof.
  refine (proj1 (proj2 (proj2 (proj2
    (sbm_prepare_next_mb_is_unused stuck_world (fst (fst next_mb_run))
       (snd (fst next_mb_run)) (snd next_mb_run) _ _ _ stuck_world_array_ok
       next_mb_run_ok) _)))).
  - vm_compute. discriminate.
  - vm_compute. discriminate.
  - vm_compute. discriminate.
  - vm_compute. reflexivity.
Defined.


(** ** Unplugging subblocks of an online memory block *)

(** The page flags are what they were. *)
Definition pageR (w w' : world) : Prop :=
  PageOffline w' = PageOffline w /\ PageDirty w' = PageDirty w.

#[global] Instance pageR_preorder : PreOrder pageR.
Proof.
  unfold pageR. split.
  - intros w. auto.
  - intros w1 w2 w3 [? ?] [? ?]. split; congruence.
Qed.

Ltac page_side := intros; split; reflexivity.

Lemma pageR_virtio_mem_send_unplug_request fuel addr size memmap :
  keeps pageR (virtio_mem_send_unplug_request fuel addr size memmap).
Proof. unfold virtio_mem_send_unplug_request. keeps_auto page_side. Qed.

Lemma pageR_virtio_mem_sbm_set_sb_unplugged mb_id sb_id count :
  keeps pageR (virtio_mem_sbm_set_sb_unplugged mb_id sb_id count).
Proof. unfold virtio_mem_sbm_set_sb_unplugged. keeps_auto page_side. Qed.

Lemma pageR_virtio_mem_sbm_unplug_sb fuel mb_id sb_id count :
  keeps pageR (virtio_mem_sbm_unplug_sb fuel mb_id sb_id count).
Proof.
  unfold virtio_mem_sbm_unplug_sb.
  apply keeps_bind; [typeclasses eauto|apply keeps_get_vm; typeclasses eauto|].
  intros v.
  apply keeps_bind; [typeclasses eauto|apply keeps_get_plat; typeclasses eauto|].
  intros pf.
  apply keeps_bind;
    [typeclasses eauto|apply pageR_virtio_mem_send_unplug_request|].
  intros rc.
  apply keeps_bind; [typeclasses eauto| |intros; apply keeps_ret; typeclasses eauto].
  apply keeps_when; [typeclasses eauto|].
  apply pageR_virtio_mem_sbm_set_sb_unplugged.
Qed.

Lemma pageR_virtio_mem_sbm_set_mb_state mb_id state :
  keeps pageR (virtio_mem_sbm_set_mb_state mb_id state).
Proof. unfold virtio_mem_sbm_set_mb_state. keeps_auto page_side. Qed.


(** The state of an online memory block after some of its subblocks were
    unplugged. *)
Definition partial_of (st : sbm_mb_state) : sbm_mb_state :=
  match st with
  | VIRTIO_MEM_SBM_MB_KERNEL => VIRTIO_MEM_SBM_MB_KERNEL_PARTIAL
  | VIRTIO_MEM_SBM_MB_MOVABLE => VIRTIO_MEM_SBM_MB_MOVABLE_PARTIAL
  | _ => st
  end.

(** What virtio_mem_sbm_unplug_sb_online, called for the pages
    [start_pfn .. start_pfn + nr_pages) of a memory block in the state
    [old], has done when it returns [rc]. *)
Definition unplugged_online (mb_id sb_id count start_pfn nr_pages : Z)
    (old : sbm_mb_state) (w : world) (rc : Z) (w' : world) : Prop :=
  (rc <> 0 ->
   sbm (vm w') = sbm (vm w) /\
   plugged_size (vm w') = plugged_size (vm w) /\
   forall p, page_flag_get (PageOffline w') p = true ->
             page_flag_get (PageOffline w) p = true) /\
  (rc = 0 ->
   (forall p, in_range start_pfn nr_pages p = true ->
              page_flag_get (PageOffline w') p = true) /\
   bits_are false (sb_states (sbm (vm w')))
     (virtio_mem_sbm_sb_state_bit_nr (vm w) mb_id sb_id) count /\
   plugged_size (vm w')
   = u64 (plugged_size (vm w) - u64 (count * sb_size (sbm (vm w)))) /\
   virtio_mem_sbm_get_mb_state mb_id w' = Ok (partial_of old) w').

Lemma virtio_mem_sbm_unplug_sb_online_outcome fuel mb_id sb_id count old w :
  let start_pfn :=
    PFN_DOWN (plat w)
      (virtio_mem_sb_id_to_phys (plat w) (vm w) mb_id sb_id) in
  let nr_pages := u64 (PFN_DOWN (plat w) (sb_size (sbm (vm w))) * count) in
  0 < count -> 0 <= start_pfn -> start_pfn + nr_pages < U64 ->
  virtio_mem_sbm_get_mb_state mb_id w = Ok old w ->
  wlp (virtio_mem_sbm_unplug_sb_online fuel mb_id sb_id count)
      (unplugged_online mb_id sb_id count start_pfn nr_pages old w) w.
Proof.
  intros start_pfn nr_pages Hc Hstart Hend Hold.
  unfold virtio_mem_sbm_unplug_sb_online, unplugged_online.
  apply wlp_get_vm, wlp_get_plat. fold start_pfn nr_pages.
  apply wlp_bind, wlp_intro. intros st w0 Est.
  rewrite Hold in Est. injection Est as <- <-.
  apply wlp_bind, wlp_intro. intros rc1 w1 E1.
  pose proof (wlp_ok _ _ _ _ _ (plugR_virtio_mem_fake_offline _ _ w) E1)
    as [_ Hpl1].
  pose proof (wlp_ok _ _ _ _ _ (tablesR_virtio_mem_fake_offline _ _ w) E1)
    as [Hs1 _].
  destruct (virtio_mem_fake_offline_returns start_pfn nr_pages w)
    as (rc & w' & E & new & _ & _ & _ & _ & _ & _ & _ & _ & Hfail & Hset & _).
  rewrite E1 in E. injection E as <- <-.
  unfold nz. destruct (Z.eqb_spec rc1 0) as [->|Hrc1]; cbn [negb].
  2:{ apply wlp_ret. split; [|contradiction]. intros _.
      split; [exact Hs1|]. split; [exact Hpl1|].
      destruct (Hfail Hrc1) as [-> _]. auto. }
  specialize (Hset eq_refl). clear Hfail.
  apply wlp_bind, wlp_intro. intros rc2 w2 E2.
  pose proof (wlp_ok _ _ _ _ _ (pageR_virtio_mem_sbm_unplug_sb _ _ _ _ w1) E2)
    as [Hpo2 _].
  destruct (virtio_mem_sbm_unplug_sb_marks _ _ _ _ _ _ _ Hc E2) as [Hf2 Hok2].
  destruct (Z.eqb_spec rc2 0) as [->|Hrc2]; cbn [negb].
  - clear Hf2. destruct (Hok2 eq_refl) as (wm & Hvm & map & Hw2 & _ & Hb & _).
    clear Hok2.
    assert (Hsm : sbm (vm wm) = sbm (vm w)) by (rewrite Hvm; exact Hs1).
    assert (Hbit : virtio_mem_sbm_sb_state_bit_nr (vm wm) mb_id sb_id
                   = virtio_mem_sbm_sb_state_bit_nr (vm w) mb_id sb_id)
      by (unfold virtio_mem_sbm_sb_state_bit_nr; rewrite Hsm; reflexivity).
    rewrite Hbit in Hb.
    assert (F1 : virtio_mem_sbm_get_mb_state mb_id w2 = Ok old w2).
    { apply virtio_mem_sbm_get_mb_state_lookup.
      apply virtio_mem_sbm_get_mb_state_lookup in Hold.
      rewrite Hw2. unfold sbm_idx in *. cbn. rewrite Hsm. exact Hold. }
    assert (F2 : sb_states (sbm (vm w2)) = map) by (rewrite Hw2; reflexivity).
    assert (F3 : plugged_size (vm w2)
                 = u64 (plugged_size (vm w)
                        - u64 (count * sb_size (sbm (vm w))))).
    { rewrite Hw2. cbn. rewrite Hvm. cbn. rewrite Hpl1, Hs1. reflexivity. }
    assert (F4 : forall p, in_range start_pfn nr_pages p = true ->
                           page_flag_get (PageOffline w2) p = true).
    { intros p Hp. rewrite Hpo2, Hset, page_flag_get_cons, Hp. reflexivity. }
    destruct old; cbn [partial_of];
      first
        [ apply wlp_bind, wlp_ret, wlp_ret; (split; [contradiction|]);
          intros _; rewrite F2; solve [auto]
        | apply wlp_bind, wlp_intro; intros [] w3 Es; apply wlp_ret;
          (split; [contradiction|]); intros _;
          destruct (virtio_mem_sbm_set_mb_state_bitmap _ _ _ _ Es)
            as [Hb3 Hp3];
          pose proof (wlp_ok _ _ _ _ _
                        (pageR_virtio_mem_sbm_set_mb_state _ _ w2) Es)
            as [Hpo3 _];
          rewrite Hb3, Hp3, Hpo3, F2;
          (split; [exact F4|]); (split; [exact Hb|]); (split; [exact F3|]);
          exact (virtio_mem_sbm_set_mb_state_get _ _ _ _ Es) ].
  - apply wlp_bind.
    eapply wlp_mono;
      [apply (virtio_mem_fake_online_clears fuel start_pfn nr_pages w2
                Hstart Hend)|].
    intros [] w3 [Hcl Hvm3]. apply wlp_ret. split; [|contradiction]. intros _.
    rewrite Hvm3, (Hf2 Hrc2). split; [exact Hs1|]. split; [exact Hpl1|].
    intros p. rewrite (Hcl p), Hpo2, Hset, page_flag_get_cons.
    destruct (in_range start_pfn nr_pages p); [discriminate|auto].
Qed.


(** X22.  virtio_mem_sbm_unplug_sb_online rolls back on an error: the
    tables of the Sub-Block Mode and [plugged_size] are what they were, and
    no page is fake-offline that was not before, whether the pages could not
    be taken or the unplug request has failed after they were taken.  When
    it returns 0 every page of the subblocks is fake-offline, their bits are
    clear, [plugged_size] is less by their size, and a memory block that was
    [KERNEL] or [MOVABLE] is [KERNEL_PARTIAL] or [MOVABLE_PARTIAL]. *)
Theorem sbm_unplug_sb_online_rolls_back fuel mb_id sb_id count old w rc w' :
  let start_pfn :=
    PFN_DOWN (plat w)
      (virtio_mem_sb_id_to_phys (plat w) (vm w) mb_id sb_id) in
  let nr_pages := u64 (PFN_DOWN (plat w) (sb_size (sbm (vm w))) * count) in
  0 < count -> 0 <= start_pfn -> start_pfn + nr_pages < U64 ->
  virtio_mem_sbm_get_mb_state mb_id w = Ok old w ->
  virtio_mem_sbm_unplug_sb_online fuel mb_id sb_id count w = Ok rc w' ->
  (rc <> 0 ->
   sbm (vm w') = sbm (vm w) /\
   plugged_size (vm w') = plugged_size (vm w) /\
   forall p, page_flag_get (PageOffline w') p = true ->
             page_flag_get (PageOffline w) p = true) /\
  (rc = 0 ->
   (forall p, in_range start_pfn nr_pages p = true ->
              page_flag_get (PageOffline w') p = true) /\
   bits_are false (sb_states (sbm (vm w')))
     (virtio_mem_sbm_sb_state_bit_nr (vm w) mb_id sb_id) count /\
   plugged_size (vm w')
   = u64 (plugged_size (vm w) - u64 (count * sb_size (sbm (vm w)))) /\
   virtio_mem_sbm_get_mb_state mb_id w' = Ok (partial_of old) w').
Proof.
  intros start_pfn nr_pages Hc Hstart Hend Hold E.
  exact (wlp_ok _ _ _ _ _
           (virtio_mem_sbm_unplug_sb_online_outcome fuel mb_id sb_id count old
              w Hc Hstart Hend Hold) E).
Qed.

Lemma plug_sb_run_state :
  virtio_mem_sbm_get_mb_state 8 (snd plug_sb_run)
  = Ok VIRTIO_MEM_SBM_MB_KERNEL (snd plug_sb_run).
Proof.
  apply virtio_mem_sbm_get_mb_state_lookup. vm_compute. reflexivity.
Qed.

Definition unplug_online_run : Z * world :=
  run_result (virtio_mem_sbm_unplug_sb_online 100 8 4 1 (snd plug_sb_run))
    0 stuck_world.

Lemma unplug_online_run_ok :
  virtio_mem_sbm_unplug_sb_online 100 8 4 1 (snd plug_sb_run)
  = Ok 0 (snd unplug_online_run).
Proof. apply run_result_is; vm_compute; reflexivity. Qed.

Lemma sbm_unplug_sb_online_rolls_back_witness :
  virtio_mem_sbm_get_mb_state 8 (snd unplug_online_run)
  = Ok VIRTIO_MEM_SBM_MB_KERNEL_PARTIAL (snd unplug_online_run).
Proof.
  refine (proj2 (proj2 (proj2 (proj2
    (sbm_unplug_sb_online_rolls_back 100 8 4 1 VIRTIO_MEM_SBM_MB_KERNEL
       (snd plug_sb_run) 0 (snd unplug_online_run)
       _ _ _ plug_sb_run_state unplug_online_run_ok) eq_refl)))).
  - reflexivity.
  - vm_compute. discriminate.
  - vm_compute. reflexivity.
Defined.


(** ** The state of a memory block follows its subblocks *)

(** The state array of the Sub-Block Mode, its first id and the number of
    subblocks to the memory block are what they were. *)
Definition stR (w w' : world) : Prop :=
  mb_states (sbm (vm w')) = mb_states (sbm (vm w)) /\
  first_mb_id (sbm (vm w')) = first_mb_id (sbm (vm w)) /\
  sbs_per_mb (sbm (vm w')) = sbs_per_mb (sbm (vm w)).

#[global] Instance stR_preorder : PreOrder stR.
Proof.
  unfold stR. split.
  - intros w. auto.
  - intros w1 w2 w3 (? & ? & ?) (? & ? & ?). repeat split; congruence.
Qed.

Ltac st_side := intros; repeat split.

Lemma stR_virtio_mem_sbm_set_sb_plugged mb_id sb_id count :
  keeps stR (virtio_mem_sbm_set_sb_plugged mb_id sb_id count).
Proof. unfold virtio_mem_sbm_set_sb_plugged. keeps_auto st_side. Qed.
#[global] Hint Resolve stR_virtio_mem_sbm_set_sb_plugged : keeps.

Lemma stR_virtio_mem_sbm_set_sb_unplugged mb_id sb_id count :
  keeps stR (virtio_mem_sbm_set_sb_unplugged mb_id sb_id count).
Proof. unfold virtio_mem_sbm_set_sb_unplugged. keeps_auto st_side. Qed.
#[global] Hint Resolve stR_virtio_mem_sbm_set_sb_unplugged : keeps.

Lemma stR_virtio_mem_sbm_test_sb_plugged mb_id sb_id count :
  keeps stR (virtio_mem_sbm_test_sb_plugged mb_id sb_id count).
Proof. unfold virtio_mem_sbm_test_sb_plugged. keeps_auto st_side. Qed.
#[global] Hint Resolve stR_virtio_mem_sbm_test_sb_plugged : keeps.

Lemma stR_virtio_mem_sbm_test_sb_unplugged mb_id sb_id count :
  keeps stR (virtio_mem_sbm_test_sb_unplugged mb_id sb_id count).
Proof. unfold virtio_mem_sbm_test_sb_unplugged. keeps_auto st_side. Qed.
#[global] Hint Resolve stR_virtio_mem_sbm_test_sb_unplugged : keeps.

Lemma stR_virtio_mem_sbm_first_unplugged_sb mb_id :
  keeps stR (virtio_mem_sbm_first_unplugged_sb mb_id).
Proof. unfold virtio_mem_sbm_first_unplugged_sb. keeps_auto st_side. Qed.
#[global] Hint Resolve stR_virtio_mem_sbm_first_unplugged_sb : keeps.

Lemma stR_xa_store_membuf index entry :
  keeps stR (xa_store_membuf index entry).
Proof. unfold xa_store_membuf. keeps_auto st_side. Qed.
#[global] Hint Resolve stR_xa_store_membuf : keeps.

Lemma stR_virtio_mem_send_unplug_request fuel addr size memmap :
  keeps stR (virtio_mem_send_unplug_request fuel addr size memmap).
Proof. unfold virtio_mem_send_unplug_request. keeps_auto st_side. Qed.
#[global] Hint Resolve stR_virtio_mem_send_unplug_request : keeps.

Lemma stR_virtio_mem_send_plug_request fuel addr size memmap :
  keeps stR (virtio_mem_send_plug_request fuel addr size memmap).
Proof. unfold virtio_mem_send_plug_request. keeps_auto st_side. Qed.
#[global] Hint Resolve stR_virtio_mem_send_plug_request : keeps.

Lemma stR_virtio_mem_clear_fake_offline pfn nr_pages onlined :
  keeps stR (virtio_mem_clear_fake_offline pfn nr_pages onlined).
Proof. unfold virtio_mem_clear_fake_offline. keeps_auto st_side. Qed.
#[global] Hint Resolve stR_virtio_mem_clear_fake_offline : keeps.

Lemma stR_virtio_mem_fake_online fuel pfn nr_pages :
  keeps stR (virtio_mem_fake_online fuel pfn nr_pages).
Proof. unfold virtio_mem_fake_online. keeps_auto st_side. Qed.
#[global] Hint Resolve stR_virtio_mem_fake_online : keeps.

Lemma stR_virtio_mem_sbm_plug_sb fuel mb_id sb_id count :
  keeps stR (virtio_mem_sbm_plug_sb fuel mb_id sb_id count).
Proof. unfold virtio_mem_sbm_plug_sb. keeps_auto st_side. Qed.
#[global] Hint Resolve stR_virtio_mem_sbm_plug_sb : keeps.

Lemma stR_virtio_mem_sbm_unplug_sb fuel mb_id sb_id count :
  keeps stR (virtio_mem_sbm_unplug_sb fuel mb_id sb_id count).
Proof. unfold virtio_mem_sbm_unplug_sb. keeps_auto st_side. Qed.
#[global] Hint Resolve stR_virtio_mem_sbm_unplug_sb : keeps.

Lemma stR_virtio_mem_sbm_unplug_any_sb_raw fuel mb_id nb_sb :
  keeps stR (virtio_mem_sbm_unplug_any_sb_raw fuel mb_id nb_sb).
Proof. unfold virtio_mem_sbm_unplug_any_sb_raw. keeps_auto st_side. Qed.
#[global] Hint Resolve stR_virtio_mem_sbm_unplug_any_sb_raw : keeps.


Lemma virtio_mem_sbm_set_mb_state_shape mb_id state w w' :
  virtio_mem_sbm_set_mb_state mb_id state w = Ok tt w' ->
  sb_states (sbm (vm w')) = sb_states (sbm (vm w)) /\
  first_mb_id (sbm (vm w')) = first_mb_id (sbm (vm w)) /\
  sbs_per_mb (sbm (vm w')) = sbs_per_mb (sbm (vm w)).
Proof.
  unfold virtio_mem_sbm_set_mb_state, bind, get_vm, lift_access.
  destruct (mb_states _ !! _) as [old|]; [|discriminate]. cbn.
  destruct (_ =? 0); [discriminate|]. cbn. intros [= <-]. auto.
Qed.

Lemma virtio_mem_sbm_get_mb_state_stR mb_id st w w' :
  virtio_mem_sbm_get_mb_state mb_id w = Ok st w -> stR w w' ->
  virtio_mem_sbm_get_mb_state mb_id w' = Ok st w'.
Proof.
  intros H (Hm & Hf & _). apply virtio_mem_sbm_get_mb_state_lookup.
  apply virtio_mem_sbm_get_mb_state_lookup in H.
  unfold sbm_idx in *. rewrite Hm, Hf. exact H.
Qed.

(** Every subblock of the memory block has the bit [b] in [w]. *)
Definition all_sbs (b : bool) (mb_id : Z) (w : world) : Prop :=
  bits_are b (sb_states (sbm (vm w)))
    (virtio_mem_sbm_sb_state_bit_nr (vm w) mb_id 0)
    (sbs_per_mb (sbm (vm w))).

Lemma all_sbs_shape b mb_id w w' :
  sb_states (sbm (vm w')) = sb_states (sbm (vm w)) ->
  first_mb_id (sbm (vm w')) = first_mb_id (sbm (vm w)) ->
  sbs_per_mb (sbm (vm w')) = sbs_per_mb (sbm (vm w)) ->
  all_sbs b mb_id w' <-> all_sbs b mb_id w.
Proof.
  intros H1 H2 H3. unfold all_sbs, virtio_mem_sbm_sb_state_bit_nr.
  rewrite H1, H2, H3. reflexivity.
Qed.

(** What virtio_mem_sbm_plug_any_sb leaves of a memory block that was in
    the state [old]. *)
Definition plugged_any (mb_id : Z) (old : sbm_mb_state) (r : Z * Z)
    (w' : world) : Prop :=
  exists st',
    virtio_mem_sbm_get_mb_state mb_id w' = Ok st' w' /\
    (fst r <> 0 -> st' = old) /\
    (fst r = 0 ->
     (all_sbs true mb_id w' -> sbm_state_pred old = Some st') /\
     (~ all_sbs true mb_id w' -> st' = old)).

Lemma virtio_mem_sbm_plug_any_sb_state fuel mb_id nb_sb old w :
  virtio_mem_sbm_get_mb_state mb_id w = Ok old w ->
  wlp (virtio_mem_sbm_plug_any_sb fuel mb_id nb_sb)
      (plugged_any mb_id old) w.
Proof.
  intros Hold. unfold virtio_mem_sbm_plug_any_sb, plugged_any.
  apply wlp_bind, wlp_intro. intros st w0 Est.
  rewrite Hold in Est. injection Est as <- <-.
  apply wlp_get_vm, wlp_get_plat.
  destruct (nb_sb =? 0).
  { apply wlp_ret. exists old. cbn. split; [exact Hold|].
    split; [auto|]. intros H. discriminate H. }
  eapply (wlp_bind_keeps stR).
  { keeps_auto st_side. }
  intros [rc nb] w1 HR. pose proof HR as (Hm1 & Hf1 & Hs1).
  pose proof (virtio_mem_sbm_get_mb_state_stR _ _ _ _ Hold HR) as Hg1.
  unfold nz. destruct (Z.eqb_spec rc 0) as [->|Hrc]; cbn [negb].
  2:{ apply wlp_ret. exists old. cbn. split; [exact Hg1|].
      split; [auto|contradiction]. }
  apply wlp_bind, wlp_intro. intros plugged w2 Et.
  apply virtio_mem_sbm_test_sb_plugged_spec in Et as [-> Hp].
  rewrite <- Hs1 in Hp. fold (all_sbs true mb_id w1) in Hp.
  destruct plugged.
  - apply wlp_bind.
    destruct (sbm_state_pred old) as [s|]; [|exact Logic.I].
    apply wlp_intro. intros [] w3 Es. apply wlp_ret. exists s. cbn.
    split; [exact (virtio_mem_sbm_set_mb_state_get _ _ _ _ Es)|].
    split; [contradiction|]. intros _.
    destruct (virtio_mem_sbm_set_mb_state_shape _ _ _ _ Es) as (H1 & H2 & H3).
    rewrite (all_sbs_shape true mb_id w1 w3 H1 H2 H3).
    split; [reflexivity|]. intros Hn. exfalso. apply Hn, Hp. reflexivity.
  - apply wlp_bind, wlp_ret, wlp_ret. exists old. cbn.
    split; [exact Hg1|]. split; [contradiction|]. intros _.
    split; [|reflexivity]. intros Ha. apply Hp in Ha. discriminate Ha.
Qed.


Lemma virtio_mem_sbm_remove_mb_sbm fuel mb_id w :
  wlp (virtio_mem_sbm_remove_mb fuel mb_id)
      (fun _ w' => sbm (vm w') = sbm (vm w)) w.
Proof.
  unfold virtio_mem_sbm_remove_mb. apply wlp_get_plat.
  eapply wlp_mono; [apply virtio_mem_remove_memory_removed|].
  intros rc w' H. unfold memory_removed in H.
  destruct (rc =? 0); rewrite H; reflexivity.
Qed.

(** The state that a memory block in the state [old] is left in by its
    subblocks: [old] when all of them are plugged, [OFFLINE_PARTIAL] when
    not. *)
Definition offline_state (mb_id : Z) (old st' : sbm_mb_state) (w' : world)
  : Prop :=
  (all_sbs true mb_id w' -> st' = old) /\
  (~ all_sbs true mb_id w' -> st' = VIRTIO_MEM_SBM_MB_OFFLINE_PARTIAL).

(** What virtio_mem_sbm_unplug_any_sb_offline leaves of a memory block that
    was in the state [old]. *)
Definition unplugged_offline (mb_id : Z) (old : sbm_mb_state) (r : Z * Z)
    (w' : world) : Prop :=
  exists st',
    virtio_mem_sbm_get_mb_state mb_id w' = Ok st' w' /\
    (fst r <> 0 -> offline_state mb_id old st' w') /\
    (fst r = 0 ->
     (all_sbs false mb_id w' -> st' = VIRTIO_MEM_SBM_MB_UNUSED) /\
     (~ all_sbs false mb_id w' -> offline_state mb_id old st' w')).

Lemma virtio_mem_sbm_unplug_any_sb_offline_state fuel mb_id nb_sb old w :
  virtio_mem_sbm_get_mb_state mb_id w = Ok old w ->
  wlp (virtio_mem_sbm_unplug_any_sb_offline fuel mb_id nb_sb)
      (unplugged_offline mb_id old) w.
Proof.
  intros Hold. unfold virtio_mem_sbm_unplug_any_sb_offline, unplugged_offline.
  apply wlp_get_vm.
  eapply (wlp_bind_keeps stR);
    [apply stR_virtio_mem_sbm_unplug_any_sb_raw|].
  intros [rc nb] w1 HR. pose proof HR as (Hm1 & Hf1 & Hs1).
  pose proof (virtio_mem_sbm_get_mb_state_stR _ _ _ _ Hold HR) as Hg1.
  apply wlp_bind, wlp_intro. intros plugged w2 Et.
  apply virtio_mem_sbm_test_sb_plugged_spec in Et as [-> Hp].
  rewrite <- Hs1 in Hp. fold (all_sbs true mb_id w1) in Hp.
  eapply (wlp_bind_post _ _
            (fun _ w3 =>
               (sb_states (sbm (vm w3)) = sb_states (sbm (vm w1)) /\
                first_mb_id (sbm (vm w3)) = first_mb_id (sbm (vm w1)) /\
                sbs_per_mb (sbm (vm w3)) = sbs_per_mb (sbm (vm w1))) /\
               exists st3,
                 virtio_mem_sbm_get_mb_state mb_id w3 = Ok st3 w3 /\
                 offline_state mb_id old st3 w3)).
  { destruct plugged; cbn [negb when].
    - apply wlp_ret. split; [auto|]. exists old. split; [exact Hg1|].
      split; [reflexivity|]. intros Hn. exfalso. apply Hn, Hp. reflexivity.
    - apply wlp_intro. intros [] w3 Es.
      pose proof (virtio_mem_sbm_set_mb_state_shape _ _ _ _ Es)
        as (H1 & H2 & H3).
      split; [auto|]. exists VIRTIO_MEM_SBM_MB_OFFLINE_PARTIAL.
      split; [exact (virtio_mem_sbm_set_mb_state_get _ _ _ _ Es)|].
      unfold offline_state.
      rewrite (all_sbs_shape true mb_id w1 w3 H1 H2 H3).
      split; [|reflexivity]. intros Ha. apply Hp in Ha. discriminate Ha. }
  intros [] w3 ((H1 & H2 & H3) & st3 & Hg3 & Hoff).
  unfold nz. destruct (Z.eqb_spec rc 0) as [->|Hrc]; cbn [negb].
  2:{ apply wlp_ret. exists st3. cbn. split; [exact Hg3|].
      split; [auto|contradiction]. }
  apply wlp_bind, wlp_intro. intros unplugged w4 Eu.
  apply virtio_mem_sbm_test_sb_unplugged_spec in Eu as [-> Hu].
  rewrite <- Hs1, <- H3 in Hu. fold (all_sbs false mb_id w3) in Hu.
  destruct unplugged.
  - apply wlp_bind, wlp_bind, wlp_intro. intros [] w5 Es.
    pose proof (virtio_mem_sbm_set_mb_state_shape _ _ _ _ Es)
      as (H51 & H52 & H53).
    pose proof (virtio_mem_sbm_set_mb_state_get _ _ _ _ Es) as Hg5.
    eapply wlp_bind_post; [apply virtio_mem_sbm_remove_mb_sbm|].
    intros rc w6 H6. unfold nz.
    destruct (negb (rc =? 0));
      [apply wlp_intro; intros ? ? Eb; discriminate Eb|].
    apply wlp_ret, wlp_ret. exists VIRTIO_MEM_SBM_MB_UNUSED. cbn.
    split; [exact (virtio_mem_sbm_get_mb_state_sbm _ _ _ _ Hg5 H6)|].
    split; [contradiction|]. intros _. split; [reflexivity|].
    intros Hn. exfalso. apply Hn.
    apply (all_sbs_shape false mb_id w5 w6); [rewrite H6; reflexivity..|].
    apply (all_sbs_shape false mb_id w3 w5 H51 H52 H53).
    apply Hu. reflexivity.
  - apply wlp_bind, wlp_ret, wlp_ret. exists st3. cbn.
    split; [exact Hg3|]. split; [contradiction|]. intros _.
    split; [|intros _; exact Hoff].
    intros Ha. apply Hu in Ha. discriminate Ha.
Qed.

(** X23.  The state of a memory block follows its subblocks.  After
    virtio_mem_sbm_plug_any_sb has returned 0 a memory block all of whose
    subblocks are plugged is in the state before the partial one that it
    was in, and any other block is in the state it was in, as is every
    block after an error.  After virtio_mem_sbm_unplug_any_sb_offline a
    memory block that has an unplugged subblock is [OFFLINE_PARTIAL], also
    after an error, and one that has none is in the state it was in; when
    the call has returned 0 and no subblock is plugged, the block is
    [UNUSED]. *)
Theorem sbm_state_follows_subblocks fuel mb_id nb_sb old w :
  virtio_mem_sbm_get_mb_state mb_id w = Ok old w ->
  (forall r w',
     virtio_mem_sbm_plug_any_sb fuel mb_id nb_sb w = Ok r w' ->
     exists st',
       virtio_mem_sbm_get_mb_state mb_id w' = Ok st' w' /\
       (fst r <> 0 -> st' = old) /\
       (fst r = 0 ->
        (all_sbs true mb_id w' -> sbm_state_pred old = Some st') /\
        (~ all_sbs true mb_id w' -> st' = old))) /\
  (forall r w',
     virtio_mem_sbm_unplug_any_sb_offline fuel mb_id nb_sb w = Ok r w' ->
     exists st',
       virtio_mem_sbm_get_mb_state mb_id w' = Ok st' w' /\
       (fst r <> 0 -> offline_state mb_id old st' w') /\
       (fst r = 0 ->
        (all_sbs false mb_id w' -> st' = VIRTIO_MEM_SBM_MB_UNUSED) /\
        (~ all_sbs false mb_id w' -> offline_state mb_id old st' w'))).
Proof.
  intros Hold. split; intros r w' E.
  - exact (wlp_ok _ _ _ _ _
             (virtio_mem_sbm_plug_any_sb_state fuel mb_id nb_sb old w Hold) E).
  - exact (wlp_ok _ _ _ _ _
             (virtio_mem_sbm_unplug_any_sb_offline_state fuel mb_id nb_sb old
                w Hold) E).
Qed.

Lemma unplug_online_run_state :
  virtio_mem_sbm_get_mb_state 8 (snd unplug_online_run)
  = Ok VIRTIO_MEM_SBM_MB_KERNEL_PARTIAL (snd unplug_online_run).
Proof.
  apply virtio_mem_sbm_get_mb_state_lookup. vm_compute. reflexivity.
Qed.

Definition plug_any_run : (Z * Z) * world :=
  run_result (virtio_mem_sbm_plug_any_sb 100 8 1 (snd unplug_online_run))
    (0, 0) stuck_world.

Lemma plug_any_run_ok :
  virtio_mem_sbm_plug_any_sb 100 8 1 (snd unplug_online_run)
  = Ok (0, 0) (snd plug_any_run).
Proof. apply run_result_is; vm_compute; reflexivity. Qed.

Lemma sbm_state_follows_subblocks_witness :
  exists st',
    virtio_mem_sbm_get_mb_state 8 (snd plug_any_run)
    = Ok st' (snd plug_any_run) /\
    (fst (0, 0) <> 0 -> st' = VIRTIO_MEM_SBM_MB_KERNEL_PARTIAL) /\
    (fst (0, 0) = 0 ->
     (all_sbs true 8 (snd plug_any_run) ->
      sbm_state_pred VIRTIO_MEM_SBM_MB_KERNEL_PARTIAL = Some st') /\
     (~ all_sbs true 8 (snd plug_any_run) ->
      st' = VIRTIO_MEM_SBM_MB_KERNEL_PARTIAL)).
Proof.
  exact (proj1 (sbm_state_follows_subblocks 100 8 1
                  VIRTIO_MEM_SBM_MB_KERNEL_PARTIAL (snd unplug_online_run)
                  unplug_online_run_state)
           (0, 0) (snd plug_any_run) plug_any_run_ok).
Defined.

